(* ===== verification/_CoqProject ===== *)
-Q . S2P
Prelude.v
Ioctl.v
Tell.v
GoFloat.v
Enc.v
Bits.v
Crc.v
Scalars.v
IDose.v
IClimate.v
GoEffects.v
HidLinux.v
Device.v
LinuxHid.v
Manager.v
Gateway.v
Flags.v
