(* ===== verification/Prelude.v ===== *)
(** * go-intelli: a verification library for the Intelli USB-HID gateway

    The program (Go, under [src/]) polls Autogrow IntelliDose and
    IntelliClimate controllers over USB HID and publishes their state.  Its
    parts, from the bottom up:
    - bit and byte helpers ([src/util/encoding/enc.go] and the helpers at
      the end of [src/device/device_interrogator.go]);
    - the frame codec of [device_interrogator.go]: 64-byte D0..D3 frames
      read from a device are decoded into a shadow document, and a shadow
      is written back as S0..S2 frames, each ending in a CRC;
    - the device session ([src/device/device.go] and the session methods
      of [device_interrogator.go]): open/close of a [hid.Device], one
      request/response exchange ([sentRequest]), a poll ([updateState],
      [updateShadow]) and a write ([writeDoseData], [writeClimateData]);
    - the manager ([src/device/manager.go]): the registry of sessions, with
      the discovery loop ([Discover]: [addDevices], [purgeDevices]) and
      the polling loop ([Interrogate]).
    - the Linux HID backend ([src/hid/hid_linux.go]): enumeration of the
      hidraw nodes ([Devices], [getDeviceInfo], the report descriptor
      parser [parseReport]) and the read goroutine feeding the channel of
      [ReadCh] that [sentRequest] receives from.
    - the command-line gateway ([src/cmd/intellid/main.go]): flags, the
      NATS connection, the manager with a callback publishing each updated
      shadow on [intelli.<serial>], and the two loops;
    - logging ([src/util/tell/log.go]), used throughout.

    ** Files
    - [Prelude] (this file): bytes as [Byte.byte] with [uz]/[u8] (Go's
      [int(b)] and [byte(x)], wrapping modulo 256), frames as [list byte],
      Go's [f[i]] and [f[i] = v] ([idx], [upd]), sequences of assignments
      as write lists ([exec_writes]), exhaustive checks over all bytes.
    - [Ioctl] (Module [ioctl]): the hidraw request numbers of lines 19-40
      of [hid_linux.go], built with the kernel's [_IOC] encoding (the
      [ioR] and [ioRW] the code calls are modelled from [<asm-generic/ioctl.h>]).
    - [Tell]: Module [fmt], [fmt.Sprintf] on the verbs the program uses
      and the error forms of the [fmt] documentation ([%!(NOVERB)],
      [%!c(MISSING)], [%!(EXTRA ...)]); Module [tell], the logger's state
      and every function of [log.go].
    - [GoFloat]: [float64] as Rocq's primitive IEEE binary64 floats;
      [round], [toFixed], [prepareByte], [prepareInt],
      [checkIntForNotAvailableValue].
    - [Enc] (Module [encoding]): every function of [enc.go].
    - [Bits] (Module [Bits]): [getBoolFromByte] and [updateByte] (through
      the [strconv] string formatting the code uses), the two-byte
      decoders, [getDefaultValue], every string constant and enumeration
      helper of [device_interrogator.go].
    - [Crc] (Module [Crc]): the CRC of [github.com/snksoft/crc] by its
      parameters, [createCheckSum] and the four read templates.
    - [Scalars]: the scaled numeric fields, decoded then re-encoded, decided
      on every byte and every pair of bytes.
    - [IDose]: the IntelliDose structs (one Module per Go struct with a
      record [t] whose fields keep the Go names), the decoder
      [parseByteResponseForIDose] and the encoders
      [prepareS0RequestForIDose]/[prepareS1RequestForIDose] (each the list
      of its assignments, in source order, followed by [createCheckSum]);
      and the round trip: decode, encode, decode again, with its two
      counterexamples.
    - [IClimate]: the same for the IntelliClimate: its 43 structs, the
      decoder [parseByteResponseForIClimate] with [extractSetPointArray],
      the encoders [prepareS0RequestForIClimate] (written, as in the code,
      through the re-slice [specificationBytes := bytes[2:]] ([reslice])
      and [fillSetPointData]), [prepareS1RequestForIClimate] and
      [prepareS2RequestForIClimate]; the shape of a decoded shadow; the
      round trip under [IClimate_regular], with its counterexamples; where
      S2 writes the [FogTimes] high byte.
    - [GoEffects]: a state-and-panic monad [M] over a world of HID devices;
      [hid.DeviceInfo]; the interface [Hid] ([DeviceInfo.Open] and the
      [hid.Device] methods) and a scripted instance [Script] that replays
      replies and records the frames written.
    - [HidLinux] (Module [HidLinux]): [parseReport] (its loop with the
      descriptor's length as fuel); [getDeviceInfo] over a record
      [sys_results] of what its ioctls and sysfs reads return, with
      [strings.TrimSpace], [strings.Index], [bytes.IndexByte],
      [bytes.TrimRight] and the [uevent] map; [Devices]; the channel of
      [ReadCh] as a state [chan] with the read thread's iteration
      [thread_step] and a receive [recv], interleaved by a step relation.
    - [Device] (Module [Session]): the [Device] struct and every operation
      of the session, written against [Hid] and calling the two codecs;
      then the session's step relation and invariant, the termination of
      [updateState], and its behaviour on the scripted transport.
    - [LinuxHid] (Module [LinuxHid]): the Linux implementation of [Hid]:
      a world of device nodes (each answering a written report with the
      reports it sends back) and open files ([DeviceInfo.Open], [Close],
      [Write], [ReadCh], [ReadError]), the channel of [HidLinux] fed by
      the read thread as soon as the device sends a report; its
      refinement of a queue of capacity 30 that drops the newest report,
      and [updateState] over it.
    - [Manager] (Module [Manager]): [strings.Contains]/[Join],
      [isValidDevice], the [Manager] struct and its operations, one
      iteration of [Discover] and of [Interrogate], and [discoverOnceLinux],
      [Discover] over the Linux enumeration of [HidLinux], and the two GET
      handlers of [AttachAPI] with the routing [serve]; then the registry
      invariant, the refinement of the specification's registry, purge and
      discovery.
    - [Gateway] (Module [Gateway]): [main] from its parsed flags to its
      loops, and the running gateway as a step relation [gateway_step]
      whose [Interrogate] iterations publish the messages of the fired
      callbacks in any order (each runs in its own goroutine).
    - [Flags]: [flag.Parse] on the five declarations of [main] (Go's
      [FlagSet.parseOne] loop, [strconv.ParseBool], [strconv.ParseInt] with
      base 0: sign, [0b]/[0o]/[0x]/[0] prefixes, digit separators, [int64]
      range) and [main_cli], [main] from its command line.

    ** What the theorems show
    - Codec: bit-numbering duality of [ComposeByte]/[getBoolFromByte];
      [updateByte] is [SetBit] at the mirrored position; the two-byte
      decoders and their encoders are inverse, with the byte order the code
      has; every scaled field is stable under decode-encode-decode except
      the raw value 65535 of the hundredths fields; the read templates carry
      CRC-16/ARC checksums (not CCITT); [createCheckSum] makes the CRC
      valid.  The IntelliDose round trip: decoding D0 with the S0/S1 frames
      written from the decoded shadow gives the same shadow, under two
      hypotheses that each have a counterexample (a bit the decoder reads
      from the wrong position, and the 16-bit wrap at 65535).  The
      IntelliClimate round trip, from D0..D3 through S0..S2, under one
      decidable hypothesis [IClimate_regular] that lists the exceptions,
      each with a counterexample: [SwAllExhaustFans] is written back
      without its factor 100, and signed hundredths fields near the ends of
      [int16] wrap; every decoded IntelliClimate shadow has the one set
      point and twelve distinct statuses the S0 encoder indexes; S2 writes
      the [FogTimes] high byte at an offset the decoder does not read.
    - Session: an open session always holds a handle (invariant over every
      reachable state), so [sentRequest] never dereferences nil on an open
      session; [updateState] issues D0, D1, D2 (and D3 for IntelliClimate)
      in order and stops at the first error after storing its reply;
      [updateShadow] publishes the decoded frames, panics on short frames
      when no error was reported, and publishes stale frames after an
      error; on an IntelliClimate it issues the four requests and publishes
      their decoding; [updateState] returns for every HID implementation
      (termination of its request sequence); [writeDoseData] and
      [writeClimateData] send two and three valid 65-byte reports and
      overwrite the stored D1/D2 (and D3) frames.
    - Manager: serials stay unique and every registered session has a
      callback, an empty [Name] and a consistent open flag (invariant);
      [addDevices] refines the specification's registry when
      [isValidDevice] agrees with the four names (it accepts fragments
      too); [purgeDevices] never removes anything, and the loop it skips
      would panic or skip elements; a device once enumerated is registered
      and stays registered; on Linux, a hidraw node read by [Devices] is
      registered under the serial of its [uevent] file; in every reachable
      state [GET /devices/count] answers the number of registered serials
      and [GET /devices] answers 404 exactly on an empty registry.
    - Gateway: the outcomes of [main] (version, NATS failure with exit 1,
      start with an empty registry and the publishing callback, log level);
      in every reachable state every session carries the publishing
      callback and every message published is on the subject of a
      registered serial; each fired notification publishes exactly one
      message.  The manager's intervals are [int64] products, which wrap
      for a delay above 9223372036 s.  The command line: [flag.Parse]
      reads back every flags record printed as [-name=value] arguments
      (the delay through [%d] and [ParseInt]), and stops at the first
      argument that is not a flag, ignoring every flag after it (as in
      [-debug false -p :80]); its loop has enough fuel; a delay of any
      sign is accepted, [-h] exits 0 and a malformed delay exits 2.
    - Logging: a message is written exactly when the level admits it;
      [GetBoolBitValue] reads bits from the least significant and panics
      outside [0..7];
      [IfErrorf] mangles every error it reports ([%!(NOVERB)], then the
      second formatting by [log.Printf]).
    - Linux backend: [parseReport] changes only the usage page, usage and
      report lengths, keeps them within [uint16] and keeps the first
      report's lengths; the input report length it records is the Report
      Count of the first Input item whatever its Report Size, not its size
      in bytes; [getDeviceInfo] returns the
      fields its system calls give, the serial number being the last
      [HID_UNIQ] line, and panics on a name with no zero byte; [Devices]
      refines "the readable devices in directory order" and stops at the
      first error other than a permission error; in every interleaving of
      the read thread and the receivers the reads are consumed in order and
      the receivers get the sent reports in order (FIFO), the channel holds
      at most 30 reports, and with no receiver the thread keeps the first 30
      reports and drops the later ones.  Each open file of [LinuxHid],
      its thread reading every report as it comes, refines a queue of
      capacity 30 that drops the newest report when full, and a receive on
      the empty queue blocks for ever; [updateState] over it takes the
      first three reports of the queue extended with the answers to its
      requests: a report left unread shifts every frame by one exchange.
      The ioctl request numbers decode to the fields intended for every
      buffer size below [2^14] and equal those of [<linux/hidraw.h>].

    ** Bounds, fuel and evaluation
    The one loop with fuel is [parseReport]'s: each iteration consumes at
    least one byte, so the descriptor's length is enough fuel, and any
    larger fuel gives the same result ([parseReport_loop_fuel]).  The
    loop of [flag.Parse] consumes an argument in each iteration that goes
    on, so one more than the number of arguments is enough
    ([Parse_fuel]).  The read thread of [LinuxHid] runs one iteration per
    pending read of the file plus one ([drain]), enough to consume every
    read, each iteration consuming one ([drain_reads]).  Every other
    recursion is structural.  The endless read thread is the step
    relation [step] on the channel, its runs finite traces.  The endless
    loops [Discover] and [Interrogate] are modelled by their iterations
    ([discoverOnce], [interrogateOnce]), [Discover] on any finite list of
    enumeration results.  Facts about every byte or byte pair are decided
    by [vm_compute] over all 256 or 65536 cases ([Scalars] holds the two
    exhaustive checks over byte pairs, about a minute).  The two round
    trips are evaluated symbolically on frames of 64 variable bytes.

    ** Not modelled
    The three mutexes of a device and the manager's lock are not
    modelled: each operation is one critical section, and the goroutines
    [Interrogate] starts run one after the other.  Sleeps, [json.Marshal]
    (a message carries the shadow itself, a [/devices] body the devices),
    the NATS client (a connection is an input), gin's server loop, the
    date and time that [log] puts in front of a line, and
    [events.LogNotify] are libraries or I/O.  The failure messages of
    [flag.Parse] are constructors, not the text [failf] prints with the
    usage.  Of the Linux backend, the results of the system calls are
    inputs ([sys_results], the reads of a device node); in [LinuxHid] the
    read thread runs as soon as the device answers (other interleavings
    are those of the step relation of [HidLinux]), the kernel's own
    queue of a hidraw file before the thread starts is unbounded, and
    [strings.TrimSpace] trims ASCII
    white space only (sysfs files are ASCII).  The session's HID device
    is the [Hid] interface, with no assumption on its replies, or its
    scripted and Linux instances; a receive that blocks for ever is
    recorded in the world of an instance (the [blocked] flag of
    [LinuxHid]), as [hid_read] returns in every instance. *)

From Stdlib Require Export ZArith List Lia Bool.
From Stdlib Require Export Strings.Byte.
Export ListNotations.

(** ** Bytes

    A Go [byte] is Rocq's [Byte.byte] (256 constructors), so a frame is a
    [list byte] exactly as a Go [[]byte].  Arithmetic on bytes goes through
    [uz] (the unsigned value as a [Z]) and [u8] (Go's conversion [byte(x)]
    of an [int]: the value modulo 256, which is what two's complement
    truncation gives for negative [x] as well). *)

Declare Scope intelli_scope.
Delimit Scope intelli_scope with intelli.
Open Scope Z_scope.

Definition uz (b : byte) : Z := Z.of_N (Byte.to_N b).

Definition u8 (z : Z) : byte :=
  match Byte.of_N (Z.to_N (z mod 256)) with
  | Some b => b
  | None => Byte.x00
  end.

(** A frame as the code stores it: [d0State], [d1State], ... *)
(** Go's [int] and [int64] arithmetic: the result wraps to
    [[-2^63, 2^63)]. *)
Definition int64 (z : Z) : Z := (z + 2^63) mod 2^64 - 2^63.

Definition frame := list byte.

(** [f[i]] of Go.  The code only indexes frames it has checked (or assumes)
    to be 64 bytes long; the default is never observed on such frames. *)
Definition idx (f : frame) (i : nat) : byte := nth i f Byte.x00.

(** [f[i] = v] of Go on a slice: the element is replaced in place. *)
Fixpoint upd {A} (f : list A) (i : nat) (v : A) : list A :=
  match f, i with
  | [], _ => []
  | _ :: t, O => v :: t
  | x :: t, S k => x :: upd t k v
  end.

(** [f[lo:hi]] of Go. *)
Definition slice (f : frame) (lo hi : nat) : frame := firstn (hi - lo) (skipn lo f).

(** A sequence of Go assignments [bytes[i] = e] in which [e] reads at most
    the old value of [bytes[i]] (all the encoders' assignments have this
    shape): each step is the index and the function of the old value, and
    the steps run in the order of the source. *)
Definition write := (nat * (byte -> byte))%type.

(** [bytes[i] = v] *)
Definition assign (i : nat) (v : byte) : write := (i, fun _ => v).

(** [bytes[i] = g(bytes[i])] *)
Definition modify (i : nat) (g : byte -> byte) : write := (i, g).

Definition exec_write (bytes : frame) (w : write) : frame :=
  upd bytes (fst w) (snd w (nth (fst w) bytes Byte.x00)).

Definition exec_writes (bytes : frame) (ws : list write) : frame :=
  fold_left exec_write ws bytes.

Notation "f .[ i ]" := (idx f i) (at level 1, format "f .[ i ]") : intelli_scope.
Notation "f .[ i <- v ]" := (upd f i v) (at level 1, format "f .[ i  <-  v ]") : intelli_scope.
Open Scope intelli_scope.

(** ** Exhaustive checks over bytes

    Several codec facts are about every byte or every pair of bytes (every
    16-bit value); they are decided by a boolean check evaluated with
    [vm_compute] and turned into a universal statement by these lemmas. *)

Definition all_bytes : list byte := map (fun n => u8 (Z.of_nat n)) (seq 0 256).

Definition forall_byte (p : byte -> bool) : bool := forallb p all_bytes.

(** Every integer of [[z, z + n)] satisfies [p]. *)
Fixpoint forall_Z_from (n : nat) (z : Z) (p : Z -> bool) : bool :=
  match n with
  | O => true
  | S k => p z && forall_Z_from k (z + 1) p
  end.

Create HintDb intelli discriminated.
Create Rewrite HintDb codec.

(** ** Generic lemmas on bytes *)

Lemma uz_range (b : byte) : 0 <= uz b < 256.
Proof.
  unfold uz. pose proof (Byte.to_N_bounded b). lia.
Qed.

Lemma uz_u8 (z : Z) : uz (u8 z) = z mod 256.
Proof.
  unfold u8, uz. pose proof (Z.mod_pos_bound z 256 ltac:(lia)) as Hr.
  destruct (Byte.of_N (Z.to_N (z mod 256))) as [b|] eqn:E.
  - apply Byte.to_of_N in E. rewrite E. lia.
  - apply Byte.of_N_None_iff in E. lia.
Qed.

Lemma uz_inj (a b : byte) : uz a = uz b -> a = b.
Proof.
  unfold uz. intros H. apply N2Z.inj in H.
  pose proof (Byte.of_to_N a) as Ea. pose proof (Byte.of_to_N b) as Eb.
  rewrite H in Ea. congruence.
Qed.

Lemma u8_uz (b : byte) : u8 (uz b) = b.
Proof.
  apply uz_inj. rewrite uz_u8. apply Z.mod_small, uz_range.
Qed.

Lemma u8_mod (z : Z) : u8 (z mod 256) = u8 z.
Proof. apply uz_inj. rewrite !uz_u8, Z.mod_mod; lia. Qed.

Lemma int64_small (z : Z) : -2^63 <= z < 2^63 -> int64 z = z.
Proof. intros Hz. unfold int64. rewrite Z.mod_small; lia. Qed.

Lemma int64_range (z : Z) : -2^63 <= int64 z < 2^63.
Proof. unfold int64. pose proof (Z.mod_pos_bound (z + 2^63) (2^64) ltac:(lia)). lia. Qed.

#[export] Hint Rewrite u8_uz uz_u8 : codec.
#[export] Hint Resolve uz_range : intelli.

Lemma all_bytes_complete (b : byte) : In b all_bytes.
Proof.
  unfold all_bytes. pose proof (uz_range b) as Hr.
  rewrite <- (u8_uz b). replace (uz b) with (Z.of_nat (Z.to_nat (uz b))) by lia.
  apply (in_map (fun n => u8 (Z.of_nat n))). rewrite in_seq. lia.
Qed.

Lemma forall_byte_spec (p : byte -> bool) :
  forall_byte p = true -> forall b, p b = true.
Proof.
  unfold forall_byte. rewrite forallb_forall. intros H b. apply H, all_bytes_complete.
Qed.

Lemma forall_Z_from_spec n z p :
  forall_Z_from n z p = true -> forall k, z <= k < z + Z.of_nat n -> p k = true.
Proof.
  revert z; induction n as [|n IH]; intros z H k Hk; simpl in *; [lia|].
  apply andb_prop in H as [H0 H1].
  destruct (Z.eq_dec k z) as [->|Hne]; [exact H0|].
  apply (IH (z + 1)); [exact H1 | lia].
Qed.

(** ** Generic lemmas on frames *)

Lemma length_upd {A} (f : list A) i v : length (upd f i v) = length f.
Proof. revert i; induction f; intros [|i]; simpl; auto. Qed.

Lemma idx_upd_eq (f : frame) i v : (i < length f)%nat -> (upd f i v).[i] = v.
Proof.
  unfold idx. revert i; induction f as [|x f IH]; intros [|i] H; simpl in *; try lia.
  - reflexivity.
  - apply IH. lia.
Qed.

Lemma idx_upd_neq (f : frame) i j v : i <> j -> (upd f i v).[j] = f.[j].
Proof.
  unfold idx. revert i j; induction f as [|x f IH]; intros [|i] [|j] H; simpl; try congruence.
  apply IH. congruence.
Qed.

Lemma firstn_upd_ge {A} (f : list A) n i v : (n <= i)%nat -> firstn n (upd f i v) = firstn n f.
Proof.
  revert n i; induction f as [|x f IH]; intros [|n] [|i] H; simpl; try reflexivity; try lia.
  f_equal. apply IH. lia.
Qed.

Lemma length_exec_writes (f : frame) ws : length (exec_writes f ws) = length f.
Proof.
  unfold exec_writes. revert f; induction ws as [|w ws IH]; intros f; simpl; [reflexivity|].
  rewrite IH. unfold exec_write. apply length_upd.
Qed.

(** Writes at positions [>= n] leave the first [n] bytes alone. *)
Lemma firstn_exec_writes (f : frame) ws n :
  Forall (fun w => (n <= fst w)%nat) ws -> firstn n (exec_writes f ws) = firstn n f.
Proof.
  unfold exec_writes. revert f; induction ws as [|w ws IH]; intros f H; simpl; [reflexivity|].
  inversion H; subst. rewrite IH by assumption. unfold exec_write. apply firstn_upd_ge. assumption.
Qed.

#[export] Hint Rewrite @length_upd length_exec_writes : codec.

(** A 64-byte frame with its bytes named: [upd], [idx] and [slice] then
    compute by [cbn] on literal positions. *)
Ltac explode_frame H :=
  repeat match type of H with
  | length ?l = S _ =>
      is_var l; let b := fresh "b" in
      destruct l as [|b l]; [discriminate H | simpl in H; injection H as H]
  | length ?l = O => is_var l; destruct l; [clear H | discriminate H]
  end.

(** [find] on a concatenation. *)
Lemma find_app {A} (f : A -> bool) (l1 l2 : list A) :
  find f (l1 ++ l2) = match find f l1 with Some x => Some x | None => find f l2 end.
Proof. induction l1 as [|x l1 IH]; cbn; [reflexivity|]. destruct (f x); [reflexivity | exact IH]. Qed.

(** An [if] whose branches agree. *)
Lemma if_same {A} (b : bool) (a : A) : (if b then a else a) = a.
Proof. destruct b; reflexivity. Qed.

Lemma andb_false_negb_l (a b : bool) : a && b = false -> negb a && b = b.
Proof. destruct a, b; simpl; congruence. Qed.

(** Case analysis on the booleans left in a goal by the code's [if]s. *)
Ltac destruct_ifs :=
  repeat match goal with
  | |- context [if ?c then _ else _] =>
      lazymatch c with context [if _ then _ else _] => fail | _ => destruct c eqn:? end
  end.
