(* ===== verification/Ioctl.v ===== *)
(** * The ioctl request numbers of [src/hid/hid_linux.go]

    Lines 19-40 of [hid_linux.go] build the request numbers of the hidraw
    ioctls with [ioR] and [ioRW].  Neither helper is in the repository:
    they are Go transcriptions of the kernel's [_IOR] and [_IOWR] of
    [<asm-generic/ioctl.h>], which this file models from that header: a
    request number packs the direction (2 bits, at 30), the size of the
    argument (14 bits, at 16), the type (8 bits, at 8) and the number
    (8 bits, at 0).  The sizes [C.sizeof_int], [C.sizeof_struct_...] are
    those of the x86-64 and arm64 ABIs.

    The theorems: the fields read back from a request number are the ones
    packed into it whenever each fits its width, and the numbers the code
    computes are those of [<linux/hidraw.h>]; a size of [2^14] or more
    overflows into the direction bits. *)

From Stdlib Require Import ZArith Lia.
From coqutil Require Import Z.prove_Zeq_bitwise.

Open Scope Z_scope.

Module ioctl.

(** [_IOC_NRBITS], [_IOC_TYPEBITS], [_IOC_SIZEBITS], [_IOC_DIRBITS] and
    the shifts derived from them. *)
Definition IOC_NRSHIFT : Z := 0.
Definition IOC_TYPESHIFT : Z := 8.
Definition IOC_SIZESHIFT : Z := 16.
Definition IOC_DIRSHIFT : Z := 30.

Definition IOC_WRITE : Z := 1.
Definition IOC_READ : Z := 2.

(** [_IOC(dir, type, nr, size)]. *)
Definition IOC (dir typ nr size : Z) : Z :=
  Z.lor (Z.lor (Z.lor (Z.shiftl dir IOC_DIRSHIFT) (Z.shiftl typ IOC_TYPESHIFT))
               (Z.shiftl nr IOC_NRSHIFT)) (Z.shiftl size IOC_SIZESHIFT).

(** [ioR] is [_IOR], [ioRW] is [_IOWR]. *)
Definition ioR (typ nr size : Z) : Z := IOC IOC_READ typ nr size.
Definition ioRW (typ nr size : Z) : Z := IOC (Z.lor IOC_READ IOC_WRITE) typ nr size.

(** [_IOC_DIR], [_IOC_TYPE], [_IOC_NR], [_IOC_SIZE]. *)
Definition IOC_DIR (req : Z) : Z := Z.land (Z.shiftr req IOC_DIRSHIFT) (Z.ones 2).
Definition IOC_TYPE (req : Z) : Z := Z.land (Z.shiftr req IOC_TYPESHIFT) (Z.ones 8).
Definition IOC_NR (req : Z) : Z := Z.land (Z.shiftr req IOC_NRSHIFT) (Z.ones 8).
Definition IOC_SIZE (req : Z) : Z := Z.land (Z.shiftr req IOC_SIZESHIFT) (Z.ones 14).

(** The fields of a request number, as a tuple. *)
Definition fields (req : Z) : Z * Z * Z * Z := (IOC_DIR req, IOC_TYPE req, IOC_NR req, IOC_SIZE req).

(** ['H'], and the C sizes of the ioctl arguments. *)
Definition H : Z := 72.
Definition sizeof_int : Z := 4.
Definition sizeof_struct_hidraw_report_descriptor : Z := 4 + 4096.
Definition sizeof_struct_hidraw_devinfo : Z := 4 + 2 + 2.

(** The [var] block (lines 19-24). *)
Definition ioctlHIDIOCGRDESCSIZE : Z := ioR H 1 sizeof_int.
Definition ioctlHIDIOCGRDESC : Z := ioR H 2 sizeof_struct_hidraw_report_descriptor.
Definition ioctlHIDIOCGRAWINFO : Z := ioR H 3 sizeof_struct_hidraw_devinfo.

(** Lines 26-40. *)
Definition ioctlHIDIOCGRAWNAME (size : Z) : Z := ioR H 4 size.
Definition ioctlHIDIOCGRAWPHYS (size : Z) : Z := ioR H 5 size.
Definition ioctlHIDIOCSFEATURE (size : Z) : Z := ioRW H 6 size.
Definition ioctlHIDIOCGFEATURE (size : Z) : Z := ioRW H 7 size.

End ioctl.

Import ioctl.

(** Packing and unpacking a request number are inverse: when the
    direction, type, number and size each fit their width, [_IOC_DIR],
    [_IOC_TYPE], [_IOC_NR] and [_IOC_SIZE] give them back, and the
    request number fits in 32 bits. *)
Lemma IOC_roundtrip dir typ nr size :
  0 <= dir < 2^2 -> 0 <= typ < 2^8 -> 0 <= nr < 2^8 -> 0 <= size < 2^14 ->
  IOC_DIR (IOC dir typ nr size) = dir /\ IOC_TYPE (IOC dir typ nr size) = typ /\
  IOC_NR (IOC dir typ nr size) = nr /\ IOC_SIZE (IOC dir typ nr size) = size /\
  0 <= IOC dir typ nr size < 2^32.
Proof.
  intros Hd Ht Hn Hs. unfold IOC_DIR, IOC_TYPE, IOC_NR, IOC_SIZE, IOC,
    IOC_DIRSHIFT, IOC_TYPESHIFT, IOC_NRSHIFT, IOC_SIZESHIFT.
  split; [prove_Zeq_bitwise|]. split; [prove_Zeq_bitwise|]. split; [prove_Zeq_bitwise|].
  split; [prove_Zeq_bitwise|].
  assert (E : Z.lor (Z.lor (Z.lor (Z.shiftl dir 30) (Z.shiftl typ 8)) (Z.shiftl nr 0)) (Z.shiftl size 16) =
              Z.land (Z.lor (Z.lor (Z.lor (Z.shiftl dir 30) (Z.shiftl typ 8)) (Z.shiftl nr 0)) (Z.shiftl size 16))
                     (Z.ones 32)) by prove_Zeq_bitwise.
  rewrite E, Z.land_ones by lia. apply Z.mod_pos_bound. lia.
Qed.

Lemma ioR_fields nr size :
  0 <= nr < 2^8 -> 0 <= size < 2^14 ->
  fields (ioR H nr size) = (IOC_READ, H, nr, size) /\ 0 <= ioR H nr size < 2^32.
Proof.
  intros Hn Hs. unfold fields, ioR, IOC_READ, H.
  destruct (IOC_roundtrip 2 72 nr size) as (E1 & E2 & E3 & E4 & B); try lia.
  rewrite E1, E2, E3, E4. auto.
Qed.

Lemma ioRW_fields nr size :
  0 <= nr < 2^8 -> 0 <= size < 2^14 ->
  fields (ioRW H nr size) = (Z.lor IOC_READ IOC_WRITE, H, nr, size) /\ 0 <= ioRW H nr size < 2^32.
Proof.
  intros Hn Hs. unfold fields, ioRW, IOC_READ, IOC_WRITE, H. change (Z.lor 2 1) with 3.
  destruct (IOC_roundtrip 3 72 nr size) as (E1 & E2 & E3 & E4 & B); try lia.
  rewrite E1, E2, E3, E4. auto.
Qed.

(** The request numbers of [hid_linux.go] are well formed and say
    what they mean: for every buffer size below [2^14] the name and
    physical-address requests decode to a read of that size with type
    ['H'] and numbers 4 and 5, the feature requests to a read-write of
    that size with numbers 6 and 7, each fitting in 32 bits; and the three
    fixed requests are [HIDIOCGRDESCSIZE] 0x80044801, [HIDIOCGRDESC]
    0x90044802 and [HIDIOCGRAWINFO] 0x80084803 of [<linux/hidraw.h>]. *)
Theorem hidraw_requests_decode size :
  0 <= size < 2^14 ->
  fields (ioctlHIDIOCGRAWNAME size) = (IOC_READ, H, 4, size) /\
  fields (ioctlHIDIOCGRAWPHYS size) = (IOC_READ, H, 5, size) /\
  fields (ioctlHIDIOCSFEATURE size) = (3, H, 6, size) /\
  fields (ioctlHIDIOCGFEATURE size) = (3, H, 7, size) /\
  0 <= ioctlHIDIOCGRAWNAME size < 2^32 /\ 0 <= ioctlHIDIOCSFEATURE size < 2^32 /\
  ioctlHIDIOCGRDESCSIZE = 0x80044801 /\ ioctlHIDIOCGRDESC = 0x90044802 /\
  ioctlHIDIOCGRAWINFO = 0x80084803.
Proof.
  intros Hs. unfold ioctlHIDIOCGRAWNAME, ioctlHIDIOCGRAWPHYS, ioctlHIDIOCSFEATURE, ioctlHIDIOCGFEATURE.
  destruct (ioR_fields 4 size) as [E4 B4], (ioR_fields 5 size) as [E5 _],
    (ioRW_fields 6 size) as [E6 B6], (ioRW_fields 7 size) as [E7 _]; try lia.
  rewrite E4, E5, E6, E7. repeat split; try lia; reflexivity.
Qed.

(** A name buffer of [2^14] bytes or more would overflow into the
    direction bits: [ioctlHIDIOCGRAWNAME] does not check its size. *)
Example ioctlHIDIOCGRAWNAME_overflow :
  IOC_DIR (ioctlHIDIOCGRAWNAME (2^14)) = 3 /\ IOC_SIZE (ioctlHIDIOCGRAWNAME (2^14)) = 0.
Proof. split; reflexivity. Qed.

Lemma hidraw_requests_decode_witness :
  0 <= 256 < 2^14 /\
  fields (ioctlHIDIOCGRAWNAME 256) = (IOC_READ, H, 4, 256) /\
  fields (ioctlHIDIOCGRAWPHYS 256) = (IOC_READ, H, 5, 256) /\
  fields (ioctlHIDIOCSFEATURE 256) = (3, H, 6, 256) /\
  fields (ioctlHIDIOCGFEATURE 256) = (3, H, 7, 256) /\
  0 <= ioctlHIDIOCGRAWNAME 256 < 2^32 /\ 0 <= ioctlHIDIOCSFEATURE 256 < 2^32 /\
  ioctlHIDIOCGRDESCSIZE = 0x80044801 /\ ioctlHIDIOCGRDESC = 0x90044802 /\
  ioctlHIDIOCGRAWINFO = 0x80084803.
Proof. split; [lia | apply hidraw_requests_decode; lia]. Defined.
