(* ===== verification/Tell.v ===== *)
(** * Logging: [src/util/tell/log.go]

    The leveled logger [tell] and the part of Go's [fmt] formatting it
    relies on.  Every function of [tell] formats its message with
    [fmt.Sprintf(msg, args...)] and hands the result to [log.Printf] as a
    format string, which formats it a second time; [IfErrorf] appends
    [": %"] to the message, a verb-less [%].

    Module [fmt] models [fmt.Sprintf] on the formats the program passes:
    the verbs [%s], [%v] and [%d] without flags, width or precision on
    string, integer and error arguments, the literal [%%], and the three
    error forms of the [fmt] documentation: [%!(NOVERB)] for a [%] that
    ends the format, [%!c(MISSING)] for a verb with no argument left, and
    [%!(EXTRA type=value, ...)] for unused arguments.  A format outside
    that fragment (flags, widths, other verbs) gives [None].  Module
    [tell] holds the logger's state: the level, the lines written (without
    the date and time [log] puts in front), the [fatal] notifications and
    the exit code of [os.Exit].

    The theorems: a message is written exactly when the level admits it,
    and is then its format's result, provided that result holds no [%];
    [IfErrorf] mangles every error it reports. *)

From Stdlib Require Import Strings.String Strings.Ascii DecimalString.
From S2P Require Import Prelude.

Open Scope string_scope.

Module fmt.

(** An argument of [Sprintf]: a string, an [int], or an [error] by the
    name of its dynamic type and its [Error()] text. *)
Inductive Arg := AStr (s : string) | AInt (z : Z) | AErr (ty msg : string).

(** [reflect.TypeOf(arg).String()]. *)
Definition type_name (a : Arg) : string :=
  match a with AStr _ => "string" | AInt _ => "int" | AErr ty _ => ty end.

(** [strconv.Itoa]. *)
Definition decimal (z : Z) : string := NilZero.string_of_int (Z.to_int z).

(** [p.printArg(arg, 'v')]: an error prints its [Error()]. *)
Definition show_v (a : Arg) : string :=
  match a with AStr s => s | AInt z => decimal z | AErr _ m => m end.

(** [p.printArg(arg, verb)] for the verbs [s], [v] and [d]; a verb that
    does not fit the argument gives [%!verb(type=value)]. *)
Definition printArg (a : Arg) (verb : ascii) : option string :=
  if Ascii.eqb verb "v" then Some (show_v a)
  else if Ascii.eqb verb "s" then
    match a with
    | AStr s => Some s
    | AErr _ m => Some m
    | AInt z => Some ("%!s(int=" ++ decimal z ++ ")")
    end
  else if Ascii.eqb verb "d" then
    match a with
    | AInt z => Some (decimal z)
    | AStr s => Some ("%!d(string=" ++ s ++ ")")
    | AErr _ _ => None
    end
  else None.

(** The characters that may follow [%] before the verb: flags, an
    argument index, a width or a precision. *)
Definition is_modifier (c : ascii) : bool :=
  existsb (Ascii.eqb c) ["#"; "0"; "+"; "-"; " "; "."; "*"; "["; "1"; "2"; "3"; "4"; "5"; "6"; "7"; "8"; "9"]%char.

(** The loop of [doPrintf]: the output and the arguments left. *)
Fixpoint doPrintf (format : string) (args : list Arg) : option (string * list Arg) :=
  match format with
  | EmptyString => Some (EmptyString, args)
  | String c rest =>
      if Ascii.eqb c "%" then
        match rest with
        | EmptyString => Some ("%!(NOVERB)", args)
        | String verb rest' =>
            if is_modifier verb then None
            else if Ascii.eqb verb "%" then
              option_map (fun r => (String "%" (fst r), snd r)) (doPrintf rest' args)
            else match args with
            | [] => option_map (fun r => ("%!" ++ String verb "(MISSING)" ++ fst r, snd r)) (doPrintf rest' [])
            | a :: args' =>
                match printArg a verb, doPrintf rest' args' with
                | Some s, Some r => Some (s ++ fst r, snd r)
                | _, _ => None
                end
            end
        end
      else option_map (fun r => (String c (fst r), snd r)) (doPrintf rest args)
  end.

(** No [%] in the string: formatting leaves it as it is. *)
Fixpoint no_pct (s : string) : bool :=
  match s with EmptyString => true | String c s' => negb (Ascii.eqb c "%") && no_pct s' end.

Fixpoint join (sep : string) (l : list string) : string :=
  match l with [] => "" | [x] => x | x :: l' => x ++ sep ++ join sep l' end.

(** [fmt.Sprintf(format, a...)]: the unused arguments are reported after
    the output. *)
Definition Sprintf (format : string) (args : list Arg) : option string :=
  match doPrintf format args with
  | None => None
  | Some (out, []) => Some out
  | Some (out, extra) =>
      Some (out ++ "%!(EXTRA " ++ join ", " (map (fun a => type_name a ++ "=" ++ show_v a) extra) ++ ")")
  end.

End fmt.

Module tell.

Import fmt.

(** The log levels (lines 12-18). *)
Definition DEBUG : Z := 0.
Definition INFO : Z := 1.
Definition WARN : Z := 2.
Definition ERROR : Z := 3.
Definition FATAL : Z := 4.

(** The package's state: [Level] (line 21), the lines [log] has written,
    the notifications of [events.LogNotify], and the status of [os.Exit]
    once called. *)
Record state := mkState {
  Level : Z;
  output : list string;
  notified : list (string * string);
  exited : option Z
}.

(** The state at start-up: [var Level = 0] and nothing written. *)
Definition init : state := mkState 0 [] [] None.

Definition set_Level (st : state) (l : Z) : state := mkState l (output st) (notified st) (exited st).

Definition write (st : state) (line : string) : state :=
  mkState (Level st) (output st ++ [line]) (notified st) (exited st).

(** [log.Printf(format)]: the line [Sprintf(format)] (without arguments). *)
Definition log_Printf (format : string) (st : state) : option state :=
  option_map (write st) (Sprintf format []).

(** The body of [Debugf], [Infof], [Warnf] and [Errorf], which differ
    only in their level and prefix (lines 28-73). *)
Definition leveled (lvl : Z) (prefix : string) (msg : string) (args : list Arg) (st : state) : option state :=
  if Z.ltb lvl (Level st) then Some st
  else match Sprintf msg args with
       | Some m => log_Printf (prefix ++ m) st
       | None => None
       end.

Definition Debugf := leveled DEBUG "DEBUG: ".
Definition Infof := leveled INFO "INFO: ".
Definition Warnf := leveled WARN "WARN: ".
Definition Errorf := leveled ERROR "ERROR: ".

(** [func IfErrorf(err error, msg string, args ...interface{})] (lines 58-63). *)
Definition IfErrorf (err : option Arg) (msg : string) (args : list Arg) (st : state) : option state :=
  match err with
  | None => Some st
  | Some e =>
      match Sprintf msg args with
      | Some m => Errorf (m ++ ": %") [e] st
      | None => None
      end
  end.

(** [func Fatalf(msg string, args ...interface{})] (lines 76-81). *)
Definition Fatalf (msg : string) (args : list Arg) (st : state) : option state :=
  match Sprintf msg args with
  | None => None
  | Some m =>
      let st := mkState (Level st) (output st) (notified st ++ [("fatal", m)]) (exited st) in
      match log_Printf ("FATAL: " ++ m) st with
      | Some st => Some (mkState (Level st) (output st) (notified st) (Some 1))
      | None => None
      end
  end.

End tell.

Import fmt tell.

(** ** Formatting *)

Lemma string_app_assoc (a b c : string) : (a ++ b) ++ c = a ++ (b ++ c).
Proof. induction a as [|x a IH]; cbn; [reflexivity | now rewrite IH]. Qed.

Lemma string_app_nil_r (s : string) : s ++ "" = s.
Proof. induction s as [|x s IH]; cbn; [reflexivity | now rewrite IH]. Qed.

Lemma no_pct_app (a b : string) : no_pct (a ++ b) = no_pct a && no_pct b.
Proof. induction a as [|x a IH]; cbn; [reflexivity|]. rewrite IH. apply andb_assoc. Qed.

(** Text without [%] is copied to the output. *)
Lemma doPrintf_app_nopct (s rest : string) args :
  no_pct s = true ->
  doPrintf (s ++ rest) args = option_map (fun r => (s ++ fst r, snd r)) (doPrintf rest args).
Proof.
  induction s as [|c s IH]; intros H; cbn -[doPrintf] in *.
  - destruct (doPrintf rest args) as [[o a]|]; reflexivity.
  - apply andb_prop in H as [Hc Hs]. cbn [doPrintf]. destruct (Ascii.eqb c "%"); [discriminate|].
    rewrite IH by exact Hs. destruct (doPrintf rest args) as [[o a]|]; reflexivity.
Qed.

Lemma Sprintf_nopct (s : string) : no_pct s = true -> Sprintf s [] = Some s.
Proof.
  intros H. unfold Sprintf. rewrite <- (string_app_nil_r s) at 1.
  rewrite doPrintf_app_nopct by exact H. cbn. now rewrite string_app_nil_r.
Qed.

Lemma Sprintf_lone_pct s x :
  no_pct s = true ->
  Sprintf (s ++ ": %") [x] = Some (s ++ ": %!(NOVERB)%!(EXTRA " ++ type_name x ++ "=" ++ show_v x ++ ")").
Proof. intros H. unfold Sprintf. rewrite doPrintf_app_nopct by exact H. cbn. now rewrite !string_app_assoc. Qed.

(** [log.Printf] formats the line again: each [%!] becomes a verb [!]
    with no argument. *)
Lemma Sprintf_reformat msg ty e :
  no_pct msg = true -> no_pct ty = true -> no_pct e = true ->
  Sprintf ("ERROR: " ++ msg ++ ": %!(NOVERB)%!(EXTRA " ++ ty ++ "=" ++ e ++ ")") [] =
  Some ("ERROR: " ++ msg ++ ": %!!(MISSING)(NOVERB)%!!(MISSING)(EXTRA " ++ ty ++ "=" ++ e ++ ")").
Proof.
  intros Hm Hty He. unfold Sprintf.
  rewrite (doPrintf_app_nopct "ERROR: ") by reflexivity. rewrite doPrintf_app_nopct by exact Hm. cbn.
  rewrite doPrintf_app_nopct by exact Hty. cbn. rewrite doPrintf_app_nopct by exact He. cbn.
  rewrite ?string_app_assoc, ?string_app_nil_r. reflexivity.
Qed.

(** A format ending in [%s] with one error argument. *)
Lemma Sprintf_prefix_s pre ty msg :
  no_pct pre = true -> Sprintf (pre ++ "%s") [AErr ty msg] = Some (pre ++ msg).
Proof.
  intros H. unfold Sprintf. rewrite doPrintf_app_nopct by exact H. cbn. now rewrite string_app_nil_r.
Qed.

(** ** The logger *)

(** C37. A leveled message ([Debugf], [Infof], [Warnf], [Errorf]) is
    dropped when [Level] is above its level; otherwise the line written is
    its prefix and its formatted text, as long as that text holds no [%]
    for [log.Printf] to format again. *)
Theorem leveled_filter lvl prefix msg args st :
  (lvl < Level st -> leveled lvl prefix msg args st = Some st) /\
  (forall m, Level st <= lvl -> Sprintf msg args = Some m -> no_pct (prefix ++ m) = true ->
     leveled lvl prefix msg args st = Some (write st (prefix ++ m))).
Proof.
  unfold leveled. split.
  - intros H. apply Z.ltb_lt in H. rewrite H. reflexivity.
  - intros m H Hs Hp. replace (Z.ltb lvl (Level st)) with false by (symmetry; apply Z.ltb_ge; exact H).
    rewrite Hs. unfold log_Printf. rewrite Sprintf_nopct by exact Hp. reflexivity.
Qed.

(** C26. [IfErrorf] never writes an error as meant: the [": %"] it
    appends is a [%] without a verb, so [Sprintf] writes [%!(NOVERB)] and
    reports the error as an extra argument, and [log.Printf] turns each
    [%!] into [%!!(MISSING)]. *)
Theorem IfErrorf_mangles ty e msg st :
  no_pct msg = true -> no_pct ty = true -> no_pct e = true -> Level st <= ERROR ->
  IfErrorf (Some (AErr ty e)) msg [] st =
  Some (write st ("ERROR: " ++ msg ++ ": %!!(MISSING)(NOVERB)%!!(MISSING)(EXTRA " ++ ty ++ "=" ++ e ++ ")")).
Proof.
  intros Hm Hty He Hl. unfold IfErrorf. rewrite Sprintf_nopct by exact Hm.
  unfold Errorf, leveled. replace (Z.ltb ERROR (Level st)) with false by (symmetry; apply Z.ltb_ge; exact Hl).
  rewrite Sprintf_lone_pct by exact Hm. unfold log_Printf. cbn [type_name show_v].
  rewrite Sprintf_reformat by assumption. reflexivity.
Qed.

(** ** Witnesses *)

Lemma leveled_filter_witness :
  Debugf "found %d HID devices" [AInt 3] (set_Level init INFO) = Some (set_Level init INFO) /\
  Debugf "found %d HID devices" [AInt 3] init = Some (write init "DEBUG: found 3 HID devices").
Proof.
  split.
  - apply (proj1 (leveled_filter DEBUG "DEBUG: " "found %d HID devices" [AInt 3] (set_Level init INFO))).
    vm_compute. reflexivity.
  - apply (proj2 (leveled_filter DEBUG "DEBUG: " "found %d HID devices" [AInt 3] init) "found 3 HID devices");
      vm_compute; [discriminate | reflexivity | reflexivity].
Defined.

Lemma IfErrorf_mangles_witness :
  IfErrorf (Some (AErr "*fs.PathError" "open /sys/class/hidraw: no such file or directory"))
    "failed to enumerate devices" [] init =
  Some (write init ("ERROR: failed to enumerate devices: %!!(MISSING)(NOVERB)%!!(MISSING)(EXTRA "
                    ++ "*fs.PathError=open /sys/class/hidraw: no such file or directory)")).
Proof. apply IfErrorf_mangles; reflexivity || (vm_compute; discriminate). Defined.
