(* ===== verification/GoFloat.v ===== *)
(** * Go's float64 arithmetic used by the codec

    The decoder of [src/device/device_interrogator.go] scales 16-bit
    integers into [float64] values ([prepareByte], [prepareInt],
    [checkIntForNotAvailableValue], [toFixed], [round]) and the encoder
    truncates them back ([int(x * 100)]).  Rocq's primitive [float] is
    IEEE-754 binary64 with round-to-nearest-even, the semantics of Go's
    [float64]; its operations compute under [vm_compute], so facts about a
    helper on every 16-bit input are decided exhaustively. *)

From Stdlib Require Import ZArith Lia Bool Floats Uint63.
From S2P Require Import Prelude.

Open Scope Z_scope.

Abbreviation float64 := PrimFloat.float.

(** Go's [float64(x)] of an [int].  Exact for [|x| < 2^53]; the codec only
    converts 16-bit values and small constants. *)
Definition float64_of_int (z : Z) : float64 :=
  if 0 <=? z then PrimFloat.of_uint63 (Uint63.of_Z z)
  else PrimFloat.opp (PrimFloat.of_uint63 (Uint63.of_Z (- z))).

(** Go's [int(f)]: truncation toward zero.  Go leaves the result of
    converting NaN, infinities and out-of-range values implementation
    defined; it is 0 here and never arises on the codec's inputs. *)
Definition int_of_float (f : float64) : Z :=
  match Prim2SF f with
  | S754_finite s m e =>
      let a := if 0 <=? e then Z.shiftl (Zpos m) e else Z.shiftr (Zpos m) (- e) in
      if s then - a else a
  | _ => 0
  end.

(** [valueUndefined = 32768.0], the "not available" sentinel. *)
Definition valueUndefined : float64 := float64_of_int 32768.

(** [math.Copysign(f, sign)]: the magnitude of [f] with the sign of [sign]. *)
Definition copysign (f sign : float64) : float64 :=
  if PrimFloat.get_sign sign then PrimFloat.opp (PrimFloat.abs f) else PrimFloat.abs f.

(** [math.Pow(10, float64(n))] for the precisions the code passes (0, 1, 2):
    powers of ten below [10^22] are exact in binary64, and so is [math.Pow]
    on them. *)
Definition pow10 (n : Z) : float64 := float64_of_int (10 ^ n).

Definition half : float64 := PrimFloat.div (float64_of_int 1) (float64_of_int 2).

(** [func round(num float64) int { return int(num + math.Copysign(0.5, num)) }] *)
Definition round (num : float64) : Z :=
  int_of_float (PrimFloat.add num (copysign half num)).

(** [func toFixed(num float64, precision int) float64] *)
Definition toFixed (num : float64) (precision : Z) : float64 :=
  let output := pow10 precision in
  PrimFloat.div (float64_of_int (round (PrimFloat.mul num output))) output.

(** [func prepareByte(b byte, n int, d int) float64] *)
Definition prepareByte (b : byte) (n d : Z) : float64 :=
  toFixed (PrimFloat.div (float64_of_int (uz b)) (float64_of_int d)) n.

(** [func prepareInt(b int, n int, d int) float64] *)
Definition prepareInt (b n d : Z) : float64 :=
  toFixed (PrimFloat.div (float64_of_int b) (float64_of_int d)) n.

(** [func checkIntForNotAvailableValue(b int, n int, d int) float64] *)
Definition checkIntForNotAvailableValue (b n d : Z) : float64 :=
  if PrimFloat.eqb (PrimFloat.abs (float64_of_int b)) valueUndefined then valueUndefined
  else prepareInt b n d.

(** Boolean Leibniz equality of floats (it distinguishes [0.0] from
    [-0.0], unlike Go's [==]). *)
Definition feq (x y : float64) : bool := PrimFloat.Leibniz.eqb x y.

Lemma feq_spec x y : feq x y = true <-> x = y.
Proof. apply FloatAxioms.Leibniz.eqb_spec. Qed.
