(* ===== verification/Enc.v ===== *)
(** * [src/util/encoding/enc.go]: bit and byte helpers

    [ComposeByte] packs eight booleans into a byte with [SetBit], argument
    [pos0] at the least significant bit; [GetBoolBitValue] reads a bit
    through the [%08b] rendering of the byte ([ByteToBitString]), also
    least significant first; [UnsignedIntToBytes] and [SignedIntToBytes]
    split an [int] into its low and high bytes.  The codec of
    [device_interrogator.go] calls [ComposeByte] and [UnsignedIntToBytes]
    when it encodes IntelliClimate frames. *)

From Stdlib Require Import Strings.String Strings.Ascii.
From S2P Require Import Prelude.

Open Scope Z_scope.

Module encoding.

(** [func ParseBoolToInt(b bool) int] *)
Definition ParseBoolToInt (b : bool) : Z := if b then 1 else 0.

(** [func SetBit(n byte, pos uint, value bool) byte]: [n |= 1 << pos] or
    [n &^ (1 << pos)]; the constant [1 << pos] has type [byte], so a
    position of 8 or more shifts the bit out and leaves [n] unchanged. *)
Definition SetBit (n : byte) (pos : nat) (value : bool) : byte :=
  if value then u8 (Z.lor (uz n) (Z.shiftl 1 (Z.of_nat pos)))
  else u8 (Z.land (uz n) (Z.lnot (Z.shiftl 1 (Z.of_nat pos)))).

(** [func ComposeByte(pos0, ..., pos7 bool) byte] *)
Definition ComposeByte (pos0 pos1 pos2 pos3 pos4 pos5 pos6 pos7 : bool) : byte :=
  let result := Byte.x00 in
  let result := SetBit result 0 pos0 in
  let result := SetBit result 1 pos1 in
  let result := SetBit result 2 pos2 in
  let result := SetBit result 3 pos3 in
  let result := SetBit result 4 pos4 in
  let result := SetBit result 5 pos5 in
  let result := SetBit result 6 pos6 in
  let result := SetBit result 7 pos7 in
  result.

Definition bit_char (b : bool) : ascii := if b then "1"%char else "0"%char.

(** [func ByteToBitString(b byte) string { return fmt.Sprintf("%08b", b) }]:
    eight binary digits, most significant first. *)
Definition ByteToBitString (b : byte) : string :=
  let t i := bit_char (Z.testbit (uz b) i) in
  String (t 7) (String (t 6) (String (t 5) (String (t 4)
    (String (t 3) (String (t 2) (String (t 1) (String (t 0) EmptyString))))))).

(** [func GetBoolBitValue(b byte, position int) bool]: [bitString[7-position]]
    compared with ['0']; an index outside the string panics ([None]). *)
Definition GetBoolBitValue (b : byte) (position : Z) : option bool :=
  if (0 <=? 7 - position) && (7 - position <? 8) then
    match String.get (Z.to_nat (7 - position)) (ByteToBitString b) with
    | Some c => Some (negb (Ascii.eqb c "0"%char))
    | None => None
    end
  else None.

(** [func UnsignedIntToBytes(input int) (byte, byte)] *)
Definition UnsignedIntToBytes (input : Z) : byte * byte :=
  (u8 input, u8 (Z.shiftr input 8)).

(** [func SignedIntToBytes(input int) (byte, byte)] *)
Definition SignedIntToBytes (input : Z) : byte * byte :=
  (u8 (Z.land input 255), u8 (Z.shiftr input 8)).

(** ** Lemmas *)

Lemma testbit_SetBit n pos v j :
  (pos < 8)%nat -> 0 <= j < 8 ->
  Z.testbit (uz (SetBit n pos v)) j =
    if j =? Z.of_nat pos then v else Z.testbit (uz n) j.
Proof.
  intros Hp Hj. pose proof (uz_range n) as Hn.
  unfold SetBit. rewrite Z.shiftl_1_l.
  destruct v; rewrite uz_u8;
    change 256 with (2 ^ 8); rewrite <- Z.land_ones by lia;
    rewrite Z.land_spec, Z.ones_spec_low by lia; rewrite andb_true_r;
    [rewrite Z.lor_spec | rewrite Z.land_spec, Z.lnot_spec by lia];
    rewrite Z.pow2_bits_eqb by lia; rewrite (Z.eqb_sym (Z.of_nat pos));
    destruct (j =? Z.of_nat pos); simpl;
    rewrite ?orb_true_r, ?orb_false_r, ?andb_true_r, ?andb_false_r; reflexivity.
Qed.

(** A byte is determined by its eight bits. *)
Lemma byte_bits_ext (a b : byte) :
  (forall j, 0 <= j < 8 -> Z.testbit (uz a) j = Z.testbit (uz b) j) -> a = b.
Proof.
  intros H. apply uz_inj. pose proof (uz_range a). pose proof (uz_range b).
  apply Z.bits_inj'. intros j Hj.
  destruct (Z.lt_ge_cases j 8) as [Hlt|Hge]; [apply H; lia|].
  rewrite <- (Z.mod_small (uz a) (2 ^ 8)), <- (Z.mod_small (uz b) (2 ^ 8)) by lia.
  rewrite !Z.mod_pow2_bits_high by lia. reflexivity.
Qed.

Lemma bit_char_parse t : negb (Ascii.eqb (bit_char t) "0"%char) = t.
Proof. destruct t; reflexivity. Qed.

(** Bit [i] of [ComposeByte p0 ... p7] (least significant first) is [p_i]. *)
Lemma testbit_ComposeByte p0 p1 p2 p3 p4 p5 p6 p7 (i : nat) :
  (i < 8)%nat ->
  Z.testbit (uz (ComposeByte p0 p1 p2 p3 p4 p5 p6 p7)) (Z.of_nat i) =
    nth i [p0; p1; p2; p3; p4; p5; p6; p7] false.
Proof.
  intros Hi. unfold ComposeByte. rewrite !testbit_SetBit by lia.
  do 8 (destruct i as [|i]; [reflexivity|]). lia.
Qed.

(** C38. [GetBoolBitValue b position] reads bit [position] counted from the
    least significant bit (it indexes the [%08b] string at [7-position]),
    and panics outside [0..7]. *)
Theorem GetBoolBitValue_spec (b : byte) (position : Z) :
  GetBoolBitValue b position =
    if (0 <=? position) && (position <? 8) then Some (Z.testbit (uz b) position) else None.
Proof.
  unfold GetBoolBitValue.
  destruct (Z.leb_spec 0 (7 - position)), (Z.ltb_spec (7 - position) 8),
    (Z.leb_spec 0 position), (Z.ltb_spec position 8); cbn [andb]; try lia; try reflexivity.
  assert (position = 0 \/ position = 1 \/ position = 2 \/ position = 3 \/
          position = 4 \/ position = 5 \/ position = 6 \/ position = 7) as Hp by lia.
  repeat destruct Hp as [->|Hp]; try subst position; simpl; rewrite bit_char_parse; reflexivity.
Qed.

(** [UnsignedIntToBytes] writes an [int] as its low and high bytes:
    recombined, they give the value modulo [2^16] (the wrap-around the
    encoder applies to every 16-bit field). *)
Theorem UnsignedIntToBytes_recombine (input : Z) :
  let '(lo, hi) := UnsignedIntToBytes input in uz hi * 256 + uz lo = input mod 65536.
Proof.
  unfold UnsignedIntToBytes. rewrite !uz_u8, Z.shiftr_div_pow2 by lia.
  change (2 ^ 8) with 256. change 65536 with (256 * 256).
  rewrite Z.rem_mul_r by lia. rewrite Z.mul_comm. lia.
Qed.

(** [SignedIntToBytes] and [UnsignedIntToBytes] are the same function: the
    mask [& 0xff] is redundant under the byte conversion. *)
Lemma SignedIntToBytes_Unsigned (input : Z) : SignedIntToBytes input = UnsignedIntToBytes input.
Proof.
  unfold SignedIntToBytes, UnsignedIntToBytes. f_equal.
  change 255 with (Z.ones 8). rewrite Z.land_ones by lia. apply u8_mod.
Qed.

End encoding.
