(* ===== verification/Bits.v ===== *)
(** * Bit, scalar and enumeration helpers of [device_interrogator.go]

    The decoder reads a flag with [getBoolFromByte b bit], which renders
    the byte with [strconv.FormatInt(_, 2)], left-pads it to eight runes and
    parses rune [bit]: bit 0 is the MOST significant bit.  The encoder
    writes a flag with [updateByte], which edits the same rune and parses
    the string back with [strconv.ParseInt].  Sixteen-bit fields are read
    by [getFloatFrom2Bytes] / [getSignedFloatFrom2Bytes], whose first
    argument is the HIGH byte ([binary.BigEndian]).  String-valued fields
    go through small enumeration functions in both directions. *)

From Stdlib Require Import Strings.String Strings.Ascii.
From S2P Require Import Prelude Enc.

Open Scope string_scope.
Open Scope Z_scope.
Open Scope intelli_scope.

Module Bits.

(** ** [strconv] on binary strings, as runes *)

Fixpoint pos_bin (p : positive) : list ascii :=
  match p with
  | xH => ["1"%char]
  | xO q => pos_bin q ++ ["0"%char]
  | xI q => pos_bin q ++ ["1"%char]
  end.

(** [[]rune(strconv.FormatInt(int64(z), 2))] *)
Definition FormatInt2 (z : Z) : list ascii :=
  match z with
  | Z0 => ["0"%char]
  | Zpos p => pos_bin p
  | Zneg p => "-"%char :: pos_bin p
  end.

(** [for i := len(out); i < 8; i++ { out = append([]rune{'0'}, out...) }] *)
Definition pad8 (out : list ascii) : list ascii :=
  repeat "0"%char (8 - length out) ++ out.

(** [strconv.ParseBool]: the accepted spellings of true; everything else,
    errors included, gives [false]. *)
Definition ParseBool (s : string) : bool :=
  match s with
  | "1" | "t" | "T" | "TRUE" | "true" | "True" => true
  | _ => false
  end.

(** [strconv.ParseInt(s, 2, 64)]: [None] on a rune that is not a binary
    digit (Go returns 0 and an error). *)
Fixpoint ParseInt2_acc (acc : Z) (s : list ascii) : option Z :=
  match s with
  | [] => Some acc
  | c :: t =>
      if Ascii.eqb c "0"%char then ParseInt2_acc (2 * acc) t
      else if Ascii.eqb c "1"%char then ParseInt2_acc (2 * acc + 1) t
      else None
  end.

Definition ParseInt2 (s : list ascii) : option Z :=
  match s with [] => None | _ => ParseInt2_acc 0 s end.

(** ** The helpers *)

(** [func getBoolFromByte(b byte, bit int) bool].  Every call site passes a
    literal [bit] in [0..7], inside the eight padded runes. *)
Definition getBoolFromByte (b : byte) (bit : nat) : bool :=
  let out := pad8 (FormatInt2 (uz b)) in
  ParseBool (String (nth bit out "0"%char) EmptyString).

(** [func parseBool(bol bool) rune] *)
Definition parseBool (bol : bool) : ascii := if bol then "1"%char else "0"%char.

(** [func updateByte(oldByte byte, bol bool, pos int) byte] *)
Definition updateByte (oldByte : byte) (bol : bool) (pos : nat) : byte :=
  let out := pad8 (FormatInt2 (uz oldByte)) in
  let out := upd out pos (parseBool bol) in
  let i := match ParseInt2 out with Some i => i | None => 0 end in
  u8 i.

(** [func getFloatFrom2Bytes(l byte, h byte) int]:
    [binary.BigEndian.Uint16([]byte{l, h})], so [l] is the high byte. *)
Definition getFloatFrom2Bytes (l h : byte) : Z := uz l * 256 + uz h.

(** Go's [int16(x)] of a [uint16]. *)
Definition int16_of_uint16 (x : Z) : Z := if x <? 32768 then x else x - 65536.

(** [func getSignedFloatFrom2Bytes(l byte, h byte) int]:
    [int(int16(uint16(h) + uint16(l)<<8))]. *)
Definition getSignedFloatFrom2Bytes (l h : byte) : Z :=
  int16_of_uint16 ((uz h + (uz l * 256) mod 65536) mod 65536).

(** [func getDefaultValue(b byte, defB byte) byte] *)
Definition getDefaultValue (b defB : byte) : byte :=
  if Byte.eqb b Byte.x00 then defB else b.

(** ** Constants (lines 15-71) *)

Definition doserRaise := "raise".
Definition doserLower := "lower".
Definition doserModeNone := "none".
Definition doserModeBoth := "both".
Definition fan1Function := "fan_1".
Definition fan2Function := "fan_2".
Definition airConFunction := "air_conditioner".
Definition co2InjectionFunction := "co2_injection".
Definition co2ExtractFunction := "co2_extraction".
Definition heaterFunction := "heater".
Definition dehumidifierFunction := "dehumidifier".
Definition humidifierFunction := "humidifier".
Definition lightBank1Function := "light_bank_1".
Definition lightBank2Function := "light_bank_2".
Definition foggerFunction := "pulsed_fogger".
Definition purgingFunction := "purge".
Definition phFunction := "ph".
Definition nutrientDosingFunction := "Nutrient Dosing".
Definition waterFunction := "Water".
Definition irrigationFunction := "irrigation".
Definition irrigationStation1Function := "Irrigation Station 1".
Definition irrigationStation2Function := "Irrigation Station 2".
Definition irrigationStation3Function := "Irrigation Station 3".
Definition irrigationStation4Function := "Irrigation Station 4".
Definition irrigationModeSingle := "single".
Definition irrigationModeSequential := "sequential".
Definition irrigationModeIndependent := "independent".
Definition irrigationModeDuringDayOnly := "during_day_only".
Definition irrigationModeSameTime := "same_time".
Definition irrigationModeDayNight := "day_night".
Definition temperatureC := "C".
Definition temperatureF := "F".
Definition nutrientConfigEC := "EC".
Definition nutrientConfigCF := "CF".
Definition nutrientConfigTDS := "TDS".
Definition dateFormat := "DD/MM/YY".
Definition dateFormatUSA := "MM/DD/YY".
Definition dehumidifyAirCon := "air_conditioner".
Definition dehumidifyPurge := "purge".
Definition dehumidifyNone := doserModeNone.
Definition requestLength : nat := 64.

(** ** Enumerations (lines 1847-2105) *)

Definition formatDayNightValue (b : bool) : string := if b then "Day" else "Night".

Definition getCo2SensorRangeFromBool (bol : bool) : string := if bol then "5000" else "2000".

Definition getBoolFromCo2SensorRange (str : string) : bool := String.eqb str "5000".

Definition getPHMode (bol : bool) : string := if bol then doserRaise else doserLower.

Definition getBoolFromPHMode (str : string) : bool := String.eqb str doserRaise.

Definition getPhDosingModeByBool (bolHi bolLo : bool) : string :=
  if bolHi && bolLo then doserModeBoth
  else if bolHi then doserRaise
  else if bolLo then doserLower
  else doserModeNone.

Definition getPhDosingBoolByString (mode : string) : bool * bool :=
  if String.eqb mode doserModeBoth then (true, true)
  else if String.eqb mode doserRaise then (true, false)
  else if String.eqb mode doserLower then (false, true)
  else (false, false).

Definition getLightBoxTextByInt (mode : Z) : string :=
  match mode with
  | 0 => doserModeNone | 1 => "1" | 2 => "2" | 3 => "alt" | 4 => doserModeBoth
  | _ => "error"
  end.

Definition getLightBoxModeToInt (mode : string) : Z :=
  if String.eqb mode doserModeNone then 0
  else if String.eqb mode "1" then 1
  else if String.eqb mode "2" then 2
  else if String.eqb mode "alt" then 3
  else if String.eqb mode doserModeBoth then 4
  else 99.

Definition getIrrigationMode (sequential independent : bool) : string :=
  if sequential && independent then irrigationModeSequential
  else if independent then irrigationModeIndependent
  else irrigationModeSingle.

Definition getIrrigationStationConfiguration (irrigateTOD irrigateDayOnly : bool) : string :=
  if irrigateDayOnly then irrigationModeDuringDayOnly
  else if irrigateTOD then irrigationModeSameTime
  else irrigationModeDayNight.

(** Returns [(irrigateTOD, irrigateDayOnly)]. *)
Definition getIrrigationStationConfigurationByString (mode : string) : bool * bool :=
  let irrigateDayOnly := String.eqb mode irrigationModeDuringDayOnly in
  let irrigateTOD := String.eqb mode irrigationModeSameTime in
  (irrigateTOD, irrigateDayOnly).

Definition isUSADateFormat (df : string) : bool := String.eqb df dateFormatUSA.

Definition getDateFormat (usaDateFormat : bool) : string :=
  if usaDateFormat then dateFormatUSA else dateFormat.

Definition isTemperatureF (temperature : string) : bool := String.eqb temperature temperatureF.

Definition getTemperatureF (temperature : bool) : string :=
  if temperature then temperatureF else temperatureC.

Definition getNutrientConfig (nutConfL nutConfH : bool) : string :=
  if nutConfL then nutrientConfigCF
  else if nutConfH then nutrientConfigTDS
  else nutrientConfigEC.

(** Returns [(nutConfH, nutConfL)]. *)
Definition isNutrientConfig (nutConf : string) : bool * bool :=
  if String.eqb nutConf nutrientConfigCF then (false, true)
  else if String.eqb nutConf nutrientConfigTDS then (true, false)
  else (false, false).

(** Returns [(purge, ac)]. *)
Definition isDehumidifyBy (nutConf : string) : bool * bool :=
  if String.eqb nutConf dehumidifyAirCon then (false, true)
  else if String.eqb nutConf dehumidifyPurge then (true, false)
  else (false, false).

Definition getDehumidifyBy (purge ac : bool) : string :=
  if purge then dehumidifyPurge
  else if ac then dehumidifyAirCon
  else dehumidifyNone.

(** ** Exhaustive checks over every byte *)

Definition getBoolFromByte_check : bool :=
  forall_byte (fun b => forallb (fun bit =>
    Bool.eqb (getBoolFromByte b bit) (Z.testbit (uz b) (7 - Z.of_nat bit))) (seq 0 8)).

Definition updateByte_check : bool :=
  forall_byte (fun b => forallb (fun pos => forallb (fun v =>
    Byte.eqb (updateByte b v pos) (encoding.SetBit b (7 - pos) v)) [true; false]) (seq 0 8)).

(** ** Lemmas *)

Lemma getBoolFromByte_check_ok : getBoolFromByte_check = true.
Proof. vm_compute. reflexivity. Qed.

Lemma updateByte_check_ok : updateByte_check = true.
Proof. vm_compute. reflexivity. Qed.

(** [getBoolFromByte b bit] is bit [7 - bit] of [b]: bit 0 is the most
    significant. *)
Lemma getBoolFromByte_spec (b : byte) (bit : nat) :
  (bit < 8)%nat -> getBoolFromByte b bit = Z.testbit (uz b) (7 - Z.of_nat bit).
Proof.
  intros Hb. pose proof (forall_byte_spec _ getBoolFromByte_check_ok b) as H.
  rewrite forallb_forall in H. apply Bool.eqb_prop, H, in_seq. lia.
Qed.

(** [updateByte b v pos] is [encoding.SetBit b (7 - pos) v]: the string editing
    sets the bit that [getBoolFromByte _ pos] reads. *)
Lemma updateByte_SetBit (b : byte) (v : bool) (pos : nat) :
  (pos < 8)%nat -> updateByte b v pos = encoding.SetBit b (7 - pos) v.
Proof.
  intros Hp. pose proof (forall_byte_spec _ updateByte_check_ok b) as H.
  rewrite forallb_forall in H. specialize (H pos ltac:(apply in_seq; lia)).
  apply Byte.byte_dec_bl. destruct v; simpl in H;
    [apply andb_prop in H as [H _] | apply andb_prop in H as [_ H]; apply andb_prop in H as [H _]];
    exact H.
Qed.

Lemma getBoolFromByte_updateByte (b : byte) (v : bool) (p q : nat) :
  (p < 8)%nat -> (q < 8)%nat ->
  getBoolFromByte (updateByte b v p) q = if Nat.eqb p q then v else getBoolFromByte b q.
Proof.
  intros Hp Hq. rewrite updateByte_SetBit, !getBoolFromByte_spec by lia.
  rewrite encoding.testbit_SetBit by lia.
  destruct (Z.eqb_spec (7 - Z.of_nat q) (Z.of_nat (7 - p)));
    destruct (Nat.eqb_spec p q); try lia; reflexivity.
Qed.

(** Writing back the bit just read changes nothing. *)
Lemma updateByte_getBoolFromByte (b : byte) (p : nat) :
  (p < 8)%nat -> updateByte b (getBoolFromByte b p) p = b.
Proof.
  intros Hp. apply encoding.byte_bits_ext. intros j Hj.
  rewrite updateByte_SetBit, encoding.testbit_SetBit, getBoolFromByte_spec by lia.
  destruct (Z.eqb_spec j (Z.of_nat (7 - p))) as [->|]; [f_equal; lia | reflexivity].
Qed.

(** C29. Bit-numbering duality: [ComposeByte] (least significant first) and
    [getBoolFromByte] (most significant first) address the same bit when the
    position is mirrored, [getBoolFromByte (ComposeByte p0 .. p7) (7 - i) = p_i]. *)
Theorem getBoolFromByte_ComposeByte p0 p1 p2 p3 p4 p5 p6 p7 (i : nat) :
  (i < 8)%nat ->
  getBoolFromByte (encoding.ComposeByte p0 p1 p2 p3 p4 p5 p6 p7) (7 - i) =
    nth i [p0; p1; p2; p3; p4; p5; p6; p7] false.
Proof.
  intros Hi. rewrite getBoolFromByte_spec by lia.
  replace (7 - Z.of_nat (7 - i)) with (Z.of_nat i) by lia.
  apply encoding.testbit_ComposeByte; exact Hi.
Qed.

(** The same read at an unmirrored position, as the decoders index it. *)
Lemma getBoolFromByte_ComposeByte_at p0 p1 p2 p3 p4 p5 p6 p7 (k : nat) :
  (k < 8)%nat ->
  getBoolFromByte (encoding.ComposeByte p0 p1 p2 p3 p4 p5 p6 p7) k =
    nth (7 - k) [p0; p1; p2; p3; p4; p5; p6; p7] false.
Proof.
  intros Hk. rewrite getBoolFromByte_spec by lia.
  replace (7 - Z.of_nat k) with (Z.of_nat (7 - k)) by lia.
  apply encoding.testbit_ComposeByte; lia.
Qed.

(** ** Enumerations decode what they encode

    Each string enumeration of the shadow is produced from bits by a
    [get...] function and read back by an [is...]/[...ByString] function
    when a shadow is written.  These lemmas state the composite on every
    combination of bits; the ones that are not the identity show which bit
    patterns the code normalises. *)

Ltac enum_cases := repeat match goal with b : bool |- _ => destruct b end; reflexivity.

Lemma getPhDosingBoolByString_getPhDosingModeByBool hi lo :
  getPhDosingBoolByString (getPhDosingModeByBool hi lo) = (hi, lo).
Proof. enum_cases. Qed.

Lemma getBoolFromPHMode_getPHMode b : getBoolFromPHMode (getPHMode b) = b.
Proof. enum_cases. Qed.

Lemma isUSADateFormat_getDateFormat b : isUSADateFormat (getDateFormat b) = b.
Proof. enum_cases. Qed.

Lemma isTemperatureF_getTemperatureF b : isTemperatureF (getTemperatureF b) = b.
Proof. enum_cases. Qed.

(** The two configuration bits with both set read back as [(false, true)]:
    [getNutrientConfig] gives ["CF"] priority over ["TDS"]. *)
Lemma isNutrientConfig_getNutrientConfig l h :
  isNutrientConfig (getNutrientConfig l h) = (negb l && h, l).
Proof. enum_cases. Qed.

Lemma getNutrientConfig_normalise l h : getNutrientConfig l (negb l && h) = getNutrientConfig l h.
Proof. enum_cases. Qed.

(** The same for a station: the day-only bit hides the time-of-day bit. *)
Lemma getIrrigationStationConfigurationByString_get t d :
  getIrrigationStationConfigurationByString (getIrrigationStationConfiguration t d) = (negb d && t, d).
Proof. enum_cases. Qed.

Lemma getIrrigationStationConfiguration_normalise t d :
  getIrrigationStationConfiguration (negb d && t) d = getIrrigationStationConfiguration t d.
Proof. enum_cases. Qed.

Lemma getIrrigationMode_independent s i :
  String.eqb (getIrrigationMode s i) irrigationModeIndependent = i && negb s.
Proof. enum_cases. Qed.

Lemma getIrrigationMode_sequential s i :
  String.eqb (getIrrigationMode s i) irrigationModeSequential = s && i.
Proof. enum_cases. Qed.

(** The two flags the IntelliDose encoder derives from the mode string
    (irrigationIndepended, irrigationSequential) give the mode back. *)
Lemma getIrrigationMode_flags s i :
  getIrrigationMode (if i && negb s then false else if s && i then true else false)
                    (if i && negb s then true else if s && i then true else false) = getIrrigationMode s i.
Proof. enum_cases. Qed.

(** The encoder takes station 1's status from the ["irrigation"] entry
    exactly when the two flags agree, i.e. unless the mode is independent. *)
Lemma irrigation_flags_agree s i :
  Bool.eqb (if i && negb s then true else if s && i then true else false)
           (if i && negb s then false else if s && i then true else false) = negb i || s.
Proof. enum_cases. Qed.

Lemma getDefaultValue_idem b d :
  Byte.eqb d Byte.x00 = false -> getDefaultValue (getDefaultValue b d) d = getDefaultValue b d.
Proof.
  unfold getDefaultValue. intros Hd.
  destruct (Byte.eqb b Byte.x00) eqn:E; [rewrite Hd | rewrite E]; reflexivity.
Qed.

(** The IntelliClimate enumerations.  Both dehumidify bits set read back
    as purge only: [getDehumidifyBy] gives the purge bit priority. *)
Lemma getBoolFromCo2SensorRange_getCo2SensorRangeFromBool b :
  getBoolFromCo2SensorRange (getCo2SensorRangeFromBool b) = b.
Proof. enum_cases. Qed.

Lemma isDehumidifyBy_getDehumidifyBy p a : isDehumidifyBy (getDehumidifyBy p a) = (p, negb p && a).
Proof. enum_cases. Qed.

Lemma getDehumidifyBy_normalise p a : getDehumidifyBy p (negb p && a) = getDehumidifyBy p a.
Proof. enum_cases. Qed.

(** A light-box byte written back as [byte(getLightBoxModeToInt(text))]
    reads as the same text: the five known modes are their own codes, and
    every other byte reads ["error"], which is written as 99. *)
Lemma getLightBoxTextByInt_byte (b : byte) :
  getLightBoxTextByInt (uz (u8 (getLightBoxModeToInt (getLightBoxTextByInt (uz b))))) = getLightBoxTextByInt (uz b).
Proof.
  assert (H : forall_byte (fun b => String.eqb
    (getLightBoxTextByInt (uz (u8 (getLightBoxModeToInt (getLightBoxTextByInt (uz b))))))
    (getLightBoxTextByInt (uz b))) = true) by (vm_compute; reflexivity).
  exact (proj1 (String.eqb_eq _ _) (forall_byte_spec _ H b)).
Qed.

#[export] Hint Rewrite getPhDosingBoolByString_getPhDosingModeByBool getBoolFromPHMode_getPHMode
  isUSADateFormat_getDateFormat isTemperatureF_getTemperatureF isNutrientConfig_getNutrientConfig
  getIrrigationStationConfigurationByString_get getNutrientConfig_normalise
  getIrrigationStationConfiguration_normalise getIrrigationMode_flags : codec.

(** ** Sixteen-bit fields *)

Lemma getFloatFrom2Bytes_range (l h : byte) : 0 <= getFloatFrom2Bytes l h < 65536.
Proof. unfold getFloatFrom2Bytes. pose proof (uz_range l). pose proof (uz_range h). lia. Qed.

(** Encoding [byte(x), byte(x >> 8)] and decoding gives [x] modulo [2^16]. *)
Lemma getFloatFrom2Bytes_split (x : Z) :
  getFloatFrom2Bytes (u8 (Z.shiftr x 8)) (u8 x) = x mod 65536.
Proof.
  pose proof (encoding.UnsignedIntToBytes_recombine x) as H.
  unfold encoding.UnsignedIntToBytes in H. unfold getFloatFrom2Bytes. lia.
Qed.

(** Decoding then encoding gives the two bytes back. *)
Lemma split_getFloatFrom2Bytes (l h : byte) :
  u8 (getFloatFrom2Bytes l h) = h /\ u8 (Z.shiftr (getFloatFrom2Bytes l h) 8) = l.
Proof.
  unfold getFloatFrom2Bytes. pose proof (uz_range l). pose proof (uz_range h).
  split; apply uz_inj; rewrite uz_u8.
  - rewrite Z.add_comm, Z.mod_add by lia. apply Z.mod_small; lia.
  - rewrite Z.shiftr_div_pow2 by lia. change (2 ^ 8) with 256.
    rewrite Z.div_add_l by lia. rewrite (Z.div_small (uz h)) by lia.
    rewrite Z.add_0_r. apply Z.mod_small; lia.
Qed.

Lemma u8_getFloatFrom2Bytes (l h : byte) : u8 (getFloatFrom2Bytes l h) = h.
Proof. apply split_getFloatFrom2Bytes. Qed.

Lemma u8_shiftr_getFloatFrom2Bytes (l h : byte) : u8 (Z.shiftr (getFloatFrom2Bytes l h) 8) = l.
Proof. apply split_getFloatFrom2Bytes. Qed.

#[export] Hint Rewrite u8_getFloatFrom2Bytes u8_shiftr_getFloatFrom2Bytes : codec.

(** A signed field decodes to a 16-bit two's complement
    value: [-32768 <= v < 32768]. *)
Lemma getSignedFloatFrom2Bytes_range (l h : byte) :
  -32768 <= getSignedFloatFrom2Bytes l h < 32768.
Proof.
  unfold getSignedFloatFrom2Bytes, int16_of_uint16.
  pose proof (Z.mod_pos_bound (uz h + (uz l * 256) mod 65536) 65536 ltac:(lia)).
  destruct (Z.ltb_spec (( uz h + (uz l * 256) mod 65536) mod 65536) 32768); lia.
Qed.

(** The signed decoder reads the same sixteen bits as the unsigned one. *)
Lemma getSignedFloatFrom2Bytes_unsigned (l h : byte) :
  getSignedFloatFrom2Bytes l h = int16_of_uint16 (getFloatFrom2Bytes l h).
Proof.
  unfold getSignedFloatFrom2Bytes, getFloatFrom2Bytes. f_equal.
  pose proof (uz_range l). pose proof (uz_range h).
  rewrite (Z.mod_small (uz l * 256)) by lia. rewrite Z.mod_small by lia. lia.
Qed.

Lemma int16_of_uint16_mod (x : Z) : 0 <= x < 65536 -> int16_of_uint16 x mod 65536 = x.
Proof.
  intros Hx. unfold int16_of_uint16. destruct (Z.ltb_spec x 32768).
  - apply Z.mod_small. lia.
  - replace (x - 65536) with (x + (-1) * 65536) by lia. rewrite Z.mod_add by lia.
    apply Z.mod_small. lia.
Qed.

(** Decoding a signed field then encoding it with [byte(x & 0xff),
    byte(x >> 8)] gives the two bytes back. *)
Lemma split_getSignedFloatFrom2Bytes (l h : byte) :
  u8 (Z.land (getSignedFloatFrom2Bytes l h) 255) = h /\ u8 (Z.shiftr (getSignedFloatFrom2Bytes l h) 8) = l.
Proof.
  rewrite getSignedFloatFrom2Bytes_unsigned.
  pose proof (getFloatFrom2Bytes_range l h) as Hr.
  pose proof (split_getFloatFrom2Bytes l h) as [E1 E2].
  remember (getFloatFrom2Bytes l h) as x eqn:Ex. clear Ex.
  change 255 with (Z.ones 8). rewrite Z.land_ones by lia. rewrite u8_mod.
  split.
  - apply uz_inj. rewrite <- E1, !uz_u8. unfold int16_of_uint16.
    destruct (Z.ltb_spec x 32768); [reflexivity|].
    replace (x - 65536) with (x + (-256) * 256) by lia. apply Z.mod_add. lia.
  - rewrite <- E2. apply uz_inj. rewrite !uz_u8, !Z.shiftr_div_pow2 by lia.
    change (2 ^ 8) with 256. unfold int16_of_uint16.
    destruct (Z.ltb_spec x 32768); [reflexivity|].
    replace (x - 65536) with (x + (-256) * 256) by lia.
    rewrite Z.div_add by lia.
    replace (x / 256 + -256) with (x / 256 + (-1) * 256) by lia. rewrite Z.mod_add; lia.
Qed.

(** Both two-byte decoders take the high byte first:
    [getFloatFrom2Bytes 0x03 0xE8] is 1000 and [getFloatFrom2Bytes 0xE8
    0x03] is 59395 (scenario 2 of the specification reads [(0xE8, 0x03)]
    as 1000), and [getSignedFloatFrom2Bytes 0x34 0xFF] is 13567 while
    [getSignedFloatFrom2Bytes 0xFF 0x34] is -204 (scenario 3 expects -204
    from [(0x34, 0xFF)]). *)
Theorem two_byte_order_scenarios :
  getFloatFrom2Bytes Byte.x03 Byte.xe8 = 1000 /\ getFloatFrom2Bytes Byte.xe8 Byte.x03 = 59395 /\
  getSignedFloatFrom2Bytes Byte.x34 Byte.xff = 13567 /\ getSignedFloatFrom2Bytes Byte.xff Byte.x34 = -204.
Proof. repeat split. Qed.

(** ** Witnesses *)

(** Scenario 1 of the specification: [ComposeByte] of
    [true,false,true,false,false,false,false,true] is [0x85], and its bit
    read at [7 - 0] is [pos0]. *)
Lemma getBoolFromByte_ComposeByte_witness :
  encoding.ComposeByte true false true false false false false true = Byte.x85 /\
  getBoolFromByte (encoding.ComposeByte true false true false false false false true) (7 - 0) =
    nth 0 [true; false; true; false; false; false; false; true] false.
Proof. split; [reflexivity | apply getBoolFromByte_ComposeByte; lia]. Defined.

Lemma updateByte_getBoolFromByte_witness : updateByte Byte.x85 (getBoolFromByte Byte.x85 3) 3 = Byte.x85.
Proof. apply updateByte_getBoolFromByte. lia. Defined.

End Bits.
