(* ===== verification/Crc.v ===== *)
(** * CRC of the frames: [createCheckSum] and the read-request templates

    [createCheckSum] ([device_interrogator.go], lines 1854-1860) computes
    [crc.CalculateCRC(crc.CRC16, bytes[:len-2])] with the
    [github.com/snksoft/crc] package and stores the low byte at offset 62
    and the high byte at offset 63.  The package is not part of this
    repository: [Parameters], [CalculateCRC], [CRC16] and [CCITT] are the
    textbook parameterised CRC of that package (width, polynomial, initial
    value, input/output reflection, final xor), with the two parameter sets
    it predefines under those names.  The four literal request templates
    [d0Request] .. [d3Request] (lines 73-117) check this choice: their
    trailing bytes are the CRC16 (CRC-16/ARC) of their payload, not the
    CRC-16/CCITT the specification names. *)

From S2P Require Import Prelude Bits.

Open Scope Z_scope.
Open Scope intelli_scope.

Module Crc.

Record Parameters := {
  Width : Z; Polynomial : Z; ReflectIn : bool; ReflectOut : bool; Init : Z; FinalXor : Z }.

(** [crc.CRC16]: CRC-16/ARC. *)
Definition CRC16 : Parameters :=
  {| Width := 16; Polynomial := 32773 (* 0x8005 *); ReflectIn := true; ReflectOut := true;
     Init := 0; FinalXor := 0 |}.

(** [crc.CCITT]: CRC-16/CCITT-FALSE, the variant the specification names. *)
Definition CCITT : Parameters :=
  {| Width := 16; Polynomial := 4129 (* 0x1021 *); ReflectIn := false; ReflectOut := false;
     Init := 65535; FinalXor := 0 |}.

(** The [w] low bits of [x] in reverse order. *)
Fixpoint reflect_acc (x : Z) (w : nat) (acc : Z) : Z :=
  match w with
  | O => acc
  | S k => reflect_acc (x / 2) k (2 * acc + x mod 2)
  end.

Definition reflect (x : Z) (w : nat) : Z := reflect_acc x w 0.

(** One input bit: shift left, xor the polynomial when the top bit falls
    out, keep [Width] bits. *)
Definition crc_bit (p : Parameters) (crc : Z) : Z :=
  let top := Z.testbit crc (Width p - 1) in
  let crc := Z.shiftl crc 1 in
  Z.land (if top then Z.lxor crc (Polynomial p) else crc) (Z.ones (Width p)).

Definition crc_byte (p : Parameters) (crc : Z) (b : byte) : Z :=
  let v := if ReflectIn p then reflect (uz b) 8 else uz b in
  let crc := Z.lxor crc (Z.shiftl v (Width p - 8)) in
  Nat.iter 8 (crc_bit p) crc.

(** [crc.CalculateCRC(crcParams, data)] *)
Definition CalculateCRC (p : Parameters) (data : list byte) : Z :=
  let crc := fold_left (crc_byte p) data (Init p) in
  let crc := if ReflectOut p then reflect crc (Z.to_nat (Width p)) else crc in
  Z.lxor crc (FinalXor p).

(** [func createCheckSum(bytes *[]byte)] *)
Definition createCheckSum (bytes : frame) : frame :=
  let ccittCrc := CalculateCRC CRC16 (firstn (length bytes - 2) bytes) in
  let h := u8 ccittCrc in
  let l := u8 (Z.shiftr ccittCrc 8) in
  upd (upd bytes 62 h) 63 l.

(** The read requests: report id 0, then ["D0"] .. ["D3"], zero padding and
    the CRC of the 62 payload bytes, 65 bytes in all. *)
Definition read_request (cmd lo hi : byte) : frame :=
  [Byte.x00; Byte.x44; cmd] ++ repeat Byte.x00 60 ++ [lo; hi].

Definition d0Request : frame := read_request Byte.x30 Byte.x7c Byte.x54.
Definition d1Request : frame := read_request Byte.x31 Byte.x81 Byte.x94.
Definition d2Request : frame := read_request Byte.x32 Byte.x85 Byte.x95.
Definition d3Request : frame := read_request Byte.x33 Byte.x78 Byte.x55.

(** The CRC stored in a 64-byte payload is correct. *)
Definition crc_ok (payload : frame) : bool :=
  Z.eqb (CalculateCRC CRC16 (firstn 62 payload))
        (Bits.getFloatFrom2Bytes (idx payload 63) (idx payload 62)).

(** ** Lemmas *)

Lemma reflect_acc_range x w acc n :
  0 <= n -> 0 <= acc < 2 ^ n -> 0 <= reflect_acc x w acc < 2 ^ (n + Z.of_nat w).
Proof.
  revert x acc n; induction w as [|w IH]; intros x acc n Hn Hacc; cbn [reflect_acc].
  - rewrite Nat2Z.inj_0, Z.add_0_r. exact Hacc.
  - replace (n + Z.of_nat (S w)) with ((n + 1) + Z.of_nat w) by lia.
    apply IH; [lia|]. rewrite Z.pow_add_r, Z.pow_1_r by lia.
    pose proof (Z.mod_pos_bound x 2 ltac:(lia)). lia.
Qed.

Lemma reflect_range x w : 0 <= reflect x w < 2 ^ Z.of_nat w.
Proof. unfold reflect. apply (reflect_acc_range x w 0 0); lia. Qed.

Lemma CalculateCRC16_range data : 0 <= CalculateCRC CRC16 data < 65536.
Proof.
  unfold CalculateCRC. cbn [ReflectOut CRC16 FinalXor Width].
  rewrite Z.lxor_0_r. apply (reflect_range _ 16).
Qed.

(** The four literal read requests are 65 bytes long (report id and a
    64-byte payload) and each payload carries the CRC16 of its first 62
    bytes at offsets 62 and 63 (the specification's scenario 4). *)
Theorem read_requests_crc :
  Forall (fun r => length r = 65%nat /\ crc_ok (tl r) = true)
    [d0Request; d1Request; d2Request; d3Request].
Proof. repeat constructor; vm_compute; reflexivity. Qed.

(** The checksum is CRC-16/ARC ([crc.CRC16]), not CRC-16/CCITT: the
    CCITT parameters do not reproduce the D0 template's [0x547C]. *)
Theorem d0Request_crc_is_not_ccitt :
  CalculateCRC CRC16 (firstn 62 (tl d0Request)) = 21628 /\
  CalculateCRC CCITT (firstn 62 (tl d0Request)) <> 21628.
Proof. split; vm_compute; [reflexivity | discriminate]. Qed.

(** CRC closure: after [createCheckSum] a 64-byte frame keeps its first
    62 bytes and carries their CRC16 at offsets 62 (low) and 63 (high). *)
Theorem createCheckSum_ok (f : frame) :
  length f = 64%nat ->
  length (createCheckSum f) = 64%nat /\
  firstn 62 (createCheckSum f) = firstn 62 f /\
  crc_ok (createCheckSum f) = true.
Proof.
  intros Hf. unfold createCheckSum, crc_ok. rewrite Hf.
  change (64 - 2)%nat with 62%nat.
  pose proof (CalculateCRC16_range (firstn 62 f)) as Hr.
  set (c := CalculateCRC CRC16 (firstn 62 f)).
  rewrite !length_upd, !firstn_upd_ge by lia. split; [exact Hf|]. split; [reflexivity|].
  rewrite idx_upd_eq by (rewrite length_upd; lia).
  rewrite idx_upd_neq by lia. rewrite idx_upd_eq by lia.
  rewrite Bits.getFloatFrom2Bytes_split, Z.mod_small by lia. apply Z.eqb_refl.
Qed.

(** The frame an encoder returns: a 64-byte frame overwritten by its
    writes, then checksummed, is 64 bytes long with a valid CRC. *)
Lemma createCheckSum_exec_writes (f : frame) (ws : list write) :
  length f = 64%nat ->
  length (createCheckSum (exec_writes f ws)) = 64%nat /\ crc_ok (createCheckSum (exec_writes f ws)) = true.
Proof.
  intros Hf. rewrite <- (length_exec_writes f ws) in Hf.
  destruct (createCheckSum_ok _ Hf) as [H1 [_ H2]]. split; assumption.
Qed.

(** Proves [length bytes = 64 -> E = Some s -> length s = 64 /\ crc_ok s = true]
    for an unfolded encoder [E]: past its guards, [E] returns the
    checksummed frame. *)
Ltac encoder_frame :=
  let Hl := fresh "Hl" in
  intros Hl;
  repeat match goal with
  | |- context [if negb ?g then None else _] => destruct (negb g); [discriminate|]
  | |- context [match ?l with [] => None | _ :: _ => _ end] => destruct l; [discriminate|]
  end;
  lazymatch goal with
  | |- Some (createCheckSum (exec_writes ?b ?ws)) = Some _ -> _ =>
      generalize ws; let w := fresh "ws" in intros w [= <-]; exact (createCheckSum_exec_writes b w Hl)
  end.

End Crc.
