(* ===== verification/Scalars.v ===== *)
(** * Scaled scalar fields: decode, encode, decode again

    The decoder turns a raw byte or 16-bit value into a [float64] with
    [prepareByte] / [prepareInt] (divide, then round to [n] decimals); the
    encoder multiplies back and truncates ([int(x * 100)]), then splits the
    result into bytes.  Each lemma here is one such field codec, decided on
    every byte or every pair of bytes by an exhaustive check; the frame
    round trips of the device files are assembled from them. *)

From Stdlib Require Import Floats.
From S2P Require Import Prelude GoFloat Bits.

Open Scope Z_scope.
Import Bits.

(** Every pair of bytes. *)
Definition forall_byte2 (p : byte -> byte -> bool) : bool :=
  forall_byte (fun l => forall_byte (fun h => p l h)).

(** Unsigned 16-bit field, [n] decimals after dividing by [d], written back
    as [int(v * d)]: decoding the written bytes gives [v] again. *)
Definition u16_scaled_stable (n d : Z) (l h : byte) : bool :=
  let v := prepareInt (getFloatFrom2Bytes l h) n d in
  let e := int_of_float (PrimFloat.mul v (float64_of_int d)) in
  feq (prepareInt (getFloatFrom2Bytes (u8 (Z.shiftr e 8)) (u8 e)) n d) v.

(** The byte codecs: pH ([prepareByte(b, 1, 10)], written back as
    [byte(int(v * 10))]) and EC ([prepareByte(b, 1, 1) * 10], written back
    as [byte(int(v / 10))]). *)
Definition byte_codecs_ok (b : byte) : bool :=
  Byte.eqb (u8 (int_of_float (PrimFloat.mul (prepareByte b 1 10) (float64_of_int 10)))) b &&
  Byte.eqb (u8 (int_of_float (PrimFloat.div (PrimFloat.mul (prepareByte b 1 1) (float64_of_int 10))
                                            (float64_of_int 10)))) b.

(** The 16-bit codecs: integers ([prepareInt(x, 0, 1)] back through
    [int(v)]) and hundredths rounded to one decimal, except at 65535. *)
Definition u16_codecs_ok (l h : byte) : bool :=
  Z.eqb (int_of_float (prepareInt (getFloatFrom2Bytes l h) 0 1)) (getFloatFrom2Bytes l h) &&
  (Z.eqb (getFloatFrom2Bytes l h) 65535 || u16_scaled_stable 1 100 l h).

Lemma u16_scaled_stable_eq n d l h :
  u16_scaled_stable n d l h =
  feq (prepareInt (getFloatFrom2Bytes
         (u8 (Z.shiftr (int_of_float (PrimFloat.mul (prepareInt (getFloatFrom2Bytes l h) n d) (float64_of_int d))) 8))
         (u8 (int_of_float (PrimFloat.mul (prepareInt (getFloatFrom2Bytes l h) n d) (float64_of_int d))))) n d)
      (prepareInt (getFloatFrom2Bytes l h) n d).
Proof. reflexivity. Qed.

Lemma forall_byte2_spec p : forall_byte2 p = true -> forall l h, p l h = true.
Proof.
  intros H l h. apply (forall_byte_spec _ (forall_byte_spec _ H l) h).
Qed.

Lemma byte_codecs_all : forall_byte byte_codecs_ok = true.
Proof. vm_compute. reflexivity. Qed.

Lemma u16_codecs_all : forall_byte2 u16_codecs_ok = true.
Proof. vm_compute. reflexivity. Qed.

(** A byte scaled by 1/10 to one decimal ([pH] limits and set point) is
    written back exactly by [byte(int(v * 10))]. *)
Lemma prepareByte_1_10_codec (b : byte) :
  u8 (int_of_float (PrimFloat.mul (prepareByte b 1 10) (float64_of_int 10))) = b.
Proof.
  pose proof (forall_byte_spec byte_codecs_ok byte_codecs_all b) as H.
  unfold byte_codecs_ok in H. apply andb_prop in H as [H _]. exact (Byte.byte_dec_bl _ _ H).
Qed.

(** An EC limit, decoded as [prepareByte(b, 1, 1) * 10], is written back
    exactly by [byte(int(v / 10))]. *)
Lemma prepareByte_ec_codec (b : byte) :
  u8 (int_of_float (PrimFloat.div (PrimFloat.mul (prepareByte b 1 1) (float64_of_int 10)) (float64_of_int 10))) = b.
Proof.
  pose proof (forall_byte_spec byte_codecs_ok byte_codecs_all b) as H.
  unfold byte_codecs_ok in H. apply andb_prop in H as [_ H]. exact (Byte.byte_dec_bl _ _ H).
Qed.

(** An unsigned 16-bit integer field ([prepareInt(x, 0, 1)]) converts back
    to the same integer. *)
Lemma prepareInt_0_1_int (l h : byte) :
  int_of_float (prepareInt (getFloatFrom2Bytes l h) 0 1) = getFloatFrom2Bytes l h.
Proof.
  pose proof (forall_byte2_spec u16_codecs_ok u16_codecs_all l h) as H.
  unfold u16_codecs_ok in H. apply andb_prop in H as [H _]. exact (proj1 (Z.eqb_eq _ _) H).
Qed.

(** A 16-bit field scaled by 1/100 to one decimal is stable under
    encode-decode, except for the raw value 65535. *)
Lemma prepareInt_1_100_stable (l h : byte) :
  getFloatFrom2Bytes l h <> 65535 -> u16_scaled_stable 1 100 l h = true.
Proof.
  intros Hne. pose proof (forall_byte2_spec u16_codecs_ok u16_codecs_all l h) as H.
  unfold u16_codecs_ok in H. apply andb_prop in H as [_ H].
  apply orb_prop in H as [H|H]; [apply Z.eqb_eq in H; contradiction | exact H].
Qed.

(** The same fact in the form the round trip meets it: a field with raw
    value other than 65535, decoded as [prepareInt(x, 1, 100)], encoded by
    [int(v * 100)] split into two bytes and decoded again, is unchanged. *)
Lemma prepareInt_1_100_codec (l h : byte) :
  getFloatFrom2Bytes l h <> 65535 ->
  prepareInt (getFloatFrom2Bytes
     (u8 (Z.shiftr (int_of_float (PrimFloat.mul (prepareInt (getFloatFrom2Bytes l h) 1 100) (float64_of_int 100))) 8))
     (u8 (int_of_float (PrimFloat.mul (prepareInt (getFloatFrom2Bytes l h) 1 100) (float64_of_int 100))))) 1 100
  = prepareInt (getFloatFrom2Bytes l h) 1 100.
Proof.
  intros Hn. pose proof (prepareInt_1_100_stable l h Hn) as Hs.
  rewrite u16_scaled_stable_eq in Hs. apply feq_spec in Hs. exact Hs.
Qed.

(** ** The IntelliClimate fields *)

(** The exceptions of the hundredths fields, as tests on the raw bytes: an
    unsigned field other than 65535, a signed field more than 3 away from
    the ends of [int16]. *)
Definition u16_scaled_regular (l h : byte) : bool := negb (Z.eqb (getFloatFrom2Bytes l h) 65535).
Definition s16_scaled_regular (l h : byte) : bool := Z.abs (getSignedFloatFrom2Bytes l h) <? 32765.

(** A signed field in hundredths ([prepareInt(x, 1, 100)] of
    [getSignedFloatFrom2Bytes]) written back as [int(v * 100)] split by
    [& 0xff] and [>> 8] decodes to [v] again. *)
Definition s16_scaled_stable (l h : byte) : bool :=
  let v := prepareInt (getSignedFloatFrom2Bytes l h) 1 100 in
  let e := int_of_float (PrimFloat.mul v (float64_of_int 100)) in
  feq (prepareInt (getSignedFloatFrom2Bytes (u8 (Z.shiftr e 8)) (u8 (Z.land e 255))) 1 100) v.

(** [SwAllExhaustFans] is decoded in hundredths but written back as
    [int(v)], without the factor 100; it decodes to [v] again only when
    [v] is 0. *)
Definition swAll_stable (l h : byte) : bool :=
  let v := prepareInt (getFloatFrom2Bytes l h) 1 100 in
  let e := int_of_float v in
  feq (prepareInt (getFloatFrom2Bytes (u8 (Z.shiftr e 8)) (u8 e)) 1 100) v.

(** The 16-bit codecs of the IntelliClimate: integers through
    [prepareInt(x, 1, 1)], unsigned and signed; signed hundredths away
    from the ends; [SwAllExhaustFans] below 5. *)
Definition climate_codecs_ok (l h : byte) : bool :=
  Z.eqb (int_of_float (prepareInt (getFloatFrom2Bytes l h) 1 1)) (getFloatFrom2Bytes l h) &&
  Z.eqb (getSignedFloatFrom2Bytes
           (u8 (Z.shiftr (int_of_float (prepareInt (getSignedFloatFrom2Bytes l h) 1 1)) 8))
           (u8 (Z.land (int_of_float (prepareInt (getSignedFloatFrom2Bytes l h) 1 1)) 255)))
        (getSignedFloatFrom2Bytes l h) &&
  (negb (s16_scaled_regular l h) || s16_scaled_stable l h) &&
  ((5 <=? getFloatFrom2Bytes l h) || swAll_stable l h).

(** A CO2 limit, decoded as [prepareByte(b, 0, 1) * 25], is written back
    exactly by [byte(int(v / 25))]. *)
Definition co2_codec_ok (b : byte) : bool :=
  Byte.eqb (u8 (int_of_float (PrimFloat.div (PrimFloat.mul (prepareByte b 0 1) (float64_of_int 25))
                                            (float64_of_int 25)))) b.

Lemma s16_scaled_stable_eq l h :
  s16_scaled_stable l h =
  feq (prepareInt (getSignedFloatFrom2Bytes
         (u8 (Z.shiftr (int_of_float (PrimFloat.mul (prepareInt (getSignedFloatFrom2Bytes l h) 1 100) (float64_of_int 100))) 8))
         (u8 (Z.land (int_of_float (PrimFloat.mul (prepareInt (getSignedFloatFrom2Bytes l h) 1 100) (float64_of_int 100))) 255))) 1 100)
      (prepareInt (getSignedFloatFrom2Bytes l h) 1 100).
Proof. reflexivity. Qed.

Lemma swAll_stable_eq l h :
  swAll_stable l h =
  feq (prepareInt (getFloatFrom2Bytes
         (u8 (Z.shiftr (int_of_float (prepareInt (getFloatFrom2Bytes l h) 1 100)) 8))
         (u8 (int_of_float (prepareInt (getFloatFrom2Bytes l h) 1 100)))) 1 100)
      (prepareInt (getFloatFrom2Bytes l h) 1 100).
Proof. reflexivity. Qed.

Lemma climate_codecs_all : forall_byte2 climate_codecs_ok = true.
Proof. vm_compute. reflexivity. Qed.

Lemma co2_codec_all : forall_byte co2_codec_ok = true.
Proof. vm_compute. reflexivity. Qed.

(** Projections of [climate_codecs_all] at one pair of bytes. *)
Lemma climate_codecs_at (l h : byte) :
  Z.eqb (int_of_float (prepareInt (getFloatFrom2Bytes l h) 1 1)) (getFloatFrom2Bytes l h) = true /\
  Z.eqb (getSignedFloatFrom2Bytes
           (u8 (Z.shiftr (int_of_float (prepareInt (getSignedFloatFrom2Bytes l h) 1 1)) 8))
           (u8 (Z.land (int_of_float (prepareInt (getSignedFloatFrom2Bytes l h) 1 1)) 255)))
        (getSignedFloatFrom2Bytes l h) = true /\
  (negb (s16_scaled_regular l h) || s16_scaled_stable l h) = true /\
  ((5 <=? getFloatFrom2Bytes l h) || swAll_stable l h) = true.
Proof.
  pose proof (forall_byte2_spec climate_codecs_ok climate_codecs_all l h) as H.
  unfold climate_codecs_ok in H. apply andb_prop in H as [H H4].
  apply andb_prop in H as [H H3]. apply andb_prop in H as [H1 H2].
  exact (conj H1 (conj H2 (conj H3 H4))).
Qed.

(** An unsigned integer field read through [prepareInt(x, 1, 1)] converts
    back to the same integer. *)
Lemma prepareInt_1_1_int (l h : byte) :
  int_of_float (prepareInt (getFloatFrom2Bytes l h) 1 1) = getFloatFrom2Bytes l h.
Proof. apply Z.eqb_eq, (climate_codecs_at l h). Qed.

(** A signed integer field read through [prepareInt(x, 1, 1)], written
    back by [& 0xff] and [>> 8], reads as the same integer. *)
Lemma prepareInt_1_1_signed_codec (l h : byte) :
  getSignedFloatFrom2Bytes
    (u8 (Z.shiftr (int_of_float (prepareInt (getSignedFloatFrom2Bytes l h) 1 1)) 8))
    (u8 (Z.land (int_of_float (prepareInt (getSignedFloatFrom2Bytes l h) 1 1)) 255))
  = getSignedFloatFrom2Bytes l h.
Proof. apply Z.eqb_eq, (climate_codecs_at l h). Qed.

(** A signed hundredths field away from the ends of [int16] is stable
    under encode-decode. *)
Lemma prepareInt_1_100_signed_codec (l h : byte) :
  s16_scaled_regular l h = true ->
  prepareInt (getSignedFloatFrom2Bytes
     (u8 (Z.shiftr (int_of_float (PrimFloat.mul (prepareInt (getSignedFloatFrom2Bytes l h) 1 100) (float64_of_int 100))) 8))
     (u8 (Z.land (int_of_float (PrimFloat.mul (prepareInt (getSignedFloatFrom2Bytes l h) 1 100) (float64_of_int 100))) 255))) 1 100
  = prepareInt (getSignedFloatFrom2Bytes l h) 1 100.
Proof.
  intros Hr. pose proof (proj1 (proj2 (proj2 (climate_codecs_at l h)))) as Hs.
  rewrite Hr, Bool.orb_false_l in Hs. rewrite s16_scaled_stable_eq in Hs. apply feq_spec in Hs. exact Hs.
Qed.

(** [SwAllExhaustFans] below 5 (a decoded 0.0) is stable. *)
Lemma swAll_codec (l h : byte) :
  getFloatFrom2Bytes l h < 5 ->
  prepareInt (getFloatFrom2Bytes
     (u8 (Z.shiftr (int_of_float (prepareInt (getFloatFrom2Bytes l h) 1 100)) 8))
     (u8 (int_of_float (prepareInt (getFloatFrom2Bytes l h) 1 100)))) 1 100
  = prepareInt (getFloatFrom2Bytes l h) 1 100.
Proof.
  intros Hr. pose proof (proj2 (proj2 (proj2 (climate_codecs_at l h)))) as Hs.
  replace (5 <=? getFloatFrom2Bytes l h) with false in Hs by (symmetry; apply Z.leb_gt; exact Hr).
  rewrite Bool.orb_false_l in Hs. rewrite swAll_stable_eq in Hs. apply feq_spec in Hs. exact Hs.
Qed.

(** The boolean form of [prepareInt_1_100_codec]. *)
Lemma prepareInt_1_100_codec_regular (l h : byte) :
  u16_scaled_regular l h = true ->
  prepareInt (getFloatFrom2Bytes
     (u8 (Z.shiftr (int_of_float (PrimFloat.mul (prepareInt (getFloatFrom2Bytes l h) 1 100) (float64_of_int 100))) 8))
     (u8 (int_of_float (PrimFloat.mul (prepareInt (getFloatFrom2Bytes l h) 1 100) (float64_of_int 100))))) 1 100
  = prepareInt (getFloatFrom2Bytes l h) 1 100.
Proof.
  intros Hr. apply prepareInt_1_100_codec. intros E. unfold u16_scaled_regular in Hr.
  rewrite E in Hr. discriminate Hr.
Qed.

Lemma prepareByte_co2_codec (b : byte) :
  u8 (int_of_float (PrimFloat.div (PrimFloat.mul (prepareByte b 0 1) (float64_of_int 25)) (float64_of_int 25))) = b.
Proof. exact (Byte.byte_dec_bl _ _ (forall_byte_spec co2_codec_ok co2_codec_all b)). Qed.
