(* ===== verification/IDose.v ===== *)
(** * IntelliDose: shadow document, decoder and encoder

    The structs of [src/device/device_interrogator.go] (lines 488-657), one
    Rocq module per Go struct with a record [t] whose fields keep the Go
    names; [parseByteResponseForIDose] (lines 1275-1459), which decodes the
    D0/D1/D2 frames into an [iDoseShadow]; and [prepareS0RequestForIDose] /
    [prepareS1RequestForIDose] (lines 744-966), which write a shadow back
    into copies of D1 and D2 to form the S0 and S1 frames.

    The round trip follows a frame triple through the code path of
    [writeDoseData] (lines 724-742): the shadow decoded from D0/D1/D2 is
    written into D1 and D2 by the two encoders, and the resulting S0/S1
    frames, read in place of D1/D2, decode to the same shadow.  Two
    exceptions in the code are hypotheses of the theorem, and each comes
    with a frame triple on which the round trip fails without it:
    - the pH [ForceOn] flag is decoded from byte 3 bit 3 of D1, the bit
      that also holds the time-of-day setting of irrigation station 1, and
      the encoder writes that bit from the station configuration;
    - a nutrient temperature limit with raw value 65535 (655.35) is
      decoded to 655.4 and written back as 65540, which wraps to 4.
    The proof evaluates both encoders symbolically on frames whose 192
    bytes are variables, then rewrites each field with the codec lemmas of
    [Bits] and [Scalars]. *)

From Stdlib Require Import Strings.String Strings.Ascii Floats.
From S2P Require Import Prelude GoFloat Enc Bits Crc Scalars.

Open Scope string_scope.
Open Scope Z_scope.
Open Scope intelli_scope.

(** ** The shadow document (lines 488-657) *)

Module IrrigationIntervalIDose.
Record t := mk { Day : Z; Night : Z; Every : Z }.
End IrrigationIntervalIDose.

Module GeneralStatusIDose.
Record t := mk {
    DoseInterval : byte; NutrientDoseTime : byte; WaterOnTime : byte;
    IrrigationInterval1 : IrrigationIntervalIDose.t; IrrigationInterval2 : IrrigationIntervalIDose.t;
    IrrigationInterval3 : IrrigationIntervalIDose.t; IrrigationInterval4 : IrrigationIntervalIDose.t;
    IrrigationDuration1 : Z; IrrigationDuration2 : Z; IrrigationDuration3 : Z; IrrigationDuration4 : Z;
    MaxNutrientDoseTime : byte; MaxPhDoseTime : byte;
    Mix1 : byte; Mix2 : byte; Mix3 : byte; Mix4 : byte; Mix5 : byte; Mix6 : byte; Mix7 : byte; Mix8 : byte;
    PhDoseTime : byte }.
End GeneralStatusIDose.

Module EcIDose.
Record t := mk { Enabled : bool; Max : float64; Min : float64 }.
End EcIDose.

Module NutTempIDose.
Record t := mk { Enabled : bool; Max : float64; Min : float64 }.
End NutTempIDose.

Module PhIDose.
Record t := mk { Enabled : bool; Max : float64; Min : float64 }.
End PhIDose.

Module NutrientIDose.
Record t := mk { Detent : byte; Ec : EcIDose.t; NutTemp : NutTempIDose.t; Ph : PhIDose.t }.
End NutrientIDose.

Module SetPointsIDose.
Record t := mk { Nutrient : float64; NutrientNight : float64; PhDosing : string; Ph : float64 }.
End SetPointsIDose.

Module StatusStatusIDose.
Record t := mk { Active : bool; Enabled : bool; ForceOn : bool; Function : string }.
End StatusStatusIDose.

Module UnitsIDose.
Record t := mk { DateFormat : string; Temperature : string; Ec : string; TdsConversationStandart : Z }.
End UnitsIDose.

Module TimesIDose.
Record t := mk { DayStart : Z; DayEnd : Z }.
End TimesIDose.

Module FunctionsIDose.
Record t := mk {
    NutrientsParts : byte; PhDosing : string; IrrigationMode : string; IrrigationStations : byte;
    SeparatePumpOutput : bool; UseWater : bool; ExternalAlarm : bool; DayNightEc : bool;
    IrrigationStation1 : string; IrrigationStation2 : string; IrrigationStation3 : string;
    IrrigationStation4 : string; Scheduling : bool; MuteBuzzer : bool }.
End FunctionsIDose.

Module AdvancedIDose.
Record t := mk {
    ProportinalDosing : bool; SequentialDosing : bool; DisableEc : bool; DisablePh : bool;
    MntnReminderFreq : string }.
End AdvancedIDose.

Module GeneralIDose.
Record t := mk { DeviceName : string; Firmware : float64 }.
End GeneralIDose.

Module ConfigIDose.
Record t := mk {
    Units : UnitsIDose.t; Times : TimesIDose.t; Functions : FunctionsIDose.t;
    Advanced : AdvancedIDose.t; General : GeneralIDose.t }.
End ConfigIDose.

Module MetricsIDose.
Record t := mk { Ec : float64; NutTemp : float64; PH : float64 }.
End MetricsIDose.

Module StatusIDose.
Record t := mk {
    General : GeneralStatusIDose.t; Nutrient : NutrientIDose.t; SetPoints : SetPointsIDose.t;
    Status : list StatusStatusIDose.t; Units : UnitsIDose.t }.
End StatusIDose.

Module ReportedIDose.
Record t := mk {
    Config : ConfigIDose.t; Metrics : MetricsIDose.t; Status : StatusIDose.t;
    Source : string; Device : string; Timestamp : Z; Connected : bool }.
End ReportedIDose.

Module StateIDose.
Record t := mk { Reported : ReportedIDose.t }.
End StateIDose.

Module iDoseShadow.
Record t := mk { State : StateIDose.t }.
End iDoseShadow.

(** Go's zero value of [UnitsIDose]: [StatusIDose.Units] is never set. *)
Definition UnitsIDose_zero : UnitsIDose.t :=
  {| UnitsIDose.DateFormat := ""; UnitsIDose.Temperature := ""; UnitsIDose.Ec := "";
     UnitsIDose.TdsConversationStandart := 0 |}.

(** [string(b)] of a byte slice. *)
Definition string_of_bytes (b : frame) : string := string_of_list_byte b.

Import Bits.

(** ** Decoding (lines 1275-1459) *)

Definition parseByteResponseForIDose (d0Response d1Response d2Response : frame)
    (name : string) (timestamp : Z) : iDoseShadow.t :=
  let irrigationInstalled := getBoolFromByte d1Response.[4] 3 in
  let irrigationIndepended := getBoolFromByte d1Response.[59] 7 in
  let irrigationSequential := getBoolFromByte d1Response.[58] 7 in
  let irrigationStations := d1Response.[60] in
  let irrigationMode := getIrrigationMode irrigationSequential irrigationIndepended in
  let irrigationStations :=
    if negb irrigationInstalled then Byte.x00
    else if Byte.eqb irrigationStations Byte.x00 then Byte.x01 else irrigationStations in
  let status (active enabled forceOn : bool) (function : string) : StatusStatusIDose.t :=
    {| StatusStatusIDose.Active := active; StatusStatusIDose.Enabled := enabled;
       StatusStatusIDose.ForceOn := forceOn; StatusStatusIDose.Function := function |} in
  let interval (day night every : Z) : IrrigationIntervalIDose.t :=
    {| IrrigationIntervalIDose.Day := day; IrrigationIntervalIDose.Night := night;
       IrrigationIntervalIDose.Every := every |} in
  {| iDoseShadow.State := {| StateIDose.Reported := {|
    ReportedIDose.Config := {|
      ConfigIDose.Units := {|
        UnitsIDose.DateFormat := getDateFormat (getBoolFromByte d1Response.[4] 4);
        UnitsIDose.Temperature := getTemperatureF (getBoolFromByte d1Response.[4] 7);
        UnitsIDose.Ec := getNutrientConfig (getBoolFromByte d1Response.[4] 6) (getBoolFromByte d1Response.[4] 5);
        UnitsIDose.TdsConversationStandart := getFloatFrom2Bytes d1Response.[54] d1Response.[53] |};
      ConfigIDose.Times := {|
        TimesIDose.DayStart := uz d1Response.[38] * 6;
        TimesIDose.DayEnd := uz d1Response.[39] * 6 |};
      ConfigIDose.Functions := {|
        FunctionsIDose.NutrientsParts := getDefaultValue d1Response.[40] Byte.x01;
        FunctionsIDose.PhDosing := getPhDosingModeByBool (getBoolFromByte d1Response.[3] 1) (getBoolFromByte d1Response.[3] 0);
        FunctionsIDose.IrrigationMode := irrigationMode;
        FunctionsIDose.IrrigationStations := irrigationStations;
        FunctionsIDose.SeparatePumpOutput := getBoolFromByte d1Response.[5] 1;
        FunctionsIDose.UseWater := getBoolFromByte d1Response.[4] 2;
        FunctionsIDose.ExternalAlarm := getBoolFromByte d1Response.[2] 2;
        FunctionsIDose.DayNightEc := getBoolFromByte d1Response.[3] 2;
        FunctionsIDose.IrrigationStation1 := getIrrigationStationConfiguration (getBoolFromByte d1Response.[3] 3) (getBoolFromByte d1Response.[2] 7);
        FunctionsIDose.IrrigationStation2 := getIrrigationStationConfiguration (getBoolFromByte d1Response.[57] 3) (getBoolFromByte d1Response.[57] 2);
        FunctionsIDose.IrrigationStation3 := getIrrigationStationConfiguration (getBoolFromByte d1Response.[58] 3) (getBoolFromByte d1Response.[58] 2);
        FunctionsIDose.IrrigationStation4 := getIrrigationStationConfiguration (getBoolFromByte d1Response.[59] 3) (getBoolFromByte d1Response.[59] 2);
        FunctionsIDose.Scheduling := false;
        FunctionsIDose.MuteBuzzer := getBoolFromByte d1Response.[5] 4 |};
      ConfigIDose.Advanced := {|
        AdvancedIDose.ProportinalDosing := getBoolFromByte d1Response.[2] 0;
        AdvancedIDose.SequentialDosing := getBoolFromByte d1Response.[2] 1;
        AdvancedIDose.DisableEc := getBoolFromByte d1Response.[5] 3;
        AdvancedIDose.DisablePh := getBoolFromByte d1Response.[5] 2;
        AdvancedIDose.MntnReminderFreq := "weekly" |};
      ConfigIDose.General := {|
        GeneralIDose.DeviceName := string_of_bytes (slice d2Response 2 12);
        GeneralIDose.Firmware := prepareInt (getSignedFloatFrom2Bytes d0Response.[8] d0Response.[7]) 2 100 |} |};
    ReportedIDose.Status := {|
      StatusIDose.Nutrient := {|
        NutrientIDose.Detent := d1Response.[6];
        NutrientIDose.Ec := {|
          EcIDose.Min := PrimFloat.mul (prepareByte d1Response.[8] 1 1) (float64_of_int 10);
          EcIDose.Max := PrimFloat.mul (prepareByte d1Response.[7] 1 1) (float64_of_int 10);
          EcIDose.Enabled := getBoolFromByte d1Response.[5] 7 |};
        NutrientIDose.Ph := {|
          PhIDose.Min := prepareByte d1Response.[10] 1 10;
          PhIDose.Max := prepareByte d1Response.[9] 1 10;
          PhIDose.Enabled := getBoolFromByte d1Response.[5] 6 |};
        NutrientIDose.NutTemp := {|
          NutTempIDose.Min := prepareInt (getFloatFrom2Bytes d1Response.[14] d1Response.[13]) 1 100;
          NutTempIDose.Max := prepareInt (getFloatFrom2Bytes d1Response.[12] d1Response.[11]) 1 100;
          NutTempIDose.Enabled := getBoolFromByte d1Response.[5] 5 |} |};
      StatusIDose.Status := [
        status (getBoolFromByte d0Response.[15] 7) (getBoolFromByte d1Response.[2] 4) (getBoolFromByte d1Response.[3] 7) nutrientDosingFunction;
        status (getBoolFromByte d0Response.[15] 6) (getBoolFromByte d1Response.[5] 0) (getBoolFromByte d1Response.[3] 3) phFunction;
        status (getBoolFromByte d0Response.[17] 7) (getBoolFromByte d1Response.[2] 5) (getBoolFromByte d1Response.[3] 4) irrigationFunction;
        status (getBoolFromByte d0Response.[17] 7) (getBoolFromByte d1Response.[2] 5) (getBoolFromByte d1Response.[3] 4) irrigationStation1Function;
        status (getBoolFromByte d0Response.[17] 6) (getBoolFromByte d1Response.[57] 0) (getBoolFromByte d1Response.[57] 4) irrigationStation2Function;
        status (getBoolFromByte d0Response.[17] 5) (getBoolFromByte d1Response.[58] 0) (getBoolFromByte d1Response.[58] 4) irrigationStation3Function;
        status (getBoolFromByte d0Response.[17] 4) (getBoolFromByte d1Response.[59] 0) (getBoolFromByte d1Response.[59] 4) irrigationStation4Function;
        status (getBoolFromByte d0Response.[15] 4) (getBoolFromByte d1Response.[2] 6) (getBoolFromByte d1Response.[3] 5) waterFunction ];
      StatusIDose.SetPoints := {|
        SetPointsIDose.Nutrient := prepareInt (getFloatFrom2Bytes d1Response.[16] d1Response.[15]) 0 1;
        SetPointsIDose.NutrientNight := prepareInt (getFloatFrom2Bytes d1Response.[18] d1Response.[17]) 0 1;
        SetPointsIDose.PhDosing := getPHMode (getBoolFromByte d1Response.[2] 3);
        SetPointsIDose.Ph := prepareByte d1Response.[19] 1 10 |};
      StatusIDose.General := {|
        GeneralStatusIDose.NutrientDoseTime := d1Response.[21];
        GeneralStatusIDose.MaxNutrientDoseTime := d1Response.[20];
        GeneralStatusIDose.DoseInterval := d1Response.[28];
        GeneralStatusIDose.WaterOnTime := d1Response.[37];
        GeneralStatusIDose.IrrigationInterval1 := interval (getFloatFrom2Bytes d1Response.[32] d1Response.[31])
          (getFloatFrom2Bytes d1Response.[34] d1Response.[33]) (getFloatFrom2Bytes d1Response.[36] d1Response.[35]);
        GeneralStatusIDose.IrrigationInterval2 := interval (getFloatFrom2Bytes d2Response.[24] d2Response.[23])
          (getFloatFrom2Bytes d2Response.[26] d2Response.[25]) (getFloatFrom2Bytes d2Response.[28] d2Response.[27]);
        GeneralStatusIDose.IrrigationInterval3 := interval (getFloatFrom2Bytes d2Response.[32] d2Response.[31])
          (getFloatFrom2Bytes d2Response.[34] d2Response.[33]) (getFloatFrom2Bytes d2Response.[36] d2Response.[35]);
        GeneralStatusIDose.IrrigationInterval4 := interval (getFloatFrom2Bytes d2Response.[40] d2Response.[39])
          (getFloatFrom2Bytes d2Response.[42] d2Response.[41]) (getFloatFrom2Bytes d2Response.[44] d2Response.[43]);
        GeneralStatusIDose.IrrigationDuration1 := getFloatFrom2Bytes d1Response.[30] d1Response.[29];
        GeneralStatusIDose.IrrigationDuration2 := getFloatFrom2Bytes d2Response.[22] d2Response.[21];
        GeneralStatusIDose.IrrigationDuration3 := getFloatFrom2Bytes d2Response.[30] d2Response.[29];
        GeneralStatusIDose.IrrigationDuration4 := getFloatFrom2Bytes d2Response.[38] d2Response.[37];
        GeneralStatusIDose.Mix1 := d1Response.[22];
        GeneralStatusIDose.Mix2 := d1Response.[23];
        GeneralStatusIDose.Mix3 := d1Response.[24];
        GeneralStatusIDose.Mix4 := d1Response.[48];
        GeneralStatusIDose.Mix5 := d1Response.[49];
        GeneralStatusIDose.Mix6 := d1Response.[50];
        GeneralStatusIDose.Mix7 := d1Response.[51];
        GeneralStatusIDose.Mix8 := d1Response.[52];
        GeneralStatusIDose.PhDoseTime := d1Response.[26];
        GeneralStatusIDose.MaxPhDoseTime := d1Response.[25] |};
      StatusIDose.Units := UnitsIDose_zero |};
    ReportedIDose.Metrics := {|
      MetricsIDose.Ec := checkIntForNotAvailableValue (getFloatFrom2Bytes d0Response.[10] d0Response.[9]) 1 1;
      MetricsIDose.PH := checkIntForNotAvailableValue (getFloatFrom2Bytes d0Response.[12] d0Response.[11]) 1 100;
      MetricsIDose.NutTemp := checkIntForNotAvailableValue (getFloatFrom2Bytes d0Response.[14] d0Response.[13]) 1 100 |};
    ReportedIDose.Device := name;
    ReportedIDose.Timestamp := timestamp;
    ReportedIDose.Source := "Gateway";
    ReportedIDose.Connected := true |} |} |}.

(** The decoder reads D0 up to index 17, D1 up to index 60 and D2 up to
    index 44; a shorter slice makes the Go code panic with an index out of
    range.  [parseByteResponseForIDose] itself is total (it reads a zero
    byte there); the callers check this condition first. *)
Definition parseByteResponseForIDose_inbounds (d0Response d1Response d2Response : frame) : bool :=
  (18 <=? length d0Response)%nat && (61 <=? length d1Response)%nat && (45 <=? length d2Response)%nat.

(** ** Encoding (lines 744-966) *)

Definition StatusStatusIDose_zero : StatusStatusIDose.t :=
  {| StatusStatusIDose.Active := false; StatusStatusIDose.Enabled := false;
     StatusStatusIDose.ForceOn := false; StatusStatusIDose.Function := "" |}.

(** [func getStatusIDoseFunctionByName(statuses []StatusStatusIDose, statusName string) StatusStatusIDose]:
    the first status with that function name, or the zero status. *)
Fixpoint getStatusIDoseFunctionByName (statuses : list StatusStatusIDose.t) (statusName : string)
    : StatusStatusIDose.t :=
  match statuses with
  | [] => StatusStatusIDose_zero
  | status :: rest =>
      if String.eqb (StatusStatusIDose.Function status) statusName then status
      else getStatusIDoseFunctionByName rest statusName
  end.

(** Go's [a / b] on [int]: truncation toward zero. *)
Definition go_div (a b : Z) : Z := Z.quot a b.

(** An encoder indexes [bytes] up to 63 and [d0bytes] at 61; a shorter
    slice makes it panic, which is [None] here. *)
Definition frames_indexable (d0bytes bytes : frame) : bool :=
  (64 <=? length bytes)%nat && (62 <=? length d0bytes)%nat.

(** The body of [func prepareS0RequestForIDose(d0bytes *[]byte, bytes *[]byte, doseShadow iDoseShadow)]
    up to its call of [createCheckSum]: its assignments to [( *bytes)[i]],
    in the order of the source. *)
Definition prepareS0RequestForIDose_writes (d0bytes : frame) (doseShadow : iDoseShadow.t) : list write :=
  let R := StateIDose.Reported (iDoseShadow.State doseShadow) in
  let Cfg := ReportedIDose.Config R in
  let St := ReportedIDose.Status R in
  let Nut := StatusIDose.Nutrient St in
  let Gen := StatusIDose.General St in
  let Fn := ConfigIDose.Functions Cfg in
  let Adv := ConfigIDose.Advanced Cfg in
  let nutTempMax := int_of_float (PrimFloat.mul (NutTempIDose.Max (NutrientIDose.NutTemp Nut)) (float64_of_int 100)) in
  let nutTempMin := int_of_float (PrimFloat.mul (NutTempIDose.Min (NutrientIDose.NutTemp Nut)) (float64_of_int 100)) in
  let nutTempEnabled := NutTempIDose.Enabled (NutrientIDose.NutTemp Nut) in
  let pHMax := int_of_float (PrimFloat.mul (PhIDose.Max (NutrientIDose.Ph Nut)) (float64_of_int 10)) in
  let pHMin := int_of_float (PrimFloat.mul (PhIDose.Min (NutrientIDose.Ph Nut)) (float64_of_int 10)) in
  let pHEnabled := PhIDose.Enabled (NutrientIDose.Ph Nut) in
  let eCMax := int_of_float (PrimFloat.div (EcIDose.Max (NutrientIDose.Ec Nut)) (float64_of_int 10)) in
  let eCMin := int_of_float (PrimFloat.div (EcIDose.Min (NutrientIDose.Ec Nut)) (float64_of_int 10)) in
  let eCEnabled := EcIDose.Enabled (NutrientIDose.Ec Nut) in
  let nutrient := int_of_float (SetPointsIDose.Nutrient (StatusIDose.SetPoints St)) in
  let nutrientNight := int_of_float (SetPointsIDose.NutrientNight (StatusIDose.SetPoints St)) in
  let phMode := getBoolFromPHMode (SetPointsIDose.PhDosing (StatusIDose.SetPoints St)) in
  let ph := PrimFloat.mul (SetPointsIDose.Ph (StatusIDose.SetPoints St)) (float64_of_int 10) in
  let nutrientDosingStatus := getStatusIDoseFunctionByName (StatusIDose.Status St) nutrientDosingFunction in
  let pHStatus := getStatusIDoseFunctionByName (StatusIDose.Status St) phFunction in
  let phDosingHi_phDosingLo := getPhDosingBoolByString (FunctionsIDose.PhDosing Fn) in
  let phDosingHi := fst phDosingHi_phDosingLo in
  let phDosingLo := snd phDosingHi_phDosingLo in
  let dayNightEc := FunctionsIDose.DayNightEc Fn in
  let mutebuzzer := FunctionsIDose.MuteBuzzer Fn in
  let separatePumpOutput := FunctionsIDose.SeparatePumpOutput Fn in
  let irrigation0Status := getStatusIDoseFunctionByName (StatusIDose.Status St) irrigationStation1Function in
  let irrigation1Status := getStatusIDoseFunctionByName (StatusIDose.Status St) irrigationStation2Function in
  let irrigation2Status := getStatusIDoseFunctionByName (StatusIDose.Status St) irrigationStation3Function in
  let irrigation3Status := getStatusIDoseFunctionByName (StatusIDose.Status St) irrigationStation4Function in
  let waterStatus := getStatusIDoseFunctionByName (StatusIDose.Status St) waterFunction in
  let irrigationMode := FunctionsIDose.IrrigationMode Fn in
  let dateFormat := UnitsIDose.DateFormat (ConfigIDose.Units Cfg) in
  let temperature := UnitsIDose.Temperature (ConfigIDose.Units Cfg) in
  let nutrientConfigH_nutrientConfigL := isNutrientConfig (UnitsIDose.Ec (ConfigIDose.Units Cfg)) in
  let nutrientConfigH := fst nutrientConfigH_nutrientConfigL in
  let nutrientConfigL := snd nutrientConfigH_nutrientConfigL in
  let irrigationIndepended :=
    if String.eqb irrigationMode irrigationModeIndependent then true
    else if String.eqb irrigationMode irrigationModeSequential then true
    else false in
  let irrigationSequential :=
    if String.eqb irrigationMode irrigationModeIndependent then false
    else if String.eqb irrigationMode irrigationModeSequential then true
    else false in
  let irrigation0Status :=
    if Bool.eqb irrigationIndepended irrigationSequential
    then getStatusIDoseFunctionByName (StatusIDose.Status St) irrigationFunction
    else irrigation0Status in
  let irrigateTOD0_irrigateDayOnly0 := getIrrigationStationConfigurationByString (FunctionsIDose.IrrigationStation1 Fn) in
  let irrigateTOD0 := fst irrigateTOD0_irrigateDayOnly0 in
  let irrigateDayOnly0 := snd irrigateTOD0_irrigateDayOnly0 in
  let irrigateTOD1_irrigateDayOnly1 := getIrrigationStationConfigurationByString (FunctionsIDose.IrrigationStation2 Fn) in
  let irrigateTOD1 := fst irrigateTOD1_irrigateDayOnly1 in
  let irrigateDayOnly1 := snd irrigateTOD1_irrigateDayOnly1 in
  let irrigateTOD2_irrigateDayOnly2 := getIrrigationStationConfigurationByString (FunctionsIDose.IrrigationStation3 Fn) in
  let irrigateTOD2 := fst irrigateTOD2_irrigateDayOnly2 in
  let irrigateDayOnly2 := snd irrigateTOD2_irrigateDayOnly2 in
  let irrigateTOD3_irrigateDayOnly3 := getIrrigationStationConfigurationByString (FunctionsIDose.IrrigationStation4 Fn) in
  let irrigateTOD3 := fst irrigateTOD3_irrigateDayOnly3 in
  let irrigateDayOnly3 := snd irrigateTOD3_irrigateDayOnly3 in
  let useWater := FunctionsIDose.UseWater Fn in
  let irrigationDuration := GeneralStatusIDose.IrrigationDuration1 Gen in
  let irrigationDay := IrrigationIntervalIDose.Day (GeneralStatusIDose.IrrigationInterval1 Gen) in
  let irrigationNight := IrrigationIntervalIDose.Night (GeneralStatusIDose.IrrigationInterval1 Gen) in
  let irrigationEvery := IrrigationIntervalIDose.Every (GeneralStatusIDose.IrrigationInterval1 Gen) in
  let tdsConversationStandart := UnitsIDose.TdsConversationStandart (ConfigIDose.Units Cfg) in
  let irrigationStations := FunctionsIDose.IrrigationStations Fn in
  let irrigationInstalled := 0 <? uz irrigationStations in
  [
    assign 0 Byte.x53;
    assign 1 Byte.x30;
    modify 2 (fun cur => updateByte cur (AdvancedIDose.ProportinalDosing Adv) 0);
    modify 2 (fun cur => updateByte cur (AdvancedIDose.SequentialDosing Adv) 1);
    modify 2 (fun cur => updateByte cur (FunctionsIDose.ExternalAlarm Fn) 2);
    modify 2 (fun cur => updateByte cur phMode 3);
    modify 2 (fun cur => updateByte cur (StatusStatusIDose.Enabled nutrientDosingStatus) 4);
    modify 2 (fun cur => updateByte cur (StatusStatusIDose.Enabled irrigation0Status) 5);
    modify 2 (fun cur => updateByte cur (StatusStatusIDose.Enabled waterStatus) 6);
    modify 2 (fun cur => updateByte cur irrigateDayOnly0 7);
    modify 3 (fun cur => updateByte cur phDosingLo 0);
    modify 3 (fun cur => updateByte cur phDosingHi 1);
    modify 3 (fun cur => updateByte cur dayNightEc 2);
    modify 3 (fun cur => updateByte cur irrigateTOD0 3);
    modify 3 (fun cur => updateByte cur (StatusStatusIDose.ForceOn irrigation0Status) 4);
    modify 3 (fun cur => updateByte cur (StatusStatusIDose.ForceOn waterStatus) 5);
    modify 3 (fun cur => updateByte cur (StatusStatusIDose.ForceOn pHStatus) 6);
    modify 3 (fun cur => updateByte cur (StatusStatusIDose.ForceOn nutrientDosingStatus) 7);
    modify 4 (fun cur => updateByte cur useWater 2);
    modify 4 (fun cur => updateByte cur irrigationInstalled 3);
    modify 4 (fun cur => updateByte cur (isUSADateFormat dateFormat) 4);
    modify 4 (fun cur => updateByte cur nutrientConfigH 5);
    modify 4 (fun cur => updateByte cur nutrientConfigL 6);
    modify 4 (fun cur => updateByte cur (isTemperatureF temperature) 7);
    modify 5 (fun cur => updateByte cur (StatusStatusIDose.Enabled pHStatus) 0);
    modify 5 (fun cur => updateByte cur separatePumpOutput 1);
    modify 5 (fun cur => updateByte cur (AdvancedIDose.DisablePh Adv) 2);
    modify 5 (fun cur => updateByte cur (AdvancedIDose.DisableEc Adv) 3);
    modify 5 (fun cur => updateByte cur mutebuzzer 4);
    modify 5 (fun cur => updateByte cur nutTempEnabled 5);
    modify 5 (fun cur => updateByte cur pHEnabled 6);
    modify 5 (fun cur => updateByte cur eCEnabled 7);
    assign 6 (NutrientIDose.Detent Nut);
    assign 7 (u8 eCMax);
    assign 8 (u8 eCMin);
    assign 9 (u8 pHMax);
    assign 10 (u8 pHMin);
    assign 11 (u8 nutTempMax);
    assign 12 (u8 (Z.shiftr nutTempMax 8));
    assign 13 (u8 nutTempMin);
    assign 14 (u8 (Z.shiftr nutTempMin 8));
    assign 15 (u8 nutrient);
    assign 16 (u8 (Z.shiftr nutrient 8));
    assign 17 (u8 nutrientNight);
    assign 18 (u8 (Z.shiftr nutrientNight 8));
    assign 19 (u8 (int_of_float ph));
    assign 20 (GeneralStatusIDose.MaxNutrientDoseTime Gen);
    assign 21 (GeneralStatusIDose.NutrientDoseTime Gen);
    assign 22 (GeneralStatusIDose.Mix1 Gen);
    assign 23 (GeneralStatusIDose.Mix2 Gen);
    assign 24 (GeneralStatusIDose.Mix3 Gen);
    assign 25 (GeneralStatusIDose.MaxPhDoseTime Gen);
    assign 26 (GeneralStatusIDose.PhDoseTime Gen);
    assign 28 (GeneralStatusIDose.DoseInterval Gen);
    assign 29 (u8 irrigationDuration);
    assign 30 (u8 (Z.shiftr irrigationDuration 8));
    assign 31 (u8 irrigationDay);
    assign 32 (u8 (Z.shiftr irrigationDay 8));
    assign 33 (u8 irrigationNight);
    assign 34 (u8 (Z.shiftr irrigationNight 8));
    assign 35 (u8 irrigationEvery);
    assign 36 (u8 (Z.shiftr irrigationEvery 8));
    assign 37 (GeneralStatusIDose.WaterOnTime Gen);
    assign 38 (u8 (go_div (TimesIDose.DayStart (ConfigIDose.Times Cfg)) 6));
    assign 39 (u8 (go_div (TimesIDose.DayEnd (ConfigIDose.Times Cfg)) 6));
    assign 40 (FunctionsIDose.NutrientsParts Fn);
    assign 48 (GeneralStatusIDose.Mix4 Gen);
    assign 49 (GeneralStatusIDose.Mix5 Gen);
    assign 50 (GeneralStatusIDose.Mix6 Gen);
    assign 51 (GeneralStatusIDose.Mix7 Gen);
    assign 52 (GeneralStatusIDose.Mix8 Gen);
    assign 53 (u8 tdsConversationStandart);
    assign 54 (u8 (Z.shiftr tdsConversationStandart 8));
    modify 57 (fun cur => updateByte cur (StatusStatusIDose.Enabled irrigation1Status) 0);
    modify 57 (fun cur => updateByte cur irrigateDayOnly1 2);
    modify 57 (fun cur => updateByte cur irrigateTOD1 3);
    modify 57 (fun cur => updateByte cur (StatusStatusIDose.ForceOn irrigation1Status) 4);
    modify 57 (fun cur => updateByte cur (StatusStatusIDose.ForceOn irrigation1Status) 4);
    modify 58 (fun cur => updateByte cur (StatusStatusIDose.Enabled irrigation2Status) 0);
    modify 58 (fun cur => updateByte cur irrigateDayOnly2 2);
    modify 58 (fun cur => updateByte cur irrigateTOD2 3);
    modify 58 (fun cur => updateByte cur (StatusStatusIDose.ForceOn irrigation2Status) 4);
    modify 58 (fun cur => updateByte cur irrigationSequential 7);
    modify 59 (fun cur => updateByte cur (StatusStatusIDose.Enabled irrigation3Status) 0);
    modify 59 (fun cur => updateByte cur irrigateDayOnly3 2);
    modify 59 (fun cur => updateByte cur irrigateTOD3 3);
    modify 59 (fun cur => updateByte cur (StatusStatusIDose.ForceOn irrigation3Status) 4);
    modify 59 (fun cur => updateByte cur irrigationIndepended 7);
    assign 60 (irrigationStations);
    assign 61 (d0bytes.[61])].

(** [prepareS0RequestForIDose]: the S0 frame, written over the bytes of D1, then
    checksummed. *)
Definition prepareS0RequestForIDose (d0bytes bytes : frame) (doseShadow : iDoseShadow.t) : option frame :=
  if negb (frames_indexable d0bytes bytes) then None else
  Some (Crc.createCheckSum (exec_writes bytes (prepareS0RequestForIDose_writes d0bytes doseShadow))).

(** The ten bytes [copy(deviceNameByteArray[:], deviceName)] leaves in a
    zeroed [[10]byte]: the first ten bytes of the name, zero padded. *)
Definition deviceNameByteArray (deviceName : string) : list byte :=
  firstn 10 (list_byte_of_string deviceName ++ repeat Byte.x00 10).

(** The body of [func prepareS1RequestForIDose(d0bytes *[]byte, bytes *[]byte, doseShadow iDoseShadow)]
    up to its call of [createCheckSum]: its assignments to [( *bytes)[i]],
    in the order of the source. *)
Definition prepareS1RequestForIDose_writes (d0bytes : frame) (doseShadow : iDoseShadow.t) : list write :=
  let R := StateIDose.Reported (iDoseShadow.State doseShadow) in
  let Gen := StatusIDose.General (ReportedIDose.Status R) in
  let irrigationDuration1 := GeneralStatusIDose.IrrigationDuration2 Gen in
  let irrigationDuration2 := GeneralStatusIDose.IrrigationDuration3 Gen in
  let irrigationDuration3 := GeneralStatusIDose.IrrigationDuration4 Gen in
  let irrigationDay1 := IrrigationIntervalIDose.Day (GeneralStatusIDose.IrrigationInterval2 Gen) in
  let irrigationNight1 := IrrigationIntervalIDose.Night (GeneralStatusIDose.IrrigationInterval2 Gen) in
  let irrigationEvery1 := IrrigationIntervalIDose.Every (GeneralStatusIDose.IrrigationInterval2 Gen) in
  let irrigationDay2 := IrrigationIntervalIDose.Day (GeneralStatusIDose.IrrigationInterval3 Gen) in
  let irrigationNight2 := IrrigationIntervalIDose.Night (GeneralStatusIDose.IrrigationInterval3 Gen) in
  let irrigationEvery2 := IrrigationIntervalIDose.Every (GeneralStatusIDose.IrrigationInterval3 Gen) in
  let irrigationDay3 := IrrigationIntervalIDose.Day (GeneralStatusIDose.IrrigationInterval4 Gen) in
  let irrigationNight3 := IrrigationIntervalIDose.Night (GeneralStatusIDose.IrrigationInterval4 Gen) in
  let irrigationEvery3 := IrrigationIntervalIDose.Every (GeneralStatusIDose.IrrigationInterval4 Gen) in
  let name := deviceNameByteArray (GeneralIDose.DeviceName (ConfigIDose.General (ReportedIDose.Config R))) in
  [
    assign 0 Byte.x53;
    assign 1 Byte.x31;
    assign 2 (nth 0 name Byte.x00);
    assign 3 (nth 1 name Byte.x00);
    assign 4 (nth 2 name Byte.x00);
    assign 5 (nth 3 name Byte.x00);
    assign 6 (nth 4 name Byte.x00);
    assign 7 (nth 5 name Byte.x00);
    assign 8 (nth 6 name Byte.x00);
    assign 9 (nth 7 name Byte.x00);
    assign 10 (nth 8 name Byte.x00);
    assign 11 (nth 9 name Byte.x00);
    assign 21 (u8 irrigationDuration1);
    assign 22 (u8 (Z.shiftr irrigationDuration1 8));
    assign 23 (u8 irrigationDay1);
    assign 24 (u8 (Z.shiftr irrigationDay1 8));
    assign 25 (u8 irrigationNight1);
    assign 26 (u8 (Z.shiftr irrigationNight1 8));
    assign 27 (u8 irrigationEvery1);
    assign 28 (u8 (Z.shiftr irrigationEvery1 8));
    assign 29 (u8 irrigationDuration2);
    assign 30 (u8 (Z.shiftr irrigationDuration2 8));
    assign 31 (u8 irrigationDay2);
    assign 32 (u8 (Z.shiftr irrigationDay2 8));
    assign 33 (u8 irrigationNight2);
    assign 34 (u8 (Z.shiftr irrigationNight2 8));
    assign 35 (u8 irrigationEvery2);
    assign 36 (u8 (Z.shiftr irrigationEvery2 8));
    assign 37 (u8 irrigationDuration3);
    assign 38 (u8 (Z.shiftr irrigationDuration3 8));
    assign 39 (u8 irrigationDay3);
    assign 40 (u8 (Z.shiftr irrigationDay3 8));
    assign 41 (u8 irrigationNight3);
    assign 42 (u8 (Z.shiftr irrigationNight3 8));
    assign 43 (u8 irrigationEvery3);
    assign 44 (u8 (Z.shiftr irrigationEvery3 8));
    assign 61 (d0bytes.[61])].

(** [prepareS1RequestForIDose]: the S1 frame, written over the bytes of D2, then
    checksummed. *)
Definition prepareS1RequestForIDose (d0bytes bytes : frame) (doseShadow : iDoseShadow.t) : option frame :=
  if negb (frames_indexable d0bytes bytes) then None else
  Some (Crc.createCheckSum (exec_writes bytes (prepareS1RequestForIDose_writes d0bytes doseShadow))).

(** ** Frames and fields used by the counterexamples *)

Definition zero_frame : frame := repeat Byte.x00 64.

(** The pH status a shadow reports. *)
Definition ph_force_on (s : iDoseShadow.t) : bool :=
  StatusStatusIDose.ForceOn (getStatusIDoseFunctionByName
    (StatusIDose.Status (ReportedIDose.Status (StateIDose.Reported (iDoseShadow.State s)))) phFunction).

(** The nutrient temperature maximum a shadow reports. *)
Definition nut_temp_max (s : iDoseShadow.t) : float64 :=
  NutTempIDose.Max (NutrientIDose.NutTemp (StatusIDose.Nutrient
    (ReportedIDose.Status (StateIDose.Reported (iDoseShadow.State s))))).

(** ** Lemmas on the encoder's arithmetic *)

(** The day start and end are stored in units of six minutes: a decoded
    value [b * 6] is written back as [b]. *)
Lemma go_div_mul_6 (b : byte) : go_div (uz b * 6) 6 = uz b.
Proof. unfold go_div. rewrite Z.quot_mul by lia. reflexivity. Qed.

Lemma uz_pos_of_neq_x00 (b : byte) : Byte.eqb b Byte.x00 = false -> (0 <? uz b) = true.
Proof.
  intros E. apply Z.ltb_lt. pose proof (uz_range b).
  destruct (Z.eq_dec (uz b) 0) as [Hz|Hz]; [|lia].
  exfalso. assert (b = Byte.x00) as -> by (apply uz_inj; exact Hz). discriminate E.
Qed.

(** The station count: the decoder reports [0] when irrigation is not
    installed and at least [1] otherwise; the encoder writes the count and
    sets the installed bit when it is positive, so decoding again gives the
    same count. *)
Lemma irrigationStations_normalise (c : bool) (b : byte) :
  (if (if (0 <? uz (if (if c then false else true) then Byte.x00
                    else if Byte.eqb b Byte.x00 then Byte.x01 else b)) then false else true)
   then Byte.x00
   else if Byte.eqb (if (if c then false else true) then Byte.x00
                     else if Byte.eqb b Byte.x00 then Byte.x01 else b) Byte.x00
   then Byte.x01
   else (if (if c then false else true) then Byte.x00 else if Byte.eqb b Byte.x00 then Byte.x01 else b))
  = (if (if c then false else true) then Byte.x00 else if Byte.eqb b Byte.x00 then Byte.x01 else b).
Proof.
  destruct c; [|reflexivity].
  destruct (Byte.eqb b Byte.x00) eqn:E; [reflexivity|].
  rewrite (uz_pos_of_neq_x00 b E), E. reflexivity.
Qed.

(** The encoders return the checksummed frame: on a 64-byte frame the
    result is 64 bytes long and its CRC is valid. *)
Lemma prepareS0RequestForIDose_frame (d0bytes bytes : frame) (s : iDoseShadow.t) (s0 : frame) :
  length bytes = 64%nat -> prepareS0RequestForIDose d0bytes bytes s = Some s0 ->
  length s0 = 64%nat /\ Crc.crc_ok s0 = true.
Proof. unfold prepareS0RequestForIDose. Crc.encoder_frame. Qed.

Lemma prepareS1RequestForIDose_frame (d0bytes bytes : frame) (s : iDoseShadow.t) (s1 : frame) :
  length bytes = 64%nat -> prepareS1RequestForIDose d0bytes bytes s = Some s1 ->
  length s1 = 64%nat /\ Crc.crc_ok s1 = true.
Proof. unfold prepareS1RequestForIDose. Crc.encoder_frame. Qed.

(** ** Writing a shadow back and reading it again *)

(** Unfolds the decoder, both encoders and the write lists, and every record
    projection of the shadow, keeping the bit and number codecs folded. *)
Ltac idose_unfold :=
  cbv beta iota zeta delta [map string_of_list_ascii list_ascii_of_string string_of_bytes
    string_of_list_byte list_byte_of_string deviceNameByteArray app repeat exec_writes exec_write
    fold_left fst snd assign modify parseByteResponseForIDose prepareS0RequestForIDose
    prepareS1RequestForIDose prepareS0RequestForIDose_writes prepareS1RequestForIDose_writes frames_indexable idx upd nth length firstn skipn slice Nat.sub Nat.leb
    negb andb Crc.createCheckSum getStatusIDoseFunctionByName StatusStatusIDose_zero UnitsIDose_zero
    IrrigationIntervalIDose.Day IrrigationIntervalIDose.Night IrrigationIntervalIDose.Every GeneralStatusIDose.DoseInterval GeneralStatusIDose.NutrientDoseTime GeneralStatusIDose.WaterOnTime GeneralStatusIDose.IrrigationInterval1 GeneralStatusIDose.IrrigationInterval2 GeneralStatusIDose.IrrigationInterval3 GeneralStatusIDose.IrrigationInterval4 GeneralStatusIDose.IrrigationDuration1 GeneralStatusIDose.IrrigationDuration2 GeneralStatusIDose.IrrigationDuration3 GeneralStatusIDose.IrrigationDuration4 GeneralStatusIDose.MaxNutrientDoseTime GeneralStatusIDose.MaxPhDoseTime GeneralStatusIDose.Mix1 GeneralStatusIDose.Mix2 GeneralStatusIDose.Mix3 GeneralStatusIDose.Mix4 GeneralStatusIDose.Mix5 GeneralStatusIDose.Mix6 GeneralStatusIDose.Mix7 GeneralStatusIDose.Mix8 GeneralStatusIDose.PhDoseTime EcIDose.Enabled EcIDose.Max EcIDose.Min NutTempIDose.Enabled NutTempIDose.Max NutTempIDose.Min PhIDose.Enabled PhIDose.Max PhIDose.Min NutrientIDose.Detent NutrientIDose.Ec NutrientIDose.NutTemp NutrientIDose.Ph SetPointsIDose.Nutrient SetPointsIDose.NutrientNight SetPointsIDose.PhDosing SetPointsIDose.Ph StatusStatusIDose.Active StatusStatusIDose.Enabled StatusStatusIDose.ForceOn StatusStatusIDose.Function UnitsIDose.DateFormat UnitsIDose.Temperature UnitsIDose.Ec UnitsIDose.TdsConversationStandart TimesIDose.DayStart TimesIDose.DayEnd FunctionsIDose.NutrientsParts FunctionsIDose.PhDosing FunctionsIDose.IrrigationMode FunctionsIDose.IrrigationStations FunctionsIDose.SeparatePumpOutput FunctionsIDose.UseWater FunctionsIDose.ExternalAlarm FunctionsIDose.DayNightEc FunctionsIDose.IrrigationStation1 FunctionsIDose.IrrigationStation2 FunctionsIDose.IrrigationStation3 FunctionsIDose.IrrigationStation4 FunctionsIDose.Scheduling FunctionsIDose.MuteBuzzer AdvancedIDose.ProportinalDosing AdvancedIDose.SequentialDosing AdvancedIDose.DisableEc AdvancedIDose.DisablePh AdvancedIDose.MntnReminderFreq GeneralIDose.DeviceName GeneralIDose.Firmware ConfigIDose.Units ConfigIDose.Times ConfigIDose.Functions ConfigIDose.Advanced ConfigIDose.General MetricsIDose.Ec MetricsIDose.NutTemp MetricsIDose.PH StatusIDose.General StatusIDose.Nutrient StatusIDose.SetPoints StatusIDose.Status StatusIDose.Units ReportedIDose.Config ReportedIDose.Metrics ReportedIDose.Status ReportedIDose.Source ReportedIDose.Device ReportedIDose.Timestamp ReportedIDose.Connected StateIDose.Reported iDoseShadow.State].

(** Resolves the status lookups of the encoder by function name. *)
Ltac idose_lookups :=
  rewrite ?getIrrigationMode_independent, ?getIrrigationMode_sequential, ?irrigation_flags_agree;
  cbv beta iota zeta delta [String.eqb Ascii.eqb Bool.eqb nutrientDosingFunction phFunction
    irrigationFunction irrigationStation1Function irrigationStation2Function
    irrigationStation3Function irrigationStation4Function waterFunction].

(** Reads each bit back through the [updateByte]s written over it. *)
Ltac idose_bits :=
  rewrite ?getPhDosingBoolByString_getPhDosingModeByBool, ?getBoolFromPHMode_getPHMode,
    ?isUSADateFormat_getDateFormat, ?isTemperatureF_getTemperatureF,
    ?isNutrientConfig_getNutrientConfig, ?getIrrigationStationConfigurationByString_get,
    ?Ascii.byte_of_ascii_of_byte;
  cbv beta iota zeta delta [fst snd];
  rewrite !getBoolFromByte_updateByte by lia;
  cbv beta iota zeta delta [Nat.eqb].

(** Reads each number back through its encoding. *)
Ltac idose_numbers :=
  rewrite ?getIrrigationMode_flags, ?getIrrigationStationConfiguration_normalise,
    ?getNutrientConfig_normalise, ?u8_getFloatFrom2Bytes, ?u8_shiftr_getFloatFrom2Bytes,
    ?go_div_mul_6, ?u8_uz, ?prepareInt_0_1_int, ?prepareByte_1_10_codec, ?prepareByte_ec_codec,
    ?Ascii.ascii_of_byte_of_ascii, ?getDefaultValue_idem by reflexivity;
  rewrite ?u8_getFloatFrom2Bytes, ?u8_shiftr_getFloatFrom2Bytes, ?irrigationStations_normalise.

(** C1. Round trip of the IntelliDose codec: for 64-byte frames D0, D1, D2,
    both encoders succeed on the decoded shadow, and decoding D0 with the
    S0 and S1 frames they produce gives back the shadow decoded from D0, D1
    and D2, provided the pH force bit and the station 1 day-only bit of D1
    are not both set, and neither nutrient temperature limit has raw value
    65535. *)
Theorem IDose_roundtrip (d0 d1 d2 : frame) (name : string) (ts : Z) :
  length d0 = 64%nat -> length d1 = 64%nat -> length d2 = 64%nat ->
  getBoolFromByte (d1.[2]) 7 && getBoolFromByte (d1.[3]) 3 = false ->
  getFloatFrom2Bytes (d1.[12]) (d1.[11]) <> 65535 ->
  getFloatFrom2Bytes (d1.[14]) (d1.[13]) <> 65535 ->
  exists s0 s1,
    prepareS0RequestForIDose d0 d1 (parseByteResponseForIDose d0 d1 d2 name ts) = Some s0 /\
    prepareS1RequestForIDose d0 d2 (parseByteResponseForIDose d0 d1 d2 name ts) = Some s1 /\
    parseByteResponseForIDose d0 s0 s1 name ts = parseByteResponseForIDose d0 d1 d2 name ts.
Proof.
  intros H0 H1 H2 Hph Hn1 Hn2.
  explode_frame H0. explode_frame H1. explode_frame H2. cbv [idx nth] in Hph, Hn1, Hn2.
  unfold prepareS0RequestForIDose, prepareS1RequestForIDose, frames_indexable.
  cbn [length Nat.leb negb andb].
  do 2 eexists. split; [reflexivity|]. split; [reflexivity|].
  idose_unfold.
  abstract (idose_lookups; idose_bits; idose_numbers;
    rewrite ?(andb_false_negb_l _ _ Hph), ?(prepareInt_1_100_codec _ _ Hn1), ?(prepareInt_1_100_codec _ _ Hn2);
    lazymatch goal with |- context [if negb ?i || ?s then _ else _] => destruct (negb i || s) end;
    cbv beta iota;
    lazymatch goal with |- ?a = ?b => constr_eq a b; reflexivity end).
Qed.

(** ** The hypotheses are needed *)

(** pH forced on (D1 byte 3 bit 3) together with station 1 restricted to
    the day (D1 byte 2 bit 7): the encoder writes the bit from the station
    configuration, which clears it, and pH is no longer forced on. *)
Lemma IDose_roundtrip_ph_force_cex :
  let d1 := zero_frame.[2 <- Byte.x01].[3 <- Byte.x10] in
  exists s0 s1,
    prepareS0RequestForIDose zero_frame d1 (parseByteResponseForIDose zero_frame d1 zero_frame "" 0) = Some s0 /\
    prepareS1RequestForIDose zero_frame zero_frame (parseByteResponseForIDose zero_frame d1 zero_frame "" 0) = Some s1 /\
    ph_force_on (parseByteResponseForIDose zero_frame d1 zero_frame "" 0) = true /\
    ph_force_on (parseByteResponseForIDose zero_frame s0 s1 "" 0) = false.
Proof. do 2 eexists. split; [reflexivity|]. split; [reflexivity|]. split; vm_compute; reflexivity. Qed.

(** A nutrient temperature maximum of raw value 65535 reads as 655.4, is
    written as 65540 and reads back as 0. *)
Lemma IDose_roundtrip_nut_temp_cex :
  let d1 := zero_frame.[11 <- Byte.xff].[12 <- Byte.xff] in
  exists s0 s1,
    prepareS0RequestForIDose zero_frame d1 (parseByteResponseForIDose zero_frame d1 zero_frame "" 0) = Some s0 /\
    prepareS1RequestForIDose zero_frame zero_frame (parseByteResponseForIDose zero_frame d1 zero_frame "" 0) = Some s1 /\
    nut_temp_max (parseByteResponseForIDose zero_frame d1 zero_frame "" 0) = 655.39999999999998%float /\
    nut_temp_max (parseByteResponseForIDose zero_frame s0 s1 "" 0) = 0%float.
Proof. do 2 eexists. split; [reflexivity|]. split; [reflexivity|]. split; vm_compute; reflexivity. Qed.

Lemma IDose_roundtrip_witness :
  exists s0 s1,
    prepareS0RequestForIDose zero_frame zero_frame (parseByteResponseForIDose zero_frame zero_frame zero_frame "" 0) = Some s0 /\
    prepareS1RequestForIDose zero_frame zero_frame (parseByteResponseForIDose zero_frame zero_frame zero_frame "" 0) = Some s1 /\
    parseByteResponseForIDose zero_frame s0 s1 "" 0 = parseByteResponseForIDose zero_frame zero_frame zero_frame "" 0.
Proof.
  apply IDose_roundtrip; try reflexivity; vm_compute; discriminate.
Defined.
