(* ===== verification/IClimate.v ===== *)
(** * IntelliClimate: shadow document, decoder and encoders

    The structs of [src/device/device_interrogator.go] (lines 119-486), one
    Rocq module per Go struct with a record [t] whose fields keep the Go
    names; [parseByteResponseForIClimate] and [extractSetPointArray] (lines
    1461-1794), which decode the D0/D1/D2/D3 frames into an
    [iClimateShadow]; and [prepareS0RequestForIClimate],
    [fillSetPointData], [prepareS1RequestForIClimate] and
    [prepareS2RequestForIClimate] (lines 995-1273), which write a shadow
    back into copies of D1, D2 and D3 to form the S0, S1 and S2 frames.
    Each encoder is its list of assignments ([_writes]) and a wrapper that
    runs them over the frame and checksums it, as for the IntelliDose. *)

From Stdlib Require Import Strings.String Strings.Ascii Floats.
From S2P Require Import Prelude GoFloat Enc Bits Crc Scalars IDose.

Open Scope string_scope.
Open Scope Z_scope.
Open Scope intelli_scope.

(** ** The shadow document (lines 119-486) *)

Module IntruderAlarmIClimate.
Record t := mk { Enabled : bool; Page : bool }.
End IntruderAlarmIClimate.

Module CO2IClimate.
Record t := mk { Target : float64; Enabled : bool; Max : float64; Min : float64; Page : bool }.
End CO2IClimate.

Module AirTempIClimate.
Record t := mk { Cool : float64; Enabled : bool; Heat : float64; Max : float64; Min : float64; Page : bool }.
End AirTempIClimate.

Module FailSafeAlarmsIClimate.
Record t := mk { Enabled : bool; Page : bool }.
End FailSafeAlarmsIClimate.

Module LightIClimate.
Record t := mk { Enabled : bool; Min : float64; Page : bool }.
End LightIClimate.

Module PowerFailIClimate.
Record t := mk { Enabled : bool; Page : bool }.
End PowerFailIClimate.

Module RhIClimate.
Record t := mk { Enabled : bool; Max : byte; Min : byte; Page : bool; Target : byte }.
End RhIClimate.

Module ReadingsIClimate.
Record t := mk {
    AirTemp : AirTempIClimate.t; Detent : byte; FailSafeAlarms : FailSafeAlarmsIClimate.t;
    Light : LightIClimate.t; PowerFail : PowerFailIClimate.t; Rh : RhIClimate.t;
    CO2 : CO2IClimate.t; IntruderAlarm : IntruderAlarmIClimate.t }.
End ReadingsIClimate.

Module StatisticsIClimate.
Record t := mk { Lights : float64; CO2 : float64 }.
End StatisticsIClimate.

Module AlarmsIClimate.
Record t := mk { Description : string; Timestamp : string }.
End AlarmsIClimate.

Module ModeIClimate.
Record t := mk { Description : string; Timestamp : string }.
End ModeIClimate.

Module ModeAlarmHistoryIClimate.
Record t := mk { Alarms : list AlarmsIClimate.t; Mode : list ModeIClimate.t }.
End ModeAlarmHistoryIClimate.

Module SetPointIClimate.
Record t := mk {
    LightBank : string; LightOn : Z; LightDuration : Z; DayTemp : float64; NightDropDeg : float64;
    RhDay : Z; RhMax : Z; RhNight : Z; CO2 : Z }.
End SetPointIClimate.

Module StatusStatusIClimate.
Record t := mk { Active : bool; Enabled : bool; ForceOn : bool; Function : string; Installed : bool }.
End StatusStatusIClimate.

Module UnitsIClimate.
Record t := mk { DateFormat : string; Temperature : string }.
End UnitsIClimate.

Module FunctionsIClimate.
Record t := mk {
    Fan1 : bool; Fan2 : bool; AirConditioner : bool; Heater : bool; Co2Sensor : bool;
    Co2SensorRange : string; Co2Injection : bool; Co2Extraction : bool; Dehumidifier : bool;
    Humidifier : bool; PulsedFogger : bool; LightBank1 : bool; LightsAirColored : bool;
    LightBank2 : bool; LampOverTempShutdownSensors : bool; OutsideTempSensor : bool;
    SecondEnviroSensor : bool; IntruderAlarm : bool; DehumidifyBy : string; Setup : string;
    MuteBuzzer : bool }.
End FunctionsIClimate.

Module HumidifyTempRulesIClimate.
Record t := mk {
    LowerCoolingTemp : float64; RaiseHeatingTemp : float64; RhLowThenRaise : float64;
    PreventHeater : byte; HeatingOffset : float64 }.
End HumidifyTempRulesIClimate.

Module MinimumAirChangeRulesIClimate.
Record t := mk { DaySecs : Z; EveryDayMins : Z; NightSecs : Z; EveryNightMins : Z }.
End MinimumAirChangeRulesIClimate.

Module SetpointRampingIClimate.
Record t := mk { RampSetpoints : byte }.
End SetpointRampingIClimate.

Module AirConIClimate.
Record t := mk { ForceAirCon : bool; AutoChangeAirCon : float64; StartBefore : byte; AutoStartAirCon : float64 }.
End AirConIClimate.

Module CO2RulesIClimate.
Record t := mk {
    Co2InjectionAllowed : bool; InjectIfLightGreater : float64; Co2InjectionAvoid : bool;
    Co2Cycling : float64; RiseVentTemp : float64; InjectTimeMin : byte; InjectTimeMax : byte;
    WaitTimeMin : byte; WaitTimeMax : byte; VentTimeMin : byte; VentTimeMax : byte }.
End CO2RulesIClimate.

Module HumidificationIClimate.
Record t := mk { AllowHumidification : bool; ChangeHumidification : byte }.
End HumidificationIClimate.

Module LightingIClimate.
Record t := mk { LampCoolDownTime : byte; SwOnNextLightBank : byte }.
End LightingIClimate.

Module FoggingRulesIClimate.
Record t := mk { FogToCool : byte; FogToAchieveRh : float64; FogTimes : Z; FogTimeMax : byte; FogTimeMin : byte }.
End FoggingRulesIClimate.

Module PurgingRulesIClimate.
Record t := mk { PurgeMins : byte; PurgeMin : byte; PurgeMax : byte }.
End PurgingRulesIClimate.

Module RulesIClimate.
Record t := mk {
    HumidifyTempRules : HumidifyTempRulesIClimate.t; MinimumAirChangeRules : MinimumAirChangeRulesIClimate.t;
    AllowAirCon : bool; SetpointRamping : SetpointRampingIClimate.t; AirCon : AirConIClimate.t;
    CO2Rules : CO2RulesIClimate.t; Humidification : HumidificationIClimate.t;
    Lighting : LightingIClimate.t; FoggingRules : FoggingRulesIClimate.t;
    PurgingRules : PurgingRulesIClimate.t }.
End RulesIClimate.

Module SwitchingOffsetsIClimate.
Record t := mk {
    AirConditionerOn : float64; AirConditionerOff : float64; CO2On : float64; CO2Off : float64;
    DehumidifierOn : float64; DehumidifierOff : float64; FansOn : float64; FansOff : float64;
    HeaterOn : float64; HeaterOff : float64; HumidifierOn : float64; HumidifierOff : float64;
    PulsedFoggerOn : float64; PulsedFoggerOff : float64 }.
End SwitchingOffsetsIClimate.

Module FanFailOverrideIClimate.
Record t := mk { SwOffLightTempExceed : float64; SwOffLightsTempExceed : float64 }.
End FanFailOverrideIClimate.

Module AirConOverrideIClimate.
Record t := mk { SwAllExhaustFans : float64 }.
End AirConOverrideIClimate.

Module DehumidifierOverrideIClimate.
Record t := mk { SwOnFansRhExceed : byte; SwAcRhExceed : byte }.
End DehumidifierOverrideIClimate.

Module Co2FailSafeIClimate.
Record t := mk { SwOnFansCo2Exceed : Z }.
End Co2FailSafeIClimate.

Module Co2InjectionOverrideIClimate.
Record t := mk { RevertFansCo2Falls : Z }.
End Co2InjectionOverrideIClimate.

Module PowerFailureIClimate.
Record t := mk { SwLightsAfterCoolDown : byte }.
End PowerFailureIClimate.

Module LightingOverrideIClimate.
Record t := mk { LightFallsAlarmMinimum : bool }.
End LightingOverrideIClimate.

Module FailSafeSettingsIClimate.
Record t := mk {
    FanFailOverride : FanFailOverrideIClimate.t; AirConOverride : AirConOverrideIClimate.t;
    DehumidifierOverride : DehumidifierOverrideIClimate.t; Co2FailSafe : Co2FailSafeIClimate.t;
    Co2InjectionOverride : Co2InjectionOverrideIClimate.t; PowerFailure : PowerFailureIClimate.t;
    LightingOverride : LightingOverrideIClimate.t }.
End FailSafeSettingsIClimate.

Module AdvancedIClimate.
Record t := mk {
    ViewAdvancedSetting : bool; SwitchingOffsets : SwitchingOffsetsIClimate.t;
    FailSafeSettings : FailSafeSettingsIClimate.t; Rules : RulesIClimate.t }.
End AdvancedIClimate.

Module GeneralIClimate.
Record t := mk { DeviceName : string; Firmware : float64 }.
End GeneralIClimate.

Module ConfigIClimate.
Record t := mk {
    Units : UnitsIClimate.t; Functions : FunctionsIClimate.t; Advanced : AdvancedIClimate.t;
    General : GeneralIClimate.t }.
End ConfigIClimate.

Module MetricsIClimate.
Record t := mk {
    AirTemp : float64; DayNight : string; FailSafeAlarms : bool; Light : float64; PowerFail : bool;
    Rh : float64; Vpd : float64; Co2 : float64; Intruder : bool; OutsideTemp : float64;
    EnviroAirTemp1 : float64; EnviroAirTemp2 : float64; EnviroRH1 : float64; EnviroRH2 : float64;
    EnviroCO21 : float64; EnviroCO22 : float64; EnviroLight1 : float64; EnviroLight2 : float64 }.
End MetricsIClimate.

Module StatusIClimate.
Record t := mk {
    Readings : ReadingsIClimate.t; Statistics : StatisticsIClimate.t;
    ModeAlarmHistory : ModeAlarmHistoryIClimate.t; SetPoints : list SetPointIClimate.t;
    Status : list StatusStatusIClimate.t }.
End StatusIClimate.

Module ReportedIClimate.
Record t := mk {
    Config : ConfigIClimate.t; Metrics : MetricsIClimate.t; Status : StatusIClimate.t;
    Source : string; Device : string; Timestamp : Z; Connected : bool }.
End ReportedIClimate.

Module StateIClimate.
Record t := mk { Reported : ReportedIClimate.t }.
End StateIClimate.

Module iClimateShadow.
Record t := mk { State : StateIClimate.t }.
End iClimateShadow.

(** The zero [StatusStatusIClimate] that [getStatusIClimateFunctionByName]
    returns when no status has the name. *)
Definition StatusStatusIClimate_zero : StatusStatusIClimate.t :=
  {| StatusStatusIClimate.Active := false; StatusStatusIClimate.Enabled := false;
     StatusStatusIClimate.ForceOn := false; StatusStatusIClimate.Function := "";
     StatusStatusIClimate.Installed := false |}.

Import Bits.

(** ** Decoding (lines 1461-1794) *)

(** [func extractSetPointArray(d1Response []byte) []SetPointIClimate]:
    one set point, read through the re-slice [d1 := d1Response[2:]]. *)
Definition extractSetPointArray (d1Response : frame) : list SetPointIClimate.t :=
  let d1 := skipn 2 d1Response in
  [ {| SetPointIClimate.LightBank := getLightBoxTextByInt (uz d1.[41]);
       SetPointIClimate.LightOn := getFloatFrom2Bytes d1.[43] d1.[42];
       SetPointIClimate.LightDuration := getFloatFrom2Bytes d1.[45] d1.[44];
       SetPointIClimate.DayTemp := prepareInt (getFloatFrom2Bytes d1.[47] d1.[46]) 1 100;
       SetPointIClimate.NightDropDeg := prepareInt (getFloatFrom2Bytes d1.[49] d1.[48]) 1 100;
       SetPointIClimate.RhDay := getFloatFrom2Bytes d1.[51] d1.[50];
       SetPointIClimate.RhNight := getFloatFrom2Bytes d1.[53] d1.[52];
       SetPointIClimate.RhMax := uz d1.[54];
       SetPointIClimate.CO2 := getFloatFrom2Bytes d1.[56] d1.[55] |} ].

(** [func parseByteResponseForIClimate(d0Response, d1Response, d2Response,
    d3Response []byte, name string, timestamp int64) iClimateShadow]. *)
Definition parseByteResponseForIClimate (d0Response d1Response d2Response d3Response : frame)
    (name : string) (timestamp : Z) : iClimateShadow.t :=
  let status (active enabled forceOn : bool) (function : string) (installed : bool) : StatusStatusIClimate.t :=
    {| StatusStatusIClimate.Active := active; StatusStatusIClimate.Enabled := enabled;
       StatusStatusIClimate.ForceOn := forceOn; StatusStatusIClimate.Function := function;
       StatusStatusIClimate.Installed := installed |} in
  {| iClimateShadow.State := {| StateIClimate.Reported := {|
    ReportedIClimate.Config := {|
      ConfigIClimate.Units := {|
        UnitsIClimate.DateFormat := getDateFormat (getBoolFromByte d1Response.[4] 6);
        UnitsIClimate.Temperature := getTemperatureF (getBoolFromByte d1Response.[4] 7) |};
      ConfigIClimate.Functions := {|
        FunctionsIClimate.Fan1 := getBoolFromByte d1Response.[2] 7;
        FunctionsIClimate.Fan2 := getBoolFromByte d1Response.[2] 6;
        FunctionsIClimate.AirConditioner := getBoolFromByte d1Response.[2] 5;
        FunctionsIClimate.Heater := getBoolFromByte d1Response.[2] 4;
        FunctionsIClimate.Co2Sensor := getBoolFromByte d1Response.[2] 3;
        FunctionsIClimate.Co2SensorRange := getCo2SensorRangeFromBool (getBoolFromByte d2Response.[2] 0);
        FunctionsIClimate.Co2Injection := getBoolFromByte d1Response.[2] 2;
        FunctionsIClimate.Co2Extraction := getBoolFromByte d2Response.[2] 1;
        FunctionsIClimate.Dehumidifier := getBoolFromByte d1Response.[3] 7;
        FunctionsIClimate.Humidifier := getBoolFromByte d1Response.[2] 0;
        FunctionsIClimate.PulsedFogger := getBoolFromByte d1Response.[2] 1;
        FunctionsIClimate.LightBank1 := getBoolFromByte d1Response.[3] 6;
        FunctionsIClimate.LightsAirColored := getBoolFromByte d1Response.[3] 0;
        FunctionsIClimate.LightBank2 := getBoolFromByte d1Response.[3] 5;
        FunctionsIClimate.LampOverTempShutdownSensors := getBoolFromByte d1Response.[5] 0;
        FunctionsIClimate.OutsideTempSensor := getBoolFromByte d1Response.[3] 4;
        FunctionsIClimate.SecondEnviroSensor := getBoolFromByte d1Response.[3] 3;
        FunctionsIClimate.IntruderAlarm := getBoolFromByte d1Response.[3] 2;
        FunctionsIClimate.DehumidifyBy :=
          getDehumidifyBy (getBoolFromByte d1Response.[4] 0) (getBoolFromByte d1Response.[4] 1);
        FunctionsIClimate.Setup := "Manual";
        FunctionsIClimate.MuteBuzzer := getBoolFromByte d1Response.[4] 2 |};
      ConfigIClimate.Advanced := {|
        AdvancedIClimate.ViewAdvancedSetting := false;
        AdvancedIClimate.SwitchingOffsets := {|
          SwitchingOffsetsIClimate.FansOn := prepareInt (getSignedFloatFrom2Bytes d3Response.[8] d3Response.[7]) 1 100;
          SwitchingOffsetsIClimate.FansOff := prepareInt (getSignedFloatFrom2Bytes d3Response.[10] d3Response.[9]) 1 100;
          SwitchingOffsetsIClimate.HeaterOn := prepareInt (getSignedFloatFrom2Bytes d3Response.[4] d3Response.[3]) 1 100;
          SwitchingOffsetsIClimate.HeaterOff := prepareInt (getSignedFloatFrom2Bytes d3Response.[6] d3Response.[5]) 1 100;
          SwitchingOffsetsIClimate.HumidifierOn := prepareInt (getSignedFloatFrom2Bytes d3Response.[16] d3Response.[15]) 1 1;
          SwitchingOffsetsIClimate.HumidifierOff := prepareInt (getSignedFloatFrom2Bytes d3Response.[18] d3Response.[17]) 1 1;
          SwitchingOffsetsIClimate.DehumidifierOn := prepareInt (getSignedFloatFrom2Bytes d3Response.[20] d3Response.[19]) 1 1;
          SwitchingOffsetsIClimate.DehumidifierOff := prepareInt (getSignedFloatFrom2Bytes d3Response.[22] d3Response.[21]) 1 1;
          SwitchingOffsetsIClimate.CO2On := prepareInt (getSignedFloatFrom2Bytes d3Response.[24] d3Response.[23]) 1 1;
          SwitchingOffsetsIClimate.CO2Off := prepareInt (getSignedFloatFrom2Bytes d3Response.[26] d3Response.[25]) 1 1;
          SwitchingOffsetsIClimate.PulsedFoggerOn := float64_of_int 10;
          SwitchingOffsetsIClimate.PulsedFoggerOff := float64_of_int 12;
          SwitchingOffsetsIClimate.AirConditionerOn := prepareInt (getSignedFloatFrom2Bytes d3Response.[12] d3Response.[11]) 1 100;
          SwitchingOffsetsIClimate.AirConditionerOff := prepareInt (getSignedFloatFrom2Bytes d3Response.[14] d3Response.[13]) 1 100 |};
        AdvancedIClimate.Rules := {|
          RulesIClimate.MinimumAirChangeRules := {|
            MinimumAirChangeRulesIClimate.DaySecs := getFloatFrom2Bytes d2Response.[46] d2Response.[45];
            MinimumAirChangeRulesIClimate.EveryDayMins := getFloatFrom2Bytes d2Response.[42] d2Response.[41];
            MinimumAirChangeRulesIClimate.NightSecs := getFloatFrom2Bytes d2Response.[48] d2Response.[47];
            MinimumAirChangeRulesIClimate.EveryNightMins := getFloatFrom2Bytes d2Response.[44] d2Response.[43] |};
          RulesIClimate.HumidifyTempRules := {|
            HumidifyTempRulesIClimate.LowerCoolingTemp := prepareInt (getSignedFloatFrom2Bytes d2Response.[25] d2Response.[24]) 1 100;
            HumidifyTempRulesIClimate.RaiseHeatingTemp := prepareInt (getSignedFloatFrom2Bytes d2Response.[28] d2Response.[27]) 1 100;
            HumidifyTempRulesIClimate.RhLowThenRaise := prepareInt (getSignedFloatFrom2Bytes d2Response.[30] d2Response.[29]) 1 100;
            HumidifyTempRulesIClimate.PreventHeater := d2Response.[19];
            HumidifyTempRulesIClimate.HeatingOffset := prepareInt (getSignedFloatFrom2Bytes d3Response.[28] d3Response.[27]) 1 100 |};
          RulesIClimate.AllowAirCon := getBoolFromByte d2Response.[2] 6;
          RulesIClimate.SetpointRamping := {| SetpointRampingIClimate.RampSetpoints := d2Response.[18] |};
          RulesIClimate.AirCon := {|
            AirConIClimate.ForceAirCon := getBoolFromByte d2Response.[2] 3;
            AirConIClimate.AutoChangeAirCon := prepareInt (getFloatFrom2Bytes d2Response.[40] d2Response.[39]) 1 100;
            AirConIClimate.StartBefore := d2Response.[23];
            AirConIClimate.AutoStartAirCon := prepareInt (getSignedFloatFrom2Bytes d2Response.[22] d2Response.[21]) 1 100 |};
          RulesIClimate.CO2Rules := {|
            CO2RulesIClimate.Co2InjectionAllowed := getBoolFromByte d2Response.[2] 5;
            CO2RulesIClimate.InjectIfLightGreater := prepareInt (getFloatFrom2Bytes d2Response.[50] d2Response.[49]) 1 1;
            CO2RulesIClimate.Co2InjectionAvoid := getBoolFromByte d2Response.[2] 7;
            CO2RulesIClimate.Co2Cycling := prepareInt (getSignedFloatFrom2Bytes d2Response.[52] d2Response.[51]) 1 100;
            CO2RulesIClimate.RiseVentTemp := prepareInt (getSignedFloatFrom2Bytes d2Response.[54] d2Response.[53]) 1 100;
            CO2RulesIClimate.InjectTimeMin := d2Response.[55];
            CO2RulesIClimate.InjectTimeMax := d2Response.[56];
            CO2RulesIClimate.WaitTimeMin := d2Response.[57];
            CO2RulesIClimate.WaitTimeMax := d2Response.[58];
            CO2RulesIClimate.VentTimeMin := d2Response.[59];
            CO2RulesIClimate.VentTimeMax := d2Response.[60] |};
          RulesIClimate.Humidification := {|
            HumidificationIClimate.ChangeHumidification := d2Response.[20];
            HumidificationIClimate.AllowHumidification := getBoolFromByte d2Response.[2] 2 |};
          RulesIClimate.Lighting := {|
            LightingIClimate.LampCoolDownTime := d2Response.[15];
            LightingIClimate.SwOnNextLightBank := d2Response.[17] |};
          RulesIClimate.FoggingRules := {|
            FoggingRulesIClimate.FogToCool := d2Response.[26];
            FoggingRulesIClimate.FogToAchieveRh := prepareInt (getFloatFrom2Bytes d2Response.[35] d2Response.[34]) 1 100;
            FoggingRulesIClimate.FogTimes := getFloatFrom2Bytes d3Response.[29] d2Response.[36];
            FoggingRulesIClimate.FogTimeMax := d2Response.[38];
            FoggingRulesIClimate.FogTimeMin := d2Response.[37] |};
          RulesIClimate.PurgingRules := {|
            PurgingRulesIClimate.PurgeMins := d2Response.[31];
            PurgingRulesIClimate.PurgeMin := d2Response.[32];
            PurgingRulesIClimate.PurgeMax := d2Response.[33] |} |};
        AdvancedIClimate.FailSafeSettings := {|
          FailSafeSettingsIClimate.FanFailOverride := {|
            FanFailOverrideIClimate.SwOffLightsTempExceed := prepareInt (getFloatFrom2Bytes d2Response.[8] d2Response.[7]) 1 100;
            FanFailOverrideIClimate.SwOffLightTempExceed := prepareInt (getFloatFrom2Bytes d2Response.[6] d2Response.[5]) 1 100 |};
          FailSafeSettingsIClimate.DehumidifierOverride := {|
            DehumidifierOverrideIClimate.SwOnFansRhExceed := d2Response.[9];
            DehumidifierOverrideIClimate.SwAcRhExceed := d2Response.[10] |};
          FailSafeSettingsIClimate.Co2FailSafe := {|
            Co2FailSafeIClimate.SwOnFansCo2Exceed := getFloatFrom2Bytes d2Response.[12] d2Response.[11] |};
          FailSafeSettingsIClimate.Co2InjectionOverride := {|
            Co2InjectionOverrideIClimate.RevertFansCo2Falls := getFloatFrom2Bytes d2Response.[14] d2Response.[13] |};
          FailSafeSettingsIClimate.PowerFailure := {|
            PowerFailureIClimate.SwLightsAfterCoolDown := d2Response.[16] |};
          FailSafeSettingsIClimate.LightingOverride := {|
            LightingOverrideIClimate.LightFallsAlarmMinimum := getBoolFromByte d2Response.[2] 4 |};
          FailSafeSettingsIClimate.AirConOverride := {|
            AirConOverrideIClimate.SwAllExhaustFans := prepareInt (getFloatFrom2Bytes d2Response.[4] d2Response.[3]) 1 100 |} |} |};
      ConfigIClimate.General := {|
        GeneralIClimate.DeviceName := string_of_bytes (slice d1Response 33 43);
        GeneralIClimate.Firmware := prepareInt (getSignedFloatFrom2Bytes d0Response.[8] d0Response.[7]) 2 100 |} |};
    ReportedIClimate.Status := {|
      StatusIClimate.Readings := {|
        ReadingsIClimate.AirTemp := {|
          AirTempIClimate.Cool := prepareInt (getFloatFrom2Bytes d1Response.[11] d1Response.[10]) 1 100;
          AirTempIClimate.Heat := prepareInt (getFloatFrom2Bytes d1Response.[60] d1Response.[59]) 1 100;
          AirTempIClimate.Min := prepareInt (getFloatFrom2Bytes d1Response.[13] d1Response.[12]) 1 100;
          AirTempIClimate.Max := prepareInt (getFloatFrom2Bytes d1Response.[15] d1Response.[14]) 1 100;
          AirTempIClimate.Enabled := getBoolFromByte d1Response.[5] 7;
          AirTempIClimate.Page := false |};
        ReadingsIClimate.Rh := {|
          RhIClimate.Target := d1Response.[16];
          RhIClimate.Min := d1Response.[17];
          RhIClimate.Max := d1Response.[18];
          RhIClimate.Enabled := getBoolFromByte d1Response.[5] 6;
          RhIClimate.Page := false |};
        ReadingsIClimate.Light := {|
          LightIClimate.Min := prepareInt (getFloatFrom2Bytes d1Response.[30] d1Response.[29]) 0 1;
          LightIClimate.Enabled := getBoolFromByte d1Response.[5] 4;
          LightIClimate.Page := false |};
        ReadingsIClimate.PowerFail := {|
          PowerFailIClimate.Enabled := getBoolFromByte d1Response.[5] 2;
          PowerFailIClimate.Page := false |};
        ReadingsIClimate.FailSafeAlarms := {|
          FailSafeAlarmsIClimate.Enabled := getBoolFromByte d1Response.[4] 4;
          FailSafeAlarmsIClimate.Page := true |};
        ReadingsIClimate.Detent := d1Response.[9];
        ReadingsIClimate.CO2 := {|
          CO2IClimate.Min := PrimFloat.mul (prepareByte d1Response.[27] 0 1) (float64_of_int 25);
          CO2IClimate.Max := PrimFloat.mul (prepareByte d1Response.[28] 0 1) (float64_of_int 25);
          CO2IClimate.Target := prepareInt (getFloatFrom2Bytes d1Response.[26] d1Response.[25]) 0 1;
          CO2IClimate.Enabled := getBoolFromByte d1Response.[5] 5;
          CO2IClimate.Page := false |};
        ReadingsIClimate.IntruderAlarm := {|
          IntruderAlarmIClimate.Enabled := getBoolFromByte d1Response.[5] 3;
          IntruderAlarmIClimate.Page := false |} |};
      StatusIClimate.Statistics := {|
        StatisticsIClimate.Lights := prepareInt (getFloatFrom2Bytes d1Response.[35] d1Response.[34]) 1 100;
        StatisticsIClimate.CO2 := prepareInt (getFloatFrom2Bytes d0Response.[41] d0Response.[40]) 0 1 |};
      StatusIClimate.SetPoints := extractSetPointArray d1Response;
      StatusIClimate.Status := [
        status (getBoolFromByte d0Response.[43] 7) (getBoolFromByte d1Response.[6] 7)
               (getBoolFromByte d1Response.[6] 6) fan1Function (getBoolFromByte d1Response.[2] 7);
        status (getBoolFromByte d0Response.[43] 6) (getBoolFromByte d1Response.[6] 5)
               (getBoolFromByte d1Response.[6] 4) fan2Function (getBoolFromByte d1Response.[2] 6);
        status (getBoolFromByte d0Response.[43] 6) (getBoolFromByte d1Response.[6] 5)
               (getBoolFromByte d1Response.[6] 4) airConFunction (getBoolFromByte d1Response.[2] 5);
        status (getBoolFromByte d0Response.[43] 3) (getBoolFromByte d1Response.[5] 1)
               false co2InjectionFunction (getBoolFromByte d1Response.[2] 2);
        status (getBoolFromByte d0Response.[43] 3) (getBoolFromByte d1Response.[5] 1)
               true co2ExtractFunction (getBoolFromByte d1Response.[2] 2);
        status (getBoolFromByte d0Response.[43] 5) (getBoolFromByte d1Response.[6] 3)
               (getBoolFromByte d1Response.[6] 2) heaterFunction (getBoolFromByte d1Response.[2] 4);
        status (getBoolFromByte d0Response.[43] 2) (getBoolFromByte d1Response.[6] 1)
               (getBoolFromByte d1Response.[6] 0) dehumidifierFunction (getBoolFromByte d1Response.[3] 7);
        status (getBoolFromByte d0Response.[43] 4) (getBoolFromByte d1Response.[7] 7)
               (getBoolFromByte d1Response.[7] 6) humidifierFunction (getBoolFromByte d1Response.[2] 0);
        status (getBoolFromByte d0Response.[43] 1) (getBoolFromByte d1Response.[7] 5)
               (getBoolFromByte d1Response.[7] 4) lightBank1Function (getBoolFromByte d1Response.[3] 6);
        status (getBoolFromByte d0Response.[43] 0) (getBoolFromByte d1Response.[7] 3)
               (getBoolFromByte d1Response.[7] 2) lightBank2Function (getBoolFromByte d1Response.[3] 5);
        status (getBoolFromByte d0Response.[43] 4) (getBoolFromByte d1Response.[7] 7)
               (getBoolFromByte d1Response.[7] 6) foggerFunction (getBoolFromByte d1Response.[2] 1);
        status false true false purgingFunction true];
      StatusIClimate.ModeAlarmHistory := {|
        ModeAlarmHistoryIClimate.Mode :=
          [ {| ModeIClimate.Description := "Unknown"; ModeIClimate.Timestamp := "16:00:00" |} ];
        ModeAlarmHistoryIClimate.Alarms :=
          [ {| AlarmsIClimate.Description := "Unknown"; AlarmsIClimate.Timestamp := "16:00:00" |} ] |} |};
    ReportedIClimate.Metrics := {|
      MetricsIClimate.AirTemp := checkIntForNotAvailableValue (getFloatFrom2Bytes d0Response.[14] d0Response.[13]) 1 100;
      MetricsIClimate.Rh := prepareByte d0Response.[17] 0 1;
      MetricsIClimate.Vpd := checkIntForNotAvailableValue (getFloatFrom2Bytes d0Response.[19] d0Response.[18]) 1 1000;
      MetricsIClimate.Light := checkIntForNotAvailableValue (getFloatFrom2Bytes d0Response.[35] d0Response.[34]) 0 1;
      MetricsIClimate.PowerFail := getBoolFromByte d1Response.[2] 1;
      MetricsIClimate.FailSafeAlarms := getBoolFromByte d1Response.[2] 1;
      MetricsIClimate.DayNight := formatDayNightValue (getBoolFromByte d1Response.[4] 4);
      MetricsIClimate.Co2 := prepareInt (getFloatFrom2Bytes d0Response.[29] d0Response.[28]) 0 1;
      MetricsIClimate.Intruder := getBoolFromByte d0Response.[42] 7;
      MetricsIClimate.OutsideTemp := checkIntForNotAvailableValue (getSignedFloatFrom2Bytes d0Response.[37] d0Response.[36]) 1 100;
      MetricsIClimate.EnviroAirTemp1 := checkIntForNotAvailableValue (getSignedFloatFrom2Bytes d0Response.[10] d0Response.[9]) 1 100;
      MetricsIClimate.EnviroAirTemp2 := checkIntForNotAvailableValue (getSignedFloatFrom2Bytes d0Response.[12] d0Response.[11]) 1 100;
      MetricsIClimate.EnviroCO21 := checkIntForNotAvailableValue (getFloatFrom2Bytes d0Response.[25] d0Response.[24]) 0 1;
      MetricsIClimate.EnviroCO22 := checkIntForNotAvailableValue (getFloatFrom2Bytes d0Response.[27] d0Response.[26]) 0 1;
      MetricsIClimate.EnviroRH1 := prepareByte d0Response.[15] 0 1;
      MetricsIClimate.EnviroRH2 := prepareByte d0Response.[16] 0 1;
      MetricsIClimate.EnviroLight1 := checkIntForNotAvailableValue (getFloatFrom2Bytes d0Response.[31] d0Response.[30]) 0 1;
      MetricsIClimate.EnviroLight2 := checkIntForNotAvailableValue (getFloatFrom2Bytes d0Response.[33] d0Response.[32]) 0 1 |};
    ReportedIClimate.Device := name;
    ReportedIClimate.Timestamp := timestamp;
    ReportedIClimate.Source := "Gateway";
    ReportedIClimate.Connected := true |} |} |}.

(** The frames are long enough for every index the decoder reads: D0 up
    to 43, D1 up to 60 (and the slice [33:43]), D2 up to 60, D3 up to 29;
    a shorter frame makes it panic with an index out of range. *)
Definition parseByteResponseForIClimate_inbounds (d0 d1 d2 d3 : frame) : bool :=
  (44 <=? length d0)%nat && (61 <=? length d1)%nat && (61 <=? length d2)%nat && (30 <=? length d3)%nat.

(** ** Encoding (lines 995-1273) *)

(** [func getStatusIClimateFunctionByName(statuses []StatusStatusIClimate, statusName string) StatusStatusIClimate]
    (lines 1905-1916): the first status with that function name, or the
    zero status. *)
Fixpoint getStatusIClimateFunctionByName (statuses : list StatusStatusIClimate.t) (statusName : string)
    : StatusStatusIClimate.t :=
  match statuses with
  | [] => StatusStatusIClimate_zero
  | status :: rest =>
      if String.eqb (StatusStatusIClimate.Function status) statusName then status
      else getStatusIClimateFunctionByName rest statusName
  end.

(** The writes made through a re-slice [s := f[k:]]: [s[i]] is [f[k+i]]. *)
Definition reslice (k : nat) (ws : list write) : list write :=
  map (fun w => ((k + fst w)%nat, snd w)) ws.

(** Go's zero [SetPointIClimate], the default of [hd] below; the encoder
    never reads it, since an empty [SetPoints] makes it panic first. *)
Definition SetPointIClimate_zero : SetPointIClimate.t :=
  {| SetPointIClimate.LightBank := ""; SetPointIClimate.LightOn := 0; SetPointIClimate.LightDuration := 0;
     SetPointIClimate.DayTemp := float64_of_int 0; SetPointIClimate.NightDropDeg := float64_of_int 0;
     SetPointIClimate.RhDay := 0; SetPointIClimate.RhMax := 0; SetPointIClimate.RhNight := 0;
     SetPointIClimate.CO2 := 0 |}.

(** [int(x * 100)] of the encoders. *)
Definition hundredths (x : float64) : Z := int_of_float (PrimFloat.mul x (float64_of_int 100)).

(** [func fillSetPointData(bytes *[]byte, iClimate SetPointIClimate)]
    (lines 1118-1128): its assignments to [( *bytes)[i]]. *)
Definition fillSetPointData (iClimate : SetPointIClimate.t) : list write :=
  let lightOn := encoding.UnsignedIntToBytes (SetPointIClimate.LightOn iClimate) in
  let lightDuration := encoding.UnsignedIntToBytes (SetPointIClimate.LightDuration iClimate) in
  let dayTemp := encoding.UnsignedIntToBytes (hundredths (SetPointIClimate.DayTemp iClimate)) in
  let nightDropDeg := encoding.UnsignedIntToBytes (hundredths (SetPointIClimate.NightDropDeg iClimate)) in
  let rhDay := encoding.UnsignedIntToBytes (SetPointIClimate.RhDay iClimate) in
  let rhNight := encoding.UnsignedIntToBytes (SetPointIClimate.RhNight iClimate) in
  let co2 := encoding.UnsignedIntToBytes (SetPointIClimate.CO2 iClimate) in
  [ assign 41 (u8 (getLightBoxModeToInt (SetPointIClimate.LightBank iClimate)));
    assign 42 (fst lightOn); assign 43 (snd lightOn);
    assign 44 (fst lightDuration); assign 45 (snd lightDuration);
    assign 46 (fst dayTemp); assign 47 (snd dayTemp);
    assign 48 (fst nightDropDeg); assign 49 (snd nightDropDeg);
    assign 50 (fst rhDay); assign 51 (snd rhDay);
    assign 52 (fst rhNight); assign 53 (snd rhNight);
    assign 54 (u8 (SetPointIClimate.RhMax iClimate));
    assign 55 (fst co2); assign 56 (snd co2) ].

(** The body of [func prepareS0RequestForIClimate(d0bytes *[]byte, bytes *[]byte, climateShadow iClimateShadow)]
    (lines 995-1115) up to its call of [createCheckSum]: [S0] in bytes 0
    and 1, then the assignments through [specificationBytes := ( *bytes)[2:]]. *)
Definition prepareS0RequestForIClimate_writes (d0bytes : frame) (climateShadow : iClimateShadow.t) : list write :=
  let R := StateIClimate.Reported (iClimateShadow.State climateShadow) in
  let Rd := StatusIClimate.Readings (ReportedIClimate.Status R) in
  let Fn := ConfigIClimate.Functions (ReportedIClimate.Config R) in
  let Statuses := StatusIClimate.Status (ReportedIClimate.Status R) in
  let tempCool := hundredths (AirTempIClimate.Cool (ReadingsIClimate.AirTemp Rd)) in
  let tempHeat := hundredths (AirTempIClimate.Heat (ReadingsIClimate.AirTemp Rd)) in
  let tempMin := hundredths (AirTempIClimate.Min (ReadingsIClimate.AirTemp Rd)) in
  let tempMax := hundredths (AirTempIClimate.Max (ReadingsIClimate.AirTemp Rd)) in
  let tempAlarmEnabled := AirTempIClimate.Enabled (ReadingsIClimate.AirTemp Rd) in
  let rHAlarmEnabled := RhIClimate.Enabled (ReadingsIClimate.Rh Rd) in
  let lightAlarmEnabled := LightIClimate.Enabled (ReadingsIClimate.Light Rd) in
  let lightMin := int_of_float (LightIClimate.Min (ReadingsIClimate.Light Rd)) in
  let powerFailAlarmEnabled := PowerFailIClimate.Enabled (ReadingsIClimate.PowerFail Rd) in
  let failSafeAlarmEnabled := FailSafeAlarmsIClimate.Enabled (ReadingsIClimate.FailSafeAlarms Rd) in
  let co2AlarmEnabled := CO2IClimate.Enabled (ReadingsIClimate.CO2 Rd) in
  let co2Max := int_of_float (PrimFloat.div (CO2IClimate.Max (ReadingsIClimate.CO2 Rd)) (float64_of_int 25)) in
  let co2Min := int_of_float (PrimFloat.div (CO2IClimate.Min (ReadingsIClimate.CO2 Rd)) (float64_of_int 25)) in
  let co2Target := int_of_float (CO2IClimate.Target (ReadingsIClimate.CO2 Rd)) in
  let intruderAlarmEanbled := IntruderAlarmIClimate.Enabled (ReadingsIClimate.IntruderAlarm Rd) in
  let buzzerMuted := FunctionsIClimate.MuteBuzzer Fn in
  let purge_ac := isDehumidifyBy (FunctionsIClimate.DehumidifyBy Fn) in
  let purge := fst purge_ac in
  let ac := snd purge_ac in
  let fan1Status := getStatusIClimateFunctionByName Statuses fan1Function in
  let fan2Status := getStatusIClimateFunctionByName Statuses fan2Function in
  let airConditionerStatus := getStatusIClimateFunctionByName Statuses airConFunction in
  let co2ExtractStatus := getStatusIClimateFunctionByName Statuses co2ExtractFunction in
  let co2InjectStatus := getStatusIClimateFunctionByName Statuses co2InjectionFunction in
  let heaterStatus := getStatusIClimateFunctionByName Statuses heaterFunction in
  let dehumidifierStatus := getStatusIClimateFunctionByName Statuses dehumidifierFunction in
  let humidifierStatus := getStatusIClimateFunctionByName Statuses humidifierFunction in
  let light1Status := getStatusIClimateFunctionByName Statuses lightBank1Function in
  let light2Status := getStatusIClimateFunctionByName Statuses lightBank2Function in
  let foggerStatus := getStatusIClimateFunctionByName Statuses foggerFunction in
  let purgingStatus := getStatusIClimateFunctionByName Statuses purgingFunction in
  let dateFormat := UnitsIClimate.DateFormat (ConfigIClimate.Units (ReportedIClimate.Config R)) in
  let temperature := UnitsIClimate.Temperature (ConfigIClimate.Units (ReportedIClimate.Config R)) in
  let name := deviceNameByteArray (GeneralIClimate.DeviceName (ConfigIClimate.General (ReportedIClimate.Config R))) in
  let co2InjectionEnabledComposite :=
    if FunctionsIClimate.Co2Injection Fn then StatusStatusIClimate.Enabled co2InjectStatus
    else StatusStatusIClimate.Enabled co2ExtractStatus in
  let fan2On_fun2En :=
    if FunctionsIClimate.Fan2 Fn
    then (StatusStatusIClimate.ForceOn fan2Status, StatusStatusIClimate.Enabled fan2Status)
    else (StatusStatusIClimate.ForceOn airConditionerStatus, StatusStatusIClimate.Enabled airConditionerStatus) in
  let humidOn_humidEn :=
    if FunctionsIClimate.Humidifier Fn
    then (StatusStatusIClimate.ForceOn humidifierStatus, StatusStatusIClimate.Enabled humidifierStatus)
    else (StatusStatusIClimate.ForceOn foggerStatus, StatusStatusIClimate.Enabled foggerStatus) in
  let cool := encoding.UnsignedIntToBytes tempCool in
  let tmin := encoding.UnsignedIntToBytes tempMin in
  let tmax := encoding.UnsignedIntToBytes tempMax in
  let target := encoding.UnsignedIntToBytes co2Target in
  let lmin := encoding.UnsignedIntToBytes lightMin in
  let heat := encoding.UnsignedIntToBytes tempHeat in
  [ assign 0 Byte.x53; assign 1 Byte.x30 ] ++ reslice 2 (
  [ assign 0 (encoding.ComposeByte (FunctionsIClimate.Fan1 Fn) (FunctionsIClimate.Fan2 Fn)
      (FunctionsIClimate.AirConditioner Fn) (FunctionsIClimate.Heater Fn) (FunctionsIClimate.Co2Sensor Fn)
      (FunctionsIClimate.Co2Injection Fn) (FunctionsIClimate.PulsedFogger Fn) (FunctionsIClimate.Humidifier Fn));
    assign 1 (encoding.ComposeByte (FunctionsIClimate.Dehumidifier Fn) (FunctionsIClimate.LightBank1 Fn)
      (FunctionsIClimate.LightBank2 Fn) (FunctionsIClimate.OutsideTempSensor Fn)
      (FunctionsIClimate.SecondEnviroSensor Fn) (FunctionsIClimate.IntruderAlarm Fn) false
      (FunctionsIClimate.LightsAirColored Fn));
    assign 2 (encoding.ComposeByte (isTemperatureF temperature) (isUSADateFormat dateFormat) false
      failSafeAlarmEnabled false buzzerMuted ac purge);
    assign 3 (encoding.ComposeByte tempAlarmEnabled rHAlarmEnabled co2AlarmEnabled lightAlarmEnabled
      intruderAlarmEanbled powerFailAlarmEnabled co2InjectionEnabledComposite
      (FunctionsIClimate.LampOverTempShutdownSensors Fn));
    assign 4 (encoding.ComposeByte (StatusStatusIClimate.Enabled fan1Status) (StatusStatusIClimate.ForceOn fan1Status)
      (snd fan2On_fun2En) (fst fan2On_fun2En)
      (StatusStatusIClimate.Enabled heaterStatus) (StatusStatusIClimate.ForceOn heaterStatus)
      (StatusStatusIClimate.Enabled dehumidifierStatus) (StatusStatusIClimate.ForceOn dehumidifierStatus));
    assign 5 (encoding.ComposeByte (snd humidOn_humidEn) (fst humidOn_humidEn)
      (StatusStatusIClimate.Enabled light1Status) (StatusStatusIClimate.ForceOn light1Status)
      (StatusStatusIClimate.Enabled light2Status) (StatusStatusIClimate.ForceOn light2Status)
      (StatusStatusIClimate.Enabled purgingStatus) (StatusStatusIClimate.ForceOn purgingStatus));
    assign 7 (ReadingsIClimate.Detent Rd);
    assign 8 (fst cool); assign 9 (snd cool);
    assign 10 (fst tmin); assign 11 (snd tmin);
    assign 12 (fst tmax); assign 13 (snd tmax);
    assign 14 (RhIClimate.Target (ReadingsIClimate.Rh Rd));
    assign 15 (RhIClimate.Min (ReadingsIClimate.Rh Rd));
    assign 16 (RhIClimate.Max (ReadingsIClimate.Rh Rd));
    assign 23 (fst target); assign 24 (snd target);
    assign 25 (u8 co2Min);
    assign 26 (u8 co2Max);
    assign 27 (fst lmin); assign 28 (snd lmin);
    assign 31 (nth 0 name Byte.x00); assign 32 (nth 1 name Byte.x00);
    assign 33 (nth 2 name Byte.x00); assign 34 (nth 3 name Byte.x00);
    assign 35 (nth 4 name Byte.x00); assign 36 (nth 5 name Byte.x00);
    assign 37 (nth 6 name Byte.x00); assign 38 (nth 7 name Byte.x00);
    assign 39 (nth 8 name Byte.x00); assign 40 (nth 9 name Byte.x00) ] ++
  fillSetPointData (hd SetPointIClimate_zero (StatusIClimate.SetPoints (ReportedIClimate.Status R))) ++
  [ assign 57 (fst heat); assign 58 (snd heat);
    assign 59 (d0bytes.[61]) ]).

(** [prepareS0RequestForIClimate]: the S0 frame, written over the bytes of
    D1, then checksummed; [SetPoints[0]] panics on an empty [SetPoints]. *)
Definition prepareS0RequestForIClimate (d0bytes bytes : frame) (climateShadow : iClimateShadow.t) : option frame :=
  if negb (frames_indexable d0bytes bytes) then None else
  match StatusIClimate.SetPoints (ReportedIClimate.Status (StateIClimate.Reported (iClimateShadow.State climateShadow))) with
  | [] => None
  | _ :: _ => Some (Crc.createCheckSum (exec_writes bytes (prepareS0RequestForIClimate_writes d0bytes climateShadow)))
  end.

(** The body of [func prepareS1RequestForIClimate(d0bytes *[]byte, bytes *[]byte, climateShadow iClimateShadow)]
    (lines 1130-1224) up to its call of [createCheckSum]. *)
Definition prepareS1RequestForIClimate_writes (d0bytes : frame) (climateShadow : iClimateShadow.t) : list write :=
  let Cfg := ReportedIClimate.Config (StateIClimate.Reported (iClimateShadow.State climateShadow)) in
  let Fn := ConfigIClimate.Functions Cfg in
  let Adv := ConfigIClimate.Advanced Cfg in
  let Rules := AdvancedIClimate.Rules Adv in
  let FS := AdvancedIClimate.FailSafeSettings Adv in
  let MAC := RulesIClimate.MinimumAirChangeRules Rules in
  let HTR := RulesIClimate.HumidifyTempRules Rules in
  let AC := RulesIClimate.AirCon Rules in
  let CO2R := RulesIClimate.CO2Rules Rules in
  let Fog := RulesIClimate.FoggingRules Rules in
  let co2ExtractionEnabled := FunctionsIClimate.Co2Extraction Fn in
  let daySecs := MinimumAirChangeRulesIClimate.DaySecs MAC in
  let everyDayMins := MinimumAirChangeRulesIClimate.EveryDayMins MAC in
  let nightSecs := MinimumAirChangeRulesIClimate.NightSecs MAC in
  let everyNightMins := MinimumAirChangeRulesIClimate.EveryNightMins MAC in
  let swOffLightTempExceed := hundredths (FanFailOverrideIClimate.SwOffLightTempExceed (FailSafeSettingsIClimate.FanFailOverride FS)) in
  let swOffLightsTempExceed := hundredths (FanFailOverrideIClimate.SwOffLightsTempExceed (FailSafeSettingsIClimate.FanFailOverride FS)) in
  let swOnFansCo2Exceed := Co2FailSafeIClimate.SwOnFansCo2Exceed (FailSafeSettingsIClimate.Co2FailSafe FS) in
  let revertFansCo2Falls := Co2InjectionOverrideIClimate.RevertFansCo2Falls (FailSafeSettingsIClimate.Co2InjectionOverride FS) in
  let swAllExhaustFans := int_of_float (AirConOverrideIClimate.SwAllExhaustFans (FailSafeSettingsIClimate.AirConOverride FS)) in
  let lowerCoolingTemp := hundredths (HumidifyTempRulesIClimate.LowerCoolingTemp HTR) in
  let raiseHeatingTemp := hundredths (HumidifyTempRulesIClimate.RaiseHeatingTemp HTR) in
  let rhLowThenRaise := hundredths (HumidifyTempRulesIClimate.RhLowThenRaise HTR) in
  let autoChangeAirCon := hundredths (AirConIClimate.AutoChangeAirCon AC) in
  let injectIfLightGreater := int_of_float (CO2RulesIClimate.InjectIfLightGreater CO2R) in
  let co2Cycling := hundredths (CO2RulesIClimate.Co2Cycling CO2R) in
  let riseVentTemp := hundredths (CO2RulesIClimate.RiseVentTemp CO2R) in
  let fogToAchieveRh := hundredths (FoggingRulesIClimate.FogToAchieveRh Fog) in
  let fogTimes := FoggingRulesIClimate.FogTimes Fog in
  let autoStartAirCon := hundredths (AirConIClimate.AutoStartAirCon AC) in
  [ assign 0 Byte.x53;
    assign 1 Byte.x31;
    modify 2 (fun cur => updateByte cur (getBoolFromCo2SensorRange (FunctionsIClimate.Co2SensorRange Fn)) 0);
    modify 2 (fun cur => updateByte cur co2ExtractionEnabled 1);
    modify 2 (fun cur => updateByte cur (HumidificationIClimate.AllowHumidification (RulesIClimate.Humidification Rules)) 2);
    modify 2 (fun cur => updateByte cur (AirConIClimate.ForceAirCon AC) 3);
    modify 2 (fun cur => updateByte cur (LightingOverrideIClimate.LightFallsAlarmMinimum (FailSafeSettingsIClimate.LightingOverride FS)) 4);
    modify 2 (fun cur => updateByte cur (CO2RulesIClimate.Co2InjectionAllowed CO2R) 5);
    modify 2 (fun cur => updateByte cur (RulesIClimate.AllowAirCon Rules) 6);
    modify 2 (fun cur => updateByte cur (CO2RulesIClimate.Co2InjectionAvoid CO2R) 7);
    assign 3 (u8 swAllExhaustFans);
    assign 4 (u8 (Z.shiftr swAllExhaustFans 8));
    assign 5 (u8 swOffLightTempExceed);
    assign 6 (u8 (Z.shiftr swOffLightTempExceed 8));
    assign 7 (u8 swOffLightsTempExceed);
    assign 8 (u8 (Z.shiftr swOffLightsTempExceed 8));
    assign 9 (DehumidifierOverrideIClimate.SwOnFansRhExceed (FailSafeSettingsIClimate.DehumidifierOverride FS));
    assign 10 (DehumidifierOverrideIClimate.SwAcRhExceed (FailSafeSettingsIClimate.DehumidifierOverride FS));
    assign 11 (u8 swOnFansCo2Exceed);
    assign 12 (u8 (Z.shiftr swOnFansCo2Exceed 8));
    assign 13 (u8 revertFansCo2Falls);
    assign 14 (u8 (Z.shiftr revertFansCo2Falls 8));
    assign 15 (LightingIClimate.LampCoolDownTime (RulesIClimate.Lighting Rules));
    assign 16 (PowerFailureIClimate.SwLightsAfterCoolDown (FailSafeSettingsIClimate.PowerFailure FS));
    assign 17 (LightingIClimate.SwOnNextLightBank (RulesIClimate.Lighting Rules));
    assign 18 (SetpointRampingIClimate.RampSetpoints (RulesIClimate.SetpointRamping Rules));
    assign 19 (HumidifyTempRulesIClimate.PreventHeater HTR);
    assign 20 (HumidificationIClimate.ChangeHumidification (RulesIClimate.Humidification Rules));
    assign 21 (u8 (Z.land autoStartAirCon 255));
    assign 22 (u8 (Z.shiftr autoStartAirCon 8));
    assign 23 (AirConIClimate.StartBefore AC);
    assign 24 (u8 (Z.land lowerCoolingTemp 255));
    assign 25 (u8 (Z.shiftr lowerCoolingTemp 8));
    assign 27 (u8 (Z.land raiseHeatingTemp 255));
    assign 26 (FoggingRulesIClimate.FogToCool Fog);
    assign 28 (u8 (Z.shiftr raiseHeatingTemp 8));
    assign 29 (u8 (Z.land rhLowThenRaise 255));
    assign 30 (u8 (Z.shiftr rhLowThenRaise 8));
    assign 31 (PurgingRulesIClimate.PurgeMins (RulesIClimate.PurgingRules Rules));
    assign 32 (PurgingRulesIClimate.PurgeMin (RulesIClimate.PurgingRules Rules));
    assign 33 (PurgingRulesIClimate.PurgeMax (RulesIClimate.PurgingRules Rules));
    assign 34 (u8 fogToAchieveRh);
    assign 35 (u8 (Z.shiftr fogToAchieveRh 8));
    assign 36 (u8 fogTimes);
    assign 37 (FoggingRulesIClimate.FogTimeMin Fog);
    assign 38 (FoggingRulesIClimate.FogTimeMax Fog);
    assign 39 (u8 autoChangeAirCon);
    assign 40 (u8 (Z.shiftr autoChangeAirCon 8));
    assign 41 (u8 everyDayMins);
    assign 42 (u8 (Z.shiftr everyDayMins 8));
    assign 43 (u8 everyNightMins);
    assign 44 (u8 (Z.shiftr everyNightMins 8));
    assign 45 (u8 daySecs);
    assign 46 (u8 (Z.shiftr daySecs 8));
    assign 47 (u8 nightSecs);
    assign 48 (u8 (Z.shiftr nightSecs 8));
    assign 49 (u8 injectIfLightGreater);
    assign 50 (u8 (Z.shiftr injectIfLightGreater 8));
    assign 51 (u8 (Z.land co2Cycling 255));
    assign 52 (u8 (Z.shiftr co2Cycling 8));
    assign 53 (u8 (Z.land riseVentTemp 255));
    assign 54 (u8 (Z.shiftr riseVentTemp 8));
    assign 55 (CO2RulesIClimate.InjectTimeMin CO2R);
    assign 56 (CO2RulesIClimate.InjectTimeMax CO2R);
    assign 57 (CO2RulesIClimate.WaitTimeMin CO2R);
    assign 58 (CO2RulesIClimate.WaitTimeMax CO2R);
    assign 59 (CO2RulesIClimate.VentTimeMin CO2R);
    assign 60 (CO2RulesIClimate.VentTimeMax CO2R);
    assign 61 (d0bytes.[61]) ].

(** [prepareS1RequestForIClimate]: the S1 frame, written over the bytes of
    D2, then checksummed. *)
Definition prepareS1RequestForIClimate (d0bytes bytes : frame) (climateShadow : iClimateShadow.t) : option frame :=
  if negb (frames_indexable d0bytes bytes) then None else
  Some (Crc.createCheckSum (exec_writes bytes (prepareS1RequestForIClimate_writes d0bytes climateShadow))).

(** The body of [func prepareS2RequestForIClimate(d0bytes *[]byte, bytes *[]byte, climateShadow iClimateShadow)]
    (lines 1226-1273) up to its call of [createCheckSum]. *)
Definition prepareS2RequestForIClimate_writes (d0bytes : frame) (climateShadow : iClimateShadow.t) : list write :=
  let Adv := ConfigIClimate.Advanced (ReportedIClimate.Config (StateIClimate.Reported (iClimateShadow.State climateShadow))) in
  let SO := AdvancedIClimate.SwitchingOffsets Adv in
  let Rules := AdvancedIClimate.Rules Adv in
  let fansOn := hundredths (SwitchingOffsetsIClimate.FansOn SO) in
  let fansOff := hundredths (SwitchingOffsetsIClimate.FansOff SO) in
  let heaterOn := hundredths (SwitchingOffsetsIClimate.HeaterOn SO) in
  let heaterOff := hundredths (SwitchingOffsetsIClimate.HeaterOff SO) in
  let humidifierOn := int_of_float (SwitchingOffsetsIClimate.HumidifierOn SO) in
  let humidifierOff := int_of_float (SwitchingOffsetsIClimate.HumidifierOff SO) in
  let dehumidifierOn := int_of_float (SwitchingOffsetsIClimate.DehumidifierOn SO) in
  let dehumidifierOff := int_of_float (SwitchingOffsetsIClimate.DehumidifierOff SO) in
  let cO2On := int_of_float (SwitchingOffsetsIClimate.CO2On SO) in
  let cO2Off := int_of_float (SwitchingOffsetsIClimate.CO2Off SO) in
  let airConditionerOn := hundredths (SwitchingOffsetsIClimate.AirConditionerOn SO) in
  let airConditionerOff := hundredths (SwitchingOffsetsIClimate.AirConditionerOff SO) in
  let heatingOffset := hundredths (HumidifyTempRulesIClimate.HeatingOffset (RulesIClimate.HumidifyTempRules Rules)) in
  let fogTimes := FoggingRulesIClimate.FogTimes (RulesIClimate.FoggingRules Rules) in
  [ assign 0 Byte.x53;
    assign 1 Byte.x32;
    assign 3 (u8 (Z.land heaterOn 255));
    assign 4 (u8 (Z.shiftr heaterOn 8));
    assign 5 (u8 (Z.land heaterOff 255));
    assign 6 (u8 (Z.shiftr heaterOff 8));
    assign 7 (u8 (Z.land fansOn 255));
    assign 8 (u8 (Z.shiftr fansOn 8));
    assign 9 (u8 (Z.land fansOff 255));
    assign 10 (u8 (Z.shiftr fansOff 8));
    assign 11 (u8 (Z.land airConditionerOn 255));
    assign 12 (u8 (Z.shiftr airConditionerOn 8));
    assign 13 (u8 (Z.land airConditionerOff 255));
    assign 14 (u8 (Z.shiftr airConditionerOff 8));
    assign 15 (u8 (Z.land humidifierOn 255));
    assign 16 (u8 (Z.shiftr humidifierOn 8));
    assign 17 (u8 (Z.land humidifierOff 255));
    assign 18 (u8 (Z.shiftr humidifierOff 8));
    assign 19 (u8 (Z.land dehumidifierOn 255));
    assign 20 (u8 (Z.shiftr dehumidifierOn 8));
    assign 21 (u8 (Z.land dehumidifierOff 255));
    assign 22 (u8 (Z.shiftr dehumidifierOff 8));
    assign 23 (u8 (Z.land cO2On 255));
    assign 24 (u8 (Z.shiftr cO2On 8));
    assign 25 (u8 (Z.land cO2Off 255));
    assign 26 (u8 (Z.shiftr cO2Off 8));
    assign 27 (u8 (Z.land heatingOffset 255));
    assign 28 (u8 (Z.shiftr heatingOffset 8));
    assign 35 (u8 (Z.shiftr fogTimes 8));
    assign 61 (d0bytes.[61]) ].

(** [prepareS2RequestForIClimate]: the S2 frame, written over the bytes of
    D3, then checksummed. *)
Definition prepareS2RequestForIClimate (d0bytes bytes : frame) (climateShadow : iClimateShadow.t) : option frame :=
  if negb (frames_indexable d0bytes bytes) then None else
  Some (Crc.createCheckSum (exec_writes bytes (prepareS2RequestForIClimate_writes d0bytes climateShadow))).

(** ** Where the round trip holds *)

(** The hundredths fields, by the indices of their high and low bytes:
    unsigned in D1 ([AirTemp] cool, min, max, heat; the set point's day
    temperature and night drop) and in D2 (the two light temperature
    overrides, [FogToAchieveRh], [AutoChangeAirCon]); signed in D2
    ([AutoStartAirCon], the three [HumidifyTempRules], [Co2Cycling],
    [RiseVentTemp]) and in D3 (the six switching offsets in hundredths and
    [HeatingOffset]). *)
Definition d1_u16_hundredths : list (nat * nat) := [(11, 10); (13, 12); (15, 14); (60, 59); (49, 48); (51, 50)]%nat.
Definition d2_u16_hundredths : list (nat * nat) := [(6, 5); (8, 7); (35, 34); (40, 39)]%nat.
Definition d2_s16_hundredths : list (nat * nat) := [(22, 21); (25, 24); (28, 27); (30, 29); (52, 51); (54, 53)]%nat.
Definition d3_s16_hundredths : list (nat * nat) := [(4, 3); (6, 5); (8, 7); (10, 9); (12, 11); (14, 13); (28, 27)]%nat.

(** The frames on which writing the decoded shadow back gives it again:
    no unsigned hundredths field at 65535, no signed one within 3 of the
    ends of [int16], and a raw [SwAllExhaustFans] below 5. *)
Definition IClimate_regular (d1 d2 d3 : frame) : bool :=
  forallb (fun p => u16_scaled_regular d1.[fst p] d1.[snd p]) d1_u16_hundredths &&
  forallb (fun p => u16_scaled_regular d2.[fst p] d2.[snd p]) d2_u16_hundredths &&
  forallb (fun p => s16_scaled_regular d2.[fst p] d2.[snd p]) d2_s16_hundredths &&
  forallb (fun p => s16_scaled_regular d3.[fst p] d3.[snd p]) d3_s16_hundredths &&
  (getFloatFrom2Bytes d2.[4] d2.[3] <? 5).

(** The [SwAllExhaustFans] and [FogTimes] fields of a shadow, for the
    counterexamples. *)
Definition swAllExhaustFans (s : iClimateShadow.t) : float64 :=
  AirConOverrideIClimate.SwAllExhaustFans (FailSafeSettingsIClimate.AirConOverride
    (AdvancedIClimate.FailSafeSettings (ConfigIClimate.Advanced
      (ReportedIClimate.Config (StateIClimate.Reported (iClimateShadow.State s)))))).

Definition fogTimes (s : iClimateShadow.t) : Z :=
  FoggingRulesIClimate.FogTimes (RulesIClimate.FoggingRules (AdvancedIClimate.Rules (ConfigIClimate.Advanced
    (ReportedIClimate.Config (StateIClimate.Reported (iClimateShadow.State s)))))).

Definition fansOn (s : iClimateShadow.t) : float64 :=
  SwitchingOffsetsIClimate.FansOn (AdvancedIClimate.SwitchingOffsets (ConfigIClimate.Advanced
    (ReportedIClimate.Config (StateIClimate.Reported (iClimateShadow.State s))))).

(** ** The encoders' frames *)

(** On 64-byte frames each encoder returns a 64-byte frame with a valid
    CRC; S0 needs a set point to write. *)
Lemma prepareS0RequestForIClimate_frame (d0bytes bytes : frame) (s : iClimateShadow.t) (s0 : frame) :
  length bytes = 64%nat -> prepareS0RequestForIClimate d0bytes bytes s = Some s0 ->
  length s0 = 64%nat /\ Crc.crc_ok s0 = true.
Proof. unfold prepareS0RequestForIClimate. Crc.encoder_frame. Qed.

Lemma prepareS1RequestForIClimate_frame (d0bytes bytes : frame) (s : iClimateShadow.t) (s1 : frame) :
  length bytes = 64%nat -> prepareS1RequestForIClimate d0bytes bytes s = Some s1 ->
  length s1 = 64%nat /\ Crc.crc_ok s1 = true.
Proof. unfold prepareS1RequestForIClimate. Crc.encoder_frame. Qed.

Lemma prepareS2RequestForIClimate_frame (d0bytes bytes : frame) (s : iClimateShadow.t) (s2 : frame) :
  length bytes = 64%nat -> prepareS2RequestForIClimate d0bytes bytes s = Some s2 ->
  length s2 = 64%nat /\ Crc.crc_ok s2 = true.
Proof. unfold prepareS2RequestForIClimate. Crc.encoder_frame. Qed.


(** The shape of every decoded shadow, on which the S0 encoder
    relies: exactly one set point (so [SetPoints[0]] never panics) and one
    status for each of the twelve functions, with distinct names, so that
    each [getStatusIClimateFunctionByName] of the encoder finds the status
    of its function. *)
Theorem parseByteResponseForIClimate_shape (d0 d1 d2 d3 : frame) (name : string) (ts : Z) :
  let st := ReportedIClimate.Status (StateIClimate.Reported (iClimateShadow.State
              (parseByteResponseForIClimate d0 d1 d2 d3 name ts))) in
  length (StatusIClimate.SetPoints st) = 1%nat /\
  map StatusStatusIClimate.Function (StatusIClimate.Status st) =
    [fan1Function; fan2Function; airConFunction; co2InjectionFunction; co2ExtractFunction; heaterFunction;
     dehumidifierFunction; humidifierFunction; lightBank1Function; lightBank2Function; foggerFunction;
     purgingFunction] /\
  NoDup (map StatusStatusIClimate.Function (StatusIClimate.Status st)) /\
  Forall (fun f => StatusStatusIClimate.Function (getStatusIClimateFunctionByName (StatusIClimate.Status st) f) = f)
    (map StatusStatusIClimate.Function (StatusIClimate.Status st)).
Proof.
  cbn. split; [reflexivity|]. split; [reflexivity|]. split.
  - repeat constructor; cbn; intuition discriminate.
  - repeat constructor.
Qed.

(** ** Writing a shadow back and reading it again *)

(** Unfolds the decoder, the three encoders and their write lists, and
    every record projection of the shadow, keeping the bit and number
    codecs folded. *)
Ltac climate_unfold :=
  cbv beta iota zeta delta [map string_of_list_ascii list_ascii_of_string string_of_bytes
    string_of_list_byte list_byte_of_string deviceNameByteArray app repeat exec_writes exec_write
    fold_left fst snd assign modify reslice hd Nat.add parseByteResponseForIClimate extractSetPointArray
    prepareS0RequestForIClimate prepareS1RequestForIClimate prepareS2RequestForIClimate
    prepareS0RequestForIClimate_writes prepareS1RequestForIClimate_writes prepareS2RequestForIClimate_writes
    fillSetPointData hundredths encoding.UnsignedIntToBytes
    frames_indexable idx upd nth length firstn skipn slice Nat.sub Nat.leb
    negb andb Crc.createCheckSum getStatusIClimateFunctionByName StatusStatusIClimate_zero SetPointIClimate_zero
    IntruderAlarmIClimate.Enabled IntruderAlarmIClimate.Page CO2IClimate.Target CO2IClimate.Enabled CO2IClimate.Max CO2IClimate.Min CO2IClimate.Page AirTempIClimate.Cool AirTempIClimate.Enabled AirTempIClimate.Heat AirTempIClimate.Max AirTempIClimate.Min AirTempIClimate.Page FailSafeAlarmsIClimate.Enabled FailSafeAlarmsIClimate.Page LightIClimate.Enabled LightIClimate.Min LightIClimate.Page PowerFailIClimate.Enabled PowerFailIClimate.Page RhIClimate.Enabled RhIClimate.Max RhIClimate.Min RhIClimate.Page RhIClimate.Target ReadingsIClimate.AirTemp ReadingsIClimate.Detent ReadingsIClimate.FailSafeAlarms ReadingsIClimate.Light ReadingsIClimate.PowerFail ReadingsIClimate.Rh ReadingsIClimate.CO2 ReadingsIClimate.IntruderAlarm StatisticsIClimate.Lights StatisticsIClimate.CO2 AlarmsIClimate.Description AlarmsIClimate.Timestamp ModeIClimate.Description ModeIClimate.Timestamp ModeAlarmHistoryIClimate.Alarms ModeAlarmHistoryIClimate.Mode SetPointIClimate.LightBank SetPointIClimate.LightOn SetPointIClimate.LightDuration SetPointIClimate.DayTemp SetPointIClimate.NightDropDeg SetPointIClimate.RhDay SetPointIClimate.RhMax SetPointIClimate.RhNight SetPointIClimate.CO2 StatusStatusIClimate.Active StatusStatusIClimate.Enabled StatusStatusIClimate.ForceOn StatusStatusIClimate.Function StatusStatusIClimate.Installed UnitsIClimate.DateFormat UnitsIClimate.Temperature FunctionsIClimate.Fan1 FunctionsIClimate.Fan2 FunctionsIClimate.AirConditioner FunctionsIClimate.Heater FunctionsIClimate.Co2Sensor FunctionsIClimate.Co2SensorRange FunctionsIClimate.Co2Injection FunctionsIClimate.Co2Extraction FunctionsIClimate.Dehumidifier FunctionsIClimate.Humidifier FunctionsIClimate.PulsedFogger FunctionsIClimate.LightBank1 FunctionsIClimate.LightsAirColored FunctionsIClimate.LightBank2 FunctionsIClimate.LampOverTempShutdownSensors FunctionsIClimate.OutsideTempSensor FunctionsIClimate.SecondEnviroSensor FunctionsIClimate.IntruderAlarm FunctionsIClimate.DehumidifyBy FunctionsIClimate.Setup FunctionsIClimate.MuteBuzzer HumidifyTempRulesIClimate.LowerCoolingTemp HumidifyTempRulesIClimate.RaiseHeatingTemp HumidifyTempRulesIClimate.RhLowThenRaise HumidifyTempRulesIClimate.PreventHeater HumidifyTempRulesIClimate.HeatingOffset MinimumAirChangeRulesIClimate.DaySecs MinimumAirChangeRulesIClimate.EveryDayMins MinimumAirChangeRulesIClimate.NightSecs MinimumAirChangeRulesIClimate.EveryNightMins SetpointRampingIClimate.RampSetpoints AirConIClimate.ForceAirCon AirConIClimate.AutoChangeAirCon AirConIClimate.StartBefore AirConIClimate.AutoStartAirCon CO2RulesIClimate.Co2InjectionAllowed CO2RulesIClimate.InjectIfLightGreater CO2RulesIClimate.Co2InjectionAvoid CO2RulesIClimate.Co2Cycling CO2RulesIClimate.RiseVentTemp CO2RulesIClimate.InjectTimeMin CO2RulesIClimate.InjectTimeMax CO2RulesIClimate.WaitTimeMin CO2RulesIClimate.WaitTimeMax CO2RulesIClimate.VentTimeMin CO2RulesIClimate.VentTimeMax HumidificationIClimate.AllowHumidification HumidificationIClimate.ChangeHumidification LightingIClimate.LampCoolDownTime LightingIClimate.SwOnNextLightBank FoggingRulesIClimate.FogToCool FoggingRulesIClimate.FogToAchieveRh FoggingRulesIClimate.FogTimes FoggingRulesIClimate.FogTimeMax FoggingRulesIClimate.FogTimeMin PurgingRulesIClimate.PurgeMins PurgingRulesIClimate.PurgeMin PurgingRulesIClimate.PurgeMax RulesIClimate.HumidifyTempRules RulesIClimate.MinimumAirChangeRules RulesIClimate.AllowAirCon RulesIClimate.SetpointRamping RulesIClimate.AirCon RulesIClimate.CO2Rules RulesIClimate.Humidification RulesIClimate.Lighting RulesIClimate.FoggingRules RulesIClimate.PurgingRules SwitchingOffsetsIClimate.AirConditionerOn SwitchingOffsetsIClimate.AirConditionerOff SwitchingOffsetsIClimate.CO2On SwitchingOffsetsIClimate.CO2Off SwitchingOffsetsIClimate.DehumidifierOn SwitchingOffsetsIClimate.DehumidifierOff SwitchingOffsetsIClimate.FansOn SwitchingOffsetsIClimate.FansOff SwitchingOffsetsIClimate.HeaterOn SwitchingOffsetsIClimate.HeaterOff SwitchingOffsetsIClimate.HumidifierOn SwitchingOffsetsIClimate.HumidifierOff SwitchingOffsetsIClimate.PulsedFoggerOn SwitchingOffsetsIClimate.PulsedFoggerOff FanFailOverrideIClimate.SwOffLightTempExceed FanFailOverrideIClimate.SwOffLightsTempExceed AirConOverrideIClimate.SwAllExhaustFans DehumidifierOverrideIClimate.SwOnFansRhExceed DehumidifierOverrideIClimate.SwAcRhExceed Co2FailSafeIClimate.SwOnFansCo2Exceed Co2InjectionOverrideIClimate.RevertFansCo2Falls PowerFailureIClimate.SwLightsAfterCoolDown LightingOverrideIClimate.LightFallsAlarmMinimum FailSafeSettingsIClimate.FanFailOverride FailSafeSettingsIClimate.AirConOverride FailSafeSettingsIClimate.DehumidifierOverride FailSafeSettingsIClimate.Co2FailSafe FailSafeSettingsIClimate.Co2InjectionOverride FailSafeSettingsIClimate.PowerFailure FailSafeSettingsIClimate.LightingOverride AdvancedIClimate.ViewAdvancedSetting AdvancedIClimate.SwitchingOffsets AdvancedIClimate.FailSafeSettings AdvancedIClimate.Rules GeneralIClimate.DeviceName GeneralIClimate.Firmware ConfigIClimate.Units ConfigIClimate.Functions ConfigIClimate.Advanced ConfigIClimate.General MetricsIClimate.AirTemp MetricsIClimate.DayNight MetricsIClimate.FailSafeAlarms MetricsIClimate.Light MetricsIClimate.PowerFail MetricsIClimate.Rh MetricsIClimate.Vpd MetricsIClimate.Co2 MetricsIClimate.Intruder MetricsIClimate.OutsideTemp MetricsIClimate.EnviroAirTemp1 MetricsIClimate.EnviroAirTemp2 MetricsIClimate.EnviroRH1 MetricsIClimate.EnviroRH2 MetricsIClimate.EnviroCO21 MetricsIClimate.EnviroCO22 MetricsIClimate.EnviroLight1 MetricsIClimate.EnviroLight2 StatusIClimate.Readings StatusIClimate.Statistics StatusIClimate.ModeAlarmHistory StatusIClimate.SetPoints StatusIClimate.Status ReportedIClimate.Config ReportedIClimate.Metrics ReportedIClimate.Status ReportedIClimate.Source ReportedIClimate.Device ReportedIClimate.Timestamp ReportedIClimate.Connected StateIClimate.Reported iClimateShadow.State].

(** Splits [IClimate_regular] into one hypothesis per field. *)
Ltac climate_regular Hr :=
  cbv [IClimate_regular d1_u16_hundredths d2_u16_hundredths d2_s16_hundredths d3_s16_hundredths
       forallb idx nth fst snd] in Hr;
  repeat match goal with H : (_ && _) = true |- _ => apply andb_prop in H as [? ?] end.

(** Resolves the status lookups by function name, then reads each bit and
    enumeration back through its encoding. *)
Ltac climate_bits :=
  cbv beta iota zeta delta [String.eqb Ascii.eqb Bool.eqb fan1Function fan2Function airConFunction
    co2InjectionFunction co2ExtractFunction heaterFunction dehumidifierFunction humidifierFunction
    lightBank1Function lightBank2Function foggerFunction purgingFunction];
  rewrite ?isDehumidifyBy_getDehumidifyBy, ?isTemperatureF_getTemperatureF, ?isUSADateFormat_getDateFormat,
    ?getBoolFromCo2SensorRange_getCo2SensorRangeFromBool;
  cbv beta iota zeta delta [fst snd];
  rewrite ?if_same, !getBoolFromByte_ComposeByte_at, !getBoolFromByte_updateByte by lia;
  cbv beta iota zeta delta [nth Nat.sub Nat.eqb];
  rewrite ?getDehumidifyBy_normalise, ?Ascii.byte_of_ascii_of_byte.

(** Reads each number back through its encoding, using the field
    hypotheses for the scaled fields. *)
Ltac climate_numbers :=
  rewrite ?prepareInt_0_1_int, ?prepareInt_1_1_int, ?prepareInt_1_1_signed_codec, ?getLightBoxTextByInt_byte,
    ?prepareByte_co2_codec;
  rewrite ?u8_getFloatFrom2Bytes, ?u8_shiftr_getFloatFrom2Bytes, ?u8_uz;
  repeat match goal with
  | H : u16_scaled_regular ?a ?b = true |- _ => rewrite ?(prepareInt_1_100_codec_regular a b H); clear H
  | H : s16_scaled_regular ?a ?b = true |- _ => rewrite ?(prepareInt_1_100_signed_codec a b H); clear H
  | H : (_ <? 5) = true |- _ => apply Z.ltb_lt in H; rewrite ?(swAll_codec _ _ H); clear H
  end;
  rewrite ?getLightBoxTextByInt_byte.

(** C2. Round trip of the IntelliClimate codec, along the code path of
    [writeClimateData]: for 64-byte frames D0 to D3, the three encoders
    succeed on the decoded shadow, and decoding D0 with the S0, S1 and S2
    frames they produce, read in place of D1, D2 and D3, gives back the
    shadow decoded from D0 to D3, provided the frames are
    [IClimate_regular]: no unsigned hundredths field at 65535, no signed
    one within 3 of the ends of [int16], and [SwAllExhaustFans] below 5. *)
Theorem IClimate_roundtrip (d0 d1 d2 d3 : frame) (name : string) (ts : Z) :
  length d0 = 64%nat -> length d1 = 64%nat -> length d2 = 64%nat -> length d3 = 64%nat ->
  IClimate_regular d1 d2 d3 = true ->
  exists s0 s1 s2,
    prepareS0RequestForIClimate d0 d1 (parseByteResponseForIClimate d0 d1 d2 d3 name ts) = Some s0 /\
    prepareS1RequestForIClimate d0 d2 (parseByteResponseForIClimate d0 d1 d2 d3 name ts) = Some s1 /\
    prepareS2RequestForIClimate d0 d3 (parseByteResponseForIClimate d0 d1 d2 d3 name ts) = Some s2 /\
    parseByteResponseForIClimate d0 s0 s1 s2 name ts = parseByteResponseForIClimate d0 d1 d2 d3 name ts.
Proof.
  intros H0 H1 H2 H3 Hr.
  explode_frame H0. explode_frame H1. explode_frame H2. explode_frame H3.
  climate_regular Hr.
  do 3 eexists. split; [reflexivity|]. split; [reflexivity|]. split; [reflexivity|].
  climate_unfold. climate_bits. climate_numbers.
  lazymatch goal with |- ?a = ?b => constr_eq a b; reflexivity end.
Qed.

(** [SwAllExhaustFans] is decoded in hundredths but written back by
    [int(v)] without the factor 100: a raw value of 1000 reads as 10.0,
    is written as 10 and reads back as 0.1. *)
Lemma IClimate_roundtrip_swAll_cex :
  let z := zero_frame in
  let d2 := z.[3 <- Byte.xe8].[4 <- Byte.x03] in
  exists s0 s1 s2,
    prepareS0RequestForIClimate z z (parseByteResponseForIClimate z z d2 z "" 0) = Some s0 /\
    prepareS1RequestForIClimate z d2 (parseByteResponseForIClimate z z d2 z "" 0) = Some s1 /\
    prepareS2RequestForIClimate z z (parseByteResponseForIClimate z z d2 z "" 0) = Some s2 /\
    swAllExhaustFans (parseByteResponseForIClimate z z d2 z "" 0) = 10%float /\
    swAllExhaustFans (parseByteResponseForIClimate z s0 s1 s2 "" 0) = 0.1%float.
Proof. do 3 eexists. split; [reflexivity|]. split; [reflexivity|]. split; [reflexivity|]. split; vm_compute; reflexivity. Qed.

(** A signed hundredths field at the top of [int16]: [FansOn] with
    raw value 32767 reads as 327.7, is written as 32770, which wraps to
    -32766, and reads back as -327.7. *)
Lemma IClimate_roundtrip_signed_wrap_cex :
  let z := zero_frame in
  let d3 := z.[7 <- Byte.xff].[8 <- Byte.x7f] in
  exists s0 s1 s2,
    prepareS0RequestForIClimate z z (parseByteResponseForIClimate z z z d3 "" 0) = Some s0 /\
    prepareS1RequestForIClimate z z (parseByteResponseForIClimate z z z d3 "" 0) = Some s1 /\
    prepareS2RequestForIClimate z d3 (parseByteResponseForIClimate z z z d3 "" 0) = Some s2 /\
    fansOn (parseByteResponseForIClimate z z z d3 "" 0) = 327.7%float /\
    fansOn (parseByteResponseForIClimate z s0 s1 s2 "" 0) = (-327.7)%float.
Proof. do 3 eexists. split; [reflexivity|]. split; [reflexivity|]. split; [reflexivity|]. split; vm_compute; reflexivity. Qed.

Lemma IClimate_roundtrip_witness :
  exists s0 s1 s2,
    prepareS0RequestForIClimate zero_frame zero_frame
      (parseByteResponseForIClimate zero_frame zero_frame zero_frame zero_frame "" 0) = Some s0 /\
    prepareS1RequestForIClimate zero_frame zero_frame
      (parseByteResponseForIClimate zero_frame zero_frame zero_frame zero_frame "" 0) = Some s1 /\
    prepareS2RequestForIClimate zero_frame zero_frame
      (parseByteResponseForIClimate zero_frame zero_frame zero_frame zero_frame "" 0) = Some s2 /\
    parseByteResponseForIClimate zero_frame s0 s1 s2 "" 0 =
      parseByteResponseForIClimate zero_frame zero_frame zero_frame zero_frame "" 0.
Proof. apply IClimate_roundtrip; reflexivity. Defined.

(** C27. Where the S2 encoder puts the high byte of [FogTimes]: at
    offset 35 of S2, while the decoder reads it from offset 29 of D3,
    which S2 leaves as it was.  The device is sent the high byte at one
    offset and reports it at another. *)
Theorem prepareS2RequestForIClimate_fogTimes_offset (d0 d3 : frame) (s : iClimateShadow.t) (s2 : frame) :
  length d0 = 64%nat -> length d3 = 64%nat -> prepareS2RequestForIClimate d0 d3 s = Some s2 ->
  s2.[35] = u8 (Z.shiftr (fogTimes s) 8) /\ s2.[29] = d3.[29].
Proof.
  intros H0 H3. explode_frame H3.
  unfold prepareS2RequestForIClimate, frames_indexable. rewrite H0. cbn [length Nat.leb andb negb].
  remember (Crc.createCheckSum _) as F eqn:EF. intros [= <-]. subst F.
  climate_unfold. split; reflexivity.
Qed.

Lemma prepareS2RequestForIClimate_fogTimes_offset_witness :
  exists s2,
    prepareS2RequestForIClimate zero_frame zero_frame
      (parseByteResponseForIClimate zero_frame zero_frame zero_frame zero_frame "" 0) = Some s2 /\
    s2.[35] = u8 (Z.shiftr (fogTimes (parseByteResponseForIClimate zero_frame zero_frame zero_frame zero_frame "" 0)) 8) /\
    s2.[29] = zero_frame.[29].
Proof.
  eexists. split; [reflexivity|].
  apply (prepareS2RequestForIClimate_fogTimes_offset zero_frame zero_frame); reflexivity.
Defined.
