(* ===== verification/GoEffects.v ===== *)
(** * Go effects: state, panics, and the HID transport interface

    The session and the manager thread a world of attached HID devices
    through their operations, and some of their paths panic: a method
    called on a nil [hid.Device], an index out of range, a nil callback.
    [M A] is a state monad over the world [W] whose result is a value or a
    panic.  A panic ends the program: no later state is observed, which is
    why [Panic] carries no state.

    [Hid] is the interface the session is written against:
    [DeviceInfo.Open] and the methods of [hid.Device] that it calls
    (src/hid/hid.go, lines 24-40).  Each theorem of [Device] and [Manager]
    holds for every instance.  [Script] is a concrete instance: a world
    that replays prepared replies and records every frame written, so the
    order of the requests can be observed. *)

From Stdlib Require Import Strings.String.
From S2P Require Import Prelude.

Open Scope string_scope.

Module hid.

(** [hid.DeviceInfo] (src/hid/hid.go, lines 5-21). *)
Record DeviceInfo := mkDeviceInfo {
  Path : string;
  VendorID : Z;
  ProductID : Z;
  VersionNumber : Z;
  Manufacturer : string;
  Product : string;
  SerialNumber : string;
  UsagePage : Z;
  Usage : Z;
  InputReportLength : Z;
  OutputReportLength : Z
}.

End hid.

(** A Go [error], by its message. *)
Definition error := string.

(** [err != nil]. *)
Definition is_error (err : option error) : bool :=
  match err with Some _ => true | None => false end.

(** How Go code ends: with a value, or with a panic and its reason. *)
Inductive go (A : Type) : Type :=
| Ret (a : A)
| Panic (reason : string).
Arguments Ret {A} a.
Arguments Panic {A} reason.

Section Monad.
Context {W : Type}.

Definition M (A : Type) : Type := W -> go (A * W).

Definition ret {A} (a : A) : M A := fun w => Ret (a, w).

Definition bind {A B} (m : M A) (k : A -> M B) : M B :=
  fun w => match m w with
           | Ret (a, w') => k a w'
           | Panic r => Panic r
           end.

Definition panic {A} (reason : string) : M A := fun _ => Panic reason.

(** Runs [f] on each element in order, threading an accumulator: Go's
    [for _, x := range xs { acc = f(acc, x) }]. *)
Fixpoint foldM {A B} (f : A -> B -> M A) (acc : A) (xs : list B) : M A :=
  match xs with
  | [] => ret acc
  | x :: rest => bind (f acc x) (fun acc' => foldM f acc' rest)
  end.

End Monad.

Declare Scope go_scope.
Delimit Scope go_scope with go.
(** [do x <- m; k] runs [m], then [k] on its result; [do '(a, b) <- m; k]
    destructures the result. *)
Notation "'do' x <- m ; k" := (bind m (fun x => k))
  (at level 60, right associativity, x name, m at next level) : go_scope.
Notation "'do' ' p <- m ; k" := (bind m (fun v => match v with p => k end))
  (at level 60, right associativity, p pattern, m at next level) : go_scope.
Open Scope go_scope.

Create Rewrite HintDb go.

(** [DeviceInfo.Open] and the methods of [hid.Device] that the code calls:
    [Close], [Write], and a receive on [ReadCh].  [hid_read] returns in
    every instance: a receive that would block for ever returns a nil
    slice and the instance records the deadlock in its world, as
    [LinuxHid] does. *)
Class Hid (W H : Type) := {
  hid_open : hid.DeviceInfo -> W -> (H + error) * W;
  hid_close : H -> W -> W;
  hid_write : H -> frame -> W -> option error * W;
  hid_read : H -> W -> frame * W
}.

(** ** Monad laws, pointwise in the world *)

Section Laws.
Context {W : Type}.

Lemma bind_ret_l {A B} (a : A) (k : A -> @M W B) w : bind (ret a) k w = k a w.
Proof. reflexivity. Qed.

Lemma bind_ret_r {A} (m : @M W A) w : bind m ret w = m w.
Proof. unfold bind, ret. destruct (m w) as [[a w']|r]; reflexivity. Qed.

Lemma bind_assoc {A B C} (m : @M W A) (k : A -> M B) (k' : B -> M C) w :
  bind (bind m k) k' w = bind m (fun a => bind (k a) k') w.
Proof. unfold bind. destruct (m w) as [[a w']|r]; reflexivity. Qed.

Lemma bind_panic {A B} r (k : A -> @M W B) w : bind (panic r) k w = Panic r.
Proof. reflexivity. Qed.

(** A computation that returns runs every step that it binds. *)
Lemma bind_Ret_inv {A B} (m : @M W A) (k : A -> M B) w b w'' :
  bind m k w = Ret (b, w'') -> exists a w', m w = Ret (a, w') /\ k a w' = Ret (b, w'').
Proof.
  unfold bind. destruct (m w) as [[a w']|r]; [eauto | discriminate].
Qed.

End Laws.

#[export] Hint Rewrite @bind_ret_l @bind_assoc @bind_panic : go.

(** Runs a computation known to return, [E : m w = Ret (a, w')], one
    branch at a time: each [match] on an intermediate result is split, the
    panicking branches are discarded and the final [Ret] is injected. *)
Ltac go_run E :=
  unfold bind, ret, panic in E; cbv beta iota zeta in E;
  repeat match type of E with
  | Ret _ = Ret _ => injection E as E; subst
  | Panic _ = Ret _ => discriminate E
  | context [match ?x with _ => _ end] =>
      lazymatch x with
      | context [match _ with _ => _ end] => fail
      | _ => let Ex := fresh "Ex" in destruct x eqn:Ex; cbv beta iota zeta in E
      end
  end.

(** ** A scripted world

    One device, always openable at the paths listed in [attached]; each
    write consumes the next entry of [write_errors] (no error once they run
    out), each read the next reply (a nil slice once they run out, as a
    receive on a closed channel gives).  [written] and [closes] record what
    the code did, the last first. *)

Record Script := mkScript {
  attached : list string;
  write_errors : list (option error);
  replies : list frame;
  written : list frame;
  closes : nat
}.

Definition script_open (di : hid.DeviceInfo) (w : Script) : (string + error) * Script :=
  if existsb (String.eqb (hid.Path di)) (attached w) then (inl (hid.Path di), w)
  else (inr "open: no such device", w).

Definition script_write (h : string) (f : frame) (w : Script) : option error * Script :=
  let '(e, rest) := match write_errors w with [] => (None, []) | e :: rest => (e, rest) end in
  (e, {| attached := attached w; write_errors := rest; replies := replies w;
         written := f :: written w; closes := closes w |}).

Definition script_read (h : string) (w : Script) : frame * Script :=
  match replies w with
  | [] => ([], w)
  | r :: rest => (r, {| attached := attached w; write_errors := write_errors w; replies := rest;
                        written := written w; closes := closes w |})
  end.

Definition script_close (h : string) (w : Script) : Script :=
  {| attached := attached w; write_errors := write_errors w; replies := replies w;
     written := written w; closes := S (closes w) |}.

#[export] Instance Script_Hid : Hid Script string := {
  hid_open := script_open;
  hid_close := script_close;
  hid_write := script_write;
  hid_read := script_read
}.
