(* ===== verification/HidLinux.v ===== *)
(** * Linux HID backend

    The logic of [src/hid/hid_linux.go] that does not depend on the
    kernel: the report descriptor parser [parseReport], what
    [getDeviceInfo] makes of the results of its ioctls and sysfs reads
    (the product name, the manufacturer, the [uevent] key/value lines and
    the serial number), the error policy of the enumeration [Devices], and
    the read thread [readThread] feeding the buffered channel of [ReadCh].

    The system calls themselves are inputs: a record [sys_results] holds
    what each ioctl and file read of [getDeviceInfo] returned, and the read
    thread consumes the sequence of reads of the device file.  The thread
    runs concurrently with the session's receives, so the channel is a
    step relation whose steps are the thread's reads and the receives, in
    any interleaving.

    The theorems: [parseReport] ends within the descriptor's length,
    touches only its four fields, keeps them within [uint16] and keeps the
    first report's lengths, which are Report Counts; [getDeviceInfo]
    returns what its calls give, with the serial number of the last
    [HID_UNIQ] line, and panics on a name without a zero byte; [Devices]
    refines the list of readable devices and stops at the first
    non-permission error; the channel is FIFO, holds at most 30 reports,
    and drops the newest when full. *)

From Stdlib Require Import Strings.String Strings.Ascii Strings.Byte.
From S2P Require Import Prelude GoEffects.

Open Scope Z_scope.

Module HidLinux.

(** ** Report descriptors (lines 158-201) *)

(** Go's [uint16(x)] of a non-negative integer. *)
Definition u16 (z : Z) : Z := z mod 65536.

(** [var v uint64; for i := 0; i < size; i++ { v += uint64(b[i]) << (8 * uint(i)) }]:
    the item's little-endian value; [size] is at most 4, so [v] never
    overflows. *)
Definition item_value (b : list byte) (size : nat) : Z :=
  fold_left (fun v i => v + Z.shiftl (uz b.[i]) (8 * Z.of_nat i)) (seq 0 size) 0.

Definition set_UsagePage (d : hid.DeviceInfo) (x : Z) : hid.DeviceInfo :=
  hid.mkDeviceInfo (hid.Path d) (hid.VendorID d) (hid.ProductID d) (hid.VersionNumber d) (hid.Manufacturer d)
    (hid.Product d) (hid.SerialNumber d) x (hid.Usage d) (hid.InputReportLength d) (hid.OutputReportLength d).
Definition set_Usage (d : hid.DeviceInfo) (x : Z) : hid.DeviceInfo :=
  hid.mkDeviceInfo (hid.Path d) (hid.VendorID d) (hid.ProductID d) (hid.VersionNumber d) (hid.Manufacturer d)
    (hid.Product d) (hid.SerialNumber d) (hid.UsagePage d) x (hid.InputReportLength d) (hid.OutputReportLength d).
Definition set_InputReportLength (d : hid.DeviceInfo) (x : Z) : hid.DeviceInfo :=
  hid.mkDeviceInfo (hid.Path d) (hid.VendorID d) (hid.ProductID d) (hid.VersionNumber d) (hid.Manufacturer d)
    (hid.Product d) (hid.SerialNumber d) (hid.UsagePage d) (hid.Usage d) x (hid.OutputReportLength d).
Definition set_OutputReportLength (d : hid.DeviceInfo) (x : Z) : hid.DeviceInfo :=
  hid.mkDeviceInfo (hid.Path d) (hid.VendorID d) (hid.ProductID d) (hid.VersionNumber d) (hid.Manufacturer d)
    (hid.Product d) (hid.SerialNumber d) (hid.UsagePage d) (hid.Usage d) (hid.InputReportLength d) x.

(** The [switch] of the loop: the device info and [reportSize] after one
    item of type [typ], tag [tag] and value [v]. *)
Definition report_item (d : hid.DeviceInfo) (reportSize typ tag v : Z) : hid.DeviceInfo * Z :=
  if (typ =? 0) && (tag =? 8) && (hid.InputReportLength d =? 0) && (0 <? reportSize)
  then (set_InputReportLength d reportSize, 0)
  else if (typ =? 0) && (tag =? 9) && (hid.OutputReportLength d =? 0) && (0 <? reportSize)
  then (set_OutputReportLength d reportSize, 0)
  else if (typ =? 1) && (tag =? 0) then (set_UsagePage d (u16 v), reportSize)
  else if (typ =? 1) && (tag =? 9) then (d, u16 v)
  else if (typ =? 2) && (tag =? 0) && (hid.Usage d =? 0) then (set_Usage d (u16 v), reportSize)
  else (d, reportSize).

(** The four fields the parser looks for are all set. *)
Definition report_complete (d : hid.DeviceInfo) : bool :=
  (0 <? hid.UsagePage d) && (0 <? hid.Usage d) && (0 <? hid.InputReportLength d) && (0 <? hid.OutputReportLength d).

(** The [for len(b) > 0] loop of [parseReport], one item per iteration;
    each iteration consumes at least one byte, so [length b] iterations
    are enough ([parseReport_fuel_enough]). *)
Fixpoint parseReport_loop (fuel : nat) (d : hid.DeviceInfo) (reportSize : Z) (b : list byte) : hid.DeviceInfo :=
  match fuel, b with
  | O, _ => d
  | _, [] => d
  | S fuel', b0 :: b' =>
      let size := Z.to_nat (Z.land (uz b0) 3) in
      let size := if Nat.eqb size 3 then 4%nat else size in
      let typ := Z.land (Z.shiftr (uz b0) 2) 3 in
      let tag := Z.land (Z.shiftr (uz b0) 4) 15 in
      if Nat.ltb (length b') size then d
      else
        let v := item_value b' size in
        let '(d, reportSize) := report_item d reportSize typ tag v in
        if report_complete d then d
        else parseReport_loop fuel' d reportSize (skipn size b')
  end.

(** [func (d *DeviceInfo) parseReport(b []byte)] (lines 160-201). *)
Definition parseReport (d : hid.DeviceInfo) (b : list byte) : hid.DeviceInfo :=
  parseReport_loop (length b) d 0 b.

(** ** Device information (lines 92-157) *)

(** An error of the operating system; [os.IsPermission] tells the
    permission errors apart. *)
Inductive oserror := ErrPermission (path : string) | ErrOther (msg : string).

Definition IsPermission (e : oserror) : bool :=
  match e with ErrPermission _ => true | ErrOther _ => false end.

(** [err.Error()]: a permission error is the [*PathError] of [os.OpenFile]. *)
Definition Error (e : oserror) : string :=
  match e with ErrPermission path => ("open " ++ path ++ ": permission denied")%string | ErrOther msg => msg end.

(** [hidUniq] (line 23). *)
Definition hidUniq : string := "HID_UNIQ"%string.

(** [unicode.IsSpace] on an ASCII character. *)
Definition is_space (c : ascii) : bool :=
  match Ascii.nat_of_ascii c with 9 | 10 | 11 | 12 | 13 | 32 => true | _ => false end%nat.

Fixpoint trim_left (l : list ascii) : list ascii :=
  match l with [] => [] | c :: l' => if is_space c then trim_left l' else l end.

(** [strings.TrimSpace]: leading and trailing white space removed. *)
Definition TrimSpace (s : string) : string :=
  string_of_list_ascii (rev (trim_left (rev (trim_left (list_ascii_of_string s))))).

(** [strings.Index(line, "=")]; its [-1] is [None]. *)
Fixpoint IndexEq (s : string) : option nat :=
  match s with
  | EmptyString => None
  | String c s' => if Ascii.eqb c "="%char then Some 0%nat else option_map S (IndexEq s')
  end.

(** [bytes.IndexByte(b, 0)]; its [-1] is [None]. *)
Fixpoint IndexByte0 (b : list byte) : option nat :=
  match b with
  | [] => None
  | x :: b' => if Byte.eqb x x00 then Some 0%nat else option_map S (IndexByte0 b')
  end.

Fixpoint drop_newlines (l : list byte) : list byte :=
  match l with [] => [] | x :: l' => if Byte.eqb x x0a then drop_newlines l' else l end.

(** [bytes.TrimRight(b, "\n")]: the trailing newlines removed. *)
Definition TrimRightNewline (b : list byte) : list byte := rev (drop_newlines (rev b)).

(** The [map[string]string] of [getDeviceInfo] as an association list,
    the latest binding first; a missing key reads as Go's [""]. *)
Definition config := list (string * string).

Definition map_set (m : config) (k v : string) : config :=
  (k, v) :: filter (fun p => negb (String.eqb (fst p) k)) m.

Definition map_get (m : config) (k : string) : string :=
  match find (fun p => String.eqb (fst p) k) m with Some (_, v) => v | None => ""%string end.

(** The [for scanner.Scan()] loop over the lines of the [uevent] file
    (lines 138-149). *)
Definition parse_uevent (lines : list string) : config :=
  fold_left (fun config line =>
    match IndexEq line with
    | Some equal =>
        let key := TrimSpace (substring 0 equal line) in
        if Nat.ltb 0 (String.length key) then
          let value := if Nat.ltb equal (String.length line)
                       then TrimSpace (substring (S equal) (String.length line - S equal) line)
                       else ""%string in
          map_set config key value
        else config
    | None => config
    end) lines [].

(** What the system calls of [getDeviceInfo] return on one device:
    [os.OpenFile], the ioctls [HIDIOCGRDESCSIZE], [HIDIOCGRDESC] (the
    [value] array of the descriptor), [HIDIOCGRAWINFO] (vendor and
    product as [__s16]) and [HIDIOCGRAWNAME] (the 256 bytes of
    [rawName]), and, when [filepath.EvalSymlinks] resolves the sysfs
    [device] link, the [manufacturer] file and the lines of the [uevent]
    file, each [None] when it cannot be read. *)
Record sys_results := mk_sys {
  sys_open : option oserror;
  sys_descsize : Z + oserror;
  sys_desc : list byte + oserror;
  sys_rawinfo : (Z * Z) + oserror;
  sys_rawname : list byte + oserror;
  sys_device : option (option (list byte) * option (list string))
}.

Definition set_ids (d : hid.DeviceInfo) (vendor product : Z) : hid.DeviceInfo :=
  hid.mkDeviceInfo (hid.Path d) (u16 vendor) (u16 product) (hid.VersionNumber d) (hid.Manufacturer d)
    (hid.Product d) (hid.SerialNumber d) (hid.UsagePage d) (hid.Usage d) (hid.InputReportLength d) (hid.OutputReportLength d).
Definition set_Product (d : hid.DeviceInfo) (x : string) : hid.DeviceInfo :=
  hid.mkDeviceInfo (hid.Path d) (hid.VendorID d) (hid.ProductID d) (hid.VersionNumber d) (hid.Manufacturer d)
    x (hid.SerialNumber d) (hid.UsagePage d) (hid.Usage d) (hid.InputReportLength d) (hid.OutputReportLength d).
Definition set_Manufacturer (d : hid.DeviceInfo) (x : string) : hid.DeviceInfo :=
  hid.mkDeviceInfo (hid.Path d) (hid.VendorID d) (hid.ProductID d) (hid.VersionNumber d) x
    (hid.Product d) (hid.SerialNumber d) (hid.UsagePage d) (hid.Usage d) (hid.InputReportLength d) (hid.OutputReportLength d).
Definition set_SerialNumber (d : hid.DeviceInfo) (x : string) : hid.DeviceInfo :=
  hid.mkDeviceInfo (hid.Path d) (hid.VendorID d) (hid.ProductID d) (hid.VersionNumber d) (hid.Manufacturer d)
    (hid.Product d) x (hid.UsagePage d) (hid.Usage d) (hid.InputReportLength d) (hid.OutputReportLength d).

(** [&DeviceInfo{Path: path}]. *)
Definition info_of_path (path : string) : hid.DeviceInfo :=
  hid.mkDeviceInfo path 0 0 0 ""%string ""%string ""%string 0 0 0 0.

(** The sysfs part (lines 130-154): the manufacturer, then the serial
    number from [HID_UNIQ] when it is not empty. *)
Definition sysfs_info (d : hid.DeviceInfo) (man : option (list byte)) (uevent : option (list string)) : hid.DeviceInfo :=
  let d := match man with Some raw => set_Manufacturer d (string_of_list_byte (TrimRightNewline raw)) | None => d end in
  let config := match uevent with Some lines => parse_uevent lines | None => [] end in
  if Nat.ltb 0 (String.length (map_get config hidUniq)) then set_SerialNumber d (map_get config hidUniq) else d.

(** [func getDeviceInfo(path string) ( *DeviceInfo, error)]; a [rawName]
    without a zero byte makes [rawName[:-1]] panic. *)
Definition getDeviceInfo (path : string) (sys : sys_results) : go (hid.DeviceInfo + oserror) :=
  let d := info_of_path path in
  match sys_open sys with Some err => Ret (inr err) | None =>
  match sys_descsize sys with inr err => Ret (inr err) | inl descSize =>
  match sys_desc sys with inr err => Ret (inr err) | inl value =>
  let d := parseReport d (firstn (Z.to_nat descSize) value) in
  match sys_rawinfo sys with inr err => Ret (inr err) | inl (vendor, product) =>
  let d := set_ids d vendor product in
  match sys_rawname sys with inr err => Ret (inr err) | inl rawName =>
  match IndexByte0 rawName with
  | None => Panic "runtime error: slice bounds out of range [:-1]"%string
  | Some i =>
      let d := set_Product d (string_of_list_byte (firstn i rawName)) in
      match sys_device sys with
      | None => Ret (inl d)
      | Some (man, uevent) => Ret (inl (sysfs_info d man uevent))
      end
  end end end end end end.

(** [func ByPath(path string) ( *DeviceInfo, error)] (lines 206-209). *)
Definition ByPath (path : string) (sys : sys_results) : go (hid.DeviceInfo + oserror) :=
  getDeviceInfo path sys.

(** [filepath.Join("/dev", filepath.Base(dir))] for a directory entry
    name, which holds no ['/'] and is neither ["."] nor [".."]. *)
Definition dev_path (dir : string) : string := ("/dev/" ++ dir)%string.

(** The [for _, dir := range names] loop of [Devices] (lines 67-85). *)
Fixpoint devices_loop (sys : string -> sys_results) (names : list string) (res : list hid.DeviceInfo)
  : go (list hid.DeviceInfo + oserror) :=
  match names with
  | [] => Ret (inl res)
  | dir :: names' =>
      let path := dev_path dir in
      match getDeviceInfo path (sys path) with
      | Panic r => Panic r
      | Ret (inr err) => if IsPermission err then devices_loop sys names' res else Ret (inr err)
      | Ret (inl info) => devices_loop sys names' (res ++ [info])
      end
  end.

(** [func Devices() ([]*DeviceInfo, error)] (lines 53-90): [names] is
    what [os.Open] and [Readdirnames] of [/sys/class/hidraw] gave. *)
Definition Devices (sys : string -> sys_results) (names : list string + oserror)
  : go (list hid.DeviceInfo + oserror) :=
  match names with inr err => Ret (inr err) | inl names => devices_loop sys names [] end.

(** ** The read thread and its channel (lines 232-258) *)

(** What one [d.f.Read(buf)] of the device file gives. *)
Inductive read_result := ReadData (data : list byte) | ReadFail (err : oserror).

(** The state shared by [readThread] and the receivers of [ReadCh()]: the
    reports buffered in [d.readCh] (oldest first), whether the deferred
    [close(d.readCh)] has run, [d.readErr], and the results the thread's
    next reads of the device file will give. *)
Record chan := mkChan {
  buffer : list (list byte);
  closed : bool;
  readErr : option oserror;
  pending : list read_result
}.

(** [make(chan []byte, 30)]. *)
Definition chan_capacity : nat := 30.

(** The channel as [ReadCh] creates it, before the thread's first read. *)
Definition chan_init (reads : list read_result) : chan := mkChan [] false None reads.

(** What an observer sees of a step. *)
Inductive label :=
| Sent (data : list byte)     (** [d.readCh <- buf[:n]] took the report read *)
| Dropped (data : list byte)  (** the channel was full: the [default] case *)
| Failed (err : oserror)      (** the read failed: [readErr] set, channel closed *)
| Recv (x : list byte)        (** a receiver took the oldest report *)
| RecvClosed.                 (** a receive on the closed, drained channel *)

(** One iteration of the [for] loop of [readThread] when the input report
    length is [L]: [buf := make([]byte, L)], a read that copies at most
    [L] bytes of the report, then the [select] that sends without
    blocking or drops the report.  [None] when the thread has ended. *)
Definition thread_step (L : Z) (c : chan) : option (label * chan) :=
  if closed c then None else
  match pending c with
  | [] => None
  | ReadFail err :: rest => Some (Failed err, mkChan (buffer c) true (Some err) rest)
  | ReadData data :: rest =>
      let x := firstn (Z.to_nat L) data in
      if Nat.ltb (length (buffer c)) chan_capacity
      then Some (Sent data, mkChan (buffer c ++ [x]) false (readErr c) rest)
      else Some (Dropped data, mkChan (buffer c) false (readErr c) rest)
  end.

(** A receive [<-d.readCh]; [None] when it would block. *)
Definition recv (c : chan) : option (label * chan) :=
  match buffer c with
  | x :: rest => Some (Recv x, mkChan rest (closed c) (readErr c) (pending c))
  | [] => if closed c then Some (RecvClosed, c) else None
  end.

(** The interleavings: each step is the thread's or a receiver's. *)
Inductive step (L : Z) : chan -> label -> chan -> Prop :=
| step_thread c l c' : thread_step L c = Some (l, c') -> step L c l c'
| step_recv c l c' : recv c = Some (l, c') -> step L c l c'.

(** Finite runs, with the labels of their steps. *)
Inductive steps (L : Z) : chan -> list label -> chan -> Prop :=
| steps_nil c : steps L c [] c
| steps_cons c l c' tr c'' : step L c l c' -> steps L c' tr c'' -> steps L c (l :: tr) c''.

Definition sent_of (L : Z) (l : label) : list (list byte) :=
  match l with Sent data => [firstn (Z.to_nat L) data] | _ => [] end.
Definition recv_of (l : label) : list (list byte) := match l with Recv x => [x] | _ => [] end.
Definition read_of (l : label) : list read_result :=
  match l with Sent data | Dropped data => [ReadData data] | Failed e => [ReadFail e] | _ => [] end.

(** The reports the thread put into the channel, those the receivers
    got, and the results of the device file's reads, in order. *)
Definition sent (L : Z) (tr : list label) : list (list byte) := flat_map (sent_of L) tr.
Definition received (tr : list label) : list (list byte) := flat_map recv_of tr.
Definition reads (tr : list label) : list read_result := flat_map read_of tr.

(** The channel's invariant: at most [chan_capacity] reports, each at most
    [L] bytes long, and [readErr] set once the channel is closed. *)
Definition chan_inv (L : Z) (c : chan) : Prop :=
  (length (buffer c) <= chan_capacity)%nat /\
  Forall (fun x => (length x <= Z.to_nat L)%nat) (buffer c) /\
  (closed c = true -> readErr c <> None).

(** ** Sample devices *)

(** The report descriptor of a vendor-defined 64-byte device: Usage Page
    0xFF00, Usage 1, an application collection with Report Size 8 and
    Report Count 64 for one input and one output report. *)
Definition vendor_descriptor : list byte :=
  [x06; x00; xff; x09; x01; xa1; x01; x15; x00; x26; xff; x00; x75; x08;
   x95; x40; x09; x01; x81; x02; x95; x40; x09; x01; x91; x02; xc0].

(** The same 64-byte reports described as 32 fields of 16 bits: Report
    Size 16, Report Count 32. *)
Definition wide_descriptor : list byte :=
  [x06; x00; xff; x09; x01; xa1; x01; x75; x10; x95; x20; x09; x01; x81; x02;
   x95; x20; x09; x01; x91; x02; xc0].

Definition sample_uevent : list string :=
  ["DRIVER=hid-generic"; "HID_ID=0003:000004D8:0000F2BF"; "HID_NAME=ASL IntelliDose";
   "HID_PHYS=usb-0000:00:14.0-1/input0"; "HID_UNIQ= 0000123 "; "MODALIAS=hid:b0003g0001v000004D8p0000F2BF"]%string.

(** An IntelliDose on [/dev/hidraw0] whose every call succeeds. *)
Definition sys_dose : sys_results :=
  mk_sys None (inl 27) (inl (vendor_descriptor ++ repeat x00 37)%list)
    (inl (1240, -3393)) (inl (list_byte_of_string "ASL IntelliDose" ++ repeat x00 241)%list)
    (Some (Some (list_byte_of_string "Autogrow Systems" ++ [x0a])%list, Some sample_uevent)).

(** A device node the gateway may not open. *)
Definition sys_denied : sys_results :=
  mk_sys (Some (ErrPermission "/dev/hidraw1")) (inr (ErrOther "")) (inr (ErrOther "")) (inr (ErrOther ""))
    (inr (ErrOther "")) None.

(** A device whose descriptor size ioctl fails. *)
Definition sys_broken : sys_results :=
  mk_sys None (inr (ErrOther "input/output error")) (inr (ErrOther "")) (inr (ErrOther ""))
    (inr (ErrOther "")) None.

(** A device whose name fills all 256 bytes of [rawName]. *)
Definition sys_long_name : sys_results :=
  mk_sys None (inl 27) (inl vendor_descriptor) (inl (1240, -3393)) (inl (repeat x41 256)) None.

(** [/sys/class/hidraw] with the three sample devices. *)
Definition sample_sys (path : string) : sys_results :=
  if String.eqb path "/dev/hidraw0" then sys_dose
  else if String.eqb path "/dev/hidraw1" then sys_denied else sys_broken.

(** ** Specifications *)

(** The key and value a [uevent] line binds, if any. *)
Definition uevent_entry (line : string) : option (string * string) :=
  match IndexEq line with
  | Some equal =>
      let key := TrimSpace (substring 0 equal line) in
      if Nat.ltb 0 (String.length key) then
        Some (key, if Nat.ltb equal (String.length line)
                   then TrimSpace (substring (S equal) (String.length line - S equal) line)
                   else ""%string)
      else None
  | None => None
  end.

(** The value of the last line binding [k], [""] if none does. *)
Definition uevent_lookup (lines : list string) (k : string) : string :=
  match find (fun kv => String.eqb (fst kv) k)
             (rev (flat_map (fun l => match uevent_entry l with Some kv => [kv] | None => [] end) lines)) with
  | Some (_, v) => v
  | None => ""%string
  end.

(** What [getDeviceInfo] gives for the entry [dir] of [/sys/class/hidraw]. *)
Definition probe (sys : string -> sys_results) (dir : string) : go (hid.DeviceInfo + oserror) :=
  getDeviceInfo (dev_path dir) (sys (dev_path dir)).

(** [Devices] goes on past this result: an info or a permission error. *)
Definition passable (r : go (hid.DeviceInfo + oserror)) : bool :=
  match r with Ret (inl _) => true | Ret (inr err) => IsPermission err | Panic _ => false end.

(** The infos of the devices that could be read, in directory order. *)
Definition readable_infos (sys : string -> sys_results) (names : list string) : list hid.DeviceInfo :=
  flat_map (fun dir => match probe sys dir with Ret (inl info) => [info] | _ => [] end) names.

(** How a failure of one device ends the enumeration. *)
Definition enumeration_failure (r : go (hid.DeviceInfo + oserror)) : go (list hid.DeviceInfo + oserror) :=
  match r with Ret (inl info) => Ret (inl [info]) | Ret (inr err) => Ret (inr err) | Panic s => Panic s end.

(** ** Report descriptors: termination, bounds and the first report wins *)

(** The fields [parseReport] has no business changing. *)
Definition ident_fields (d : hid.DeviceInfo) :=
  (hid.Path d, hid.VendorID d, hid.ProductID d, hid.VersionNumber d,
   hid.Manufacturer d, hid.Product d, hid.SerialNumber d).

(** [d'] agrees with [d] on its identity fields, and on each of [Usage]
    and the two report lengths once [d] has set it. *)
Definition keeps_first (d d' : hid.DeviceInfo) : Prop :=
  ident_fields d' = ident_fields d /\
  (hid.Usage d <> 0 -> hid.Usage d' = hid.Usage d) /\
  (hid.InputReportLength d <> 0 -> hid.InputReportLength d' = hid.InputReportLength d) /\
  (hid.OutputReportLength d <> 0 -> hid.OutputReportLength d' = hid.OutputReportLength d).

(** The four fields the parser writes hold a [uint16]. *)
Definition report_bounded (d : hid.DeviceInfo) : Prop :=
  0 <= hid.UsagePage d < 65536 /\ 0 <= hid.Usage d < 65536 /\
  0 <= hid.InputReportLength d < 65536 /\ 0 <= hid.OutputReportLength d < 65536.

Lemma u16_range (z : Z) : 0 <= u16 z < 65536.
Proof. apply Z.mod_pos_bound. lia. Qed.

Lemma keeps_first_refl d : keeps_first d d.
Proof. repeat split; auto. Qed.

Lemma keeps_first_trans d1 d2 d3 : keeps_first d1 d2 -> keeps_first d2 d3 -> keeps_first d1 d3.
Proof.
  intros (E12 & U12 & I12 & O12) (E23 & U23 & I23 & O23).
  split; [congruence|]. split; [|split]; intros H.
  - rewrite U23, U12 by (try rewrite U12; assumption). reflexivity.
  - rewrite I23, I12 by (try rewrite I12; assumption). reflexivity.
  - rewrite O23, O12 by (try rewrite O12; assumption). reflexivity.
Qed.

Lemma report_item_ok d r typ tag v :
  report_bounded d -> 0 <= r < 65536 ->
  keeps_first d (fst (report_item d r typ tag v)) /\
  report_bounded (fst (report_item d r typ tag v)) /\ 0 <= snd (report_item d r typ tag v) < 65536.
Proof.
  intros Hd Hr. pose proof (u16_range v). unfold report_item.
  destruct_ifs; rewrite ?Bool.andb_true_iff, ?Z.eqb_eq, ?Z.ltb_lt in *;
    unfold report_bounded, keeps_first, ident_fields in *; cbn in *; intuition lia.
Qed.

Lemma parseReport_loop_ok n d r b :
  report_bounded d -> 0 <= r < 65536 ->
  keeps_first d (parseReport_loop n d r b) /\ report_bounded (parseReport_loop n d r b).
Proof.
  revert d r b; induction n as [|n IH]; intros d r [|b0 b] Hd Hr; cbn [parseReport_loop];
    try (split; [apply keeps_first_refl | exact Hd]).
  destruct (Nat.ltb (length b) _); [split; [apply keeps_first_refl | exact Hd]|].
  match goal with |- context [report_item d r ?t ?g ?v] =>
    pose proof (report_item_ok d r t g v Hd Hr) as (K & B & R); destruct (report_item d r t g v) as [d' r'] end.
  cbn in K, B, R.
  destruct (report_complete d'); [split; assumption|].
  match goal with |- context [parseReport_loop n d' r' ?b'] => destruct (IH d' r' b' B R) as [K' B'] end.
  split; [eapply keeps_first_trans; eassumption | exact B'].
Qed.

(** Enough fuel: past [length b] iterations, more fuel changes nothing. *)
Lemma parseReport_loop_fuel n m d r b :
  (length b <= n)%nat -> (length b <= m)%nat -> parseReport_loop n d r b = parseReport_loop m d r b.
Proof.
  revert m d r b; induction n as [|n IH]; intros [|m] d r [|b0 b] Hn Hm; cbn [parseReport_loop length] in Hn, Hm |- *;
    try reflexivity; try lia.
  destruct (Nat.ltb (length b) _); [reflexivity|].
  match goal with |- context [report_item d r ?t ?g ?v] => destruct (report_item d r t g v) as [d' r'] end. destruct (report_complete d'); [reflexivity|].
  apply IH; rewrite length_skipn; lia.
Qed.

(** ** Device information: the [uevent] map, the product name, [Devices] *)

Lemma map_get_set m k v k' :
  map_get (map_set m k v) k' = if String.eqb k k' then v else map_get m k'.
Proof.
  unfold map_get, map_set. cbn. destruct (String.eqb k k') eqn:E; [reflexivity|].
  induction m as [|[k0 v0] m IH]; cbn; [reflexivity|].
  destruct (String.eqb k0 k) eqn:E0; cbn.
  - apply String.eqb_eq in E0. subst k0. rewrite E. exact IH.
  - destruct (String.eqb k0 k'); [reflexivity | exact IH].
Qed.

Lemma parse_uevent_step config line :
  (match IndexEq line with
   | Some equal =>
       let key := TrimSpace (substring 0 equal line) in
       if Nat.ltb 0 (String.length key) then
         let value := if Nat.ltb equal (String.length line)
                      then TrimSpace (substring (S equal) (String.length line - S equal) line)
                      else ""%string in
         map_set config key value
       else config
   | None => config
   end) = match uevent_entry line with Some (k, v) => map_set config k v | None => config end.
Proof.
  unfold uevent_entry. destruct (IndexEq line); [|reflexivity].
  cbv zeta. destruct (Nat.ltb 0 _); reflexivity.
Qed.

Lemma parse_uevent_fold lines config k :
  map_get (fold_left (fun config line =>
    match IndexEq line with
    | Some equal =>
        let key := TrimSpace (substring 0 equal line) in
        if Nat.ltb 0 (String.length key) then
          let value := if Nat.ltb equal (String.length line)
                       then TrimSpace (substring (S equal) (String.length line - S equal) line)
                       else ""%string in
          map_set config key value
        else config
    | None => config
    end) lines config) k =
  match find (fun kv => String.eqb (fst kv) k)
             (rev (flat_map (fun l => match uevent_entry l with Some kv => [kv] | None => [] end) lines)) with
  | Some (_, v) => v
  | None => map_get config k
  end.
Proof.
  revert config; induction lines as [|line lines IH]; intros config; [reflexivity|].
  cbn [fold_left flat_map]. rewrite parse_uevent_step, IH, rev_app_distr, find_app.
  destruct (find _ (rev (flat_map _ lines))) as [[k1 v1]|]; [reflexivity|].
  destruct (uevent_entry line) as [[k0 v0]|]; cbn; [|reflexivity].
  rewrite map_get_set. destruct (String.eqb k0 k); reflexivity.
Qed.

Lemma IndexByte0_prefix (name rest : list byte) :
  ~ In x00 name -> IndexByte0 (name ++ x00 :: rest) = Some (length name).
Proof.
  induction name as [|x name IH]; intros H; [reflexivity|].
  cbn. destruct (Byte.eqb x x00) eqn:E.
  - apply Byte.byte_dec_bl in E. subst x. exfalso. apply H. left. reflexivity.
  - rewrite IH; [reflexivity|]. intros Hin. apply H. right. exact Hin.
Qed.

Lemma IndexByte0_none (b : list byte) : ~ In x00 b -> IndexByte0 b = None.
Proof.
  induction b as [|x b IH]; intros H; [reflexivity|].
  cbn. destruct (Byte.eqb x x00) eqn:E.
  - apply Byte.byte_dec_bl in E. subst x. exfalso. apply H. left. reflexivity.
  - rewrite IH; [reflexivity|]. intros Hin. apply H. right. exact Hin.
Qed.

Lemma devices_loop_passable sys pre names res :
  Forall (fun dir => passable (probe sys dir) = true) pre ->
  devices_loop sys (pre ++ names) res = devices_loop sys names (res ++ readable_infos sys pre).
Proof.
  revert res; induction pre as [|dir pre IH]; intros res H; cbn [app].
  - rewrite app_nil_r. reflexivity.
  - inversion H as [|? ? Hd Hpre]; subst. cbn [devices_loop]. unfold readable_infos; cbn [flat_map].
    fold (readable_infos sys pre). change (getDeviceInfo (dev_path dir) (sys (dev_path dir))) with (probe sys dir).
    unfold passable in Hd. destruct (probe sys dir) as [[info|err]|r]; try discriminate.
    + rewrite IH by exact Hpre. rewrite app_assoc. reflexivity.
    + rewrite Hd, IH by exact Hpre. reflexivity.
Qed.

Lemma parse_uevent_lookup lines k : map_get (parse_uevent lines) k = uevent_lookup lines k.
Proof.
  unfold parse_uevent, uevent_lookup. rewrite parse_uevent_fold.
  destruct (find _ _) as [[k1 v1]|]; reflexivity.
Qed.

Lemma parseReport_ident d b : report_bounded d -> ident_fields (parseReport d b) = ident_fields d.
Proof. intros Hd. apply (parseReport_loop_ok (length b) d 0 b Hd). lia. Qed.

Lemma report_bounded_info_of_path path : report_bounded (info_of_path path).
Proof. unfold report_bounded; cbn; lia. Qed.

(** C34. [parseReport] changes only the usage page, the usage and the two
    report lengths, keeps them within [uint16], and never overwrites a
    usage or report length already set: the first input and output
    reports win. *)
Theorem parseReport_keeps_first d b :
  report_bounded d -> keeps_first d (parseReport d b) /\ report_bounded (parseReport d b).
Proof. intros Hd. apply parseReport_loop_ok; [exact Hd | lia]. Qed.

(** One iteration of the loop on an item with a one-byte value. *)
Lemma parseReport_loop_item1 fuel d r b0 x b :
  Z.land (uz b0) 3 = 1 ->
  parseReport_loop (S fuel) d r (b0 :: x :: b) =
    let '(d', r') := report_item d r (Z.land (Z.shiftr (uz b0) 2) 3) (Z.land (Z.shiftr (uz b0) 4) 15) (uz x) in
    if report_complete d' then d' else parseReport_loop fuel d' r' b.
Proof.
  intros H1. cbn [parseReport_loop]. rewrite H1. change (Z.to_nat 1) with 1%nat.
  unfold item_value. cbn [Nat.eqb length Nat.ltb Nat.leb skipn seq fold_left idx nth Z.of_nat Z.mul].
  rewrite Z.shiftl_0_r, Z.add_0_l. reflexivity.
Qed.

Lemma report_complete_no_input d : hid.InputReportLength d = 0 -> report_complete d = false.
Proof. unfold report_complete. intros ->. rewrite Bool.andb_false_r. reflexivity. Qed.

(** A Report Size item (0x75) changes nothing the parser keeps. *)
Lemma loop_report_size f d r x b :
  parseReport_loop (S f) d r (x75 :: x :: b) = if report_complete d then d else parseReport_loop f d r b.
Proof. rewrite parseReport_loop_item1 by reflexivity. reflexivity. Qed.

(** A Report Count item (0x95) sets [reportSize]. *)
Lemma loop_report_count f d r x b :
  parseReport_loop (S f) d r (x95 :: x :: b) =
    if report_complete d then d else parseReport_loop f d (u16 (uz x)) b.
Proof. rewrite parseReport_loop_item1 by reflexivity. reflexivity. Qed.

(** The first Input item (0x81) records [reportSize]. *)
Lemma loop_input f d r x b :
  hid.InputReportLength d = 0 -> 0 < r ->
  parseReport_loop (S f) d r (x81 :: x :: b) =
    let d' := set_InputReportLength d r in if report_complete d' then d' else parseReport_loop f d' 0 b.
Proof.
  intros H0 Hr. rewrite parseReport_loop_item1 by reflexivity. unfold report_item. rewrite H0.
  replace (0 <? r) with true by (symmetry; apply Z.ltb_lt; exact Hr). reflexivity.
Qed.

(** C24. The length [parseReport] records for the first input report is
    its Report Count, whatever its Report Size: on any descriptor that
    starts with Report Size [s], Report Count [c] (non-zero) and an Input
    item, followed by anything, the input report length found is [c],
    although the report is [c * s / 8] bytes. *)
Theorem parseReport_input_is_report_count d s c rest :
  report_bounded d -> hid.InputReportLength d = 0 -> uz c <> 0 ->
  hid.InputReportLength (parseReport d ([x75; s; x95; c; x81; x02] ++ rest)) = uz c.
Proof.
  intros Hb H0 Hc. pose proof (uz_range c) as Rc. unfold parseReport. cbn [length app].
  rewrite loop_report_size, report_complete_no_input by exact H0.
  rewrite loop_report_count, report_complete_no_input by exact H0.
  assert (Ec : u16 (uz c) = uz c) by (apply Z.mod_small; lia). rewrite Ec.
  rewrite loop_input by (exact H0 || lia). cbv zeta.
  assert (B' : report_bounded (set_InputReportLength d (uz c)))
    by (unfold report_bounded in *; cbn; lia).
  destruct (report_complete (set_InputReportLength d (uz c))); [reflexivity|].
  destruct (parseReport_loop_ok (S (S (S (length rest)))) (set_InputReportLength d (uz c)) 0 rest B' ltac:(lia))
    as [(_ & _ & K & _) _].
  cbn in K. apply K. exact Hc.
Qed.

(** On the descriptor of a vendor-defined device with 64-byte reports,
    [parseReport] finds usage page 0xFF00, usage 1 and report lengths 64;
    on the same reports described as 32 fields of 16 bits it finds report
    lengths 32. *)
Example parseReport_report_count path :
  let d := parseReport (info_of_path path) vendor_descriptor in
  let w := parseReport (info_of_path path) wide_descriptor in
  (hid.UsagePage d, hid.Usage d, hid.InputReportLength d, hid.OutputReportLength d) = (65280, 1, 64, 64) /\
  (hid.UsagePage w, hid.Usage w, hid.InputReportLength w, hid.OutputReportLength w) = (65280, 1, 32, 32).
Proof. split; reflexivity. Qed.

(** C18. When every call of [getDeviceInfo] succeeds and the product name
    ends with a zero byte, it returns the info of the path with the vendor
    and product ids as [uint16], the name up to the zero byte, the
    manufacturer without its trailing newlines, the serial number bound to
    [HID_UNIQ] by the last [uevent] line that binds it ([""] if none), and
    the usage and report lengths [parseReport] finds in the first
    [descSize] bytes of the descriptor. *)
Theorem getDeviceInfo_ok path sys n desc vendor product name rest man lines :
  sys_open sys = None -> sys_descsize sys = inl n -> sys_desc sys = inl desc ->
  sys_rawinfo sys = inl (vendor, product) -> sys_rawname sys = inl (name ++ x00 :: rest)%list ->
  ~ In x00 name -> sys_device sys = Some (man, Some lines) ->
  let p := parseReport (info_of_path path) (firstn (Z.to_nat n) desc) in
  exists d, getDeviceInfo path sys = Ret (inl d) /\
    hid.Path d = path /\ hid.VendorID d = u16 vendor /\ hid.ProductID d = u16 product /\
    hid.Product d = string_of_list_byte name /\
    hid.Manufacturer d = match man with Some raw => string_of_list_byte (TrimRightNewline raw) | None => ""%string end /\
    hid.SerialNumber d = uevent_lookup lines hidUniq /\
    (hid.UsagePage d, hid.Usage d, hid.InputReportLength d, hid.OutputReportLength d) =
    (hid.UsagePage p, hid.Usage p, hid.InputReportLength p, hid.OutputReportLength p).
Proof.
  intros Ho Hs Hd Hi Hn Hz Hv p. unfold getDeviceInfo. rewrite Ho, Hs, Hd, Hi, Hn, IndexByte0_prefix, Hv by exact Hz.
  rewrite firstn_app, Nat.sub_diag, firstn_all. cbn [firstn app].
  pose proof (parseReport_ident (info_of_path path) (firstn (Z.to_nat n) desc) (report_bounded_info_of_path path)) as E.
  subst p. destruct (parseReport _ _) as [P V Pr Ve M Pd S UP U I O]. cbn in E. injection E as -> -> -> -> -> -> ->.
  eexists; split; [reflexivity|]. unfold sysfs_info.
  rewrite parse_uevent_lookup, app_nil_r.
  destruct (uevent_lookup lines hidUniq); destruct man; cbn; repeat split.
Qed.

(** C23. When the product name fills the 256 bytes of [rawName] with no
    zero byte, [bytes.IndexByte] gives -1 and [getDeviceInfo] panics on
    [rawName[:-1]] instead of returning an error. *)
Theorem getDeviceInfo_rawName_panics path sys n desc vendor product raw :
  sys_open sys = None -> sys_descsize sys = inl n -> sys_desc sys = inl desc ->
  sys_rawinfo sys = inl (vendor, product) -> sys_rawname sys = inl raw -> ~ In x00 raw ->
  getDeviceInfo path sys = Panic "runtime error: slice bounds out of range [:-1]"%string.
Proof.
  intros Ho Hs Hd Hi Hn Hz. unfold getDeviceInfo.
  rewrite Ho, Hs, Hd, Hi, Hn, IndexByte0_none by exact Hz. reflexivity.
Qed.

(** C19. When every device of the directory gives its info or a
    permission error, [Devices] returns the infos of the readable devices
    in directory order, skipping the others. *)
Theorem Devices_refines sys names :
  Forall (fun dir => passable (probe sys dir) = true) names ->
  Devices sys (inl names) = Ret (inl (readable_infos sys names)).
Proof.
  intros H. unfold Devices. pose proof (devices_loop_passable sys names [] [] H) as E.
  rewrite app_nil_r in E. exact E.
Qed.

(** C20. [Devices] stops at the first device that fails with an error
    other than a permission error, or panics: it returns that error (or
    panics with it) and drops the infos already read. *)
Theorem Devices_first_failure sys pre dir post :
  Forall (fun dir => passable (probe sys dir) = true) pre -> passable (probe sys dir) = false ->
  Devices sys (inl (pre ++ dir :: post)%list) = enumeration_failure (probe sys dir).
Proof.
  intros Hpre Hd. unfold Devices. rewrite devices_loop_passable by exact Hpre. cbn [devices_loop].
  change (getDeviceInfo (dev_path dir) (sys (dev_path dir))) with (probe sys dir).
  unfold passable in Hd. destruct (probe sys dir) as [[info|err]|r]; [discriminate | | reflexivity].
  rewrite Hd. reflexivity.
Qed.

(** ** The read thread and its channel *)

(** One step moves reports from the device file to the buffer and from
    the buffer to a receiver, in order. *)
Lemma step_fifo L c l c' :
  step L c l c' ->
  (buffer c ++ sent_of L l = recv_of l ++ buffer c')%list /\ (read_of l ++ pending c')%list = pending c.
Proof.
  intros [c0 l0 c1 E | c0 l0 c1 E].
  - unfold thread_step in E. destruct (closed c0); [discriminate|].
    destruct (pending c0) as [|[data|err] rest] eqn:Ep; [discriminate| |].
    + destruct (Nat.ltb _ _); injection E as <- <-; cbn; rewrite ?app_nil_r; auto.
    + injection E as <- <-; cbn; rewrite ?app_nil_r; auto.
  - unfold recv in E. destruct (buffer c0) as [|x rest] eqn:Eb.
    + destruct (closed c0); [injection E as <- <-; cbn; rewrite Eb; auto | discriminate].
    + injection E as <- <-; cbn; rewrite ?app_nil_r; auto.
Qed.

Lemma steps_fifo L c tr c' :
  steps L c tr c' ->
  (buffer c ++ sent L tr = received tr ++ buffer c')%list /\ (reads tr ++ pending c')%list = pending c.
Proof.
  induction 1 as [c | c l c1 tr c2 Hs _ [IHb IHp]]; cbn; [rewrite app_nil_r; auto|].
  destruct (step_fifo L c l c1 Hs) as [Hb Hp]. fold (sent L tr) (received tr) (reads tr). split.
  - rewrite app_assoc, Hb, <- app_assoc, IHb, app_assoc. reflexivity.
  - rewrite <- app_assoc, IHp. exact Hp.
Qed.

Lemma step_inv L c l c' : chan_inv L c -> step L c l c' -> chan_inv L c'.
Proof.
  intros Hinv Hs. destruct Hs as [c0 l0 c1 E | c0 l0 c1 E]; destruct Hinv as (Hlen & Hall & Hcl).
  - unfold thread_step in E. destruct (closed c0) eqn:Ec; [discriminate|].
    destruct (pending c0) as [|[data|err] rest]; [discriminate| |].
    + destruct (Nat.ltb _ _) eqn:Elt; injection E as <- <-; unfold chan_inv; cbn; [|auto].
      apply Nat.ltb_lt in Elt. rewrite length_app. cbn. split; [lia|]. split; [|discriminate].
      apply Forall_app. split; [exact Hall|]. constructor; [rewrite length_firstn; lia | constructor].
    + injection E as <- <-. unfold chan_inv; cbn. repeat split; auto. discriminate.
  - unfold recv in E. destruct (buffer c0) as [|x rest] eqn:Eb.
    + destruct (closed c0); [injection E as <- <-; unfold chan_inv; rewrite Eb; repeat split; auto | discriminate].
    + injection E as <- <-. unfold chan_inv; cbn. cbn in Hlen.
      inversion Hall; subst. repeat split; auto. lia.
Qed.

Lemma steps_inv L c tr c' : chan_inv L c -> steps L c tr c' -> chan_inv L c'.
Proof. intros H Hs. induction Hs; eauto using step_inv. Qed.

Lemma firstn_app_full {A} n (l l1 l2 : list A) : (n <= length l)%nat -> firstn n (l ++ l1) = firstn n (l ++ l2).
Proof. intros H. rewrite !firstn_app. replace (n - length l)%nat with 0%nat by lia. reflexivity. Qed.

(** From a buffer of at most [chan_capacity] reports, with no receiver,
    the thread reads every pending report: the buffer keeps the oldest
    [chan_capacity] reports and drops the later ones. *)
Lemma thread_reads_all L datas : forall c rest,
  closed c = false -> (length (buffer c) <= chan_capacity)%nat ->
  pending c = (map ReadData datas ++ rest)%list ->
  exists tr c', steps L c tr c' /\ pending c' = rest /\ closed c' = false /\ received tr = [] /\
    buffer c' = firstn chan_capacity (buffer c ++ map (firstn (Z.to_nat L)) datas).
Proof.
  induction datas as [|data datas IH]; intros c rest Hc Hlen Hp.
  - exists [], c. cbn in Hp. rewrite app_nil_r, firstn_all2 by exact Hlen. repeat split; auto. constructor.
  - destruct (Nat.ltb (length (buffer c)) chan_capacity) eqn:Elt.
    + destruct (IH (mkChan (buffer c ++ [firstn (Z.to_nat L) data]) false (readErr c) (map ReadData datas ++ rest)) rest)
        as (tr & c' & Hs & Hp' & Hc' & Hr & Hb);
        [reflexivity | apply Nat.ltb_lt in Elt; cbn [buffer]; rewrite length_app; cbn [length]; lia | reflexivity |].
      exists (Sent data :: tr), c'. repeat split; auto.
      * econstructor; [|exact Hs]. apply step_thread. unfold thread_step. rewrite Hc, Hp. cbn [map app]. rewrite Elt. reflexivity.
      * rewrite Hb. cbn [buffer map]. rewrite <- app_assoc. reflexivity.
    + apply Nat.ltb_ge in Elt.
      destruct (IH (mkChan (buffer c) false (readErr c) (map ReadData datas ++ rest)) rest)
        as (tr & c' & Hs & Hp' & Hc' & Hr & Hb); [reflexivity | exact Hlen | reflexivity |].
      exists (Dropped data :: tr), c'. repeat split; auto.
      * econstructor; [|exact Hs]. apply step_thread. unfold thread_step. rewrite Hc, Hp. cbn [map app].
        replace (Nat.ltb _ _) with false by (symmetry; apply Nat.ltb_ge; lia). reflexivity.
      * rewrite Hb. apply firstn_app_full. exact Elt.
Qed.

(** In every run of the read thread and the receivers from a fresh
    channel, the thread consumes the device file's reads in order, each
    once, and the receivers get the reports the thread sent, in the order
    it sent them, the channel holding the rest. *)
Theorem chan_fifo L reads_in tr c :
  steps L (chan_init reads_in) tr c ->
  (reads tr ++ pending c)%list = reads_in /\ sent L tr = (received tr ++ buffer c)%list.
Proof.
  intros Hs. destruct (steps_fifo L _ tr c Hs) as [Hb Hp]. split; [exact Hp | exact Hb].
Qed.

(** C21. Every state reached from a fresh channel holds at most 30
    reports of at most [InputReportLength] bytes each, and once the
    channel is closed [ReadError] returns the read's error. *)
Theorem chan_reachable_inv L reads_in tr c :
  steps L (chan_init reads_in) tr c -> chan_inv L c.
Proof.
  apply steps_inv. unfold chan_inv, chan_init; cbn. repeat split; [lia | constructor | discriminate].
Qed.

(** C22. With no receiver, the read thread reads every report the device
    gives: the channel keeps the first 30 and silently drops every later
    one, so a receiver then gets the oldest report, not the latest. *)
Theorem thread_keeps_oldest L datas rest :
  exists tr c, steps L (chan_init (map ReadData datas ++ rest)%list) tr c /\
    pending c = rest /\ closed c = false /\ received tr = [] /\
    buffer c = firstn chan_capacity (map (firstn (Z.to_nat L)) datas).
Proof.
  destruct (thread_reads_all L datas (chan_init (map ReadData datas ++ rest)) rest) as (tr & c & H);
    cbn; auto with arith. exists tr, c. exact H.
Qed.

(** ** Witnesses *)

(** A run of the channel, one step at a time: the thread's step when it
    gives the trace's label, the receiver's otherwise. *)
Ltac run_steps :=
  repeat (eapply steps_cons; [first [apply step_thread; reflexivity | apply step_recv; reflexivity] |]);
  apply steps_nil.

Lemma parseReport_keeps_first_witness :
  keeps_first (info_of_path "/dev/hidraw0") (parseReport (info_of_path "/dev/hidraw0") vendor_descriptor) /\
  report_bounded (parseReport (info_of_path "/dev/hidraw0") vendor_descriptor).
Proof. apply parseReport_keeps_first. unfold report_bounded; simpl; lia. Defined.

Lemma getDeviceInfo_ok_witness :
  let p := parseReport (info_of_path "/dev/hidraw0") (firstn 27 (vendor_descriptor ++ repeat x00 37)%list) in
  exists d, getDeviceInfo "/dev/hidraw0" sys_dose = Ret (inl d) /\
    hid.Path d = "/dev/hidraw0"%string /\ hid.VendorID d = u16 1240 /\ hid.ProductID d = u16 (-3393) /\
    hid.Product d = string_of_list_byte (list_byte_of_string "ASL IntelliDose") /\
    hid.Manufacturer d = string_of_list_byte (TrimRightNewline (list_byte_of_string "Autogrow Systems" ++ [x0a])%list) /\
    hid.SerialNumber d = uevent_lookup sample_uevent hidUniq /\
    (hid.UsagePage d, hid.Usage d, hid.InputReportLength d, hid.OutputReportLength d) =
    (hid.UsagePage p, hid.Usage p, hid.InputReportLength p, hid.OutputReportLength p).
Proof.
  apply (getDeviceInfo_ok "/dev/hidraw0" sys_dose 27 (vendor_descriptor ++ repeat x00 37)%list 1240 (-3393)
    (list_byte_of_string "ASL IntelliDose") (repeat x00 240)
    (Some (list_byte_of_string "Autogrow Systems" ++ [x0a])%list) sample_uevent);
    try reflexivity.
  simpl. intuition discriminate.
Defined.

Lemma getDeviceInfo_rawName_panics_witness :
  getDeviceInfo "/dev/hidraw3" sys_long_name = Panic "runtime error: slice bounds out of range [:-1]"%string.
Proof.
  apply (getDeviceInfo_rawName_panics "/dev/hidraw3" sys_long_name 27 vendor_descriptor 1240 (-3393) (repeat x41 256));
    try reflexivity.
  intros H. apply repeat_spec in H. discriminate.
Defined.

Lemma Devices_refines_witness :
  Devices sample_sys (inl ["hidraw0"; "hidraw1"]%string) =
  Ret (inl (readable_infos sample_sys ["hidraw0"; "hidraw1"]%string)).
Proof.
  apply Devices_refines. repeat (apply Forall_cons; [vm_compute; reflexivity|]). apply Forall_nil.
Defined.

Lemma Devices_first_failure_witness :
  Devices sample_sys (inl (["hidraw1"] ++ "hidraw2" :: ["hidraw0"])%list%string) =
  enumeration_failure (probe sample_sys "hidraw2").
Proof.
  apply Devices_first_failure; [|vm_compute; reflexivity].
  repeat (apply Forall_cons; [vm_compute; reflexivity|]). apply Forall_nil.
Defined.

Lemma chan_fifo_witness :
  (reads [Sent [x01; x02; x03]; Recv [x01; x02]; Sent [x04]; Failed (ErrOther "EOF"); Recv [x04]; RecvClosed]
     ++ pending (mkChan [] true (Some (ErrOther "EOF")) []))%list =
   [ReadData [x01; x02; x03]; ReadData [x04]; ReadFail (ErrOther "EOF")] /\
  sent 2 [Sent [x01; x02; x03]; Recv [x01; x02]; Sent [x04]; Failed (ErrOther "EOF"); Recv [x04]; RecvClosed] =
  (received [Sent [x01; x02; x03]; Recv [x01; x02]; Sent [x04]; Failed (ErrOther "EOF"); Recv [x04]; RecvClosed]
     ++ buffer (mkChan [] true (Some (ErrOther "EOF")) []))%list.
Proof. apply chan_fifo. run_steps. Defined.

Lemma chan_reachable_inv_witness : chan_inv 64 (mkChan [[x03]] true (Some (ErrOther "EOF")) []).
Proof.
  apply (chan_reachable_inv 64 [ReadData [x01; x02]; ReadData [x03]; ReadFail (ErrOther "EOF")]
    [Sent [x01; x02]; Sent [x03]; Recv [x01; x02]; Failed (ErrOther "EOF")]). run_steps.
Defined.

Lemma parseReport_input_is_report_count_witness :
  report_bounded (info_of_path "/dev/hidraw0") /\ hid.InputReportLength (info_of_path "/dev/hidraw0") = 0 /\
  uz x20 <> 0 /\
  hid.InputReportLength (parseReport (info_of_path "/dev/hidraw0")
                           ([x75; x10; x95; x20; x81; x02] ++ [x75; x08; x95; x40; x91; x02])) = uz x20.
Proof.
  assert (B : report_bounded (info_of_path "/dev/hidraw0")) by (unfold report_bounded; cbn; lia).
  assert (C : uz x20 <> 0) by (vm_compute; discriminate).
  split; [exact B | split; [reflexivity | split; [exact C | apply parseReport_input_is_report_count; auto]]].
Defined.

End HidLinux.
