(* ===== verification/Device.v ===== *)
(** * Device session

    [src/device/device.go] (the [Device] struct, [NewDevice], [open],
    [close], [sentRequest], [update], [onUpdated], [OnUpdate]) and the
    session methods of [src/device/device_interrogator.go]
    ([updateShadow], [checkStates], [updateState], [writeDoseData],
    [writeClimateData], lines 659-742 and 968-993).

    The session is written against the [Hid] interface of [GoEffects] and
    calls the codecs of [IDose] and [IClimate].  The three mutexes of the
    struct are not modelled: each operation is a sequential function (the model of one
    critical section), see the root header.

    The session's state invariant is that an open session holds a handle
    ([session_ok]).  It holds for a new device and every operation
    preserves it, so [sentRequest] on an open session never dereferences a
    nil [hid.Device].

    Properties of the session of [Device]:
    - the open/closed life cycle as a step relation [session_step], whose
    states are a device and the world, with the invariant that an open
    session holds a handle ([session_ok]), true of every state reachable
    from [NewDevice];
    - the order of the requests of [updateState] and the frames it stores,
    on the scripted transport, with and without a write error;
    - what [updateShadow] does with the stored frames: publishes their
    decoding, or panics on short frames when no error was reported (the
    code checks the lengths only after an error);
    - the frames [writeDoseData] sends and the stored frames it
    overwrites. *)

From Stdlib Require Import Strings.String Relations.
From S2P Require Import Prelude GoFloat Bits Crc IDose IClimate GoEffects.

Open Scope string_scope.
Open Scope Z_scope.
Open Scope go_scope.

Module Session.

(** device.go, lines 12-30. *)
Definition IntelliDoseDeviceName := "IntelliDose".
Definition IntelliDoseDeviceNameLinux := "ASL IntelliDose".
Definition IntelliDoseDeviceType := "idoze".
Definition IntelliClimateDeviceName := "IntelliClimate".
Definition IntelliClimateDeviceNameLinux := "ASL IntelliClimate".
Definition IntelliClimateDeviceType := "iclimate".

(** A callback [func(Device)], by identity: the model records which
    callback is fired with which snapshot. *)
Definition Callback := nat.

Section Session.

Context {W H : Type} `{Hid W H}.

#[local] Abbreviation M := (@M W).

(** [type hidDevice struct] (device.go, lines 74-77); a nil [hid.Device]
    is [None]. *)
Record hidDevice := mk_hidDevice {
  hidDeviceInfo : hid.DeviceInfo;
  hidDeviceImpl : option H
}.

(** [type States struct] (device.go, lines 80-85). *)
Record States := mkStates {
  d0State : frame;
  d1State : frame;
  d2State : frame;
  d3State : frame
}.

Definition States_zero : States := mkStates [] [] [] [].

(** The [Shadow interface{}] of a device: nil, or the shadow of one of
    the two device types. *)
Inductive shadow : Type :=
| ShadowNil
| ShadowIDose (s : iDoseShadow.t)
| ShadowIClimate (s : iClimateShadow.t).

(** [type Device struct] (device.go, lines 44-57), without its mutexes. *)
Record Device := mkDevice {
  SerialNumber : string;
  Name : string;
  DeviceType : string;
  hidDevice_ : hidDevice;
  HID : hid.DeviceInfo;
  states : States;
  Shadow : shadow;
  IsOpen : bool;
  onUpdateFunc : option Callback
}.

Definition set_IsOpen (d : Device) (b : bool) : Device :=
  mkDevice (SerialNumber d) (Name d) (DeviceType d) (hidDevice_ d) (HID d) (states d) (Shadow d) b
    (onUpdateFunc d).

Definition set_hidDeviceImpl (d : Device) (h : H) : Device :=
  mkDevice (SerialNumber d) (Name d) (DeviceType d) (mk_hidDevice (hidDeviceInfo (hidDevice_ d)) (Some h))
    (HID d) (states d) (Shadow d) (IsOpen d) (onUpdateFunc d).

Definition set_states (d : Device) (st : States) : Device :=
  mkDevice (SerialNumber d) (Name d) (DeviceType d) (hidDevice_ d) (HID d) st (Shadow d) (IsOpen d)
    (onUpdateFunc d).

Definition set_Shadow (d : Device) (s : shadow) : Device :=
  mkDevice (SerialNumber d) (Name d) (DeviceType d) (hidDevice_ d) (HID d) (states d) s (IsOpen d)
    (onUpdateFunc d).

(** [device.states.dkState = f]. *)
Definition store (st : States) (k : nat) (f : frame) : States :=
  match k with
  | O => mkStates f (d1State st) (d2State st) (d3State st)
  | 1%nat => mkStates (d0State st) f (d2State st) (d3State st)
  | 2%nat => mkStates (d0State st) (d1State st) f (d3State st)
  | _ => mkStates (d0State st) (d1State st) (d2State st) f
  end.

(** [func NewDevice(sn, dtype, name string, hiddev hid.DeviceInfo) *Device]
    (device.go, lines 61-72): [name] is not stored. *)
Definition NewDevice (sn dtype name : string) (hiddev : hid.DeviceInfo) : Device :=
  mkDevice sn "" dtype (mk_hidDevice hiddev None) hiddev States_zero ShadowNil false None.

(** [func (d *Device) OnUpdate(callback func(Device))] (lines 98-100). *)
Definition OnUpdate (d : Device) (callback : Callback) : Device :=
  mkDevice (SerialNumber d) (Name d) (DeviceType d) (hidDevice_ d) (HID d) (states d) (Shadow d)
    (IsOpen d) (Some callback).

(** [func (d *Device) onUpdated()] (lines 92-94): [go d.onUpdateFunc( *d)],
    which panics in the new goroutine when no callback is installed.  The
    result is the callback and the snapshot it receives. *)
Definition onUpdated (d : Device) : M (Callback * Device) :=
  match onUpdateFunc d with
  | None => panic "call of nil func value"
  | Some cb => ret (cb, d)
  end.

(** [func (d *Device) update(shadow interface{})] (lines 87-90). *)
Definition update (d : Device) (s : shadow) : M (Device * (Callback * Device)) :=
  let d := set_Shadow d s in
  do n <- onUpdated d; ret (d, n).

(** [func (d *Device) close() error] (lines 102-106): the method call on a
    nil [hid.Device] panics. *)
Definition close (d : Device) : M (Device * option error) :=
  let d := set_IsOpen d false in
  match hidDeviceImpl (hidDevice_ d) with
  | None => panic "invalid memory address or nil pointer dereference"
  | Some h => fun w => Ret ((d, None), hid_close h w)
  end.

(** [func (d *Device) open() error] (lines 108-118). *)
Definition open (d : Device) : M (Device * option error) :=
  fun w =>
    let '(r, w') := hid_open (hidDeviceInfo (hidDevice_ d)) w in
    match r with
    | inr err => Ret ((set_IsOpen d false, Some err), w')
    | inl dev => Ret ((set_IsOpen (set_hidDeviceImpl d dev) true, None), w')
    end.

(** [func (d *Device) sentRequest(request []byte) ([]byte, error)] (lines
    120-127): the write, then one receive whatever the write returned. *)
Definition sentRequest (d : Device) (request : frame) : M (frame * option error) :=
  match hidDeviceImpl (hidDevice_ d) with
  | None => panic "invalid memory address or nil pointer dereference"
  | Some h => fun w =>
      let '(err, w1) := hid_write h request w in
      let '(resp, w2) := hid_read h w1 in
      Ret ((resp, err), w2)
  end.

(** One request of [updateState]: [device.states.dkState, err =
    device.sentRequest(dkRequest)]; the reply is stored even when [err] is
    not nil. *)
Definition request_state (d : Device) (k : nat) (request : frame) : M (Device * option error) :=
  do '(resp, err) <- sentRequest d request;
  ret (set_states d (store (states d) k resp), err).

(** [func (device Device) updateState() error] (device_interrogator.go,
    lines 694-722): D0, D1, D2 and, for an IntelliClimate, D3, stopping at
    the first error.  [states] is a pointer in Go, so the stores are seen
    by the caller although the receiver is a copy. *)
Definition updateState (d : Device) : M (Device * option error) :=
  let deviceType := DeviceType d in
  do '(d, err) <- request_state d 0 Crc.d0Request;
  match err with Some e => ret (d, Some e) | None =>
  do '(d, err) <- request_state d 1 Crc.d1Request;
  match err with Some e => ret (d, Some e) | None =>
  do '(d, err) <- request_state d 2 Crc.d2Request;
  match err with Some e => ret (d, Some e) | None =>
  if String.eqb deviceType IntelliClimateDeviceType then
    do '(d, err) <- request_state d 3 Crc.d3Request;
    match err with Some e => ret (d, Some e) | None => ret (d, None) end
  else ret (d, None)
  end end end.

(** [func (device Device) checkStates() bool] (lines 682-692). *)
Definition checkStates (d : Device) : bool :=
  let st := states d in
  if negb (Nat.eqb (length (d0State st)) Bits.requestLength) || negb (Nat.eqb (length (d1State st)) Bits.requestLength)
     || negb (Nat.eqb (length (d2State st)) Bits.requestLength) then false
  else if String.eqb (DeviceType d) IntelliClimateDeviceType then
    Nat.eqb (length (d3State st)) Bits.requestLength
  else true.

(** The [switch device.DeviceType] of [updateShadow]: the decoder of the
    device type, which panics on frames too short for it. *)
Definition decodeStates (d : Device) (timestamp : Z) : M shadow :=
  let st := states d in
  if String.eqb (DeviceType d) IntelliDoseDeviceType then
    if parseByteResponseForIDose_inbounds (d0State st) (d1State st) (d2State st)
    then ret (ShadowIDose (parseByteResponseForIDose (d0State st) (d1State st) (d2State st)
                             (SerialNumber d) timestamp))
    else panic "index out of range"
  else if String.eqb (DeviceType d) IntelliClimateDeviceType then
    if parseByteResponseForIClimate_inbounds (d0State st) (d1State st) (d2State st) (d3State st)
    then ret (ShadowIClimate (parseByteResponseForIClimate (d0State st) (d1State st) (d2State st)
                                (d3State st) (SerialNumber d) timestamp))
    else panic "index out of range"
  else ret ShadowNil.

(** [func (device *Device) updateShadow()] (lines 659-680).  The frame
    lengths are checked only when [updateState] failed; [timestamp] is
    [time.Now().Unix()].  The result is the device and the notification
    fired, if any. *)
Definition updateShadow (d : Device) (timestamp : Z) : M (Device * option (Callback * Device)) :=
  do '(d, err) <- updateState d;
  if is_error err && negb (checkStates d) then ret (set_IsOpen d false, None)
  else
    do s <- decodeStates d timestamp;
    do '(d, n) <- update d s;
    ret (d, Some n).

(** [s0Request = append([]byte{0x00}, s0Request...)]: the HID report id. *)
Definition with_report_id (f : frame) : frame := Byte.x00 :: f.

(** [func (device Device) writeDoseData(state iDoseShadow)] (lines
    724-742).  [s0Request := device.states.d1State] shares its array with
    the stored D1 frame, so the encoder writes S0 into the stored frame
    itself, and likewise S1 into D2.  The replies and errors of the writes
    are discarded. *)
Definition writeDoseData (d : Device) (state : iDoseShadow.t) : M Device :=
  let d0 := d0State (states d) in
  match prepareS0RequestForIDose d0 (d1State (states d)) state with
  | None => panic "index out of range"
  | Some s0 =>
    let d := set_states d (store (states d) 1 s0) in
    do _ <- sentRequest d (with_report_id s0);
    match prepareS1RequestForIDose d0 (d2State (states d)) state with
    | None => panic "index out of range"
    | Some s1 =>
      let d := set_states d (store (states d) 2 s1) in
      do _ <- sentRequest d (with_report_id s1);
      ret d
    end
  end.

(** [func (device Device) writeClimateData(state iClimateShadow)] (lines
    968-993): the same with S0, S1 and S2 written over D1, D2 and D3. *)
Definition writeClimateData (d : Device) (state : iClimateShadow.t) : M Device :=
  let d0 := d0State (states d) in
  match prepareS0RequestForIClimate d0 (d1State (states d)) state with
  | None => panic "index out of range"
  | Some s0 =>
    let d := set_states d (store (states d) 1 s0) in
    do _ <- sentRequest d (with_report_id s0);
    match prepareS1RequestForIClimate d0 (d2State (states d)) state with
    | None => panic "index out of range"
    | Some s1 =>
      let d := set_states d (store (states d) 2 s1) in
      do _ <- sentRequest d (with_report_id s1);
      match prepareS2RequestForIClimate d0 (d3State (states d)) state with
      | None => panic "index out of range"
      | Some s2 =>
        let d := set_states d (store (states d) 3 s2) in
        do _ <- sentRequest d (with_report_id s2);
        ret d
      end
    end
  end.

End Session.
End Session.

(** ** The session: invariant, request order, error paths *)

Import Session.

(** The read requests [updateState] sends for a device type, in order. *)
Definition requests_for (dtype : string) : list frame :=
  if String.eqb dtype IntelliClimateDeviceType
  then [Crc.d0Request; Crc.d1Request; Crc.d2Request; Crc.d3Request]
  else [Crc.d0Request; Crc.d1Request; Crc.d2Request].

(** The stored frames after the first [k] replies were stored in order. *)
Definition stored_after (st : States) (replies : list frame) (k : nat) : States :=
  fold_left (fun st i => store st i (nth i replies [])) (seq 0 k) st.

(** ** A concrete session, for the witnesses *)

Definition info0 : hid.DeviceInfo :=
  hid.mkDeviceInfo "/dev/hidraw0" 0 0 0 "Autogrow" "IntelliDose" "SN0001" 0 0 64 64.

(** A world where the device at [/dev/hidraw0] is attached. *)
Definition world0 : Script := mkScript ["/dev/hidraw0"] [] [] [] 0.

Definition dose0 : @Device string := NewDevice "SN0001" IntelliDoseDeviceType "IntelliDose" info0.

(** [dose0] after a successful [open] and [OnUpdate 7]. *)
Definition dose_open : @Device string :=
  OnUpdate (set_IsOpen (set_hidDeviceImpl dose0 "/dev/hidraw0") true) 7%nat.

Definition blank_report : frame := repeat Byte.x00 64.

(** An IntelliClimate session, opened and given the callback 7. *)
Definition climate_open : @Device string :=
  OnUpdate (set_IsOpen (set_hidDeviceImpl
    (NewDevice "SN0002" IntelliClimateDeviceType "IntelliClimate" info0) "/dev/hidraw0") true) 7%nat.

Section Props.

Context {W H : Type} `{Hid W H}.

#[local] Abbreviation Device := (@Device H).

Definition has_handle (d : Device) : bool :=
  match hidDeviceImpl (hidDevice_ d) with Some _ => true | None => false end.

(** The invariant: an open session holds a handle. *)
Definition session_ok (d : Device) : bool := negb (IsOpen d) || has_handle d.

(** The fields that only [open], [close] and [OnUpdate] change. *)
Definition same_session (d d' : Device) : Prop :=
  IsOpen d' = IsOpen d /\ hidDevice_ d' = hidDevice_ d /\ DeviceType d' = DeviceType d /\
  SerialNumber d' = SerialNumber d /\ Name d' = Name d /\ onUpdateFunc d' = onUpdateFunc d.

(** The fields no operation of the session changes. *)
Definition same_identity (d d' : Device) : Prop :=
  DeviceType d' = DeviceType d /\ SerialNumber d' = SerialNumber d /\ Name d' = Name d /\
  onUpdateFunc d' = onUpdateFunc d.

(** One operation of the session that returns (a panic ends the program). *)
Inductive session_step : Device * W -> Device * W -> Prop :=
| step_open d w d' e w' :
    open d w = Ret ((d', e), w') -> session_step (d, w) (d', w')
| step_close d w d' e w' :
    close d w = Ret ((d', e), w') -> session_step (d, w) (d', w')
| step_updateShadow d ts w d' n w' :
    updateShadow d ts w = Ret ((d', n), w') -> session_step (d, w) (d', w')
| step_writeDoseData d s w d' w' :
    writeDoseData d s w = Ret (d', w') -> session_step (d, w) (d', w')
| step_writeClimateData d s w d' w' :
    writeClimateData d s w = Ret (d', w') -> session_step (d, w) (d', w')
| step_OnUpdate d cb w :
    session_step (d, w) (OnUpdate d cb, w).

(** The states a session reaches from [NewDevice]. *)
Definition reachable (s : Device * W) : Prop :=
  exists sn dtype name info w0,
    clos_refl_trans _ session_step (NewDevice sn dtype name info, w0) s.

(** ** Operations that keep the session fields *)

Lemma same_session_trans (d1 d2 d3 : Device) :
  same_session d1 d2 -> same_session d2 d3 -> same_session d1 d3.
Proof. unfold same_session. intuition congruence. Qed.

Lemma request_state_same (d : Device) k r w d' e w' :
  request_state d k r w = Ret ((d', e), w') -> same_session d d'.
Proof. unfold request_state, sentRequest. intros E. go_run E. repeat split. Qed.

Lemma updateState_same (d : Device) w d' e w' :
  updateState d w = Ret ((d', e), w') -> same_session d d'.
Proof.
  unfold updateState. intros E. go_run E.
  all: repeat match goal with Hx : request_state _ _ _ _ = Ret _ |- _ => apply request_state_same in Hx end.
  all: unfold same_session in *; intuition congruence.
Qed.

Lemma writeDoseData_same (d : Device) s w d' w' :
  writeDoseData d s w = Ret (d', w') -> same_session d d'.
Proof. unfold writeDoseData, sentRequest. intros E. go_run E. all: repeat split. Qed.

Lemma writeClimateData_same (d : Device) s w d' w' :
  writeClimateData d s w = Ret (d', w') -> same_session d d'.
Proof. unfold writeClimateData, sentRequest. intros E. go_run E. all: repeat split. Qed.

Lemma same_session_ok (d d' : Device) : same_session d d' -> session_ok d' = session_ok d.
Proof. intros (E1 & E2 & _). unfold session_ok, has_handle. rewrite E1, E2. reflexivity. Qed.

Lemma open_identity (d : Device) w d' e w' : open d w = Ret ((d', e), w') -> same_identity d d'.
Proof. unfold open. intros E. go_run E; repeat split. Qed.

Lemma updateShadow_identity (d : Device) ts w d' n w' :
  updateShadow d ts w = Ret ((d', n), w') -> same_identity d d'.
Proof.
  unfold updateShadow, decodeStates, update, onUpdated. intros E. go_run E;
    match goal with Hx : updateState _ _ = Ret _ |- _ => apply updateState_same in Hx end;
    unfold same_session, same_identity in *; cbn; intuition congruence.
Qed.

(** ** The invariant *)

Lemma session_step_ok s s' :
  session_step s s' -> session_ok (fst s) = true -> session_ok (fst s') = true.
Proof.
  intros Hs Hok; destruct Hs as [d w d' e w' E|d w d' e w' E|d ts w d' n w' E|d st w d' w' E
                                 |d st w d' w' E|d cb w]; cbn [fst] in *.
  - unfold open in E. go_run E; reflexivity.
  - unfold close in E. go_run E; reflexivity.
  - unfold updateShadow, decodeStates, update, onUpdated in E. go_run E;
      try reflexivity;
      match goal with Hx : updateState _ _ = Ret _ |- _ => apply updateState_same, same_session_ok in Hx end;
      unfold session_ok, has_handle in *; cbn in *; congruence.
  - apply writeDoseData_same, same_session_ok in E. congruence.
  - apply writeClimateData_same, same_session_ok in E. congruence.
  - exact Hok.
Qed.

Lemma session_steps_ok s s' :
  clos_refl_trans _ session_step s s' -> session_ok (fst s) = true -> session_ok (fst s') = true.
Proof. induction 1; eauto using session_step_ok. Qed.

(** Every state the session reaches from [NewDevice],
    through [open], [close], [updateShadow], [writeDoseData],
    [writeClimateData] and [OnUpdate], is open only if it holds a
    [hid.Device] handle. *)
Theorem reachable_session_ok (s : Device * W) :
  reachable s -> session_ok (fst s) = true.
Proof.
  intros (sn & dtype & name & info & w0 & Hr). exact (session_steps_ok _ _ Hr eq_refl).
Qed.

(** [sentRequest] on a session that holds a handle returns. *)
Lemma sentRequest_returns (d : Device) (h : H) (request : frame) (w : W) :
  hidDeviceImpl (hidDevice_ d) = Some h ->
  exists resp err w', sentRequest d request w = Ret ((resp, err), w').
Proof.
  intros Eh. unfold sentRequest. rewrite Eh.
  destruct (hid_write h request w) as [err w1]. destruct (hid_read h w1) as [resp w2]. eauto.
Qed.

(** C6. On an open session that the manager reached through
    the session's operations, [sentRequest] never dereferences a nil
    [hid.Device]: it returns. *)
Theorem reachable_open_sentRequest (d : Device) (w : W) (request : frame) :
  reachable (d, w) -> IsOpen d = true ->
  exists resp err w', sentRequest d request w = Ret ((resp, err), w').
Proof.
  intros (sn & dtype & name & info & w0 & Hr) Ho.
  pose proof (session_steps_ok _ _ Hr eq_refl) as Hok. cbn in Hok. unfold session_ok, has_handle in Hok. rewrite Ho in Hok. cbn in Hok.
  destruct (hidDeviceImpl (hidDevice_ d)) as [h|] eqn:Eh; [|discriminate].
  exact (sentRequest_returns d h request w Eh).
Qed.

(** Termination of the request sequence of an update: on a
    session that holds a handle, [updateState] returns, whatever the
    transport answers and whichever write fails, after at most four
    requests. *)
Theorem updateState_returns (d : Device) (h : H) (w : W) :
  hidDeviceImpl (hidDevice_ d) = Some h ->
  exists d' err w', updateState d w = Ret ((d', err), w').
Proof.
  destruct d as [sn nm dt [info impl] hinfo st sh op cb]; cbn [hidDeviceImpl hidDevice_]. intros ->.
  unfold updateState, request_state, bind, ret.
  repeat (cbv beta iota zeta;
    match goal with
    | |- context [sentRequest ?d ?r ?w] =>
        destruct (sentRequest_returns d h r w eq_refl) as (? & ? & ? & ->)
    | |- context [match ?e with Some _ => _ | None => _ end] => destruct e
    | |- context [if ?b then _ else _] => destruct b
    end);
  eauto.
Qed.

End Props.

Section ScriptProps.


#[local] Abbreviation Device := (@Device string).

(** [updateState] on the scripted transport without write errors: it
    writes the read requests of the device type in order and stores one
    reply for each. *)
Lemma updateState_script (d : Device) h att replies wr c :
  hidDeviceImpl (hidDevice_ d) = Some h ->
  (length (requests_for (DeviceType d)) <= length replies)%nat ->
  updateState d (mkScript att [] replies wr c) =
    Ret ((set_states d (stored_after (states d) replies (length (requests_for (DeviceType d)))), None),
         mkScript att [] (skipn (length (requests_for (DeviceType d))) replies)
           (rev (requests_for (DeviceType d)) ++ wr) c).
Proof.
  destruct d as [sn nm dt [info impl] hinfo st sh op cb]; cbn [hidDeviceImpl hidDevice_ DeviceType states].
  intros ->. unfold updateState, request_state, sentRequest, requests_for.
  destruct replies as [|r0 [|r1 [|r2 [|r3 rest]]]];
    cbn -[Crc.d0Request Crc.d1Request Crc.d2Request Crc.d3Request];
    destruct (String.eqb dt IntelliClimateDeviceType); cbn; intros Hl; try lia; reflexivity.
Qed.

(** C30. When the write of the [k]-th request fails,
    [updateState] returns that error after writing exactly the first [k+1]
    requests, and the reply to the failed request is stored all the same;
    the later frames keep their previous contents. *)
Theorem updateState_script_error (d : Device) h att replies wr c (k : nat) (e : error) :
  hidDeviceImpl (hidDevice_ d) = Some h ->
  (k < length (requests_for (DeviceType d)))%nat -> (S k <= length replies)%nat ->
  updateState d (mkScript att (repeat None k ++ [Some e]) replies wr c) =
    Ret ((set_states d (stored_after (states d) replies (S k)), Some e),
         mkScript att [] (skipn (S k) replies) (rev (firstn (S k) (requests_for (DeviceType d))) ++ wr) c).
Proof.
  destruct d as [sn nm dt [info impl] hinfo st sh op cb]; cbn [hidDeviceImpl hidDevice_ DeviceType states].
  intros ->. unfold updateState, request_state, sentRequest, requests_for.
  destruct k as [|[|[|[|k]]]]; destruct replies as [|r0 [|r1 [|r2 [|r3 rest]]]];
    cbn -[Crc.d0Request Crc.d1Request Crc.d2Request Crc.d3Request];
    destruct (String.eqb dt IntelliClimateDeviceType); cbn; intros Hk Hl; try lia; reflexivity.
Qed.

(** A report an encoder returns, with its report id in front: 65 bytes,
    the id 0 first, a valid CRC in the payload. *)
Lemma with_report_id_frame (f : frame) :
  length f = 64%nat /\ Crc.crc_ok f = true ->
  length (with_report_id f) = 65%nat /\ hd_error (with_report_id f) = Some Byte.x00 /\
  Crc.crc_ok (tl (with_report_id f)) = true.
Proof. intros [L C]. cbn. rewrite L. auto. Qed.

(** C31. With three replies long enough for the
    decoder and no write error, [updateShadow] on an IntelliDose device
    stores the replies, sets the shadow to their decoding and fires the
    installed callback with the updated device. *)
Theorem updateShadow_script_publishes (d : Device) h att r0 r1 r2 rest wr c cb ts :
  hidDeviceImpl (hidDevice_ d) = Some h -> DeviceType d = IntelliDoseDeviceType ->
  onUpdateFunc d = Some cb -> parseByteResponseForIDose_inbounds r0 r1 r2 = true ->
  let d' := set_Shadow (set_states d (mkStates r0 r1 r2 (d3State (states d))))
              (ShadowIDose (parseByteResponseForIDose r0 r1 r2 (SerialNumber d) ts)) in
  updateShadow d ts (mkScript att [] (r0 :: r1 :: r2 :: rest) wr c) =
    Ret ((d', Some (cb, d')), mkScript att [] rest (Crc.d2Request :: Crc.d1Request :: Crc.d0Request :: wr) c).
Proof.
  destruct d as [sn nm dt [info impl] hinfo st sh op cb']; cbn [hidDeviceImpl hidDevice_ DeviceType onUpdateFunc].
  intros -> -> -> Hin. unfold updateShadow, decodeStates, update, onUpdated, updateState, request_state, sentRequest.
  cbn -[Crc.d0Request Crc.d1Request Crc.d2Request Crc.d3Request parseByteResponseForIDose_inbounds
        parseByteResponseForIDose].
  rewrite Hin. reflexivity.
Qed.

(** C32. With four replies long enough for the decoder and no write
    error, [updateShadow] on an IntelliClimate device sends the four read
    requests D0 to D3 in order, stores the replies, sets the shadow to
    their decoding and fires the installed callback. *)
Theorem updateShadow_script_climate_publishes (d : Device) h att r0 r1 r2 r3 rest wr c cb ts :
  hidDeviceImpl (hidDevice_ d) = Some h -> DeviceType d = IntelliClimateDeviceType ->
  onUpdateFunc d = Some cb -> parseByteResponseForIClimate_inbounds r0 r1 r2 r3 = true ->
  let d' := set_Shadow (set_states d (mkStates r0 r1 r2 r3))
              (ShadowIClimate (parseByteResponseForIClimate r0 r1 r2 r3 (SerialNumber d) ts)) in
  updateShadow d ts (mkScript att [] (r0 :: r1 :: r2 :: r3 :: rest) wr c) =
    Ret ((d', Some (cb, d')),
         mkScript att [] rest (Crc.d3Request :: Crc.d2Request :: Crc.d1Request :: Crc.d0Request :: wr) c).
Proof.
  destruct d as [sn nm dt [info impl] hinfo st sh op cb']; cbn [hidDeviceImpl hidDevice_ DeviceType onUpdateFunc].
  intros -> -> -> Hin. unfold updateShadow, decodeStates, update, onUpdated, updateState, request_state, sentRequest.
  cbn -[Crc.d0Request Crc.d1Request Crc.d2Request Crc.d3Request parseByteResponseForIClimate_inbounds
        parseByteResponseForIClimate].
  rewrite Hin. reflexivity.
Qed.

(** C10. The frame lengths are checked only after an
    error: when every request succeeds but the replies are too short for
    the decoder (a device that answers with empty reports, say),
    [updateShadow] panics with an index out of range instead of closing
    the session. *)
Theorem updateShadow_script_short_panics (d : Device) h att r0 r1 r2 rest wr c ts :
  hidDeviceImpl (hidDevice_ d) = Some h -> DeviceType d = IntelliDoseDeviceType ->
  parseByteResponseForIDose_inbounds r0 r1 r2 = false ->
  updateShadow d ts (mkScript att [] (r0 :: r1 :: r2 :: rest) wr c) =
    Panic "index out of range".
Proof.
  destruct d as [sn nm dt [info impl] hinfo st sh op cb']; cbn [hidDeviceImpl hidDevice_ DeviceType].
  intros -> -> Hin. unfold updateShadow, decodeStates, update, onUpdated, updateState, request_state, sentRequest.
  cbn -[Crc.d0Request Crc.d1Request Crc.d2Request Crc.d3Request parseByteResponseForIDose_inbounds
        parseByteResponseForIDose].
  rewrite Hin. reflexivity.
Qed.

(** C11. A failed D1 request does not stop the update
    when the stored frames still have 64 bytes: the shadow published is
    decoded from the new D0, the reply to the failed request, and the D2
    frame of the previous poll, and the session stays open. *)
Theorem updateShadow_script_stale (d : Device) h att r0 r1 rest wr c cb ts (e : error) :
  hidDeviceImpl (hidDevice_ d) = Some h -> DeviceType d = IntelliDoseDeviceType ->
  onUpdateFunc d = Some cb ->
  length r0 = 64%nat -> length r1 = 64%nat -> length (d2State (states d)) = 64%nat ->
  exists d' w',
    updateShadow d ts (mkScript att [None; Some e] (r0 :: r1 :: rest) wr c) =
      Ret ((d', Some (cb, d')), w') /\
    Shadow d' = ShadowIDose (parseByteResponseForIDose r0 r1 (d2State (states d)) (SerialNumber d) ts) /\
    IsOpen d' = IsOpen d.
Proof.
  destruct d as [sn nm dt [info impl] hinfo [s0 s1 s2 s3] sh op cb'];
    cbn [hidDeviceImpl hidDevice_ DeviceType onUpdateFunc states d2State].
  intros -> -> -> H0 H1 H2.
  unfold updateShadow, decodeStates, update, onUpdated, updateState, request_state, sentRequest,
    checkStates, parseByteResponseForIDose_inbounds, Bits.requestLength.
  cbn -[Crc.d0Request Crc.d1Request Crc.d2Request Crc.d3Request parseByteResponseForIDose].
  rewrite H0, H1, H2. cbn -[parseByteResponseForIDose].
  do 2 eexists. split; [reflexivity|]. split; reflexivity.
Qed.

(** C3. [writeDoseData] sends S0 then S1, each a 65-byte
    report whose first byte is the report id 0 and whose 64-byte payload
    carries a valid CRC; and, the request slices sharing their arrays with
    the stored frames, it leaves S0 and S1 stored in place of D1 and D2. *)
Theorem writeDoseData_script (d : Device) h att replies wr c s s0 s1 :
  hidDeviceImpl (hidDevice_ d) = Some h ->
  length (d1State (states d)) = 64%nat -> length (d2State (states d)) = 64%nat ->
  prepareS0RequestForIDose (d0State (states d)) (d1State (states d)) s = Some s0 ->
  prepareS1RequestForIDose (d0State (states d)) (d2State (states d)) s = Some s1 ->
  exists w',
    writeDoseData d s (mkScript att [] replies wr c) =
      Ret (set_states d (mkStates (d0State (states d)) s0 s1 (d3State (states d))), w') /\
    written w' = with_report_id s1 :: with_report_id s0 :: wr /\
    Forall (fun f => length f = 65%nat /\ hd_error f = Some Byte.x00 /\ Crc.crc_ok (tl f) = true)
      [with_report_id s0; with_report_id s1].
Proof.
  intros Hh H1 H2 E0 E1.
  pose proof (with_report_id_frame _ (prepareS0RequestForIDose_frame _ _ _ _ H1 E0)) as F0.
  pose proof (with_report_id_frame _ (prepareS1RequestForIDose_frame _ _ _ _ H2 E1)) as F1.
  revert Hh E0 E1. destruct d as [sn nm dt [info impl] hinfo [d0 d1 d2 d3] sh op cb'];
    cbn [hidDeviceImpl hidDevice_ states d0State d1State d2State d3State].
  intros -> E0 E1. unfold writeDoseData, sentRequest. cbn [states d0State d1State d2State].
  rewrite E0. cbn -[prepareS1RequestForIDose with_report_id]. rewrite E1.
  destruct replies as [|r0 [|r1 rest]]; cbn -[with_report_id]; eexists; (split; [reflexivity|]);
    (split; [reflexivity|]); repeat (apply Forall_cons; [assumption|]); apply Forall_nil.
Qed.

(** C4. [writeClimateData] sends S0, S1 and S2, each a 65-byte
    report whose first byte is the report id 0 and whose payload carries a
    valid CRC, and leaves them stored in place of D1, D2 and D3. *)
Theorem writeClimateData_script (d : Device) h att replies wr c s s0 s1 s2 :
  hidDeviceImpl (hidDevice_ d) = Some h ->
  length (d1State (states d)) = 64%nat -> length (d2State (states d)) = 64%nat ->
  length (d3State (states d)) = 64%nat ->
  prepareS0RequestForIClimate (d0State (states d)) (d1State (states d)) s = Some s0 ->
  prepareS1RequestForIClimate (d0State (states d)) (d2State (states d)) s = Some s1 ->
  prepareS2RequestForIClimate (d0State (states d)) (d3State (states d)) s = Some s2 ->
  exists w',
    writeClimateData d s (mkScript att [] replies wr c) =
      Ret (set_states d (mkStates (d0State (states d)) s0 s1 s2), w') /\
    written w' = with_report_id s2 :: with_report_id s1 :: with_report_id s0 :: wr /\
    Forall (fun f => length f = 65%nat /\ hd_error f = Some Byte.x00 /\ Crc.crc_ok (tl f) = true)
      [with_report_id s0; with_report_id s1; with_report_id s2].
Proof.
  intros Hh H1 H2 H3 E0 E1 E2.
  pose proof (with_report_id_frame _ (prepareS0RequestForIClimate_frame _ _ _ _ H1 E0)) as F0.
  pose proof (with_report_id_frame _ (prepareS1RequestForIClimate_frame _ _ _ _ H2 E1)) as F1.
  pose proof (with_report_id_frame _ (prepareS2RequestForIClimate_frame _ _ _ _ H3 E2)) as F2.
  revert Hh E0 E1 E2. destruct d as [sn nm dt [info impl] hinfo [d0 d1 d2 d3] sh op cb'];
    cbn [hidDeviceImpl hidDevice_ states d0State d1State d2State d3State].
  intros -> E0 E1 E2. unfold writeClimateData, sentRequest. cbn [states d0State d1State d2State d3State].
  rewrite E0. cbn -[prepareS1RequestForIClimate prepareS2RequestForIClimate with_report_id]. rewrite E1.
  cbn -[prepareS2RequestForIClimate with_report_id]. rewrite E2.
  destruct replies as [|r0 [|r1 [|r2 rest]]]; cbn -[with_report_id]; eexists; (split; [reflexivity|]);
    (split; [reflexivity|]); repeat (apply Forall_cons; [assumption|]); apply Forall_nil.
Qed.

End ScriptProps.

(** ** Witnesses *)

Lemma dose_open_reachable :
  reachable (dose_open, world0).
Proof.
  exists "SN0001", IntelliDoseDeviceType, "IntelliDose", info0, world0.
  eapply rt_trans; apply rt_step; [eapply step_open with (e := None); reflexivity | apply step_OnUpdate].
Qed.

Lemma reachable_session_ok_witness : session_ok (fst (dose_open, world0)) = true.
Proof. apply (reachable_session_ok), dose_open_reachable. Defined.

Lemma reachable_open_sentRequest_witness :
  exists resp err w', sentRequest dose_open Crc.d0Request world0 = Ret ((resp, err), w').
Proof.
  apply (reachable_open_sentRequest).
  - apply dose_open_reachable.
  - reflexivity.
Defined.

Lemma updateState_script_error_witness :
  updateState dose_open (mkScript [] (repeat None 1 ++ [Some "write failed"]) [blank_report; blank_report] [] 0) =
    Ret ((set_states dose_open (stored_after (states dose_open) [blank_report; blank_report] 2), Some "write failed"),
         mkScript [] [] (skipn 2 [blank_report; blank_report])
           (rev (firstn 2 (requests_for (DeviceType dose_open))) ++ []) 0).
Proof. apply updateState_script_error with (h := "/dev/hidraw0"); reflexivity || (cbn; lia). Defined.

Lemma updateShadow_script_publishes_witness :
  let d' := set_Shadow (set_states dose_open (mkStates blank_report blank_report blank_report (d3State (states dose_open))))
              (ShadowIDose (parseByteResponseForIDose blank_report blank_report blank_report (SerialNumber dose_open) 0)) in
  updateShadow dose_open 0 (mkScript [] [] [blank_report; blank_report; blank_report] [] 0) =
    Ret ((d', Some (7%nat, d')), mkScript [] [] [] (Crc.d2Request :: Crc.d1Request :: Crc.d0Request :: []) 0).
Proof. apply updateShadow_script_publishes with (h := "/dev/hidraw0"); reflexivity. Defined.

Lemma updateShadow_script_short_panics_witness :
  updateShadow dose_open 0 (mkScript [] [] [[]; []; []] [] 0) = Panic "index out of range".
Proof. apply updateShadow_script_short_panics with (h := "/dev/hidraw0"); reflexivity. Defined.

Lemma updateShadow_script_stale_witness :
  exists d' w',
    updateShadow (set_states dose_open (mkStates [] [] blank_report [])) 0
      (mkScript [] [None; Some "write failed"] [blank_report; blank_report] [] 0) = Ret ((d', Some (7%nat, d')), w') /\
    Shadow d' = ShadowIDose (parseByteResponseForIDose blank_report blank_report blank_report "SN0001" 0) /\
    IsOpen d' = true.
Proof. apply updateShadow_script_stale with (h := "/dev/hidraw0"); reflexivity. Defined.

Lemma writeDoseData_script_witness :
  let d := set_states dose_open (mkStates blank_report blank_report blank_report []) in
  let s := parseByteResponseForIDose blank_report blank_report blank_report "SN0001" 0 in
  exists s0 s1 w',
    writeDoseData d s (mkScript [] [] [] [] 0) = Ret (set_states d (mkStates blank_report s0 s1 []), w') /\
    written w' = with_report_id s1 :: with_report_id s0 :: [] /\
    Forall (fun f => length f = 65%nat /\ hd_error f = Some Byte.x00 /\ Crc.crc_ok (tl f) = true)
      [with_report_id s0; with_report_id s1].
Proof.
  do 2 eexists. apply writeDoseData_script with (h := "/dev/hidraw0"); reflexivity.
Defined.

Lemma updateShadow_script_climate_publishes_witness :
  let d' := set_Shadow (set_states climate_open (mkStates blank_report blank_report blank_report blank_report))
              (ShadowIClimate (parseByteResponseForIClimate blank_report blank_report blank_report blank_report
                                 (SerialNumber climate_open) 0)) in
  updateShadow climate_open 0 (mkScript [] [] [blank_report; blank_report; blank_report; blank_report] [] 0) =
    Ret ((d', Some (7%nat, d')),
         mkScript [] [] [] (Crc.d3Request :: Crc.d2Request :: Crc.d1Request :: Crc.d0Request :: []) 0).
Proof. apply updateShadow_script_climate_publishes with (h := "/dev/hidraw0"); reflexivity. Defined.

Lemma writeClimateData_script_witness :
  let d := set_states climate_open (mkStates blank_report blank_report blank_report blank_report) in
  let s := parseByteResponseForIClimate blank_report blank_report blank_report blank_report "SN0002" 0 in
  exists s0 s1 s2 w',
    writeClimateData d s (mkScript [] [] [] [] 0) = Ret (set_states d (mkStates blank_report s0 s1 s2), w') /\
    written w' = with_report_id s2 :: with_report_id s1 :: with_report_id s0 :: [] /\
    Forall (fun f => length f = 65%nat /\ hd_error f = Some Byte.x00 /\ Crc.crc_ok (tl f) = true)
      [with_report_id s0; with_report_id s1; with_report_id s2].
Proof.
  do 3 eexists. apply writeClimateData_script with (h := "/dev/hidraw0"); reflexivity.
Defined.

Lemma updateState_returns_witness :
  exists d' err w', updateState dose_open world0 = Ret ((d', err), w').
Proof. apply (updateState_returns dose_open "/dev/hidraw0" world0). reflexivity. Defined.
