(* ===== verification/LinuxHid.v ===== *)
(** * The Linux backend as the session's HID device

    [DeviceInfo.Open], [Close], [Write], [ReadCh] and [ReadError] of
    [src/hid/hid_linux.go] (lines 211-242), as an instance [Linux_Hid] of
    the interface [Hid] the session is written against.  A handle is the
    index of a [linuxDevice] in the world's table; the world holds the
    hidraw nodes, each with the reports its device sends in answer to an
    output report, and the open files.

    Each open file has the reports the kernel has queued for it and,
    once [ReadCh] has run [d.readSetup.Do], the channel of [HidLinux] with
    its read thread.  The thread, blocked in [d.f.Read], runs as soon as
    the device sends a report: [drain] runs its iterations until its
    reads are exhausted, each report sent into the channel or dropped by
    the [default] case when 30 are buffered.  A receive on an empty, open
    channel whose thread has nothing left to read blocks for ever; the
    instance then returns a nil slice and records the deadlock in
    [blocked].  Other schedules are those of the step relation
    [HidLinux.step].

    The theorems: the open file refines a queue of capacity 30 that drops
    the newest report when full, each report cut to the input report
    length ([linux_refines_bounded_fifo]); on this backend [updateState]
    stores the oldest reports of that queue, so a report left unread
    shifts every later reply into the slot of the next request. *)

From Stdlib Require Import Strings.String Strings.Byte.
From S2P Require Import Prelude Crc GoEffects HidLinux Device.

Import HidLinux Session.

Module LinuxHid.

(** A hidraw node: its path, the input reports its device sends after
    receiving an output report, and what writing to it returns. *)
Record node := mkNode {
  node_path : string;
  answer : frame -> list frame;
  write_error : option error
}.

(** [type linuxDevice struct] (lines 42-50): the node behind [f], the
    input report length of [info], whether [f] is closed, the reports the
    kernel has queued for [f] before the read thread starts, the channel
    once [readSetup] has run, and the reports written. *)
Record handle := mkHandle {
  h_node : node;
  h_len : Z;
  h_closed : bool;
  h_queue : list read_result;
  h_ch : option chan;
  h_written : list frame
}.

Record lworld := mkLWorld {
  nodes : list node;
  handles : list handle;
  blocked : bool
}.

Definition set_handle (w : lworld) (h : nat) (hd : handle) : lworld :=
  mkLWorld (nodes w) (upd (handles w) h hd) (blocked w).

Definition find_node (w : lworld) (path : string) : option node :=
  find (fun n => String.eqb (node_path n) path) (nodes w).

(** [func (d *DeviceInfo) Open() (Device, error)] (lines 212-219). *)
Definition linux_open (di : hid.DeviceInfo) (w : lworld) : (nat + error) * lworld :=
  match find_node w (hid.Path di) with
  | None => (inr ("open " ++ hid.Path di ++ ": no such file or directory")%string, w)
  | Some n =>
      (inl (length (handles w)),
       mkLWorld (nodes w) (handles w ++ [mkHandle n (hid.InputReportLength di) false [] None []])%list (blocked w))
  end.

Definition closed_error (op : string) (hd : handle) : oserror :=
  ErrOther (op ++ " " ++ node_path (h_node hd) ++ ": file already closed")%string.

(** The read thread runs as soon as there is something to read: it
    reads every report the device has sent, sending each into the
    channel or dropping it when 30 are buffered, until its reads are
    exhausted or one fails.  Each iteration consumes a pending read, so
    one more than their number is enough fuel ([drain_reads]). *)
Fixpoint run_thread (fuel : nat) (L : Z) (c : chan) : chan :=
  match fuel with
  | O => c
  | S k => match thread_step L c with
           | Some (_, c') => run_thread k L c'
           | None => c
           end
  end.

Definition drain (L : Z) (c : chan) : chan := run_thread (S (length (pending c))) L c.

(** [func (d *linuxDevice) Close()] (lines 221-223): [d.f.Close()]; the
    read thread's next read fails, and the reports not read are lost. *)
Definition linux_close (h : nat) (w : lworld) : lworld :=
  match nth_error (handles w) h with
  | None => w
  | Some hd =>
      let ch := match h_ch hd with
                | Some c => Some (drain (h_len hd) (mkChan (buffer c) (closed c) (readErr c)
                                   (if closed c then pending c else [ReadFail (closed_error "read" hd)])))
                | None => None
                end in
      set_handle w h (mkHandle (h_node hd) (h_len hd) true [] ch (h_written hd))
  end.

(** The reports the device sends are queued for the file; once the read
    thread runs, it reads them at once into the channel. *)
Definition enqueue (hd : handle) (rs : list frame) : handle :=
  let rr := map ReadData rs in
  match h_ch hd with
  | Some c => mkHandle (h_node hd) (h_len hd) (h_closed hd) (h_queue hd)
                (Some (drain (h_len hd) (mkChan (buffer c) (closed c) (readErr c) (pending c ++ rr)%list)))
                (h_written hd)
  | None => mkHandle (h_node hd) (h_len hd) (h_closed hd) (h_queue hd ++ rr)%list None (h_written hd)
  end.

(** [func (d *linuxDevice) Write(data []byte) error] (lines 225-230):
    under [writeLock], [d.f.Write(data)]. *)
Definition linux_write (h : nat) (data : frame) (w : lworld) : option error * lworld :=
  match nth_error (handles w) h with
  | None => (Some "invalid argument"%string, w)
  | Some hd =>
      if h_closed hd then (Some ("write " ++ node_path (h_node hd) ++ ": file already closed")%string, w)
      else match write_error (h_node hd) with
           | Some e => (Some e, w)
           | None =>
               let hd := enqueue hd (answer (h_node hd) data) in
               (None, set_handle w h (mkHandle (h_node hd) (h_len hd) (h_closed hd) (h_queue hd) (h_ch hd)
                                        (data :: h_written hd)))
           end
  end.

(** [func (d *linuxDevice) ReadCh() <-chan []byte] (lines 232-238): the
    first call makes the channel of capacity 30 and starts [readThread],
    which reads the reports queued so far; later calls return the same
    channel. *)
Definition ReadCh (hd : handle) : chan :=
  match h_ch hd with Some c => c | None => drain (h_len hd) (chan_init (h_queue hd)) end.

(** [<-d.hidDevice.hidDeviceImpl.ReadCh()] of [sentRequest]: the oldest
    buffered report; the nil slice once the channel is closed and empty;
    and when the channel is empty, open, and the thread has nothing left
    to read, a receive that blocks for ever, recorded in [blocked]. *)
Definition linux_read (h : nat) (w : lworld) : frame * lworld :=
  match nth_error (handles w) h with
  | None => ([], w)
  | Some hd =>
      let c := ReadCh hd in
      let keep c' := mkHandle (h_node hd) (h_len hd) (h_closed hd) (h_queue hd) (Some c') (h_written hd) in
      match recv c with
      | Some (Recv x, c') => (x, set_handle w h (keep c'))
      | Some (_, c') => ([], set_handle w h (keep c'))
      | None => ([], mkLWorld (nodes w) (upd (handles w) h (keep c)) true)
      end
  end.

(** [func (d *linuxDevice) ReadError() error] (lines 240-242). *)
Definition ReadError (hd : handle) : option oserror :=
  match h_ch hd with Some c => readErr c | None => None end.

#[export] Instance Linux_Hid : Hid lworld nat := {
  hid_open := linux_open;
  hid_close := linux_close;
  hid_write := linux_write;
  hid_read := linux_read
}.

(** ** The queue a receiver sees *)

Definition datas (rs : list read_result) : list frame :=
  flat_map (fun r => match r with ReadData x => [x] | ReadFail _ => [] end) rs.

Definition no_fail (rs : list read_result) : bool :=
  forallb (fun r => match r with ReadData _ => true | ReadFail _ => false end) rs.

(** The reports a receiver will get, in order: those in the channel once
    the thread has read everything it can. *)
Definition handle_view (hd : handle) : list frame := buffer (ReadCh hd).

(** An open file whose thread, if started, has read all it can: the
    channel open, no read pending, at most 30 reports buffered; before
    the thread starts, no failed read queued. *)
Definition handle_ok (hd : handle) : bool :=
  negb (h_closed hd) &&
  match h_ch hd with
  | Some c => negb (closed c) && (match pending c with [] => true | _ => false end) &&
              Nat.leb (length (buffer c)) chan_capacity
  | None => no_fail (h_queue hd)
  end.

(** The handle a write leaves. *)
Definition written_handle (hd : handle) (data : frame) : handle :=
  let hd' := enqueue hd (answer (h_node hd) data) in
  mkHandle (h_node hd') (h_len hd') (h_closed hd') (h_queue hd') (h_ch hd') (data :: h_written hd').

(** ** A sample device *)

(** A device that answers an output report with one input report, the
    64 bytes that follow the report id. *)
Definition echo_node : node := mkNode "/dev/hidraw0" (fun r => [firstn 64 (skipn 1 r)]) None.

Definition echo (r : frame) : frame := firstn 64 (skipn 1 r).

(** A report the device sent that nobody has read. *)
Definition stale_report : frame := repeat x00 64.

Definition hd_stale : handle := mkHandle echo_node 64 false [ReadData stale_report] None [].

Definition w_stale : lworld := mkLWorld [echo_node] [hd_stale] false.

(** An open IntelliDose session on handle 0. *)
Definition dev_linux : @Device nat :=
  set_IsOpen (set_hidDeviceImpl (NewDevice "SN0001" IntelliDoseDeviceType IntelliDoseDeviceName info0) 0%nat) true.

(** ** The open file is a bounded queue *)

Lemma nth_error_upd_eq {A} (l : list A) i v x : nth_error l i = Some x -> nth_error (upd l i v) i = Some v.
Proof. revert i; induction l as [|y l IH]; intros [|i] H; cbn in *; try discriminate; auto. Qed.

Lemma upd_upd {A} (l : list A) i v v' : upd (upd l i v) i v' = upd l i v'.
Proof. revert i; induction l as [|y l IH]; intros [|i]; cbn; f_equal; auto. Qed.

Lemma set_handle_twice w h a b : set_handle (set_handle w h a) h b = set_handle w h b.
Proof. unfold set_handle. cbn [nodes handles blocked]. rewrite upd_upd. reflexivity. Qed.

Lemma datas_app rs rs' : datas (rs ++ rs') = (datas rs ++ datas rs')%list.
Proof. apply flat_map_app. Qed.

Lemma datas_ReadData rs : datas (map ReadData rs) = rs.
Proof.
  induction rs as [|r rs IH]; [reflexivity|].
  change (datas (map ReadData (r :: rs))) with (r :: datas (map ReadData rs)). now rewrite IH.
Qed.

Lemma no_fail_app rs rs' : no_fail (rs ++ rs') = no_fail rs && no_fail rs'.
Proof. apply forallb_app. Qed.

Lemma no_fail_ReadData rs : no_fail (map ReadData rs) = true.
Proof. induction rs; cbn; auto. Qed.

Lemma firstn_full_app {A} (b l : list A) n : length b = n -> firstn n (b ++ l) = b.
Proof. intros <-. rewrite firstn_app, Nat.sub_diag, firstn_O, app_nil_r. apply firstn_all. Qed.

Lemma firstn_firstn_app {A} n (l m : list A) : firstn n (firstn n l ++ m) = firstn n (l ++ m).
Proof. revert l; induction n as [|n IH]; intros [|x l]; cbn; f_equal; auto. Qed.

Lemma run_thread_S k L c :
  run_thread (S k) L c = match thread_step L c with Some (_, c') => run_thread k L c' | None => c end.
Proof. reflexivity. Qed.

(** The eager thread is a bounded queue that drops the newest: from an
    open channel holding at most 30 reports, it reads the pending reports
    into the channel, keeping the first 30 of the whole sequence. *)
Lemma drain_reads L rs b e :
  no_fail rs = true -> (length b <= chan_capacity)%nat ->
  run_thread (S (length rs)) L (mkChan b false e rs) =
    mkChan (firstn chan_capacity (b ++ map (firstn (Z.to_nat L)) (datas rs))) false e [].
Proof.
  revert b; induction rs as [|[x|err] rs IH]; intros b Hn Hb; try discriminate.
  - change (datas []) with (@nil frame). cbn [length run_thread thread_step closed pending map].
    rewrite app_nil_r, firstn_all2 by exact Hb. reflexivity.
  - change (datas (ReadData x :: rs)) with (x :: datas rs). cbn [length].
    rewrite run_thread_S. cbn [thread_step closed pending buffer readErr].
    destruct (Nat.ltb_spec (length b) chan_capacity) as [Hlt|Hge].
    + rewrite IH by (exact Hn || rewrite length_app; cbn; lia). rewrite <- app_assoc. reflexivity.
    + rewrite IH by assumption. rewrite !firstn_full_app by lia. reflexivity.
Qed.

Lemma drain_reads' L c :
  closed c = false -> no_fail (pending c) = true -> (length (buffer c) <= chan_capacity)%nat ->
  drain L c = mkChan (firstn chan_capacity (buffer c ++ map (firstn (Z.to_nat L)) (datas (pending c))))
                false (readErr c) [].
Proof. destruct c as [b cl e p]; cbn; intros -> Hn Hb. exact (drain_reads L p b e Hn Hb). Qed.

(** The side conditions of [drain_reads']. *)
Ltac solve_drain :=
  first [ reflexivity | assumption | apply Nat.le_0_l | apply no_fail_ReadData ].

(** The channel of a file in [handle_ok] is open, drained, and holds the
    view, at most 30 reports. *)
Lemma ReadCh_ok hd :
  handle_ok hd = true ->
  exists e, ReadCh hd = mkChan (handle_view hd) false e [] /\ (length (handle_view hd) <= chan_capacity)%nat.
Proof.
  unfold handle_ok, handle_view, ReadCh. destruct (h_closed hd); [discriminate|]. cbn [negb andb].
  destruct (h_ch hd) as [[b [|] e [|? ?]]|]; cbn [closed pending negb andb buffer]; try discriminate.
  - intros Hb. apply Nat.leb_le in Hb. exists e. auto.
  - intros Hn. rewrite drain_reads' by solve_drain. cbn [buffer readErr chan_init].
    eexists; split; [reflexivity|]. rewrite length_firstn. lia.
Qed.

Lemma written_handle_props hd data :
  handle_ok hd = true ->
  handle_view (written_handle hd data) =
    firstn chan_capacity (handle_view hd ++ map (firstn (Z.to_nat (h_len hd))) (answer (h_node hd) data))%list /\
    handle_ok (written_handle hd data) = true /\
    h_node (written_handle hd data) = h_node hd /\ h_len (written_handle hd data) = h_len hd.
Proof.
  intros Hok. destruct (ReadCh_ok hd Hok) as (e & Ec & Hlen).
  destruct hd as [n L cl q ch wr]; unfold handle_ok, handle_view, ReadCh, written_handle, enqueue in *;
    cbn [h_node h_len h_closed h_queue h_ch h_written] in *.
  destruct cl; [discriminate|]. destruct ch as [c|].
  - destruct c as [b cc ce cp]; cbn [buffer] in Ec, Hlen; injection Ec as -> -> ->.
    cbn [buffer closed readErr pending app].
    rewrite drain_reads' by solve_drain. cbn [buffer closed pending negb andb].
    rewrite datas_ReadData. repeat split. cbn -[firstn chan_capacity].
    apply Nat.leb_le. rewrite length_firstn. lia.
  - cbn [negb andb] in Hok.
    assert (Hq : no_fail (q ++ map ReadData (answer n data)) = true)
      by (rewrite no_fail_app, Hok, no_fail_ReadData; reflexivity).
    rewrite !drain_reads' by solve_drain.
    cbn [buffer pending chan_init app h_ch h_len h_queue h_node]. rewrite datas_app, datas_ReadData, map_app, firstn_firstn_app.
    repeat split. exact Hq.
Qed.

Lemma linux_write_live w h hd data :
  nth_error (handles w) h = Some hd -> h_closed hd = false -> write_error (h_node hd) = None ->
  linux_write h data w = (None, set_handle w h (written_handle hd data)).
Proof. intros E Hc He. unfold linux_write. rewrite E, Hc, He. reflexivity. Qed.

Lemma linux_read_pop w h hd x xs :
  nth_error (handles w) h = Some hd -> handle_ok hd = true -> handle_view hd = x :: xs ->
  exists hd', linux_read h w = (x, set_handle w h hd') /\
    handle_view hd' = xs /\ handle_ok hd' = true /\ h_node hd' = h_node hd /\ h_len hd' = h_len hd.
Proof.
  intros E Hok Hv. destruct (ReadCh_ok hd Hok) as (e & Ec & Hlen).
  unfold linux_read. rewrite E. cbv zeta. rewrite Ec, Hv. cbn [recv buffer closed readErr pending].
  eexists; split; [reflexivity|]. unfold handle_view, handle_ok, ReadCh; cbn.
  rewrite Hv in Hlen. cbn in Hlen. unfold handle_ok in Hok. destruct (h_closed hd); [discriminate|].
  repeat split. cbn [negb andb]. apply Nat.leb_le. exact (Nat.le_trans _ _ _ (Nat.le_succ_diag_r _) Hlen).
Qed.

Lemma linux_read_empty w h hd :
  nth_error (handles w) h = Some hd -> handle_ok hd = true -> handle_view hd = [] ->
  exists hd', linux_read h w = ([], mkLWorld (nodes w) (upd (handles w) h hd') true).
Proof.
  intros E Hok Hv. destruct (ReadCh_ok hd Hok) as (e & Ec & _).
  unfold linux_read. rewrite E. cbv zeta. rewrite Ec, Hv. cbn. eexists. reflexivity.
Qed.

(** One request on the Linux backend: the write queues the device's
    answer behind the reports not yet read, or drops it when 30 are
    buffered, and the receive returns the oldest of them. *)
Lemma sentRequest_linux (d : @Device nat) r w h hd x xs :
  hidDeviceImpl (hidDevice_ d) = Some h -> nth_error (handles w) h = Some hd -> handle_ok hd = true ->
  h_closed hd = false -> write_error (h_node hd) = None ->
  firstn chan_capacity (handle_view hd ++ map (firstn (Z.to_nat (h_len hd))) (answer (h_node hd) r))%list = x :: xs ->
  exists hd', sentRequest d r w = Ret ((x, None), set_handle w h hd') /\
    handle_view hd' = xs /\ handle_ok hd' = true /\ h_node hd' = h_node hd /\ h_len hd' = h_len hd.
Proof.
  intros Hi E Hl Hc He Hv. destruct (written_handle_props hd r Hl) as (Hv1 & Hl1 & Hn1 & Hlen1).
  assert (E1 : nth_error (handles (set_handle w h (written_handle hd r))) h = Some (written_handle hd r))
    by exact (nth_error_upd_eq _ _ _ _ E).
  rewrite <- Hv1 in Hv.
  destruct (linux_read_pop _ _ _ x xs E1 Hl1 Hv) as (hd2 & Er & Hv2 & Hl2 & Hn2 & Hlen2).
  exists hd2. unfold sentRequest. rewrite Hi. cbn [hid_write hid_read Linux_Hid].
  rewrite (linux_write_live w h hd r E Hc He), Er, set_handle_twice.
  split; [reflexivity|]. repeat split; congruence.
Qed.

(** A queue of capacity 30 that receives one element before each of
    three pops gives the first three elements of the whole sequence. *)
Lemma fifo3 {A} (v : list A) y0 y1 y2 x0 xs0 x1 xs1 x2 xs2 :
  firstn chan_capacity (v ++ [y0])%list = x0 :: xs0 -> firstn chan_capacity (xs0 ++ [y1])%list = x1 :: xs1 ->
  firstn chan_capacity (xs1 ++ [y2])%list = x2 :: xs2 ->
  [x0; x1; x2] = firstn 3 (v ++ [y0; y1; y2])%list.
Proof.
  unfold chan_capacity.
  destruct v as [|v0 [|v1 [|v2 v]]]; cbn; intros E0 E1 E2; injection E0 as <- <-; cbn in E1;
    injection E1 as <- <-; cbn in E2; injection E2 as <- <-; reflexivity.
Qed.

Lemma firstn_app_one_cons {A} (l : list A) y : exists x xs, firstn chan_capacity (l ++ [y])%list = x :: xs.
Proof. destruct l as [|x l]; eexists _, _; reflexivity. Qed.

Lemma handle_ok_open hd : handle_ok hd = true -> h_closed hd = false.
Proof. unfold handle_ok. destruct (h_closed hd); [discriminate | reflexivity]. Qed.

(** ** Claims *)

(** C14. An open file of the Linux backend, with its read thread reading
    every report as the device sends it, refines a queue of capacity 30
    that drops the newest report when full: [Write] appends the device's
    answer, cut to the input report length, and keeps the first 30; a
    receive on [ReadCh] returns the head of a non-empty queue and leaves
    its tail; and a receive on the empty queue blocks for ever. *)
Theorem linux_refines_bounded_fifo w h hd :
  nth_error (handles w) h = Some hd -> handle_ok hd = true ->
  (write_error (h_node hd) = None -> forall data,
     exists hd', hid_write h data w = (None, set_handle w h hd') /\ handle_ok hd' = true /\
    handle_view hd' =
         firstn chan_capacity (handle_view hd ++ map (firstn (Z.to_nat (h_len hd))) (answer (h_node hd) data))%list) /\
    (forall x xs, handle_view hd = x :: xs ->
     exists hd', hid_read h w = (x, set_handle w h hd') /\ handle_ok hd' = true /\ handle_view hd' = xs) /\
    (handle_view hd = [] -> exists hd', hid_read h w = ([], mkLWorld (nodes w) (upd (handles w) h hd') true)).
Proof.
  intros E Hok. split; [|split].
  - intros He data. destruct (written_handle_props hd data Hok) as (Hv & Hok' & _ & _).
    exists (written_handle hd data).
    split; [exact (linux_write_live w h hd data E (handle_ok_open hd Hok) He)|]. split; assumption.
  - intros x xs Hv. destruct (linux_read_pop w h hd x xs E Hok Hv) as (hd' & Er & Hv' & Hok' & _ & _).
    exists hd'. split; [exact Er | split; assumption].
  - exact (linux_read_empty w h hd E Hok).
Qed.

(** C13. On the Linux backend, when the device answers each request with
    one report, [updateState] on an IntelliDose stores as D0, D1 and D2
    the three oldest reports of the file's queue followed by the answers:
    with no report left unread they are the answers to D0, D1 and D2, and
    each unread report shifts every answer into the slot of the next
    request. *)
Theorem updateState_linux_fifo (d : @Device nat) w h hd a :
  DeviceType d = IntelliDoseDeviceType -> hidDeviceImpl (hidDevice_ d) = Some h ->
  nth_error (handles w) h = Some hd -> handle_ok hd = true -> write_error (h_node hd) = None ->
  (forall r, answer (h_node hd) r = [a r]) ->
  exists d' w', updateState d w = Ret ((d', None), w') /\
    [d0State (states d'); d1State (states d'); d2State (states d')] =
    firstn 3 (handle_view hd ++ map (firstn (Z.to_nat (h_len hd))) [a Crc.d0Request; a Crc.d1Request; a Crc.d2Request])%list.
Proof.
  intros Ht Hi E Hl He Ha. set (t := firstn (Z.to_nat (h_len hd))).
  destruct (firstn_app_one_cons (handle_view hd) (t (a Crc.d0Request))) as (x0 & xs0 & E0).
  destruct (sentRequest_linux d Crc.d0Request w h hd x0 xs0 Hi E Hl (handle_ok_open hd Hl) He)
    as (hd1 & S0 & V1 & L1 & N1 & Len1); [rewrite Ha; exact E0|].
  set (d1 := set_states d (store (states d) 0 x0)).
  destruct (firstn_app_one_cons xs0 (t (a Crc.d1Request))) as (x1 & xs1 & E1).
  destruct (sentRequest_linux d1 Crc.d1Request (set_handle w h hd1) h hd1 x1 xs1 Hi (nth_error_upd_eq _ _ _ _ E)
              L1 (handle_ok_open hd1 L1) ltac:(rewrite N1; exact He))
    as (hd2 & S1 & V2 & L2 & N2 & Len2); [rewrite N1, Ha, Len1, V1; exact E1|].
  set (d2 := set_states d1 (store (states d1) 1 x1)).
  destruct (firstn_app_one_cons xs1 (t (a Crc.d2Request))) as (x2 & xs2 & E2).
  destruct (sentRequest_linux d2 Crc.d2Request (set_handle (set_handle w h hd1) h hd2) h hd2 x2 xs2 Hi
              (nth_error_upd_eq _ _ _ _ (nth_error_upd_eq _ _ _ _ E))
              L2 (handle_ok_open hd2 L2) ltac:(rewrite N2, N1; exact He))
    as (hd3 & S2 & _ & _ & _ & _); [rewrite N2, N1, Ha, Len2, Len1, V2; exact E2|].
  eexists _, _. split.
  - unfold updateState, request_state, bind, ret. rewrite S0. fold d1. rewrite S1. fold d2. rewrite S2.
    cbn [DeviceType set_states]. rewrite Ht. reflexivity.
  - cbn. exact (fifo3 _ _ _ _ _ _ _ _ _ _ E0 E1 E2).
Qed.

(** With one report left unread, each request's reply lands in the next
    request's slot: D0 holds the stale report, D1 the answer to D0 and D2
    the answer to D1. *)
Example updateState_linux_stale_shift :
  match updateState dev_linux w_stale with
  | Ret ((d', err), _) =>
      err = None /\ d0State (states d') = stale_report /\
      d1State (states d') = echo Crc.d0Request /\ d2State (states d') = echo Crc.d1Request
  | Panic _ => False
  end.
Proof. vm_compute. repeat split; reflexivity. Qed.

(** With 30 reports unread, the answer to a request is dropped: the
    channel still holds the 30 old reports after the write. *)
Example linux_write_drops_when_full :
  let hd := mkHandle echo_node 64 false [] (Some (mkChan (repeat stale_report 30) false None [])) [] in
  match linux_write 0 Crc.d0Request (mkLWorld [echo_node] [hd] false) with
  | (None, w') => option_map handle_view (nth_error (handles w') 0) = Some (repeat stale_report 30)
  | _ => False
  end.
Proof. vm_compute. reflexivity. Qed.

(** ** Witnesses *)

Lemma linux_refines_bounded_fifo_witness :
  (write_error (h_node hd_stale) = None -> forall data,
     exists hd', hid_write 0%nat data w_stale = (None, set_handle w_stale 0 hd') /\ handle_ok hd' = true /\
       handle_view hd' =
         firstn chan_capacity (handle_view hd_stale ++ map (firstn (Z.to_nat (h_len hd_stale))) (answer (h_node hd_stale) data))%list) /\
  (forall x xs, handle_view hd_stale = x :: xs ->
     exists hd', hid_read 0%nat w_stale = (x, set_handle w_stale 0 hd') /\ handle_ok hd' = true /\ handle_view hd' = xs) /\
  (handle_view hd_stale = [] -> exists hd', hid_read 0%nat w_stale = ([], mkLWorld (nodes w_stale) (upd (handles w_stale) 0 hd') true)).
Proof. apply linux_refines_bounded_fifo; reflexivity. Defined.

Lemma updateState_linux_fifo_witness :
  exists d' w', updateState dev_linux w_stale = Ret ((d', None), w') /\
    [d0State (states d'); d1State (states d'); d2State (states d')] =
    firstn 3 (handle_view hd_stale ++ map (firstn (Z.to_nat (h_len hd_stale))) [echo Crc.d0Request; echo Crc.d1Request; echo Crc.d2Request])%list.
Proof. apply (updateState_linux_fifo dev_linux w_stale 0 hd_stale echo); try reflexivity. Defined.

End LinuxHid.
