(* ===== verification/Manager.v ===== *)
(** * Device manager

    [src/device/manager.go] and [isValidDevice] of [src/device/device.go]:
    the registry of sessions ([Manager.devices]), its operations
    [addDevices], [purgeDevices], [FindDevice], [HasDevice],
    [OnDeviceUpdated], one iteration of each of the two endless loops,
    [Discover] and [Interrogate], and the two GET handlers [AttachAPI]
    registers on gin, each a function from the manager to a status and a
    body, routed by [serve] (404 for a path with no handler).

    [Go's range over mgr.devices] in [purgeDevices] reads the backing array
    of the slice while the body shifts its elements down with [append];
    [purge_loop] models that array and the slice length explicitly.  The
    early return of [purgeDevices] makes that loop unreachable in the
    code; the theorems show both the no-op and what the loop does when it
    runs.

    Properties of [Manager]:
    - the registry invariant [manager_ok]: serials are unique, every
      registered session has a callback and a consistent open flag, and,
      as [NewDevice] never stores the product name, an empty [Name]; it
      holds in every state reached from [NewManager] by iterations of
      [Discover] and [Interrogate] and by [OnDeviceUpdated];
    - [addDevices] refines the registry of the specification (section
      4.4) on enumerations whose product names are the four recognised
      ones, and [isValidDevice] accepts exactly the substrings of the
      colon-joined names, which [addDevice] registers as ["Unknown"];
    - [purgeDevices] never removes anything, and the loop it guards would
      not implement the specification either;
    - a device once enumerated stays registered through any later
      iterations of [Discover];
    - in every reachable state the two endpoints answer the number of
      registered serials and, unless the registry is empty, the devices. *)

From Stdlib Require Import Strings.String Relations Permutation.
From S2P Require Import Prelude Bits IDose IClimate GoEffects HidLinux Device.

Open Scope string_scope.
Open Scope Z_scope.
Open Scope go_scope.

Module Manager.
Import Session.

(** ** Strings *)

(** [strings.Join(elems, sep)]. *)
Fixpoint Join (elems : list string) (sep : string) : string :=
  match elems with
  | [] => ""
  | [e] => e
  | e :: rest => e ++ sep ++ Join rest sep
  end.

(** [strings.Contains(s, substr)]: [substr] occurs in [s]. *)
Fixpoint Contains (s substr : string) : bool :=
  String.prefix substr s ||
  match s with
  | EmptyString => false
  | String _ s' => Contains s' substr
  end.

(** [var validDevices] (device.go, lines 32-37). *)
Definition validDevices : list string :=
  [IntelliDoseDeviceName; IntelliClimateDeviceName; IntelliDoseDeviceNameLinux; IntelliClimateDeviceNameLinux].

(** [func isValidDevice(name string) bool] (device.go, lines 39-41). *)
Definition isValidDevice (name : string) : bool :=
  Contains (":" ++ Join validDevices ":" ++ ":") name.

Section Manager.

Context {W H : Type} `{Hid W H}.

#[local] Abbreviation M := (@M W).
#[local] Abbreviation Device := (@Device H).

(** [type Manager struct] (manager.go, lines 27-33), without its mutex;
    the intervals in nanoseconds, as [time.Duration]. *)
Record Manager := mkManager {
  devices : list Device;
  enumerateInterval : Z;
  updateInterval : Z;
  deviceUpdatedFunc : Callback
}.

Definition set_devices (mgr : Manager) (ds : list Device) : Manager :=
  mkManager ds (enumerateInterval mgr) (updateInterval mgr) (deviceUpdatedFunc mgr).

(** The callback [func(d Device) {}] that [NewManager] installs. *)
Definition noCallback : Callback := 0%nat.

(** [func NewManager(enumerateInterval, updateInterval int) *Manager]
    (manager.go, lines 14-24): [time.Duration(x) * time.Second] is a
    product of [int64]s in nanoseconds, which wraps. *)
Definition NewManager (enumerateInterval updateInterval : Z) : Manager :=
  mkManager [] (int64 (enumerateInterval * 1000000000)) (int64 (updateInterval * 1000000000)) noCallback.

(** [func (mgr *Manager) OnDeviceUpdated(callback func(Device))] (lines 36-38). *)
Definition OnDeviceUpdated (mgr : Manager) (callback : Callback) : Manager :=
  mkManager (devices mgr) (enumerateInterval mgr) (updateInterval mgr) callback.

(** [func (mgr *Manager) FindDevice(sn string) ( *Device, bool)] (lines
    173-185): the first device with that serial. *)
Definition FindDevice (mgr : Manager) (sn : string) : option Device :=
  if Nat.eqb (length (devices mgr)) 0 then None
  else find (fun d => String.eqb (SerialNumber d) sn) (devices mgr).

(** [func (mgr *Manager) HasDevice(serialNumber string) bool] (lines 188-191). *)
Definition HasDevice (mgr : Manager) (serialNumber : string) : bool :=
  match FindDevice mgr serialNumber with Some _ => true | None => false end.

(** The [switch name] of [addDevices] (lines 131-137). *)
Definition deviceTypeOf (name : string) : string :=
  if String.eqb name IntelliDoseDeviceName || String.eqb name IntelliDoseDeviceNameLinux
  then IntelliDoseDeviceType
  else if String.eqb name IntelliClimateDeviceName || String.eqb name IntelliClimateDeviceNameLinux
  then IntelliClimateDeviceType
  else "Unknown".

(** The body of the loop of [addDevices] for one [info] (lines 113-144). *)
Definition addDevice (mgr : Manager) (info : hid.DeviceInfo) : Manager :=
  let name := hid.Product info in
  let sn := hid.SerialNumber info in
  if negb (isValidDevice name) then mgr
  else match FindDevice mgr (hid.SerialNumber info) with
  | Some _ => mgr
  | None =>
      let newdev := OnUpdate (NewDevice sn (deviceTypeOf name) name info) (deviceUpdatedFunc mgr) in
      set_devices mgr (devices mgr ++ [newdev])
  end.

(** [func (mgr *Manager) addDevices(devicesInfo []*hid.DeviceInfo)] (lines 108-146). *)
Definition addDevices (mgr : Manager) (devicesInfo : list hid.DeviceInfo) : Manager :=
  fold_left addDevice devicesInfo mgr.

(** The loop of [purgeDevices] (lines 156-168).  [arr] is the backing
    array, which [range] reads at each index [i] of the slice it started
    with; [len] is the current length of [mgr.devices].  Removing index
    [i] is [append(mgr.devices[:i], mgr.devices[i+1:]...)], which shifts
    [arr[i+1:len]] down in place and panics when [i+1 > len]. *)
Fixpoint purge_loop (devicesInfo : list hid.DeviceInfo) (k i : nat) (arr : list Device) (len : nat)
    : M (list Device * nat) :=
  match k with
  | O => ret (arr, len)
  | S k' =>
      let d := nth i arr (NewDevice "" "" "" (hid.mkDeviceInfo "" 0 0 0 "" "" "" 0 0 0 0)) in
      let found := existsb (fun info => String.eqb (SerialNumber d) (hid.SerialNumber info)) devicesInfo in
      if found then purge_loop devicesInfo k' (S i) arr len
      else
        do _ <- close d;
        if Nat.ltb len (S i) then panic "slice bounds out of range"
        else purge_loop devicesInfo k' (S i)
               (firstn i arr ++ firstn (len - S i) (skipn (S i) arr) ++ skipn (len - 1) arr) (len - 1)
  end.

(** [func (mgr *Manager) purgeDevices(devicesInfo []*hid.DeviceInfo)]
    (lines 148-169): returns at once when the registry is not empty. *)
Definition purgeDevices (mgr : Manager) (devicesInfo : list hid.DeviceInfo) : M Manager :=
  if Nat.ltb 0 (length (devices mgr)) then ret mgr
  else
    do '(arr, len) <- purge_loop devicesInfo (length (devices mgr)) 0 (devices mgr) (length (devices mgr));
    ret (set_devices mgr (firstn len arr)).

(** One iteration of [func (mgr *Manager) Discover()] (lines 87-106),
    given what [hid.Devices()] returned. *)
Definition discoverOnce (mgr : Manager) (enumerated : list hid.DeviceInfo + error) : M Manager :=
  match enumerated with
  | inr _ => ret mgr
  | inl devicesInfo => purgeDevices (addDevices mgr devicesInfo) devicesInfo
  end.

(** One iteration of [Discover] on Linux, where [hid.Devices()] is the
    hidraw enumeration of src/hid/hid_linux.go: [sys] gives the results of
    the system calls on each device node, [names] the directory listing of
    [/sys/class/hidraw].  A panic of the enumeration ends the goroutine. *)
Definition discoverOnceLinux (mgr : Manager) (sys : string -> HidLinux.sys_results)
    (names : list string + HidLinux.oserror) : M Manager :=
  match HidLinux.Devices sys names with
  | Panic r => panic r
  | Ret (inl devicesInfo) => discoverOnce mgr (inl devicesInfo)
  | Ret (inr err) => discoverOnce mgr (inr (HidLinux.Error err))
  end.

(** The first iterations of [Discover], one per enumeration result. *)
Definition Discover (mgr : Manager) (enumerations : list (list hid.DeviceInfo + error)) : M Manager :=
  foldM discoverOnce mgr enumerations.

(** The body of the loop of [Interrogate] for one device (lines 70-77):
    open a closed session, skip it when that fails, and update its shadow
    otherwise.  The update runs in its own goroutine in Go; here the
    updates of one iteration run one after the other. *)
Definition interrogateDevice (timestamp : Z) (d : Device) : M (Device * option (Callback * Device)) :=
  if negb (IsOpen d) then
    do '(d, err) <- open d;
    match err with
    | Some _ => ret (d, None)
    | None => updateShadow d timestamp
    end
  else updateShadow d timestamp.

(** One iteration of [func (mgr *Manager) Interrogate()] (lines 67-82):
    the devices after the iteration and the notifications fired. *)
Fixpoint interrogate_devices (timestamp : Z) (ds : list Device)
    : M (list Device * list (Callback * Device)) :=
  match ds with
  | [] => ret ([], [])
  | d :: rest =>
      do '(d', n) <- interrogateDevice timestamp d;
      do '(rest', ns) <- interrogate_devices timestamp rest;
      ret (d' :: rest', match n with Some x => x :: ns | None => ns end)
  end.

Definition interrogateOnce (mgr : Manager) (timestamp : Z) : M (Manager * list (Callback * Device)) :=
  do '(ds, ns) <- interrogate_devices timestamp (devices mgr);
  ret (set_devices mgr ds, ns).

(** What a handler of [AttachAPI] answers: a status and a JSON body, the
    count object, the registry, or none. *)
Inductive api_body := CountBody (count : Z) | DevicesBody (ds : list Device) | NoBody.

(** The handler of [GET /devices/count] (lines 44-49): [len(mgr.devices)],
    read without the registry's lock. *)
Definition getDevicesCount (mgr : Manager) : Z * api_body :=
  (200, CountBody (Z.of_nat (length (devices mgr)))).

(** The handler of [GET /devices] (lines 51-61), under the read lock. *)
Definition getDevices (mgr : Manager) : Z * api_body :=
  if Nat.eqb (length (devices mgr)) 0 then (404, NoBody) else (200, DevicesBody (devices mgr)).

(** [func (mgr *Manager) AttachAPI(r *gin.Engine)] (lines 40-62): the
    routes it registers. *)
Definition AttachAPI : list (string * (Manager -> Z * api_body)) :=
  [("/devices/count", getDevicesCount); ("/devices", getDevices)].

(** A [GET] on the engine: the registered route's handler, or gin's 404. *)
Definition serve (routes : list (string * (Manager -> Z * api_body))) (path : string) (mgr : Manager) : Z * api_body :=
  match find (fun r => String.eqb (fst r) path) routes with
  | Some (_, handler) => handler mgr
  | None => (404, NoBody)
  end.

End Manager.
End Manager.

(** ** The registry: invariant, refinement, purge *)

Import Session Manager.

(** ** The registry of the specification

    Section 4.4 of the specification describes the registry by the serials
    it holds: [add_devices] appends the serial of each enumerated device
    whose product name is one of the four recognised strings and that is
    not registered yet; [purge_devices] keeps the devices still
    enumerated. *)

Definition spec_add (serials : list string) (info : hid.DeviceInfo) : list string :=
  if existsb (String.eqb (hid.Product info)) validDevices &&
     negb (existsb (String.eqb (hid.SerialNumber info)) serials)
  then serials ++ [hid.SerialNumber info] else serials.

Definition spec_addDevices (serials : list string) (infos : list hid.DeviceInfo) : list string :=
  fold_left spec_add infos serials.

Definition spec_purgeDevices (serials : list string) (infos : list hid.DeviceInfo) : list string :=
  filter (fun sn => existsb (fun info => String.eqb sn (hid.SerialNumber info)) infos) serials.

(** ** Concrete registries, for the witnesses *)

Definition info_named (product serial : string) : hid.DeviceInfo :=
  hid.mkDeviceInfo ("/dev/" ++ serial) 0 0 0 "Autogrow" product serial 0 0 64 64.

(** An open session with a callback, as [Interrogate] leaves it. *)
Definition open_dev (sn : string) : @Device string :=
  OnUpdate (set_IsOpen (set_hidDeviceImpl (NewDevice sn IntelliDoseDeviceType IntelliDoseDeviceName
                                             (info_named IntelliDoseDeviceName sn)) ("/dev/" ++ sn)) true) 1%nat.

Definition mgr0 : @Manager.Manager string := NewManager 10 15.

Definition mgr1 : @Manager.Manager string := set_devices mgr0 [open_dev "SN0001"].

Section Props.

Context {W H : Type} `{Hid W H}.

#[local] Abbreviation Device := (@Device H).
#[local] Abbreviation Manager := (@Manager.Manager H).

Definition serials (mgr : Manager) : list string := map SerialNumber (devices mgr).

(** What every registered session satisfies. *)
Definition device_ok (d : Device) : Prop :=
  Name d = "" /\ onUpdateFunc d <> None /\ session_ok d = true.

Definition manager_ok (mgr : Manager) : Prop :=
  NoDup (serials mgr) /\ Forall device_ok (devices mgr).

(** One step of the manager's loops, or a change of its callback. *)
Inductive manager_step : Manager * W -> Manager * W -> Prop :=
| mstep_discover mgr e w mgr' w' :
    discoverOnce mgr e w = Ret (mgr', w') -> manager_step (mgr, w) (mgr', w')
| mstep_interrogate mgr ts w mgr' ns w' :
    interrogateOnce mgr ts w = Ret ((mgr', ns), w') -> manager_step (mgr, w) (mgr', w')
| mstep_callback mgr cb w :
    manager_step (mgr, w) (OnDeviceUpdated mgr cb, w).

Definition manager_reachable (s : Manager * W) : Prop :=
  exists e u w0, clos_refl_trans _ manager_step (NewManager e u, w0) s.

(** ** The registry operations *)

(** What [Discover] computes: [addDevices] of each successful enumeration. *)
Definition discover_pure (mgr : Manager) (enumerations : list (list hid.DeviceInfo + error)) : Manager :=
  fold_left (fun m e => match e with inl infos => addDevices m infos | inr _ => m end) enumerations mgr.

Lemma find_serial_None (ds : list Device) sn :
  find (fun d => String.eqb (SerialNumber d) sn) ds = None <-> existsb (String.eqb sn) (map SerialNumber ds) = false.
Proof.
  induction ds as [|d ds IH]; cbn; [tauto|].
  rewrite String.eqb_sym. destruct (String.eqb sn (SerialNumber d)); cbn; [split; discriminate | exact IH].
Qed.

Lemma FindDevice_None (mgr : Manager) sn :
  FindDevice mgr sn = None <-> existsb (String.eqb sn) (serials mgr) = false.
Proof.
  unfold FindDevice, serials. destruct (devices mgr) as [|d ds] eqn:E; cbn [length Nat.eqb].
  - split; reflexivity.
  - rewrite <- E. apply find_serial_None.
Qed.

Lemma existsb_eqb_In sn l : existsb (String.eqb sn) l = true <-> In sn l.
Proof.
  rewrite existsb_exists. split.
  - intros (x & Hx & E). apply String.eqb_eq in E. subst. exact Hx.
  - intros Hx. exists sn. split; [exact Hx | apply String.eqb_refl].
Qed.

(** [addDevice] appends at most one session, the new one. *)
Lemma addDevice_devices (mgr : Manager) info :
  devices (addDevice mgr info) = devices mgr \/
  (isValidDevice (hid.Product info) = true /\ FindDevice mgr (hid.SerialNumber info) = None /\
   devices (addDevice mgr info) =
     (devices mgr ++ [OnUpdate (NewDevice (hid.SerialNumber info) (deviceTypeOf (hid.Product info))
                                (hid.Product info) info) (deviceUpdatedFunc mgr)])%list).
Proof.
  unfold addDevice. destruct (isValidDevice (hid.Product info)) eqn:V; cbn [negb]; [|left; reflexivity].
  destruct (FindDevice mgr (hid.SerialNumber info)) eqn:F; [left; reflexivity | right; auto].
Qed.

Lemma addDevice_ok (mgr : Manager) info : manager_ok mgr -> manager_ok (addDevice mgr info).
Proof.
  intros [Hn Hf]. destruct (addDevice_devices mgr info) as [E | (_ & F & E)];
    unfold manager_ok, serials in *; rewrite E; [split; assumption|].
  apply FindDevice_None in F. unfold serials in F. rewrite map_app. split.
  - apply (Permutation_NoDup (Permutation_app_comm _ _)). cbn.
    constructor; [|exact Hn]. intros Hin. apply existsb_eqb_In in Hin. congruence.
  - apply Forall_app. split; [exact Hf|]. repeat constructor. discriminate.
Qed.

Lemma addDevices_ok (mgr : Manager) infos : manager_ok mgr -> manager_ok (addDevices mgr infos).
Proof.
  unfold addDevices. revert mgr. induction infos as [|info infos IH]; intros mgr Hok; cbn; [exact Hok|].
  apply IH, addDevice_ok, Hok.
Qed.

(** Registered serials stay registered, and a recognised new one is added. *)
Lemma addDevices_serials_prefix (mgr : Manager) infos :
  exists extra, serials (addDevices mgr infos) = (serials mgr ++ extra)%list.
Proof.
  unfold addDevices. revert mgr. induction infos as [|info infos IH]; intros mgr; cbn.
  - exists []. symmetry. apply app_nil_r.
  - destruct (IH (addDevice mgr info)) as [extra E]. rewrite E.
    destruct (addDevice_devices mgr info) as [E1 | (_ & _ & E1)]; unfold serials; rewrite E1.
    + exists extra. reflexivity.
    + rewrite map_app, <- app_assoc. eexists. reflexivity.
Qed.

Lemma addDevice_registers (mgr : Manager) info :
  isValidDevice (hid.Product info) = true -> In (hid.SerialNumber info) (serials (addDevice mgr info)).
Proof.
  intros V. unfold addDevice. rewrite V. cbn [negb].
  destruct (FindDevice mgr (hid.SerialNumber info)) eqn:F.
  - apply existsb_eqb_In. destruct (existsb _ _) eqn:X; [reflexivity|].
    apply FindDevice_None in X. congruence.
  - unfold serials. cbn [devices set_devices]. rewrite map_app. apply in_or_app. right. left. reflexivity.
Qed.

Lemma addDevices_registers (mgr : Manager) infos info :
  In info infos -> isValidDevice (hid.Product info) = true -> In (hid.SerialNumber info) (serials (addDevices mgr infos)).
Proof.
  unfold addDevices. revert mgr. induction infos as [|i infos IH]; intros mgr Hin V; [destruct Hin|].
  cbn. destruct Hin as [<- | Hin]; [|exact (IH _ Hin V)].
  destruct (addDevices_serials_prefix (addDevice mgr i) infos) as [extra E]. unfold addDevices in E.
  rewrite E. apply in_or_app. left. apply addDevice_registers, V.
Qed.

(** ** Purge and discovery *)

Lemma purgeDevices_noop (mgr : Manager) infos w : purgeDevices mgr infos w = Ret (mgr, w).
Proof. unfold purgeDevices. destruct mgr as [[|d ds] e u cb]; reflexivity. Qed.

Lemma discoverOnce_pure (mgr : Manager) e w :
  discoverOnce mgr e w = Ret (match e with inl infos => addDevices mgr infos | inr _ => mgr end, w).
Proof. destruct e as [infos|err]; [apply purgeDevices_noop | reflexivity]. Qed.

Lemma Discover_pure (mgr : Manager) enumerations w :
  Discover mgr enumerations w = Ret (discover_pure mgr enumerations, w).
Proof.
  unfold Discover, discover_pure. revert mgr. induction enumerations as [|e es IH]; intros mgr; [reflexivity|].
  cbn [foldM fold_left]. unfold bind. rewrite discoverOnce_pure. apply IH.
Qed.

Lemma discover_pure_prefix (mgr : Manager) enumerations :
  exists extra, serials (discover_pure mgr enumerations) = (serials mgr ++ extra)%list.
Proof.
  unfold discover_pure. revert mgr. induction enumerations as [|[infos|err] es IH]; intros mgr; cbn.
  - exists []. symmetry. apply app_nil_r.
  - destruct (addDevices_serials_prefix mgr infos) as [x1 E1]. destruct (IH (addDevices mgr infos)) as [x2 E2].
    rewrite E2, E1, <- app_assoc. eexists. reflexivity.
  - apply IH.
Qed.

(** ** Interrogation *)

Lemma interrogateDevice_ok (d : Device) ts w d' n w' :
  device_ok d -> interrogateDevice ts d w = Ret ((d', n), w') ->
  device_ok d' /\ same_identity d d'.
Proof.
  intros (Hn & Hc & Hs) E. unfold interrogateDevice in E. go_run E;
    repeat match goal with
    | Hx : open ?d0 ?w0 = Ret ((?d1, ?e1), ?w1) |- _ =>
        pose proof (open_identity _ _ _ _ _ Hx);
        pose proof (session_step_ok (d0, w0) (d1, w1) ltac:(eapply step_open; exact Hx));
        clear Hx
    | Hx : updateShadow ?d0 ?t ?w0 = Ret ((?d1, ?n1), ?w1) |- _ =>
        pose proof (updateShadow_identity _ _ _ _ _ _ Hx);
        pose proof (session_step_ok (d0, w0) (d1, w1) ltac:(eapply step_updateShadow; exact Hx));
        clear Hx
    end;
    unfold device_ok, same_identity in *; cbn [fst] in *; intuition congruence.
Qed.

Lemma interrogate_devices_ok (ds : list Device) ts w ds' ns w' :
  Forall device_ok ds -> interrogate_devices ts ds w = Ret ((ds', ns), w') ->
  Forall device_ok ds' /\ map SerialNumber ds' = map SerialNumber ds.
Proof.
  revert w ds' ns. induction ds as [|d ds IH]; intros w ds' ns Hf E; cbn in E.
  - injection E as <- <- <-. auto.
  - inversion Hf as [|? ? Hd Hds]; subst. unfold bind in E.
    destruct (interrogateDevice ts d w) as [[[d1 n1] w1]|r] eqn:E1; [|discriminate].
    destruct (interrogate_devices ts ds w1) as [[[ds1 ns1] w2]|r] eqn:E2; [|discriminate].
    cbn in E. injection E as <- <- <-.
    destruct (interrogateDevice_ok _ _ _ _ _ _ Hd E1) as [Hd1 (_ & Hsn & _)].
    destruct (IH _ _ _ Hds E2) as [Hf1 Hm]. cbn. split; [constructor; assumption | congruence].
Qed.

(** ** The invariant *)

Lemma manager_step_ok s s' : manager_step s s' -> manager_ok (fst s) -> manager_ok (fst s').
Proof.
  intros Hs; destruct Hs as [mgr e w mgr' w' E|mgr ts w mgr' ns w' E|mgr cb w]; cbn [fst].
  - rewrite discoverOnce_pure in E. injection E as <- <-. destruct e; [apply addDevices_ok | exact id].
  - unfold interrogateOnce, bind in E.
    destruct (interrogate_devices ts (devices mgr) w) as [[[ds ns1] w1]|r] eqn:E1; [|discriminate].
    cbn in E. injection E as <- <- <-. intros [Hn Hf].
    destruct (interrogate_devices_ok _ _ _ _ _ _ Hf E1) as [Hf' Hm].
    split; [unfold serials; cbn; rewrite Hm; exact Hn | exact Hf'].
  - intros Hok. exact Hok.
Qed.

Lemma manager_steps_ok s s' :
  clos_refl_trans _ manager_step s s' -> manager_ok (fst s) -> manager_ok (fst s').
Proof. induction 1; eauto using manager_step_ok. Qed.

Lemma HasDevice_serials (mgr : Manager) sn : HasDevice mgr sn = existsb (String.eqb sn) (serials mgr).
Proof.
  unfold HasDevice. destruct (FindDevice mgr sn) eqn:F.
  - destruct (existsb _ _) eqn:X; [reflexivity|]. apply FindDevice_None in X. congruence.
  - symmetry. apply FindDevice_None, F.
Qed.

(** ** Claims *)

(** C5. In every state reached from [NewManager] by
    iterations of [Discover] and [Interrogate] and by [OnDeviceUpdated],
    the registry holds each serial once, and every registered session has
    an empty [Name], a callback installed, and a handle whenever it is
    open. *)
Theorem manager_reachable_ok (s : Manager * W) : manager_reachable s -> manager_ok (fst s).
Proof.
  intros (e & u & w0 & Hr). apply (manager_steps_ok _ _ Hr). split; constructor.
Qed.

(** C7. On enumerations whose product names
    [isValidDevice] accepts exactly when they are one of the four
    recognised names, [addDevices] registers the serials the
    specification's [add_devices] registers, in the same order. *)
Theorem addDevices_refines_spec (mgr : Manager) infos :
  (forall info, In info infos ->
     isValidDevice (hid.Product info) = existsb (String.eqb (hid.Product info)) validDevices) ->
  serials (addDevices mgr infos) = spec_addDevices (serials mgr) infos.
Proof.
  unfold addDevices, spec_addDevices. revert mgr.
  induction infos as [|info infos IH]; intros mgr Hv; [reflexivity|]. cbn [fold_left].
  rewrite IH by (intros i Hi; apply Hv; right; exact Hi). f_equal.
  unfold addDevice, spec_add. rewrite <- (Hv info (or_introl eq_refl)).
  destruct (isValidDevice (hid.Product info)); [cbn [negb andb] | reflexivity].
  destruct (FindDevice mgr (hid.SerialNumber info)) eqn:F.
  - destruct (existsb _ (serials mgr)) eqn:X; [reflexivity|]. apply FindDevice_None in X. congruence.
  - apply FindDevice_None in F. rewrite F. unfold serials. cbn. apply map_app.
Qed.

(** C9. A device whose product name [isValidDevice]
    accepts, once it appears in an enumeration, is registered at the end
    of any run of [Discover] that includes that enumeration, which never
    panics. *)
Theorem Discover_registers (mgr : Manager) enumerations infos info w :
  In (inl infos) enumerations -> In info infos -> isValidDevice (hid.Product info) = true ->
  exists mgr', Discover mgr enumerations w = Ret (mgr', w) /\ HasDevice mgr' (hid.SerialNumber info) = true.
Proof.
  intros He Hi V. exists (discover_pure mgr enumerations). split; [apply Discover_pure|].
  rewrite HasDevice_serials. apply existsb_eqb_In.
  apply in_split in He as (pre & post & ->). unfold discover_pure. rewrite fold_left_app. cbn [fold_left].
  destruct (discover_pure_prefix (addDevices (discover_pure mgr pre) infos) post) as [extra E].
  unfold discover_pure in E. rewrite E. apply in_or_app. left. apply addDevices_registers; assumption.
Qed.

(** C33. On Linux, a device node that [Devices] reads, among nodes that
    are all read or refused for permission, is registered by the next
    iteration of [Discover] under the serial number of its [uevent] file,
    when [isValidDevice] accepts the product name the kernel reports. *)
Theorem discoverOnceLinux_registers (mgr : Manager) sys names dir info w :
  Forall (fun dir => HidLinux.passable (HidLinux.probe sys dir) = true) names -> In dir names ->
  HidLinux.probe sys dir = Ret (inl info) -> isValidDevice (hid.Product info) = true ->
  exists mgr', discoverOnceLinux mgr sys (inl names) w = Ret (mgr', w) /\
    HasDevice mgr' (hid.SerialNumber info) = true.
Proof.
  intros Hall Hin Hp V. unfold discoverOnceLinux, HidLinux.Devices.
  pose proof (HidLinux.devices_loop_passable sys names [] [] Hall) as E. rewrite app_nil_r in E. rewrite E.
  eexists; split; [apply discoverOnce_pure|]. rewrite HasDevice_serials. apply existsb_eqb_In.
  apply addDevices_registers; [|exact V]. apply in_flat_map. exists dir. rewrite Hp. split; [exact Hin | left; reflexivity].
Qed.

(** C8. [Discover] never removes a registered
    device, whatever the enumerations: a device that has disappeared from
    them stays registered (the specification requires it to be closed and
    removed). *)
Theorem Discover_never_removes (mgr : Manager) enumerations w sn mgr' w' :
  In sn (serials mgr) -> Discover mgr enumerations w = Ret (mgr', w') -> In sn (serials mgr').
Proof.
  intros Hin E. rewrite Discover_pure in E. injection E as <- <-.
  destruct (discover_pure_prefix mgr enumerations) as [extra ->]. apply in_or_app. left. exact Hin.
Qed.

(** C15. The inspection API on every reachable manager: [GET
    /devices/count] answers 200 with the number of registered serial
    numbers, each counted once; [GET /devices] answers 404 exactly when
    no device is registered and 200 with the registry otherwise; any other
    path answers gin's 404. *)
Theorem AttachAPI_reachable (s : Manager * W) path :
  manager_reachable s ->
  serve AttachAPI "/devices/count" (fst s) = (200, CountBody (Z.of_nat (length (nodup string_dec (serials (fst s)))))) /\
  (fst (serve AttachAPI "/devices" (fst s)) = 404 <-> serials (fst s) = []) /\
  (serials (fst s) <> [] -> serve AttachAPI "/devices" (fst s) = (200, DevicesBody (devices (fst s)))) /\
  (path <> "/devices/count" -> path <> "/devices" -> serve AttachAPI path (fst s) = (404, NoBody)).
Proof.
  intros (e & u & w0 & Hr). destruct (manager_steps_ok _ _ Hr (conj (NoDup_nil _) (Forall_nil _))) as [Hn _].
  destruct s as [m w]; cbn [fst] in *.
  assert (Ec : serve AttachAPI "/devices/count" m = getDevicesCount m) by reflexivity.
  assert (Ed : serve AttachAPI "/devices" m = getDevices m) by reflexivity.
  rewrite Ec, Ed. unfold getDevicesCount, getDevices.
  rewrite (nodup_fixed_point string_dec Hn). unfold serials. rewrite length_map.
  split; [reflexivity|]. split; [|split].
  - destruct (Nat.eqb (length (devices m)) 0) eqn:E0; cbn [fst]; split; intros Hx; try discriminate.
    + apply Nat.eqb_eq, length_zero_iff_nil in E0. rewrite E0. reflexivity.
    + reflexivity.
    + apply map_eq_nil in Hx. rewrite Hx in E0. discriminate.
  - intros Hne. destruct (Nat.eqb (length (devices m)) 0) eqn:E0; [|reflexivity].
    apply Nat.eqb_eq, length_zero_iff_nil in E0. rewrite E0 in Hne. contradiction.
  - intros H1 H2. unfold serve, AttachAPI. cbn [find fst]. destruct (String.eqb "/devices/count" path) eqn:E1; [apply String.eqb_eq in E1; congruence|].
    destruct (String.eqb "/devices" path) eqn:E2; [apply String.eqb_eq in E2; congruence|]. reflexivity.
Qed.

(** [strings.HasPrefix] as [String.prefix]. *)
Lemma prefix_spec (t s : string) : String.prefix t s = true <-> exists b, s = (t ++ b)%string.
Proof.
  revert s; induction t as [|c t IH]; intros [|c' s]; cbn.
  - split; [exists ""%string; reflexivity | reflexivity].
  - split; [exists (String c' s); reflexivity | reflexivity].
  - split; [discriminate | intros [b E]; discriminate].
  - destruct (Ascii.ascii_dec c c') as [<-|Hne].
    + rewrite IH. split; intros [b E]; exists b; congruence.
    + split; [discriminate | intros [b E]; congruence].
Qed.

(** [Contains s t] holds exactly when [t] is a substring of [s]. *)
Lemma Contains_spec (s t : string) : Contains s t = true <-> exists a b, s = (a ++ t ++ b)%string.
Proof.
  induction s as [|c s IH]; cbn [Contains]; rewrite Bool.orb_true_iff, prefix_spec.
  - split.
    + intros [[b E] | F]; [exists ""%string, b; exact E | discriminate].
    + intros (a & b & E). left. exists b. destruct a; [exact E | discriminate].
  - rewrite IH. split.
    + intros [[b E] | (a & b & E)]; [exists ""%string, b; exact E | exists (String c a), b; cbn; congruence].
    + intros (a & b & E). destruct a as [|c' a]; [left; exists b; exact E|].
      right. exists a, b. cbn in E. congruence.
Qed.

Lemma deviceTypeOf_unknown name : ~ In name validDevices -> deviceTypeOf name = "Unknown".
Proof.
  intros Hn. unfold deviceTypeOf.
  destruct (String.eqb_spec name IntelliDoseDeviceName); [destruct Hn; cbn; auto|].
  destruct (String.eqb_spec name IntelliDoseDeviceNameLinux); [destruct Hn; cbn; auto|].
  destruct (String.eqb_spec name IntelliClimateDeviceName); [destruct Hn; cbn; auto|].
  destruct (String.eqb_spec name IntelliClimateDeviceNameLinux); [destruct Hn; cbn; auto|].
  reflexivity.
Qed.

Lemma existsb_eqb_notin name l : ~ In name l -> existsb (String.eqb name) l = false.
Proof.
  intros Hn. apply Bool.not_true_iff_false. rewrite existsb_exists.
  intros (x & Hx & E). apply String.eqb_eq in E. subst. contradiction.
Qed.

(** C28. [isValidDevice] accepts exactly the substrings of
    [":IntelliDose:IntelliClimate:ASL IntelliDose:ASL IntelliClimate:"],
    not the four names: a device whose product name is any other
    substring (the empty name, ["Intelli"], ["Dose:IntelliClimate"], ...)
    and whose serial is new is registered by [addDevice] with the device
    type ["Unknown"], where the specification's registry ignores it. *)
Theorem isValidDevice_fragments (m : Manager) info :
  (isValidDevice (hid.Product info) = true <->
     exists a b, (":" ++ Join validDevices ":" ++ ":")%string = (a ++ hid.Product info ++ b)%string) /\
    (isValidDevice (hid.Product info) = true -> ~ In (hid.Product info) validDevices ->
     FindDevice m (hid.SerialNumber info) = None ->
     devices (addDevice m info) =
       (devices m ++ [OnUpdate (NewDevice (hid.SerialNumber info) "Unknown" (hid.Product info) info)
                                (deviceUpdatedFunc m)])%list /\
    spec_add (serials m) info = serials m).
Proof.
  split; [apply Contains_spec|]. intros Hv Hn Hf. split.
  - unfold addDevice. rewrite Hv, Hf, deviceTypeOf_unknown by exact Hn. reflexivity.
  - unfold spec_add. rewrite existsb_eqb_notin by exact Hn. reflexivity.
Qed.

End Props.

Section ScriptProps.


#[local] Abbreviation Device := (@Device string).

(** The loop that the early return of [purgeDevices]
    skips is wrong as well: it removes from the slice it ranges over, so
    when two consecutive devices have disappeared it closes both and then
    slices past the shortened slice, which panics. *)
Theorem purge_loop_two_vanished_panics (a b : Device) ha hb infos w :
  hidDeviceImpl (hidDevice_ a) = Some ha -> hidDeviceImpl (hidDevice_ b) = Some hb ->
  existsb (fun info => String.eqb (SerialNumber a) (hid.SerialNumber info)) infos = false ->
  existsb (fun info => String.eqb (SerialNumber b) (hid.SerialNumber info)) infos = false ->
  purge_loop infos 2 0 [a; b] 2 w = Panic "slice bounds out of range".
Proof.
  destruct a as [sa na ta [ia ja] ha' sta sha oa ca], b as [sb nb tb [ib jb] hb' stb shb ob cb].
  cbn [hidDeviceImpl hidDevice_ SerialNumber]. intros -> -> Ea Eb.
  cbn [purge_loop nth SerialNumber]. rewrite Ea. unfold bind, close. cbn. rewrite Eb. reflexivity.
Qed.

(** On three devices of which the first two have
    disappeared, the same loop closes the first, skips the second (shifted
    into the index it has just visited) and leaves it registered. *)
Theorem purge_loop_skips_next (a b c : Device) ha hb infos w :
  hidDeviceImpl (hidDevice_ a) = Some ha -> hidDeviceImpl (hidDevice_ b) = Some hb ->
  existsb (fun info => String.eqb (SerialNumber a) (hid.SerialNumber info)) infos = false ->
  existsb (fun info => String.eqb (SerialNumber b) (hid.SerialNumber info)) infos = false ->
  existsb (fun info => String.eqb (SerialNumber c) (hid.SerialNumber info)) infos = true ->
  exists arr w', purge_loop infos 3 0 [a; b; c] 3 w = Ret ((arr, 2%nat), w') /\ firstn 2 arr = [b; c].
Proof.
  destruct a as [sa na ta [ia ja] ha' sta sha oa ca].
  cbn [hidDeviceImpl hidDevice_ SerialNumber]. intros -> Hb Ea Eb Ec.
  cbn [purge_loop nth SerialNumber]. rewrite Ea. unfold bind, close. cbn. rewrite !Ec.
  do 2 eexists. split; reflexivity.
Qed.

(** C35. A closed session whose device cannot be
    opened is skipped by [Interrogate]: it stays closed, nothing is written
    to the transport and no notification fires. *)
Theorem interrogateDevice_open_fails (d : Device) ts att errs rs wr c :
  IsOpen d = false -> existsb (String.eqb (hid.Path (hidDeviceInfo (hidDevice_ d)))) att = false ->
  interrogateDevice ts d (mkScript att errs rs wr c) =
    Ret ((set_IsOpen d false, None), mkScript att errs rs wr c).
Proof.
  intros Hc Ha. unfold interrogateDevice, open, bind. rewrite Hc. cbn [negb hid_open Script_Hid].
  unfold script_open. cbn [attached]. rewrite Ha. reflexivity.
Qed.

End ScriptProps.

(** [isValidDevice] tests whether the name occurs in the
    string ["IntelliDose:IntelliClimate:ASL IntelliDose:ASL IntelliClimate"]
    with colons around it: it accepts the four names, and also the empty
    name and any fragment such as ["Intelli"] or ["Dose:IntelliClimate"],
    which [addDevices] registers with the device type ["Unknown"]; the
    specification's registry does not. *)
Example isValidDevice_accepts_fragments :
  (forall name, In name validDevices -> isValidDevice name = true) /\
  isValidDevice "" = true /\ isValidDevice "Intelli" = true /\ isValidDevice "Dose:IntelliClimate" = true /\
  map DeviceType (devices (addDevices mgr0 [info_named "Intelli" "X1"])) = ["Unknown"] /\
  spec_addDevices [] [info_named "Intelli" "X1"] = [].
Proof.
  split; [|vm_compute; repeat split; reflexivity].
  intros name Hn. repeat destruct Hn as [<- | Hn]; [vm_compute; reflexivity ..| destruct Hn].
Qed.

(** ** Witnesses *)

Lemma AttachAPI_reachable_witness :
  let s := (addDevices mgr0 [info_named "ASL IntelliDose" "SN7"], world0) in
  serve AttachAPI "/devices/count" (fst s) = (200, CountBody (Z.of_nat (length (nodup string_dec (serials (fst s)))))) /\
  (fst (serve AttachAPI "/devices" (fst s)) = 404 <-> serials (fst s) = []) /\
  (serials (fst s) <> [] -> serve AttachAPI "/devices" (fst s) = (200, DevicesBody (devices (fst s)))) /\
  ("/metrics" <> "/devices/count" -> "/metrics" <> "/devices" -> serve AttachAPI "/metrics" (fst s) = (404, NoBody)).
Proof.
  apply AttachAPI_reachable. exists 10, 15, world0. apply rt_step.
  apply (mstep_discover _ (inl [info_named "ASL IntelliDose" "SN7"])). rewrite discoverOnce_pure. reflexivity.
Defined.

Lemma manager_reachable_ok_witness : manager_ok (fst (mgr0, world0)).
Proof.
  apply (manager_reachable_ok). exists 10, 15, world0. apply rt_refl.
Defined.

Lemma addDevices_refines_spec_witness :
  serials (addDevices mgr0 [info_named "IntelliDose" "SN1"; info_named "Foo" "SN2"]) =
    spec_addDevices (serials mgr0) [info_named "IntelliDose" "SN1"; info_named "Foo" "SN2"].
Proof.
  apply addDevices_refines_spec. intros i Hi. repeat destruct Hi as [<- | Hi]; [vm_compute; reflexivity ..| destruct Hi].
Defined.

Lemma Discover_registers_witness :
  exists mgr', Discover mgr0 [inr "enumeration failed"; inl [info_named "ASL IntelliClimate" "SN7"]] world0 = Ret (mgr', world0) /\
    HasDevice mgr' "SN7" = true.
Proof.
  apply (Discover_registers mgr0 _ [info_named "ASL IntelliClimate" "SN7"] (info_named "ASL IntelliClimate" "SN7")).
  - right. left. reflexivity.
  - left. reflexivity.
  - vm_compute. reflexivity.
Defined.

Lemma discoverOnceLinux_registers_witness :
  exists mgr', discoverOnceLinux mgr0 HidLinux.sample_sys (inl ["hidraw0"; "hidraw1"]) world0 = Ret (mgr', world0) /\
    HasDevice mgr' "0000123" = true.
Proof.
  apply (discoverOnceLinux_registers mgr0 HidLinux.sample_sys ["hidraw0"; "hidraw1"] "hidraw0"
    (match HidLinux.probe HidLinux.sample_sys "hidraw0" with Ret (inl info) => info | _ => info_named "" "" end)).
  - repeat (apply Forall_cons; [vm_compute; reflexivity|]). apply Forall_nil.
  - left. reflexivity.
  - vm_compute. reflexivity.
  - vm_compute. reflexivity.
Defined.

Lemma Discover_never_removes_witness : In "SN0001" (serials (discover_pure mgr1 [inl []])).
Proof.
  apply (Discover_never_removes mgr1 [inl []] world0 "SN0001" _ world0).
  - left. reflexivity.
  - apply Discover_pure.
Defined.

Lemma purge_loop_two_vanished_panics_witness :
  purge_loop [info_named "IntelliDose" "SN3"] 2 0 [open_dev "SN1"; open_dev "SN2"] 2 world0 = Panic "slice bounds out of range".
Proof. apply purge_loop_two_vanished_panics with (ha := "/dev/SN1") (hb := "/dev/SN2"); reflexivity. Defined.

Lemma purge_loop_skips_next_witness :
  exists arr w', purge_loop [info_named "IntelliDose" "SN3"] 3 0 [open_dev "SN1"; open_dev "SN2"; open_dev "SN3"] 3 world0
    = Ret ((arr, 2%nat), w') /\ firstn 2 arr = [open_dev "SN2"; open_dev "SN3"].
Proof. apply purge_loop_skips_next with (ha := "/dev/SN1") (hb := "/dev/SN2"); reflexivity. Defined.

Lemma interrogateDevice_open_fails_witness :
  interrogateDevice 0 (set_IsOpen (open_dev "SN1") false) (mkScript [] [] [] [] 0) =
    Ret ((set_IsOpen (set_IsOpen (open_dev "SN1") false) false, None), mkScript [] [] [] [] 0).
Proof. apply interrogateDevice_open_fails; reflexivity. Defined.

Lemma isValidDevice_fragments_witness :
  isValidDevice (hid.Product (info_named "Intelli" "X1")) = true /\
  ~ In (hid.Product (info_named "Intelli" "X1")) validDevices /\
  FindDevice mgr0 (hid.SerialNumber (info_named "Intelli" "X1")) = None /\
  devices (addDevice mgr0 (info_named "Intelli" "X1")) =
    (devices mgr0 ++ [OnUpdate (NewDevice "X1" "Unknown" "Intelli" (info_named "Intelli" "X1"))
                               (deviceUpdatedFunc mgr0)])%list /\
  spec_add (serials mgr0) (info_named "Intelli" "X1") = serials mgr0.
Proof.
  assert (V : isValidDevice (hid.Product (info_named "Intelli" "X1")) = true) by (vm_compute; reflexivity).
  assert (N : ~ In (hid.Product (info_named "Intelli" "X1")) validDevices)
    by (cbn; intros Hin; repeat destruct Hin as [Hin|Hin]; discriminate || contradiction).
  assert (F : FindDevice mgr0 (hid.SerialNumber (info_named "Intelli" "X1")) = None) by reflexivity.
  split; [exact V | split; [exact N | split; [exact F|]]].
  exact (proj2 (isValidDevice_fragments mgr0 (info_named "Intelli" "X1")) V N F).
Defined.
