(* ===== verification/Gateway.v ===== *)
(** * The command-line gateway: [src/cmd/intellid/main.go]

    [main] parses its flags, sets the log level, connects to NATS, builds
    the manager with the callback that publishes each updated shadow on
    the subject [intelli.<serial>], and runs the two endless loops of the
    manager: [Discover] in a goroutine and [Interrogate] in the main one.

    [main] after [flag.Parse] up to the loops is the function [main]
    (the parsing itself is in [Flags]); a NATS connection is an
    input ([connect]), and [json.Marshal] is not modelled: a message
    carries the shadow itself.  The running gateway is a step relation
    [gateway_step] on the manager, the log and the messages published so
    far: an iteration of [Discover], or an iteration of [Interrogate]
    whose notifications run the installed callbacks.  Each callback runs
    in its own goroutine ([go d.onUpdateFunc( *d)]), so the messages of one
    iteration are published in any order: any permutation of them.  The
    callback's [Debugf] line is not recorded.

    The theorems: what [main] does on each outcome of its start-up, and
    that the running gateway publishes exactly one message per fired
    notification, each on the subject of a registered serial. *)

From Stdlib Require Import Strings.String Relations Permutation.
From S2P Require Import Prelude GoEffects Tell Device Manager.

Import Session Manager fmt.

Module Gateway.

Section Gateway.

Context {W H : Type} `{Hid W H}.

#[local] Abbreviation Device := (@Device H).
#[local] Abbreviation Manager := (@Manager.Manager H).

(** The flags of [main] (lines 24-35), parsed. *)
Record flags := mkFlags {
  delay : Z;
  natsHost : string;
  debug : bool;
  apiPort : string;
  printVersion : bool
}.

(** Their defaults. *)
Definition default_flags : flags := mkFlags 15 "localhost:4222" false ":9191" false.

(** [const enumerationInterval = 10] (line 17). *)
Definition enumerationInterval : Z := 10.

(** [var Version = "version not set"] (line 21). *)
Definition Version : string := "version not set".

(** The callback of lines 54-64, by its identity. *)
Definition publishShadow : Callback := 1%nat.

(** A message published on NATS: its subject and the shadow it carries. *)
Definition message : Type := string * shadow.

(** [nc.Publish(fmt.Sprintf("intelli.%s", d.SerialNumber), json.Marshal(d.Shadow))]. *)
Definition publish (d : Device) : message := ("intelli." ++ SerialNumber d, Shadow d).

(** Running a fired notification: the callback of [main] publishes the
    snapshot; the no-op callback of [NewManager] does nothing. *)
Definition runCallback (n : Callback * Device) : list message :=
  if Nat.eqb (fst n) publishShadow then [publish (snd n)] else [].

(** The gateway once started: the manager, the logger, and the messages
    published so far. *)
Record gateway := mkGateway {
  mgr : Manager;
  log : tell.state;
  published : list message
}.

Inductive outcome :=
| Exited (code : Z) (stdout : list string) (log : tell.state)
| Started (g : gateway).

(** [func main()] up to its two loops (lines 23-72); [connect url] is
    what [nats.Connect(url)] returned: [None] for a connection, or the
    error's type and text. *)
Definition main (f : flags) (connect : string -> option (string * string)) : option outcome :=
  if printVersion f then Some (Exited 0 [Version] tell.init)
  else
    let lg := if negb (debug f) then tell.set_Level tell.init tell.INFO else tell.init in
    match connect ("nats://" ++ natsHost f) with
    | Some (ty, msg) =>
        option_map (fun lg => Exited 1 [] lg) (tell.Fatalf "failed to connect to NATS: %s" [fmt.AErr ty msg] lg)
    | None =>
        let m := NewManager enumerationInterval (delay f) in
        Some (Started (mkGateway (OnDeviceUpdated m publishShadow) lg []))
    end.

(** The two loops, one iteration at a time, in any interleaving. *)
Inductive gateway_step : gateway * W -> gateway * W -> Prop :=
| gstep_discover g e w m' w' :
    discoverOnce (mgr g) e w = Ret (m', w') ->
    gateway_step (g, w) (mkGateway m' (log g) (published g), w')
| gstep_interrogate g ts w m' ns w' msgs :
    interrogateOnce (mgr g) ts w = Ret ((m', ns), w') ->
    Permutation msgs (flat_map runCallback ns) ->
    gateway_step (g, w) (mkGateway m' (log g) (published g ++ msgs), w').

(** A state of the gateway reached from a start of [main]. *)
Definition gateway_reachable (s : gateway * W) : Prop :=
  exists f connect g w0, main f connect = Some (Started g) /\ clos_refl_trans _ gateway_step (g, w0) s.

(** A message is on the subject of a serial of the registry. *)
Definition on_registered (m : Manager) (msg : message) : Prop :=
  exists sn, fst msg = ("intelli." ++ sn)%string /\ In sn (serials m).

(** The gateway's invariant: the registry's invariant, the callback of
    [main] installed in the manager and in every session, and every
    message published on a registered serial. *)
Definition gateway_ok (g : gateway) : Prop :=
  manager_ok (mgr g) /\ deviceUpdatedFunc (mgr g) = publishShadow /\
  Forall (fun d => onUpdateFunc d = Some publishShadow) (devices (mgr g)) /\
  Forall (on_registered (mgr g)) (published g).

End Gateway.

(** ** Sample start-ups *)

Definition nats_up (url : string) : option (string * string) := None.

Definition nats_down (url : string) : option (string * string) :=
  Some ("*net.OpError", "dial tcp 127.0.0.1:4222: connect: connection refused").

Definition g_start : @gateway string :=
  mkGateway (OnDeviceUpdated (NewManager enumerationInterval 15) publishShadow) (tell.set_Level tell.init tell.INFO) [].

Definition g_dose : @gateway string :=
  mkGateway (addDevices (mgr g_start) [info_named IntelliDoseDeviceNameLinux "SN1"]) (log g_start) [].

Section Props.

Context {W H : Type} `{Hid W H}.

#[local] Abbreviation Device := (@Device H).
#[local] Abbreviation Manager := (@Manager.Manager H).


(** ** Notifications *)

Lemma updateShadow_notified (d : Device) ts w d' cb dn w' :
  updateShadow d ts w = Ret ((d', Some (cb, dn)), w') -> dn = d' /\ onUpdateFunc d' = Some cb.
Proof.
  unfold updateShadow, decodeStates, update, onUpdated. intros E. go_run E; try discriminate; (split; [reflexivity | assumption]).
Qed.

Lemma interrogateDevice_notified (d : Device) ts w d' cb dn w' :
  interrogateDevice ts d w = Ret ((d', Some (cb, dn)), w') -> dn = d' /\ onUpdateFunc d' = Some cb.
Proof.
  unfold interrogateDevice. intros E. destruct (negb (IsOpen d)); [|eapply updateShadow_notified; exact E].
  unfold bind in E. destruct (open d w) as [[[d1 [err|]] w1]|r]; cbn in E; try discriminate.
  eapply updateShadow_notified; exact E.
Qed.

(** An iteration of [Interrogate] keeps each session's identity, and each
    notification fires the callback installed in a session it returns. *)
Lemma interrogate_devices_notified (ds : list Device) ts w ds' ns w' :
  Forall device_ok ds -> interrogate_devices ts ds w = Ret ((ds', ns), w') ->
  Forall2 same_identity ds ds' /\ (forall cb dn, In (cb, dn) ns -> In dn ds' /\ onUpdateFunc dn = Some cb).
Proof.
  revert w ds' ns. induction ds as [|d ds IH]; intros w ds' ns Hf E; cbn in E.
  - injection E as <- <- <-. split; [constructor | intros ? ? []].
  - inversion Hf as [|? ? Hd Hds]; subst. unfold bind in E.
    destruct (interrogateDevice ts d w) as [[[d1 n1] w1]|r] eqn:E1; [|discriminate].
    destruct (interrogate_devices ts ds w1) as [[[ds1 ns1] w2]|r] eqn:E2; [|discriminate].
    cbn in E. injection E as <- <- <-.
    destruct (interrogateDevice_ok _ _ _ _ _ _ Hd E1) as [_ Hid].
    destruct (IH _ _ _ Hds E2) as [Hf2 Hn]. split; [constructor; assumption|].
    intros cb dn Hin. destruct n1 as [[cb1 dn1]|]; [destruct Hin as [Heq | Hin]|].
    + injection Heq as <- <-. destruct (interrogateDevice_notified _ _ _ _ _ _ _ E1) as [-> Hcb].
      split; [left; reflexivity | exact Hcb].
    + destruct (Hn _ _ Hin). split; [right|]; assumption.
    + destruct (Hn _ _ Hin). split; [right|]; assumption.
Qed.

Lemma same_identity_serials (ds ds' : list Device) :
  Forall2 same_identity ds ds' -> map SerialNumber ds' = map SerialNumber ds.
Proof. induction 1 as [|d d' ds ds' (_ & Hs & _) _ IH]; cbn; congruence. Qed.

Lemma same_identity_callbacks (ds ds' : list Device) cb :
  Forall2 same_identity ds ds' ->
  Forall (fun d => onUpdateFunc d = Some cb) ds -> Forall (fun d => onUpdateFunc d = Some cb) ds'.
Proof.
  induction 1 as [|d d' ds ds' (_ & _ & _ & Hc) _ IH]; intros Hf; [constructor|].
  inversion Hf; subst. constructor; [congruence | auto].
Qed.

(** ** The registry *)

Lemma addDevices_callbacks (m : Manager) infos :
  Forall (fun d => onUpdateFunc d = Some (deviceUpdatedFunc m)) (devices m) ->
  deviceUpdatedFunc (addDevices m infos) = deviceUpdatedFunc m /\
  Forall (fun d => onUpdateFunc d = Some (deviceUpdatedFunc m)) (devices (addDevices m infos)).
Proof.
  unfold addDevices. revert m. induction infos as [|info infos IH]; intros m Hf; cbn; [auto|].
  assert (Hu : deviceUpdatedFunc (addDevice m info) = deviceUpdatedFunc m).
  { unfold addDevice. destruct (negb _); [reflexivity|]. destruct (FindDevice _ _); reflexivity. }
  destruct (IH (addDevice m info)) as [E F]; rewrite Hu in *; [|split; assumption].
  destruct (addDevice_devices m info) as [Ed | (_ & _ & Ed)]; rewrite Ed; [exact Hf|].
  apply Forall_app. split; [exact Hf|]. repeat constructor.
Qed.

Lemma on_registered_mono (m m' : Manager) l :
  incl (serials m) (serials m') -> Forall (on_registered m) l -> Forall (on_registered m') l.
Proof.
  intros Hi. apply Forall_impl. intros msg (sn & Hs & Hin). exists sn. split; [exact Hs | apply Hi, Hin].
Qed.

(** The messages of one iteration: one per notification, on the subject of
    a session of the registry, once every session carries [publishShadow]. *)
Lemma runCallbacks_publish (ns : list (Callback * Device)) :
  (forall cb dn, In (cb, dn) ns -> cb = publishShadow) ->
  flat_map runCallback ns = map (fun n => publish (snd n)) ns.
Proof.
  induction ns as [|[cb dn] ns IH]; intros Hc; [reflexivity|]. cbn.
  rewrite (Hc cb dn (or_introl eq_refl)), IH by (intros; eapply Hc; right; eassumption). reflexivity.
Qed.

(** ** The invariant *)

Lemma main_started_ok f connect (g : @gateway H) : main f connect = Some (Started g) -> gateway_ok g.
Proof.
  unfold main. destruct (printVersion f); [discriminate|].
  destruct (connect _) as [[ty msg]|].
  - destruct (tell.Fatalf _ _ _); discriminate.
  - intros E. injection E as <-. refine (conj (conj _ _) (conj eq_refl (conj _ _))); constructor.
Qed.

Lemma gateway_step_ok s s' : gateway_step s s' -> gateway_ok (fst s) -> gateway_ok (fst s').
Proof.
  intros Hs Hok. unfold gateway_ok in *. destruct Hs as [g e w m' w' E | g ts w m' ns w' msgs E Hperm]; cbn in *;
    destruct Hok as (Hm & Hu & Hc & Hp).
  - rewrite discoverOnce_pure in E. injection E as <- <-. destruct e as [infos|err]; [|exact (conj Hm (conj Hu (conj Hc Hp)))].
    rewrite <- Hu in Hc |- *. destruct (addDevices_callbacks (mgr g) infos Hc) as [Eu Ec].
    refine (conj (addDevices_ok _ _ Hm) (conj Eu (conj Ec _))).
    apply (on_registered_mono (mgr g)); [|exact Hp].
    destruct (addDevices_serials_prefix (mgr g) infos) as [extra ->]. intros sn Hin. apply in_or_app. left. exact Hin.
  - pose proof (manager_step_ok (mgr g, w) (m', w') (mstep_interrogate _ _ _ _ _ _ E) Hm) as Hm'.
    unfold interrogateOnce, bind in E.
    destruct (interrogate_devices ts (devices (mgr g)) w) as [[[ds ns1] w1]|r] eqn:E1; [|discriminate].
    cbn in E. injection E as <- <- <-. destruct Hm as [_ Hf].
    destruct (interrogate_devices_notified _ _ _ _ _ _ Hf E1) as [Hid Hn].
    assert (Hser : serials (set_devices (mgr g) ds) = serials (mgr g)) by (apply same_identity_serials, Hid).
    refine (conj Hm' (conj Hu (conj (same_identity_callbacks _ _ _ Hid Hc) _))).
    apply Forall_app. split.
    + apply (on_registered_mono (mgr g)); [rewrite Hser; apply incl_refl | exact Hp].
    + apply Forall_forall. intros msg Hin. apply (Permutation_in _ Hperm), in_flat_map in Hin as ([cb dn] & Hin & Hr).
      unfold runCallback in Hr. cbn in Hr. destruct (Nat.eqb cb publishShadow); [|destruct Hr].
      destruct Hr as [<- | []]. exists (SerialNumber dn). split; [reflexivity|].
      apply in_map. apply (Hn _ _ Hin).
Qed.

Lemma gateway_steps_ok s s' :
  clos_refl_trans _ gateway_step s s' -> gateway_ok (fst s) -> gateway_ok (fst s').
Proof. induction 1; eauto using gateway_step_ok. Qed.


(** ** Claims *)

(** C25. What [main] does before its loops: with [-version] it prints
    [Version] and exits with 0 without connecting; when NATS refuses the
    connection it logs the fatal error (whatever the level), notifies it
    and exits with 1; otherwise it starts with an empty registry, the
    publishing callback installed, the enumeration interval of 10 s and
    the polling delay of its flag (in nanoseconds), and the log level
    [INFO] unless [-debug]. *)
Theorem main_outcomes f connect :
  (printVersion f = true -> main (H := H) f connect = Some (Exited 0 [Version] tell.init)) /\
  (forall ty msg, printVersion f = false -> connect ("nats://" ++ natsHost f) = Some (ty, msg) ->
     no_pct msg = true ->
     exists lg, main (H := H) f connect = Some (Exited 1 [] lg) /\
       tell.output lg = ["FATAL: failed to connect to NATS: " ++ msg] /\
       tell.notified lg = [("fatal", "failed to connect to NATS: " ++ msg)] /\ tell.exited lg = Some 1) /\
  (printVersion f = false -> connect ("nats://" ++ natsHost f) = None ->
     exists g, main (H := H) f connect = Some (Started g) /\ devices (mgr g) = [] /\
       deviceUpdatedFunc (mgr g) = publishShadow /\ enumerateInterval (mgr g) = 10000000000 /\
       updateInterval (mgr g) = int64 (delay f * 1000000000) /\
       tell.Level (log g) = (if debug f then tell.DEBUG else tell.INFO) /\ published g = []).
Proof.
  unfold main. split; [|split].
  - intros Hv. rewrite Hv. reflexivity.
  - intros ty msg Hv Hc Hm. rewrite Hv, Hc. unfold tell.Fatalf.
    change "failed to connect to NATS: %s" with ("failed to connect to NATS: " ++ "%s").
    rewrite Sprintf_prefix_s by reflexivity. unfold tell.log_Printf.
    rewrite Sprintf_nopct by (rewrite !no_pct_app; exact Hm).
    eexists; split; [reflexivity|]. destruct (debug f); cbn; auto.
  - intros Hv Hc. rewrite Hv, Hc. eexists; split; [reflexivity|]. destruct (debug f); cbn; repeat split.
Qed.

(** C12. In every state of the running gateway, every registered session
    carries the publishing callback of [main], and every message
    published so far is on the subject [intelli.<serial>] of a registered
    serial number. *)
Theorem gateway_reachable_ok (s : @gateway H * W) : gateway_reachable s -> gateway_ok (fst s).
Proof.
  intros (f & c & g & w0 & Hm & Hr). apply (gateway_steps_ok _ _ Hr), (main_started_ok f c g Hm).
Qed.

(** C36. In every state of the running gateway, an iteration of
    [Interrogate] publishes exactly one message per fired notification:
    the notified session's shadow on its subject [intelli.<serial>]. *)
Theorem gateway_publishes_each (g : @gateway H) w ts m' ns w' :
  gateway_reachable (g, w) -> interrogateOnce (mgr g) ts w = Ret ((m', ns), w') ->
  flat_map runCallback ns = map (fun n => publish (snd n)) ns.
Proof.
  intros (f & c & g0 & w0 & Hm & Hr) E.
  destruct (gateway_steps_ok _ _ Hr (main_started_ok f c g0 Hm)) as ([_ Hf] & _ & Hc & _). cbn in Hf, Hc.
  unfold interrogateOnce, bind in E.
  destruct (interrogate_devices ts (devices (mgr g)) w) as [[[ds ns1] w1]|r] eqn:E1; [|discriminate].
  cbn in E. injection E as <- <- <-.
  destruct (interrogate_devices_notified _ _ _ _ _ _ Hf E1) as [Hid Hn].
  pose proof (same_identity_callbacks _ _ _ Hid Hc) as Hc'.
  apply runCallbacks_publish. intros cb dn Hin. destruct (Hn _ _ Hin) as [Hd Hcb].
  rewrite Forall_forall in Hc'. rewrite (Hc' dn Hd) in Hcb. congruence.
Qed.

End Props.

(** ** Witnesses *)

Lemma main_outcomes_witness :
  (exists lg, main (H := string) default_flags nats_down = Some (Exited 1 [] lg) /\
     tell.output lg = ["FATAL: failed to connect to NATS: " ++ "dial tcp 127.0.0.1:4222: connect: connection refused"] /\
     tell.notified lg = [("fatal", "failed to connect to NATS: " ++ "dial tcp 127.0.0.1:4222: connect: connection refused")] /\
     tell.exited lg = Some 1) /\
  (exists g, main (H := string) default_flags nats_up = Some (Started g) /\ devices (mgr g) = [] /\
     deviceUpdatedFunc (mgr g) = publishShadow /\ enumerateInterval (mgr g) = 10000000000 /\
     updateInterval (mgr g) = int64 (delay default_flags * 1000000000) /\
     tell.Level (log g) = (if debug default_flags then tell.DEBUG else tell.INFO) /\ published g = []).
Proof.
  split.
  - apply (proj1 (proj2 (main_outcomes (H := string) default_flags nats_down)) "*net.OpError" "dial tcp 127.0.0.1:4222: connect: connection refused"); reflexivity.
  - apply (proj2 (proj2 (main_outcomes (H := string) default_flags nats_up))); reflexivity.
Defined.

Lemma gateway_reachable_ok_witness : gateway_ok (fst (g_dose, world0)).
Proof.
  apply (gateway_reachable_ok (W := Script)). exists default_flags, nats_up, g_start, world0. split; [reflexivity|].
  apply rt_step. apply (gstep_discover g_start (inl [info_named IntelliDoseDeviceNameLinux "SN1"])). reflexivity.
Defined.

Lemma gateway_publishes_each_witness :
  flat_map runCallback (snd (fst (match interrogateOnce (mgr g_dose) 1700000000 world0 with
                                  | Ret r => r | Panic _ => ((mgr g_dose, []), world0) end))) =
  map (fun n => publish (snd n)) (snd (fst (match interrogateOnce (mgr g_dose) 1700000000 world0 with
                                  | Ret r => r | Panic _ => ((mgr g_dose, []), world0) end))).
Proof.
  eapply (gateway_publishes_each (W := Script) g_dose world0 1700000000).
  - exists default_flags, nats_up, g_start, world0. split; [reflexivity|].
    apply rt_step. apply (gstep_discover g_start (inl [info_named IntelliDoseDeviceNameLinux "SN1"])). reflexivity.
  - vm_compute. reflexivity.
Defined.

End Gateway.
