(* ===== verification/Flags.v ===== *)
(** * The command line of [src/cmd/intellid/main.go]

    Lines 30-35 of [main] declare five flags on Go's default [FlagSet] and
    call [flag.Parse()] on [os.Args[1:]].  The [flag] and [strconv]
    packages are not in the repository; this file models the parts of
    them the program reaches from their Go sources: [FlagSet.parseOne] and
    [FlagSet.Parse] with [ExitOnError], the [Set] methods of the string,
    bool and int values, [strconv.ParseBool] and [strconv.ParseInt(s, 0,
    64)] with its base prefixes and digit separators.

    The five declarations are the table [formal]; [parseOne] is one
    iteration of the parser, [parse] the loop with fuel, [Parse] the loop
    from the defaults with fuel one more than the number of arguments
    (each iteration that goes on consumes an argument), and [main_cli] is
    [main] after [flag.Parse]: exit 0 on [-h], exit 2 on any other error.
    The failure messages are kept as constructors, not as the text that
    [failf] prints to standard error with the usage.

    The theorems: printing any flags record with [%d] for its delay and
    parsing the line back gives the record; parsing stops at the first
    argument that is not a flag, whatever follows; the fuel of [Parse] is
    enough; and, on fixed command lines, the delay is accepted whatever
    its sign (and wraps in [NewManager] above 9223372036 s), a boolean flag
    does not take the next argument, and a malformed flag stops the
    program with status 2. *)

From Stdlib Require Import Strings.String Strings.Ascii DecimalString DecimalPos.
From S2P Require Import Prelude GoEffects Tell Device Manager Gateway.

Import Gateway.

Open Scope string_scope.

Module strconv.

Local Open Scope Z_scope.

(** [strconv.ParseBool]: [None] is its syntax error. *)
Definition ParseBool (s : string) : option bool :=
  match s with
  | "1"%string | "t"%string | "T"%string | "TRUE"%string | "true"%string | "True"%string => Some true
  | "0"%string | "f"%string | "F"%string | "FALSE"%string | "false"%string | "False"%string => Some false
  | _ => None
  end.

(** [lower(c)]: [c | ('x' - 'X')]. *)
Definition lower (c : ascii) : Z := Z.lor (Z.of_nat (nat_of_ascii c)) 32.

Definition code (c : ascii) : Z := Z.of_nat (nat_of_ascii c).

(** The value of a digit in [ParseUint]'s loop, [None] for its
    [syntaxError] default case. *)
Definition digit_val (c : ascii) : option Z :=
  if (48 <=? code c) && (code c <=? 57) then Some (code c - 48)
  else if (97 <=? lower c) && (lower c <=? 122) then Some (lower c - 97 + 10)
  else None.

(** The loop of [ParseUint] on the digits after the prefix, with
    [base0]: an underscore is skipped and remembered, a digit at or above
    the base is a syntax error.  The value is kept unbounded: Go's
    overflow check against [maxUint64] fails on a value that the range
    check of [ParseInt] fails on as well. *)
Fixpoint digits (base acc : Z) (underscores : bool) (s : string) : option (Z * bool) :=
  match s with
  | EmptyString => Some (acc, underscores)
  | String c t =>
      if Ascii.eqb c "_" then digits base acc true t
      else match digit_val c with
           | Some d => if d <? base then digits base (acc * base + d) underscores t else None
           | None => None
           end
  end.

(** [underscoreOK]'s loop over the number proper: [saw] is ['^'], ['0'],
    ['_'] or ['!'] as in the source. *)
Fixpoint underscore_loop (hex : bool) (saw : ascii) (s : string) : bool :=
  match s with
  | EmptyString => negb (Ascii.eqb saw "_")
  | String c t =>
      if ((48 <=? code c) && (code c <=? 57)) || (hex && (97 <=? lower c) && (lower c <=? 102))
      then underscore_loop hex "0" t
      else if Ascii.eqb c "_" then
        if Ascii.eqb saw "0" then underscore_loop hex "_" t else false
      else if Ascii.eqb saw "_" then false
      else underscore_loop hex "!" t
  end.

Definition is_prefix_letter (c : ascii) : bool :=
  (lower c =? code "b") || (lower c =? code "o") || (lower c =? code "x").

(** [underscoreOK(s)]: an optional sign, an optional base prefix, which
    counts as a digit, then underscores only between digits. *)
Definition underscoreOK (s : string) : bool :=
  let s := match s with
           | String c t => if Ascii.eqb c "-" || Ascii.eqb c "+" then t else s
           | EmptyString => s
           end in
  match s with
  | String "0" (String c t) =>
      if is_prefix_letter c then underscore_loop (lower c =? code "x") "0" t
      else underscore_loop false "^" s
  | _ => underscore_loop false "^" s
  end.

(** [ParseUint(s, 0, 64)] up to its overflow check: the base from the
    prefix ([0b], [0o], [0x] with at least one more character, else a
    leading [0] for octal, else decimal), the digits, and [underscoreOK]
    when an underscore was seen. *)
Definition ParseUint0 (s : string) : option Z :=
  match s with
  | EmptyString => None
  | _ =>
      let '(base, rest) :=
        match s with
        | String "0" (String c (String d t)) =>
            if lower c =? code "b" then (2, String d t)
            else if lower c =? code "o" then (8, String d t)
            else if lower c =? code "x" then (16, String d t)
            else (8, String c (String d t))
        | String "0" t => (8, t)
        | _ => (10, s)
        end in
      match digits base 0 false rest with
      | Some (n, true) => if underscoreOK s then Some n else None
      | Some (n, false) => Some n
      | None => None
      end
  end.

(** [strconv.ParseInt(s, 0, 64)]: the sign, then [ParseUint], then the
    range of [int64]; [None] is any of its errors. *)
Definition ParseInt (s : string) : option Z :=
  match s with
  | EmptyString => None
  | String c t =>
      let '(neg, u) := if Ascii.eqb c "+" then (false, t)
                       else if Ascii.eqb c "-" then (true, t) else (false, s) in
      match ParseUint0 u with
      | Some n =>
          if neg then (if n <=? 2^63 then Some (- n) else None)
          else if n <? 2^63 then Some n else None
      | None => None
      end
  end.

(** [strconv.FormatBool]. *)
Definition FormatBool (b : bool) : string := if b then "true"%string else "false"%string.

End strconv.

Module flag.

(** A declared flag by the kind of its [Value]: its [Set] stores into
    the field of [flags] that [main] passed by address. *)
Inductive Value :=
| StringValue (set : string -> flags -> flags)
| BoolValue (set : bool -> flags -> flags)
| IntValue (set : Z -> flags -> flags).

(** [f.formal]: the five declarations of lines 30-34. *)
Definition formal (name : string) : option Value :=
  match name with
  | "nats" => Some (StringValue (fun v f => mkFlags (delay f) v (debug f) (apiPort f) (printVersion f)))
  | "p" => Some (StringValue (fun v f => mkFlags (delay f) (natsHost f) (debug f) v (printVersion f)))
  | "debug" => Some (BoolValue (fun v f => mkFlags (delay f) (natsHost f) v (apiPort f) (printVersion f)))
  | "version" => Some (BoolValue (fun v f => mkFlags (delay f) (natsHost f) (debug f) (apiPort f) v))
  | "delay" => Some (IntValue (fun v f => mkFlags v (natsHost f) (debug f) (apiPort f) (printVersion f)))
  | _ => None
  end.

(** The errors of [parseOne]: the [failf] messages and [ErrHelp]. *)
Inductive error :=
| BadSyntax (s : string)
| NotDefined (name : string)
| ErrHelp
| InvalidBool (value name : string)
| NeedsArgument (name : string)
| InvalidValue (value name : string).

(** The outcome of [parseOne]: [(true, nil)] with the flags set and the
    arguments left, [(false, nil)] with the arguments left, or an error. *)
Inductive result :=
| Seen (f : flags) (args : list string)
| Stop (args : list string)
| Fail (e : error).

(** The loop [for i := 1; i < len(name); i++] that splits [name=value]
    at its first [=]. *)
Fixpoint split_eq (s : string) : option (string * string) :=
  match s with
  | EmptyString => None
  | String c t =>
      if Ascii.eqb c "=" then Some (EmptyString, t)
      else option_map (fun '(a, b) => (String c a, b)) (split_eq t)
  end.

(** The value of a flag that needs one: after [=], or else the next
    argument, which is consumed. *)
Definition take_value (value : option string) (rest : list string) : option (string * list string) :=
  match value, rest with
  | Some v, _ => Some (v, rest)
  | None, v :: rest' => Some (v, rest')
  | None, [] => None
  end.

(** [func (f *FlagSet) parseOne() (bool, error)]. *)
Definition parseOne (f : flags) (args : list string) : result :=
  match args with
  | [] => Stop []
  | s :: rest =>
      match s with
      | String "-" (String c t) =>
          let '(dashes, name) :=
            if Ascii.eqb c "-" then (2%nat, t) else (1%nat, String c t) in
          if (Nat.eqb dashes 2 && String.eqb t "")%bool then Stop rest
          else match name with
          | EmptyString => Fail (BadSyntax s)
          | String n0 nt =>
              if Ascii.eqb n0 "-" || Ascii.eqb n0 "=" then Fail (BadSyntax s)
              else
                let '(name, value) :=
                  match split_eq nt with
                  | Some (a, v) => (String n0 a, Some v)
                  | None => (String n0 nt, None)
                  end in
                match formal name with
                | None =>
                    if String.eqb name "help" || String.eqb name "h" then Fail ErrHelp
                    else Fail (NotDefined name)
                | Some (BoolValue set) =>
                    match value with
                    | Some v =>
                        match strconv.ParseBool v with
                        | Some b => Seen (set b f) rest
                        | None => Fail (InvalidBool v name)
                        end
                    | None => Seen (set true f) rest
                    end
                | Some (StringValue set) =>
                    match take_value value rest with
                    | Some (v, rest') => Seen (set v f) rest'
                    | None => Fail (NeedsArgument name)
                    end
                | Some (IntValue set) =>
                    match take_value value rest with
                    | Some (v, rest') =>
                        match strconv.ParseInt v with
                        | Some z => Seen (set z f) rest'
                        | None => Fail (InvalidValue v name)
                        end
                    | None => Fail (NeedsArgument name)
                    end
                end
          end
      | _ => Stop args
      end
  end.

(** The loop of [FlagSet.Parse]: go on while [parseOne] has seen a
    flag.  Out of fuel it stops where it is. *)
Fixpoint parse (fuel : nat) (f : flags) (args : list string) : (flags * list string) + error :=
  match fuel with
  | O => inl (f, args)
  | S fuel =>
      match parseOne f args with
      | Seen f' args' => parse fuel f' args'
      | Stop args' => inl (f, args')
      | Fail e => inr e
      end
  end.

(** [flag.Parse()] on [os.Args[1:]] from the defaults of lines 30-34. *)
Definition Parse (args : list string) : (flags * list string) + error :=
  parse (S (length args)) default_flags args.


End flag.

Section Cli.

Context {W H : Type} `{Hid W H}.

(** [main] from its first line: [flag.Parse()] with [ExitOnError] exits
    with status 0 on [ErrHelp] and 2 on any other error (usage and error
    go to standard error), and otherwise [main] goes on with the flags. *)
Definition main_cli (args : list string) (connect : string -> option (string * string)) : option (@outcome H) :=
  match flag.Parse args with
  | inl (f, _) => main (H := H) f connect
  | inr flag.ErrHelp => Some (Exited 0 [] tell.init)
  | inr _ => Some (Exited 2 [] tell.init)
  end.

End Cli.

(** A command line that sets every flag with [-name=value], the delay
    printed with [%d]. *)
Definition command_line (f : flags) : list string :=
  [("-nats=" ++ natsHost f); ("-p=" ++ apiPort f); ("-debug=" ++ strconv.FormatBool (debug f));
   ("-version=" ++ strconv.FormatBool (printVersion f)); ("-delay=" ++ fmt.decimal (delay f))].

Import strconv flag.

(** ** [ParseInt] reads back what [%d] prints *)

(** Evaluate [digit_val] on the literal digits of a goal. *)
Ltac eval_digit_val :=
  repeat match goal with |- context [digit_val (Ascii ?b0 ?b1 ?b2 ?b3 ?b4 ?b5 ?b6 ?b7)] =>
    let c := constr:(Ascii b0 b1 b2 b3 b4 b5 b6 b7) in
    let v := eval vm_compute in (digit_val c) in change (digit_val c) with v end.

Lemma digits_decimal u a z :
  z = Z.pos a ->
  digits 10 z false (NilEmpty.string_of_uint u) = Some (Z.pos (Pos.of_uint_acc u a), false).
Proof.
  revert a z; induction u; intros a z ->; [reflexivity|..];
    cbn [NilEmpty.string_of_uint Pos.of_uint_acc digits];
    eval_digit_val; cbn iota beta; apply IHu; lia.
Qed.

(** [Pos.to_uint] never starts with a zero. *)
Lemma to_uint_not_D0 p u : Pos.to_uint p <> Decimal.D0 u.
Proof.
  intros E.
  assert (N : Pos.to_uint p = Decimal.unorm (Pos.to_uint p)).
  { rewrite <- DecimalPos.Unsigned.to_of, DecimalPos.Unsigned.of_to. reflexivity. }
  rewrite E, DecimalFacts.unorm_D0 in N.
  destruct (Decimal.uint_eq_dec u Decimal.Nil) as [->|Hu].
  - apply (DecimalPos.Unsigned.to_uint_nonzero p). rewrite E. reflexivity.
  - pose proof (DecimalFacts.nb_digits_unorm u Hu) as L. rewrite <- N in L. cbn in L. lia.
Qed.

Lemma ParseUint0_pos p :
  ParseUint0 (NilZero.string_of_uint (Pos.to_uint p)) = Some (Z.pos p).
Proof.
  pose proof (to_uint_not_D0 p) as N0. pose proof (DecimalPos.Unsigned.of_to p) as E.
  destruct (Pos.to_uint p) eqn:U;
    [destruct (DecimalPos.Unsigned.to_uint_nonnil p U) | destruct (N0 u eq_refl) | ..];
    cbn in E |- *; eval_digit_val; cbn iota beta; rewrite (digits_decimal u _ _ eq_refl), (proj2 (Z.ltb_lt _ _)) by lia; congruence.
Qed.

Lemma ParseInt_unsigned s n :
  (forall t, s <> String "+" t /\ s <> String "-" t) -> ParseUint0 s = Some n ->
  ParseInt s = if (n <? 2^63)%Z then Some n else None.
Proof.
  intros Ns E. destruct s as [|c t]; [discriminate|]. cbn [ParseInt].
  destruct (Ascii.eqb_spec c "+") as [->|]; [destruct (Ns t); congruence|].
  destruct (Ascii.eqb_spec c "-") as [->|]; [destruct (Ns t); congruence|].
  rewrite E. reflexivity.
Qed.

Lemma ParseInt_decimal z :
  (-2^63 <= z < 2^63)%Z -> ParseInt (fmt.decimal z) = Some z.
Proof.
  intros Hz. unfold fmt.decimal.
  destruct z as [|p|p]; [reflexivity| |]; cbn [Z.to_int NilZero.string_of_int].
  - rewrite (ParseInt_unsigned _ (Z.pos p)), (proj2 (Z.ltb_lt _ _)) by (lia || apply ParseUint0_pos ||
      (intros t; destruct (Pos.to_uint p); split; discriminate)).
    reflexivity.
  - cbn. rewrite ParseUint0_pos, (proj2 (Z.leb_le _ _)) by lia. reflexivity.
Qed.

(** ** The loop of [Parse] *)

Lemma take_value_length value rest v rest' :
  take_value value rest = Some (v, rest') -> (length rest' <= length rest)%nat.
Proof. destruct value, rest; cbn; intros E; inversion E; subst; cbn; lia. Qed.

(** An iteration that sees a flag consumes at least its argument. *)
Lemma parseOne_consumes f args f' args' :
  parseOne f args = Seen f' args' -> (length args' < length args)%nat.
Proof.
  destruct args as [|s rest]; [discriminate|]. unfold parseOne.
  repeat match goal with
         | |- context [match ?x with _ => _ end] => destruct x eqn:?
         | |- context [if ?x then _ else _] => destruct x eqn:?
         end; intros E; try discriminate; injection E as <- <-;
    repeat match goal with H : take_value _ _ = Some _ |- _ => apply take_value_length in H end;
    cbn; lia.
Qed.

Lemma parse_enough n m f args :
  (length args < n)%nat -> (length args < m)%nat -> parse n f args = parse m f args.
Proof.
  revert m f args; induction n as [|n IH]; intros m f args Hn Hm; [lia|].
  destruct m as [|m]; [lia|]. cbn [parse].
  destruct (parseOne f args) eqn:E; try reflexivity.
  apply parseOne_consumes in E. apply IH; lia.
Qed.

(** The fuel of [Parse] is enough: the loop with any fuel larger
    than the number of arguments gives the same result, so it never
    stops for want of fuel. *)
Lemma Parse_fuel args fuel :
  (length args < fuel)%nat -> parse fuel default_flags args = Parse args.
Proof. intros L. apply parse_enough; cbn; lia. Qed.

(** C16. Printing a flags record as [-name=value] arguments, the delay
    with [%d], and parsing them back gives the record and no argument
    left, whenever the delay is an [int]. *)
Theorem Parse_command_line f :
  (-2^63 <= delay f < 2^63)%Z -> Parse (command_line f) = inl (f, []).
Proof.
  destruct f as [d n db a v]; cbn [delay]; intros Hd.
  destruct db, v; unfold Parse, command_line; cbn -[ParseInt fmt.decimal];
    rewrite ParseInt_decimal by exact Hd; reflexivity.
Qed.




Section Boundaries.

Context {H : Type}.

(** The boundaries of the command line: [-delay] takes the next
    argument as its value, whatever its sign, and [main] builds the
    manager with it unchecked; [-debug false] sets debug and stops
    parsing at ["false"], ignoring every flag after it; [-h] exits with
    status 0 before any other flag is read, [-version] exits 0 with the
    version, and a delay that is not an integer or a flag without its
    value exits with status 2. *)
Example main_cli_boundaries z connect args :
  (-2^63 <= z < 2^63)%Z ->
  main_cli (H := H) ["-delay"; fmt.decimal z] connect = main (mkFlags z "localhost:4222" false ":9191" false) connect /\
  Parse ("-debug" :: "false" :: args) = inl (mkFlags 15 "localhost:4222" true ":9191" false, "false" :: args) /\
  main_cli (H := H) ("-h" :: args) connect = Some (Exited 0 [] tell.init) /\
  main_cli (H := H) ["-version"] connect = Some (Exited 0 [Version] tell.init) /\
  main_cli (H := H) ("-delay" :: "15s" :: args) connect = Some (Exited 2 [] tell.init) /\
  main_cli (H := H) ["--nats"] connect = Some (Exited 2 [] tell.init).
Proof.
  intros Hz. refine (conj _ (conj eq_refl (conj eq_refl (conj eq_refl (conj eq_refl eq_refl))))).
  unfold main_cli, Parse. cbn -[ParseInt fmt.decimal main]. rewrite ParseInt_decimal by exact Hz.
  reflexivity.
Qed.

End Boundaries.

(** A delay of 9223372037 s is accepted, and [time.Duration(delay) *
    time.Second] wraps: the manager polls with a negative interval, as
    with [-delay -5]. *)
Example delay_wraps_negative :
  match main_cli (H := string) ["-delay"; "9223372037"] nats_up with
  | Some (Started g) => Manager.updateInterval (mgr g) = -9223372036709551616
  | _ => False
  end.
Proof. vm_compute. reflexivity. Qed.

Lemma Parse_fuel_witness :
  (length ["-p"; ":80"; "-debug"] < 7)%nat /\
  parse 7 default_flags ["-p"; ":80"; "-debug"] = Parse ["-p"; ":80"; "-debug"].
Proof. split; [cbn; lia | apply Parse_fuel; cbn; lia]. Defined.

Lemma Parse_command_line_witness :
  (-2^63 <= delay (mkFlags (-5) "nats.local:4222" true ":8080" false) < 2^63)%Z /\
  Parse (command_line (mkFlags (-5) "nats.local:4222" true ":8080" false)) =
    inl (mkFlags (-5) "nats.local:4222" true ":8080" false, []).
Proof. split; [cbn; lia | apply Parse_command_line; cbn; lia]. Defined.


Lemma main_cli_boundaries_witness :
  (-2^63 <= -5 < 2^63)%Z /\
  main_cli (H := string) ["-delay"; fmt.decimal (-5)] nats_up =
    main (mkFlags (-5) "localhost:4222" false ":9191" false) nats_up /\
  Parse ("-debug" :: "false" :: ["-p"; ":80"]) =
    inl (mkFlags 15 "localhost:4222" true ":9191" false, "false" :: ["-p"; ":80"]) /\
  main_cli (H := string) ("-h" :: ["-p"; ":80"]) nats_up = Some (Exited 0 [] tell.init) /\
  main_cli (H := string) ["-version"] nats_up = Some (Exited 0 [Version] tell.init) /\
  main_cli (H := string) ("-delay" :: "15s" :: ["-p"; ":80"]) nats_up = Some (Exited 2 [] tell.init) /\
  main_cli (H := string) ["--nats"] nats_up = Some (Exited 2 [] tell.init).
Proof. split; [lia | apply main_cli_boundaries; lia]. Defined.
